(** * TaxPro backend: access control, tax-return lifecycle, uploads

    A shallow embedding of the Express/PostgreSQL backend:
    - [config/database.js]   : [query], [transaction]
    - [models/User.js]       : [User.create], [User.findByEmail], [User.toJSON], ...
    - [models/TaxReturn.js]  : [TaxReturn.create], [TaxReturn.updateStatus], ...
    - [middleware/auth.js]   : [authenticate], [authorize], [checkOwnership]
    - [routes/auth.js], [routes/taxReturns.js], [routes/uploads.js]

    The relational store is a record of tables, each table a list of rows
    (a bag in insertion order).  A handler is a function from the store and
    the request to the new store and the HTTP response; JavaScript values
    that reach a response are kept as a small JSON-like tree.

    Conventions:
    - a route is modelled from the point where [authenticate] has set
      [req.user]; [authenticate] itself is modelled separately;
    - a handler written as a function of the store is the handler run
      with no other request between its [await]s; where overlapping
      requests matter ([POST /api/tax-returns]) the handler is also
      given query by query, as a [Task], and requests are interleaved;
    - a statement sent through the pool's [query] helper fails only by a
      constraint of the schema (primary key, unique, foreign key, length,
      a value a column cannot read); [TaxReturn.delete], which runs on a
      client of its own inside [transaction], is modelled with a
      connection that may break at any round trip, before or after the
      server has processed the statement;
    - [fs.unlink] may fail; the handlers that swallow its error are
      modelled with the file then left on disk;
    - third-party packages are kept abstract where only their result
      matters (bcrypt, express-validator's checks, the JWT encoding and
      HMAC) and modelled where their control flow matters
      ([jwt.verify]'s order of checks, multer's handling of a rejected
      file, Node's [path.extname]). *)

From Stdlib Require Import String Ascii List Bool ZArith Lia DecimalString.
Import ListNotations.
Open Scope list_scope.
Open Scope string_scope.

Set Implicit Arguments.
Set Warnings "-register-all".

(* ================================================================== *)
(** ** JavaScript values *)
(* ================================================================== *)

Inductive value : Type :=
| VUndefined
| VNull
| VBool (b : bool)
| VNum (z : Z)
| VStr (s : string)
| VArr (items : list value)
| VObj (fields : list (string * value)).

(** [a === b] on primitives; two object or array literals are never the
    same reference. *)
Definition strict_eq (a b : value) : bool :=
  match a, b with
  | VUndefined, VUndefined => true
  | VNull, VNull => true
  | VBool x, VBool y => Bool.eqb x y
  | VNum x, VNum y => Z.eqb x y
  | VStr x, VStr y => String.eqb x y
  | _, _ => false
  end.

(** Truthiness, as used by [if (x)], [!x] and [x || y]. *)
Definition truthy (v : value) : bool :=
  match v with
  | VUndefined | VNull => false
  | VBool b => b
  | VNum z => negb (Z.eqb z 0)
  | VStr s => negb (String.eqb s "")
  | VArr _ | VObj _ => true
  end.

(** [a || b] *)
Definition js_or (a b : value) : value := if truthy a then a else b.

(** A nullable text column read back by the driver. *)
Definition of_text (o : option string) : value :=
  match o with Some s => VStr s | None => VNull end.

Definition of_num (o : option Z) : value :=
  match o with Some z => VNum z | None => VNull end.

(** [obj.key]; a missing key reads as [undefined]. *)
Fixpoint get_field (k : string) (fs : list (string * value)) : value :=
  match fs with
  | [] => VUndefined
  | (k', v) :: rest => if String.eqb k k' then v else get_field k rest
  end.

Definition prop (k : string) (v : value) : value :=
  match v with VObj fs => get_field k fs | _ => VUndefined end.

Definition keys (v : value) : list string :=
  match v with VObj fs => map fst fs | _ => [] end.

(** [arr.includes(x)] on an array of strings. *)
Definition includes (xs : list string) (x : string) : bool :=
  existsb (String.eqb x) xs.

(* ================================================================== *)
(** ** HTTP responses *)
(* ================================================================== *)

Record Response : Type := mkResponse { status : nat; body : value }.

(** [res.status(c).json({ success: false, error: msg })] *)
Definition fail (c : nat) (msg : string) : Response :=
  mkResponse c (VObj [("success", VBool false); ("error", VStr msg)]).

(** What a middleware or handler ends with: a response of its own, or
    [next(error)], which hands the error to the terminal error responder
    ([middleware/errorHandler.js]). *)
Inductive Outcome : Type :=
| Sent (r : Response)
| NextError (message : string).

(* ================================================================== *)
(** ** The relational store ([database/schema.sql]) *)
(* ================================================================== *)

Definition uuid := string.
Definition timestamp := Z.
Bind Scope Z_scope with timestamp.

Record UserRow : Type := mkUserRow {
  u_id : uuid;
  u_email : string;
  u_password_hash : string;
  u_first_name : string;
  u_last_name : string;
  u_phone : option string;
  u_role : string;
  u_is_verified : bool;
  u_verification_token : option string;
  u_reset_password_token : option string;
  u_reset_password_expires : option timestamp;
  u_last_login : option timestamp;
  u_created_at : timestamp;
  u_updated_at : timestamp
}.

(** [customers]: only the key columns are read or written by the routes
    modelled here; the profile columns keep their defaults. *)
Record CustomerRow : Type := mkCustomerRow {
  c_id : uuid;
  c_user_id : option uuid
}.

Record AccountantRow : Type := mkAccountantRow {
  a_id : uuid;
  a_user_id : option uuid;
  a_qualification : option string;
  a_experience_years : option Z;
  a_is_active : bool
}.

Record TaxReturnRow : Type := mkTaxReturnRow {
  tr_id : uuid;
  tr_customer_id : option uuid;
  tr_accountant_id : option uuid;
  tr_tax_year : string;
  tr_status : string;
  tr_situation_type : option string;
  tr_total_income : option string;
  tr_total_tax_due : option string;
  tr_total_refund : option string;
  tr_submission_deadline : option string;
  tr_filed_date : option timestamp;
  tr_hmrc_reference : option string;
  tr_notes : option string;
  tr_price : option string;
  tr_payment_status : option string;
  tr_created_at : timestamp;
  tr_updated_at : timestamp
}.

(** [income_sources], [expenses], [payments]: a key, the owning tax
    return, and the remaining columns as one opaque JSON object. *)
Record ChildRow : Type := mkChildRow {
  ch_id : uuid;
  ch_tax_return_id : option uuid;
  ch_columns : list (string * value)
}.

Record DocumentRow : Type := mkDocumentRow {
  d_id : uuid;
  d_tax_return_id : option uuid;
  d_uploaded_by : option uuid;
  d_document_type : string;
  d_original_name : string;
  d_file_path : string;
  d_file_size : option Z;
  d_mime_type : option string;
  d_is_processed : bool;
  d_created_at : timestamp
}.

Record MessageRow : Type := mkMessageRow {
  m_id : uuid;
  m_tax_return_id : option uuid;
  m_sender_id : option uuid;
  m_recipient_id : option uuid;
  m_columns : list (string * value)
}.

(** [reviews.tax_return_id REFERENCES tax_returns(id)] has no
    [ON DELETE CASCADE]: a review pins its tax return. *)
Record ReviewRow : Type := mkReviewRow {
  rv_id : uuid;
  rv_tax_return_id : option uuid
}.

Record Db : Type := mkDb {
  users : list UserRow;
  customers : list CustomerRow;
  accountants : list AccountantRow;
  tax_returns : list TaxReturnRow;
  income_sources : list ChildRow;
  expenses : list ChildRow;
  documents : list DocumentRow;
  messages : list MessageRow;
  payments : list ChildRow;
  reviews : list ReviewRow
}.

(** Comparison of a nullable key column with a parameter
    ([col = $1]; [NULL = x] is never true). *)
Definition col_eq (c : option uuid) (x : uuid) : bool :=
  match c with Some y => String.eqb y x | None => false end.

(** [rows[0]] *)
Definition first_row {A : Type} (rows : list A) : option A := hd_error rows.

Definition set_users (db : Db) (us : list UserRow) : Db :=
  mkDb us (customers db) (accountants db) (tax_returns db) (income_sources db)
       (expenses db) (documents db) (messages db) (payments db) (reviews db).

Definition set_customers (db : Db) (cs : list CustomerRow) : Db :=
  mkDb (users db) cs (accountants db) (tax_returns db) (income_sources db)
       (expenses db) (documents db) (messages db) (payments db) (reviews db).

Definition set_accountants (db : Db) (acs : list AccountantRow) : Db :=
  mkDb (users db) (customers db) acs (tax_returns db) (income_sources db)
       (expenses db) (documents db) (messages db) (payments db) (reviews db).

Definition set_tax_returns (db : Db) (trs : list TaxReturnRow) : Db :=
  mkDb (users db) (customers db) (accountants db) trs (income_sources db)
       (expenses db) (documents db) (messages db) (payments db) (reviews db).

Definition set_income_sources (db : Db) (rows : list ChildRow) : Db :=
  mkDb (users db) (customers db) (accountants db) (tax_returns db) rows
       (expenses db) (documents db) (messages db) (payments db) (reviews db).

Definition set_expenses (db : Db) (rows : list ChildRow) : Db :=
  mkDb (users db) (customers db) (accountants db) (tax_returns db)
       (income_sources db) rows (documents db) (messages db) (payments db)
       (reviews db).

Definition set_documents (db : Db) (rows : list DocumentRow) : Db :=
  mkDb (users db) (customers db) (accountants db) (tax_returns db)
       (income_sources db) (expenses db) rows (messages db) (payments db)
       (reviews db).

Definition set_messages (db : Db) (rows : list MessageRow) : Db :=
  mkDb (users db) (customers db) (accountants db) (tax_returns db)
       (income_sources db) (expenses db) (documents db) rows (payments db)
       (reviews db).

Definition set_payments (db : Db) (rows : list ChildRow) : Db :=
  mkDb (users db) (customers db) (accountants db) (tax_returns db)
       (income_sources db) (expenses db) (documents db) (messages db) rows
       (reviews db).

Definition empty_db : Db := mkDb [] [] [] [] [] [] [] [] [] [].

(** Results of code that may throw. *)
Inductive result (A : Type) : Type :=
| Ok (a : A)
| Throw (message : string).
Arguments Ok {A} a.
Arguments Throw {A} message.

(** What the server cannot compute from the request and the store: the
    clock, the key the database generates for an inserted row
    ([uuid_generate_v4()]), the application's own [uuidv4()] and the
    bcrypt salt. *)
Record Entropy : Type := mkEntropy {
  now : timestamp;
  gen_id : uuid;
  gen_id2 : uuid;
  uuidv4 : uuid;
  salt : string
}.

(* ================================================================== *)
(** ** [models/User.js] *)
(* ================================================================== *)

Module User.

Record t : Type := mk {
  id : uuid;
  email : string;
  firstName : string;
  lastName : string;
  phone : option string;
  role : string;
  isVerified : bool;
  verificationToken : option string;
  resetPasswordToken : option string;
  resetPasswordExpires : option timestamp;
  lastLogin : option timestamp;
  createdAt : timestamp;
  updatedAt : timestamp
}.

(** [constructor(userData)]: the password hash of the row is not copied. *)
Definition new (userData : UserRow) : t :=
  {| id := u_id userData;
     email := u_email userData;
     firstName := u_first_name userData;
     lastName := u_last_name userData;
     phone := u_phone userData;
     role := u_role userData;
     isVerified := u_is_verified userData;
     verificationToken := u_verification_token userData;
     resetPasswordToken := u_reset_password_token userData;
     resetPasswordExpires := u_reset_password_expires userData;
     lastLogin := u_last_login userData;
     createdAt := u_created_at userData;
     updatedAt := u_updated_at userData |}.

Record CreateData : Type := mkCreateData {
  cd_email : string;
  cd_password : string;
  cd_firstName : string;
  cd_lastName : string;
  cd_phone : option string;
  cd_role : option string
}.

(** [INSERT INTO users (...) VALUES (...) RETURNING *]: the primary key
    and [email UNIQUE] are enforced by the database, which raises
    SQLSTATE 23505 on a clash. *)
Definition insert_user (db : Db) (row : UserRow) : result (Db * UserRow) :=
  if existsb (fun u => String.eqb (u_id u) (u_id row)
                       || String.eqb (u_email u) (u_email row)) (users db)
  then Throw "23505"
  else Ok (set_users db (users db ++ [row]), row).

Section WithBcrypt.
(** [bcrypt.hash(password, saltRounds)] with the salt it drew. *)
Variable bcrypt_hash : string -> string -> string.

Definition create (e : Entropy) (db : Db) (userData : CreateData)
  : result (Db * t) :=
  let role := match cd_role userData with Some r => r | None => "customer" end in
  let passwordHash := bcrypt_hash (salt e) (cd_password userData) in
  let verificationToken := uuidv4 e in
  let row :=
    {| u_id := gen_id e;
       u_email := cd_email userData;
       u_password_hash := passwordHash;
       u_first_name := cd_firstName userData;
       u_last_name := cd_lastName userData;
       u_phone := cd_phone userData;
       u_role := role;
       u_is_verified := false;
       u_verification_token := Some verificationToken;
       u_reset_password_token := None;
       u_reset_password_expires := None;
       u_last_login := None;
       u_created_at := now e;
       u_updated_at := now e |} in
  match insert_user db row with
  | Ok (db', r) => Ok (db', new r)
  | Throw code =>
      if String.eqb code "23505" then Throw "Email already exists"
      else Throw code
  end.
End WithBcrypt.

(** [SELECT * FROM users WHERE email = $1], first row or [null]. *)
Definition findByEmail (db : Db) (email : string) : option t :=
  match first_row (filter (fun u => String.eqb (u_email u) email) (users db)) with
  | None => None
  | Some row => Some (new row)
  end.

Definition findById (db : Db) (id : uuid) : option t :=
  match first_row (filter (fun u => String.eqb (u_id u) id) (users db)) with
  | None => None
  | Some row => Some (new row)
  end.

(** [UPDATE users SET reset_password_token = $1, reset_password_expires = $2
    WHERE id = $3 RETURNING reset_password_token]; the trigger stamps
    [updated_at]. *)
Definition setResetPasswordToken (e : Entropy) (db : Db) (this : t)
  : result (Db * string) :=
  let resetToken := uuidv4 e in
  let expiresAt := (now e + 3600000)%Z in
  let upd (u : UserRow) : UserRow :=
    if String.eqb (u_id u) (id this) then
      mkUserRow (u_id u) (u_email u) (u_password_hash u) (u_first_name u)
                (u_last_name u) (u_phone u) (u_role u) (u_is_verified u)
                (u_verification_token u) (Some resetToken) (Some expiresAt)
                (u_last_login u) (u_created_at u) (now e)
    else u in
  match first_row (filter (fun u => String.eqb (u_id u) (id this)) (users db)) with
  | None => Throw "TypeError: Cannot read properties of undefined"
  | Some _ => Ok (set_users db (map upd (users db)), resetToken)
  end.

(** [toJSON()] *)
Definition toJSON (this : t) : value :=
  VObj [ ("id", VStr (id this));
         ("email", VStr (email this));
         ("firstName", VStr (firstName this));
         ("lastName", VStr (lastName this));
         ("phone", of_text (phone this));
         ("role", VStr (role this));
         ("isVerified", VBool (isVerified this));
         ("lastLogin", of_num (lastLogin this));
         ("createdAt", VNum (createdAt this));
         ("updatedAt", VNum (updatedAt this)) ].

(** [SELECT * FROM users WHERE verification_token = $1], first row or
    [null]. *)
Definition findByVerificationToken (db : Db) (token : string) : option t :=
  match first_row (filter (fun u => col_eq (u_verification_token u) token)
                          (users db)) with
  | None => None
  | Some row => Some (new row)
  end.

(** [SELECT * FROM users WHERE reset_password_token = $1
    AND reset_password_expires > NOW()] *)
Definition findByResetToken (e : Entropy) (db : Db) (token : string) : option t :=
  match first_row
          (filter (fun u => col_eq (u_reset_password_token u) token
                            && match u_reset_password_expires u with
                               | Some expires => (now e <? expires)%Z
                               | None => false
                               end)
                  (users db)) with
  | None => None
  | Some row => Some (new row)
  end.

(** [WHERE id = $n] for this user. *)
Definition hit (this : t) (u : UserRow) : bool := String.eqb (u_id u) (id this).

(** The [BEFORE UPDATE] trigger of [users]. *)
Definition stamp (e : Entropy) (u : UserRow) : UserRow :=
  mkUserRow (u_id u) (u_email u) (u_password_hash u) (u_first_name u) (u_last_name u)
            (u_phone u) (u_role u) (u_is_verified u) (u_verification_token u)
            (u_reset_password_token u) (u_reset_password_expires u) (u_last_login u)
            (u_created_at u) (now e).

(** [UPDATE users SET ... WHERE id = $n]: every row with this key is
    rewritten by [set] and stamped. *)
Definition update_rows (e : Entropy) (db : Db) (this : t) (set : UserRow -> UserRow)
  : Db :=
  set_users db (map (fun u => if hit this u then stamp e (set u) else u) (users db)).

(** [... RETURNING *] followed by [new User(result.rows[0])]: with no
    row updated the constructor reads a property of [undefined]. *)
Definition update_returning (e : Entropy) (db : Db) (this : t)
           (set : UserRow -> UserRow) : result (Db * t) :=
  match first_row (filter (hit this) (users db)) with
  | None => Throw "TypeError: Cannot read properties of undefined"
  | Some row => Ok (update_rows e db this set, new (stamp e (set row)))
  end.

Section Passwords.
Variable bcrypt_hash : string -> string -> string.
(** [bcrypt.compare(password, hash)] *)
Variable bcrypt_compare : string -> string -> bool.

(** [verifyPassword(password)] *)
Definition verifyPassword (db : Db) (this : t) (password : string) : bool :=
  match first_row (filter (hit this) (users db)) with
  | None => false
  | Some row => bcrypt_compare password (u_password_hash row)
  end.

(** [updatePassword(newPassword)]: [SET password_hash = $1,
    reset_password_token = NULL, reset_password_expires = NULL] *)
Definition updatePassword (e : Entropy) (db : Db) (this : t) (newPassword : string)
  : result (Db * t) :=
  let passwordHash := bcrypt_hash (salt e) newPassword in
  update_returning e db this
    (fun u => mkUserRow (u_id u) (u_email u) passwordHash (u_first_name u)
                        (u_last_name u) (u_phone u) (u_role u) (u_is_verified u)
                        (u_verification_token u) None None (u_last_login u)
                        (u_created_at u) (u_updated_at u)).
End Passwords.

(** [verifyEmail()]: [SET is_verified = true, verification_token = NULL] *)
Definition verifyEmail (e : Entropy) (db : Db) (this : t) : result (Db * t) :=
  update_returning e db this
    (fun u => mkUserRow (u_id u) (u_email u) (u_password_hash u) (u_first_name u)
                        (u_last_name u) (u_phone u) (u_role u) true None
                        (u_reset_password_token u) (u_reset_password_expires u)
                        (u_last_login u) (u_created_at u) (u_updated_at u)).

(** [updateLastLogin()]: [SET last_login = CURRENT_TIMESTAMP]; nothing is
    read back. *)
Definition updateLastLogin (e : Entropy) (db : Db) (this : t) : Db :=
  update_rows e db this
    (fun u => mkUserRow (u_id u) (u_email u) (u_password_hash u) (u_first_name u)
                        (u_last_name u) (u_phone u) (u_role u) (u_is_verified u)
                        (u_verification_token u) (u_reset_password_token u)
                        (u_reset_password_expires u) (Some (now e))
                        (u_created_at u) (u_updated_at u)).

Definition allowedFields : list string := ["first_name"; "last_name"; "phone"].

(** The [SET] list [update(updateData)] builds: the entries of
    [updateData] whose key is an allowed field, in the object's order. A
    value is a text or [null]. *)
Definition updates (updateData : list (string * option string))
  : list (string * option string) :=
  filter (fun entry => includes allowedFields (fst entry)) updateData.

(** One assignment [key = $n] of that list on a row. *)
Definition assign (entry : string * option string) (u : UserRow) : UserRow :=
  let (key, v) := entry in
  let text := match v with Some s => s | None => "" end in
  if String.eqb key "first_name" then
    mkUserRow (u_id u) (u_email u) (u_password_hash u) text (u_last_name u)
              (u_phone u) (u_role u) (u_is_verified u) (u_verification_token u)
              (u_reset_password_token u) (u_reset_password_expires u)
              (u_last_login u) (u_created_at u) (u_updated_at u)
  else if String.eqb key "last_name" then
    mkUserRow (u_id u) (u_email u) (u_password_hash u) (u_first_name u) text
              (u_phone u) (u_role u) (u_is_verified u) (u_verification_token u)
              (u_reset_password_token u) (u_reset_password_expires u)
              (u_last_login u) (u_created_at u) (u_updated_at u)
  else if String.eqb key "phone" then
    mkUserRow (u_id u) (u_email u) (u_password_hash u) (u_first_name u)
              (u_last_name u) v (u_role u) (u_is_verified u)
              (u_verification_token u) (u_reset_password_token u)
              (u_reset_password_expires u) (u_last_login u) (u_created_at u)
              (u_updated_at u)
  else u.

(** What the database refuses in such a list: a value longer than its
    column ([first_name], [last_name] VARCHAR(100), [phone] VARCHAR(20);
    SQLSTATE 22001) and [NULL] for a [NOT NULL] column (23502). *)
Definition too_long (entry : string * option string) : bool :=
  match snd entry with
  | Some s =>
      if String.eqb (fst entry) "phone" then (20 <? String.length s)%nat
      else (100 <? String.length s)%nat
  | None => false
  end.

Definition null_refused (entry : string * option string) : bool :=
  match snd entry with
  | Some _ => false
  | None => negb (String.eqb (fst entry) "phone")
  end.

(** A column assigned twice in one [SET] list (SQLSTATE 42601); the
    keys of a JavaScript object are distinct, so [update] never sends
    one. *)
Fixpoint repeated (ks : list string) : bool :=
  match ks with
  | [] => false
  | k :: rest => includes rest k || repeated rest
  end.

(** [update(updateData)]: with no allowed key nothing is sent and [this]
    is returned. *)
Definition update (e : Entropy) (db : Db) (this : t)
           (updateData : list (string * option string)) : result (Db * t) :=
  let sets := updates updateData in
  match sets with
  | [] => Ok (db, this)
  | _ =>
      if repeated (map fst sets) then Throw "42601"
      else if existsb too_long sets then Throw "22001"
      else
        match first_row (filter (hit this) (users db)) with
        | None => Throw "TypeError: Cannot read properties of undefined"
        | Some _ =>
            if existsb null_refused sets then Throw "23502"
            else update_returning e db this (fun u => fold_right assign u sets)
        end
  end.

(** [SELECT u.* ...]: the columns of a [users] row as the driver
    returns them. *)
Definition columns (u : UserRow) : list (string * value) :=
  [ ("id", VStr (u_id u));
    ("email", VStr (u_email u));
    ("password_hash", VStr (u_password_hash u));
    ("first_name", VStr (u_first_name u));
    ("last_name", VStr (u_last_name u));
    ("phone", of_text (u_phone u));
    ("role", VStr (u_role u));
    ("is_verified", VBool (u_is_verified u));
    ("verification_token", of_text (u_verification_token u));
    ("reset_password_token", of_text (u_reset_password_token u));
    ("reset_password_expires", of_num (u_reset_password_expires u));
    ("last_login", of_num (u_last_login u));
    ("created_at", VNum (u_created_at u));
    ("updated_at", VNum (u_updated_at u)) ].

Definition customer_profile_columns : list string :=
  ["date_of_birth"; "national_insurance_number"; "address_line1"; "address_line2";
   "city"; "county"; "postcode"; "country"; "employment_status";
   "is_first_time_filer"; "preferred_contact_method"].

Section Profile.
(** The profile columns of [customers] and [accountants] that no
    handler writes: the cell of the row with the given key under the
    given column. *)
Variable customer_cell : uuid -> string -> value.
Variable accountant_cell : uuid -> string -> value.

(** [getProfile()]: the [users] row, left-joined to the profile table
    of this user's role; first row or [null]. *)
Definition getProfile (db : Db) (this : t) : value :=
  match first_row (filter (hit this) (users db)) with
  | None => VNull
  | Some u =>
      if String.eqb (role this) "customer" then
        VObj (columns u ++
              match first_row (filter (fun c => col_eq (c_user_id c) (u_id u))
                                      (customers db)) with
              | Some c => map (fun k => (k, customer_cell (c_id c) k))
                              customer_profile_columns
              | None => map (fun k => (k, VNull)) customer_profile_columns
              end)
      else if String.eqb (role this) "accountant" then
        VObj (columns u ++
              match first_row (filter (fun a => col_eq (a_user_id a) (u_id u))
                                      (accountants db)) with
              | Some a =>
                  [ ("qualification", of_text (a_qualification a));
                    ("experience_years", of_num (a_experience_years a));
                    ("specializations", accountant_cell (a_id a) "specializations");
                    ("bio", accountant_cell (a_id a) "bio");
                    ("rating", accountant_cell (a_id a) "rating");
                    ("total_reviews", accountant_cell (a_id a) "total_reviews");
                    ("is_active", VBool (a_is_active a));
                    ("hourly_rate", accountant_cell (a_id a) "hourly_rate");
                    ("availability_status",
                     accountant_cell (a_id a) "availability_status") ]
              | None =>
                  map (fun k => (k, VNull))
                      ["qualification"; "experience_years"; "specializations"; "bio";
                       "rating"; "total_reviews"; "is_active"; "hourly_rate";
                       "availability_status"]
              end)
      else VObj (columns u)
  end.
End Profile.

(** [ORDER BY created_at DESC] on [users], as a stable insertion sort. *)
Fixpoint insert_newest (r : UserRow) (l : list UserRow) : list UserRow :=
  match l with
  | [] => [r]
  | x :: rest =>
      if (u_created_at x <? u_created_at r)%Z then r :: x :: rest
      else x :: insert_newest r rest
  end.

(** The filters of [getAll]: [role] counts when truthy, [isVerified]
    when not [undefined], [limit] and [offset] when truthy. *)
Record Filters : Type := mkFilters {
  f_role : option string;
  f_isVerified : option bool;
  f_limit : option Z;
  f_offset : option Z
}.

(** [getAll(filters)]; a negative [LIMIT] or [OFFSET] is refused by the
    database (SQLSTATE 2201W, 2201X). *)
Definition getAll (db : Db) (filters : Filters) : result (list t) :=
  let by_role := fun u =>
    match f_role filters with
    | Some r => if String.eqb r "" then true else String.eqb (u_role u) r
    | None => true
    end in
  let by_verified := fun u =>
    match f_isVerified filters with
    | Some b => Bool.eqb (u_is_verified u) b
    | None => true
    end in
  let rows := fold_right insert_newest []
                (filter (fun u => by_role u && by_verified u) (users db)) in
  let limit := match f_limit filters with
               | Some n => if (n =? 0)%Z then None else Some n
               | None => None
               end in
  let offset := match f_offset filters with
                | Some n => if (n =? 0)%Z then None else Some n
                | None => None
                end in
  if match limit with Some n => (n <? 0)%Z | None => false end then Throw "2201W"
  else if match offset with Some n => (n <? 0)%Z | None => false end then Throw "2201X"
  else
    let rows := match offset with
                | Some n => skipn (Z.to_nat n) rows
                | None => rows
                end in
    let rows := match limit with
                | Some n => firstn (Z.to_nat n) rows
                | None => rows
                end in
    Ok (map new rows).

Section SoftDelete.
(** PostgreSQL's text for [EXTRACT(EPOCH FROM NOW())]. *)
Variable epoch_text : timestamp -> string.

(** [delete()]: [SET email = CONCAT(email, '_deleted_', EXTRACT(EPOCH FROM
    NOW())), is_verified = false WHERE id = $1]; [email] is VARCHAR(255)
    and UNIQUE. *)
Definition delete (e : Entropy) (db : Db) (this : t) : result Db :=
  let renamed := fun u => (u_email u ++ "_deleted_" ++ epoch_text (now e))%string in
  let rows := filter (hit this) (users db) in
  if existsb (fun u => (255 <? String.length (renamed u))%nat) rows then Throw "22001"
  else if existsb (fun u => existsb (fun other => negb (hit this other)
                                                  && String.eqb (u_email other) (renamed u))
                                    (users db)) rows
  then Throw "23505"
  else
    Ok (update_rows e db this
          (fun u => mkUserRow (u_id u) (renamed u) (u_password_hash u) (u_first_name u)
                              (u_last_name u) (u_phone u) (u_role u) false
                              (u_verification_token u) (u_reset_password_token u)
                              (u_reset_password_expires u) (u_last_login u)
                              (u_created_at u) (u_updated_at u))).
End SoftDelete.

End User.

(* ================================================================== *)
(** ** JSON Web Tokens (the [jsonwebtoken] package) *)
(* ================================================================== *)

Module Jwt.

(** The claims [generateToken()] signs: [{ id, email, role }] plus the
    issue and expiry times (seconds) the package adds for [expiresIn]. *)
Record Claims : Type := mkClaims {
  c_id : uuid;
  c_email : string;
  c_role : string;
  iat : Z;
  exp : Z
}.

Inductive verified : Type :=
| Decoded (c : Claims)
| Thrown (name : string).

Section Codec.
(** The compact serialisation and the HMAC are the package's; they are
    kept abstract. [decode] splits a token string into the claims it
    carries and the signature that came with it. *)
Variable encode : Claims -> string -> string.
Variable decode : string -> option (Claims * string).
Variable hmac : string -> Claims -> string.

(** [jwt.sign(payload, secret, { expiresIn })] at time [t] *)
Definition sign (secret : string) (t ttl : Z) (id email role : string) : string :=
  let c := mkClaims id email role t (t + ttl) in
  encode c (hmac secret c).

(** [jwt.verify(token, secret)] at time [t]: a malformed token and a
    signature mismatch raise [JsonWebTokenError]; the expiry is only
    looked at for a token whose signature verified and raises
    [TokenExpiredError]. *)
Definition verify (secret : string) (t : Z) (token : string) : verified :=
  match decode token with
  | None => Thrown "JsonWebTokenError"
  | Some (c, sig) =>
      if negb (String.eqb sig (hmac secret c)) then Thrown "JsonWebTokenError"
      else if (exp c <=? t)%Z then Thrown "TokenExpiredError"
      else Decoded c
  end.
End Codec.

End Jwt.

(* ================================================================== *)
(** ** [middleware/auth.js] *)
(* ================================================================== *)

(** [req.user] *)
Record Principal : Type := mkPrincipal {
  p_id : uuid;
  p_email : string;
  p_role : string;
  p_firstName : string;
  p_lastName : string
}.

(** A middleware either calls [next()] (possibly having attached
    something to the request) or answers itself. *)
Inductive Mw (A : Type) : Type :=
| Next (a : A)
| Respond (r : Response).
Arguments Next {A} a.
Arguments Respond {A} r.

(** [s.startsWith(p)] *)
Definition startsWith (s p : string) : bool := String.prefix p s.

(** [s.substring(n)] *)
Definition substring_from (n : nat) (s : string) : string :=
  String.substring n (String.length s - n) s.

Section Authenticate.
Variable decode : string -> option (Jwt.Claims * string).
Variable hmac : string -> Jwt.Claims -> string.
(** [process.env.JWT_SECRET] *)
Variable JWT_SECRET : string.

Definition authenticate (t : Z) (db : Db) (authorization : option string)
  : Mw Principal :=
  match authorization with
  | None => Respond (fail 401 "Access denied. No token provided.")
  | Some authHeader =>
      if negb (startsWith authHeader "Bearer ") then
        Respond (fail 401 "Access denied. No token provided.")
      else
        let token := substring_from 7 authHeader in
        match Jwt.verify decode hmac JWT_SECRET t token with
        | Jwt.Decoded decoded =>
            match User.findById db (Jwt.c_id decoded) with
            | None => Respond (fail 401 "Access denied. User not found.")
            | Some user =>
                if negb (User.isVerified user) then
                  Respond (fail 401 "Access denied. Please verify your email address.")
                else
                  Next (mkPrincipal (User.id user) (User.email user)
                                    (User.role user) (User.firstName user)
                                    (User.lastName user))
            end
        | Jwt.Thrown name =>
            if String.eqb name "TokenExpiredError" then
              Respond (fail 401 "Access denied. Token expired.")
            else if String.eqb name "JsonWebTokenError" then
              Respond (fail 401 "Access denied. Invalid token.")
            else
              Respond (fail 500 "Internal server error during authentication.")
        end
  end.
End Authenticate.

Section OptionalAuth.
Variable decode : string -> option (Jwt.Claims * string).
Variable hmac : string -> Jwt.Claims -> string.
Variable JWT_SECRET : string.

(** [optionalAuth]: always calls [next()]; the result is [req.user],
    when it was set. *)
Definition optionalAuth (t : Z) (db : Db) (authorization : option string)
  : option Principal :=
  match authorization with
  | None => None
  | Some authHeader =>
      if negb (startsWith authHeader "Bearer ") then None
      else
        let token := substring_from 7 authHeader in
        match Jwt.verify decode hmac JWT_SECRET t token with
        | Jwt.Decoded decoded =>
            match User.findById db (Jwt.c_id decoded) with
            | Some user =>
                if User.isVerified user then
                  Some (mkPrincipal (User.id user) (User.email user)
                                    (User.role user) (User.firstName user)
                                    (User.lastName user))
                else None
            | None => None
            end
        | Jwt.Thrown _ => None
        end
  end.
End OptionalAuth.

(** [authorize(...roles)] behind [authenticate]: [req.user] is set. *)
Definition authorize (roles : list string) (user : Principal) : Mw unit :=
  if negb (includes roles (p_role user)) then
    Respond (fail 403 "Access denied. Insufficient permissions.")
  else Next tt.

(** [checkOwnership(getResourceOwnerId)], with the resolver's answer
    already awaited. *)
Definition checkOwnership (resourceOwnerId : value) (user : Principal) : Mw unit :=
  if String.eqb (p_role user) "admin" then Next tt
  else if negb (truthy resourceOwnerId) then
    Respond (fail 404 "Resource not found.")
  else if negb (strict_eq (VStr (p_id user)) resourceOwnerId) then
    Respond (fail 403 "Access denied. You can only access your own resources.")
  else Next tt.

(* ================================================================== *)
(** ** [routes/auth.js] *)
(* ================================================================== *)

(** One entry of [errors.array()]. *)
Definition validation_error (field msg : string) : value :=
  VObj [("msg", VStr msg); ("path", VStr field)].

(** [handleValidationErrors] *)
Definition handleValidationErrors (errors : list value) : Mw unit :=
  match errors with
  | [] => Next tt
  | _ =>
      Respond (mkResponse 400
                 (VObj [("success", VBool false);
                        ("error", VStr "Validation failed");
                        ("details", VArr errors)]))
  end.

Definition check (ok : bool) (field msg : string) : list value :=
  if ok then [] else [validation_error field msg].

Definition is_lower (c : ascii) : bool :=
  let n := nat_of_ascii c in (97 <=? n)%nat && (n <=? 122)%nat.
Definition is_upper (c : ascii) : bool :=
  let n := nat_of_ascii c in (65 <=? n)%nat && (n <=? 90)%nat.
Definition is_digit (c : ascii) : bool :=
  let n := nat_of_ascii c in (48 <=? n)%nat && (n <=? 57)%nat.

(** The part of a string a regular expression's [.*] can cross from the
    start: everything before the first line terminator. *)
Fixpoint first_line (s : string) : list ascii :=
  match s with
  | EmptyString => []
  | String c rest =>
      if (nat_of_ascii c =? 10)%nat || (nat_of_ascii c =? 13)%nat then []
      else c :: first_line rest
  end.

(** [/^(?=.*[a-z])(?=.*[A-Z])(?=.*\d)/] *)
Definition password_pattern (s : string) : bool :=
  let l := first_line s in
  existsb is_lower l && existsb is_upper l && existsb is_digit l.

Record RegisterBody : Type := mkRegisterBody {
  rb_email : string;
  rb_password : string;
  rb_firstName : string;
  rb_lastName : string;
  rb_phone : option string;
  rb_role : option string
}.

(** [INSERT INTO customers (user_id) VALUES ($1)] *)
Definition insert_customer (db : Db) (new_id : uuid) (user_id : uuid) : result Db :=
  if existsb (fun c => String.eqb (c_id c) new_id) (customers db) then Throw "23505"
  else Ok (set_customers db (customers db ++ [mkCustomerRow new_id (Some user_id)])).

(** [INSERT INTO accountants (user_id) VALUES ($1)] *)
Definition insert_accountant (db : Db) (new_id : uuid) (user_id : uuid) : result Db :=
  if existsb (fun a => String.eqb (a_id a) new_id) (accountants db) then Throw "23505"
  else Ok (set_accountants db
             (accountants db ++ [mkAccountantRow new_id (Some user_id) None None true])).

Section AuthRoutes.
(** express-validator's checks and sanitizers. *)
Variable isEmail : string -> bool.
Variable normalizeEmail : string -> string.
Variable isMobilePhone_enGB : string -> bool.
Variable trim : string -> string.
Variable bcrypt_hash : string -> string -> string.
Variable encode : Jwt.Claims -> string -> string.
Variable hmac : string -> Jwt.Claims -> string.
(** [process.env.JWT_SECRET], [JWT_EXPIRES_IN] in seconds, [NODE_ENV] *)
Variable JWT_SECRET : string.
Variable JWT_EXPIRES_IN : Z.
Variable NODE_ENV : option string.

(** [user.generateToken()] *)
Definition generateToken (e : Entropy) (user : User.t) : string :=
  Jwt.sign encode hmac JWT_SECRET (now e / 1000)%Z JWT_EXPIRES_IN
           (User.id user) (User.email user) (User.role user).

(** The validation chain of [POST /register]; sanitizers rewrite the
    body whether or not the checks pass. *)
Definition register_sanitize (b : RegisterBody) : RegisterBody :=
  mkRegisterBody (normalizeEmail (rb_email b)) (rb_password b)
                 (trim (rb_firstName b)) (trim (rb_lastName b))
                 (rb_phone b) (rb_role b).

Definition register_errors (b : RegisterBody) : list value :=
  check (isEmail (rb_email b)) "email" "Please provide a valid email"
  ++ check (8 <=? String.length (rb_password b))%nat "password"
           "Password must be at least 8 characters long"
  ++ check (password_pattern (rb_password b)) "password"
           "Password must contain at least one uppercase letter, one lowercase letter, and one number"
  ++ check (let n := String.length (trim (rb_firstName b)) in
            (2 <=? n)%nat && (n <=? 50)%nat) "firstName"
           "First name must be between 2 and 50 characters"
  ++ check (let n := String.length (trim (rb_lastName b)) in
            (2 <=? n)%nat && (n <=? 50)%nat) "lastName"
           "Last name must be between 2 and 50 characters"
  ++ match rb_phone b with
     | None => []
     | Some ph => check (isMobilePhone_enGB ph) "phone"
                        "Please provide a valid UK phone number"
     end
  ++ match rb_role b with
     | None => []
     | Some r => check (includes ["customer"; "accountant"] r) "role"
                       "Role must be either customer or accountant"
     end.

(** [POST /api/auth/register] *)
Definition register (e : Entropy) (db : Db) (raw : RegisterBody) : Db * Outcome :=
  match handleValidationErrors (register_errors raw) with
  | Respond r => (db, Sent r)
  | Next _ =>
      let b := register_sanitize raw in
      match User.findByEmail db (rb_email b) with
      | Some existingUser =>
          (db, Sent (fail 400 "User with this email already exists"))
      | None =>
          let role := match rb_role b with
                      | Some r => if String.eqb r "" then "customer" else r
                      | None => "customer"
                      end in
          match User.create bcrypt_hash e db
                  (User.mkCreateData (rb_email b) (rb_password b) (rb_firstName b)
                                     (rb_lastName b) (rb_phone b) (Some role)) with
          | Throw m => (db, NextError m)
          | Ok (db1, user) =>
              let profile :=
                if String.eqb (User.role user) "customer" then
                  insert_customer db1 (gen_id2 e) (User.id user)
                else if String.eqb (User.role user) "accountant" then
                  insert_accountant db1 (gen_id2 e) (User.id user)
                else Ok db1 in
              match profile with
              | Throw m => (db1, NextError m)
              | Ok db2 =>
                  let token := generateToken e user in
                  (db2, Sent (mkResponse 201
                    (VObj [("success", VBool true);
                           ("message", VStr "User registered successfully. Please check your email to verify your account.");
                           ("data", VObj [("user", User.toJSON user);
                                          ("token", VStr token)])])))
              end
          end
      end
  end.

(** [process.env.NODE_ENV === 'development'] *)
Definition development : bool :=
  match NODE_ENV with
  | Some mode => String.eqb mode "development"
  | None => false
  end.

(** [POST /api/auth/forgot-password] *)
Definition forgot_password (e : Entropy) (db : Db) (raw_email : string)
  : Db * Outcome :=
  match handleValidationErrors
          (check (isEmail raw_email) "email" "Please provide a valid email") with
  | Respond r => (db, Sent r)
  | Next _ =>
      let email := normalizeEmail raw_email in
      match User.findByEmail db email with
      | None =>
          (db, Sent (mkResponse 200
             (VObj [("success", VBool true);
                    ("message", VStr "If an account with that email exists, we have sent a password reset link.")])))
      | Some user =>
          match User.setResetPasswordToken e db user with
          | Throw m => (db, NextError m)
          | Ok (db', resetToken) =>
              (db', Sent (mkResponse 200
                 (VObj ([("success", VBool true);
                         ("message", VStr "Password reset link sent to your email")]
                        ++ (if development then [("resetToken", VStr resetToken)]
                            else [])))))
          end
      end
  end.
End AuthRoutes.


(* ================================================================== *)
(** ** [config/database.js]: clients, statements, transactions *)
(* ================================================================== *)

(** The statements [TaxReturn.delete] sends. *)
Inductive Stmt : Type :=
| BEGIN
| COMMIT
| ROLLBACK
| DeleteMessages (tax_return_id : uuid)
| DeleteDocuments (tax_return_id : uuid)
| DeleteExpenses (tax_return_id : uuid)
| DeleteIncomeSources (tax_return_id : uuid)
| DeletePayments (tax_return_id : uuid)
| DeleteTaxReturn (id : uuid).

Definition keep_others {A : Type} (fk : A -> option uuid) (id : uuid) (rows : list A)
  : list A :=
  filter (fun r => negb (col_eq (fk r) id)) rows.

(** The store with tax return [id] and its child rows taken out, every
    other row left as it is: [DELETE FROM tax_returns WHERE id = $1] with
    the [ON DELETE CASCADE] of the five child tables. *)
Definition after_delete (id : uuid) (db : Db) : Db :=
  mkDb (users db) (customers db) (accountants db)
       (filter (fun r => negb (String.eqb (tr_id r) id)) (tax_returns db))
       (keep_others ch_tax_return_id id (income_sources db))
       (keep_others ch_tax_return_id id (expenses db))
       (keep_others d_tax_return_id id (documents db))
       (keep_others m_tax_return_id id (messages db))
       (keep_others ch_tax_return_id id (payments db))
       (reviews db).

(** A review still references tax return [id]: [reviews.tax_return_id]
    has no [ON DELETE CASCADE], so the return cannot be deleted. *)
Definition pinned (id : uuid) (db : Db) : bool :=
  existsb (fun r => String.eqb (tr_id r) id) (tax_returns db)
  && existsb (fun rv => col_eq (rv_tax_return_id rv) id) (reviews db).

(** A data statement on a snapshot of the store. Deleting a pinned tax
    return violates the foreign key of [reviews] (SQLSTATE 23503). *)
Definition run (st : Stmt) (db : Db) : result Db :=
  match st with
  | BEGIN | COMMIT | ROLLBACK => Ok db
  | DeleteMessages i => Ok (set_messages db (keep_others m_tax_return_id i (messages db)))
  | DeleteDocuments i => Ok (set_documents db (keep_others d_tax_return_id i (documents db)))
  | DeleteExpenses i => Ok (set_expenses db (keep_others ch_tax_return_id i (expenses db)))
  | DeleteIncomeSources i =>
      Ok (set_income_sources db (keep_others ch_tax_return_id i (income_sources db)))
  | DeletePayments i => Ok (set_payments db (keep_others ch_tax_return_id i (payments db)))
  | DeleteTaxReturn i =>
      if pinned i db then Throw "23503" else Ok (after_delete i db)
  end.

(** What can happen to one round trip on the link to the server: the
    statement is processed and its answer arrives; the connection breaks
    before the statement reaches the server; or the statement is
    processed and the connection breaks before its answer arrives. *)
Inductive Round : Type :=
| Answered
| Lost
| Unanswered.

(** The session of a connection on the server: no transaction block; a
    block with its snapshot; a block in which a statement was refused
    (PostgreSQL then refuses every statement until the block ends, and
    ends it without effect); or no session any more, the connection
    being gone (the server has discarded what was open). *)
Inductive Session : Type :=
| Idle
| Open (w : Db)
| Failed
| Closed.

(** A pooled connection. [committed] is what every other connection
    sees; [session] is the state of this connection's session;
    [faults] is the future of the link to the server, one entry per
    round trip. *)
Record Client : Type := mkClient {
  committed : Db;
  session : Session;
  faults : list Round
}.

(** Code that talks to a client and may throw. *)
Definition M (A : Type) : Type := Client -> Client * result A.

Definition ret {A : Type} (a : A) : M A := fun c => (c, Ok a).
Definition throw {A : Type} (m : string) : M A := fun c => (c, Throw m).
Definition bindM {A B : Type} (m : M A) (k : A -> M B) : M B :=
  fun c => match m c with
           | (c', Ok a) => k a c'
           | (c', Throw e) => (c', Throw e)
           end.
(** [try { m } catch (error) { h error }] *)
Definition try_catch {A : Type} (m : M A) (h : string -> M A) : M A :=
  fun c => match m c with
           | (c', Ok a) => (c', Ok a)
           | (c', Throw e) => h e c'
           end.

Declare Scope db_scope.
Delimit Scope db_scope with db.
Notation "x <- m ;; k" := (bindM m (fun x => k))
  (at level 61, m at next level, right associativity) : db_scope.
Notation "m ;; k" := (bindM m (fun _ => k))
  (at level 61, right associativity) : db_scope.

(** The next round trip and the ones after it; a link whose recorded
    future has run out stays up. *)
Definition next_round (rounds : list Round) : Round * list Round :=
  (hd Answered rounds, tl rounds).

(** The server processes a statement that reached it: the store every
    connection sees, the session, and the answer. Outside a block a
    data statement commits on its own; inside a block it works on the
    snapshot, and its refusal fails the block; [COMMIT] publishes the
    snapshot of an open block and ends a failed one without effect;
    [ROLLBACK] ends any block without effect; [BEGIN] inside a block
    only draws a warning. *)
Definition process (st : Stmt) (db : Db) (s : Session) : Db * Session * result unit :=
  match s with
  | Closed => (db, Closed, Throw "08003")
  | Idle =>
      match st with
      | BEGIN => (db, Open db, Ok tt)
      | COMMIT | ROLLBACK => (db, Idle, Ok tt)
      | _ =>
          match run st db with
          | Ok db' => (db', Idle, Ok tt)
          | Throw e => (db, Idle, Throw e)
          end
      end
  | Open w =>
      match st with
      | BEGIN => (db, Open w, Ok tt)
      | COMMIT => (w, Idle, Ok tt)
      | ROLLBACK => (db, Idle, Ok tt)
      | _ =>
          match run st w with
          | Ok w' => (db, Open w', Ok tt)
          | Throw e => (db, Failed, Throw e)
          end
      end
  | Failed =>
      match st with
      | COMMIT | ROLLBACK => (db, Idle, Ok tt)
      | _ => (db, Failed, Throw "25P02")
      end
  end.

(** [client.query(text, params)]. A client whose connection is gone
    rejects the query at once. Otherwise the round trip is made: when
    the connection breaks the call is rejected and the session is gone,
    the statement having been processed or not. *)
Definition client_query (st : Stmt) : M unit :=
  fun c =>
    match session c with
    | Closed =>
        (c, Throw "Client has encountered a connection error and is not queryable")
    | s =>
        let (round, rest) := next_round (faults c) in
        match round with
        | Answered =>
            let '(db, s', answer) := process st (committed c) s in
            (mkClient db s' rest, answer)
        | Lost =>
            (mkClient (committed c) Closed rest,
             Throw "Connection terminated unexpectedly")
        | Unanswered =>
            let '(db, _, _) := process st (committed c) s in
            (mkClient db Closed rest, Throw "Connection terminated unexpectedly")
        end
    end.

(** [client.release()]: the client goes back to the pool; nothing is
    sent to the server, and the session stays as it is. *)
Definition release : M unit := fun c => (c, Ok tt).

(** [pool.connect()] *)
Definition connect : M unit :=
  fun c =>
    let (round, rest) := next_round (faults c) in
    match round with
    | Answered => (mkClient (committed c) (session c) rest, Ok tt)
    | _ =>
        (mkClient (committed c) (session c) rest,
         Throw "timeout exceeded when trying to connect")
    end.

(** [transaction(callback)] *)
Definition transaction {A : Type} (callback : M A) : M A :=
  (connect ;;
   fun c =>
     let (c', r) :=
       try_catch
         (client_query BEGIN ;;
          result <- callback ;;
          client_query COMMIT ;;
          ret result)%db
         (fun error => (client_query ROLLBACK ;; throw error)%db) c in
     (fst (release c'), r))%db.

(* ================================================================== *)
(** ** [models/TaxReturn.js] *)
(* ================================================================== *)

(** A bound parameter as the driver sends it: [null] and [undefined]
    become SQL [NULL]. *)
Definition sql_param (v : value) : option string :=
  match v with VStr s => Some s | _ => None end.

(** A nullable parameter read by the database through [read]. *)
Definition stored_as (read : string -> result string) (v : option string)
  : result (option string) :=
  match v with
  | None => Ok None
  | Some s =>
      match read s with
      | Ok d => Ok (Some d)
      | Throw code => Throw code
      end
  end.

(** [col = $n] for two nullable sides. *)
Definition sql_eq (c p : option string) : bool :=
  match c, p with
  | Some x, Some y => String.eqb x y
  | _, _ => false
  end.

(** [ORDER BY created_at DESC] as a stable insertion sort. *)
Fixpoint insert_desc (r : TaxReturnRow) (l : list TaxReturnRow) : list TaxReturnRow :=
  match l with
  | [] => [r]
  | x :: rest =>
      if (tr_created_at x <? tr_created_at r)%Z then r :: x :: rest
      else x :: insert_desc r rest
  end.

Definition order_by_created_desc (l : list TaxReturnRow) : list TaxReturnRow :=
  fold_right insert_desc [] l.

Definition update_where {A : Type} (p : A -> bool) (f : A -> A) (l : list A) : list A :=
  map (fun x => if p x then f x else x) l.

(** A timestamp or date column among the remaining columns of a row;
    [None] for [NULL] or a column the row does not carry. *)
Definition column_time (k : string) (cols : list (string * value)) : option Z :=
  match get_field k cols with VNum z => Some z | _ => None end.

(** [a] sorts strictly before [b] under [ORDER BY ... ASC], where
    [NULL]s come last; under [DESC] the order is the reverse, [NULL]s
    first. *)
Definition before_asc (a b : option Z) : bool :=
  match a, b with
  | Some x, Some y => (x <? y)%Z
  | Some _, None => true
  | None, _ => false
  end.

Definition before_desc (a b : option Z) : bool := before_asc b a.

(** [ORDER BY] as an insertion sort: a row goes in front of the first
    row it sorts strictly before. The database promises no order among
    rows with equal keys; here it is fixed by the table order. *)
Fixpoint insert_by {A : Type} (before : A -> A -> bool) (r : A) (l : list A) : list A :=
  match l with
  | [] => [r]
  | x :: rest => if before r x then r :: x :: rest else x :: insert_by before r rest
  end.

Definition order_by {A : Type} (before : A -> A -> bool) (l : list A) : list A :=
  fold_right (insert_by before) [] l.

Module TaxReturn.

Record t : Type := mk {
  id : uuid;
  customerId : option uuid;
  accountantId : option uuid;
  taxYear : string;
  status : string;
  situationType : option string;
  totalIncome : option string;
  totalTaxDue : option string;
  totalRefund : option string;
  submissionDeadline : option string;
  filedDate : option timestamp;
  hmrcReference : option string;
  notes : option string;
  price : option string;
  paymentStatus : option string;
  createdAt : timestamp;
  updatedAt : timestamp
}.

Definition new (d : TaxReturnRow) : t :=
  mk (tr_id d) (tr_customer_id d) (tr_accountant_id d) (tr_tax_year d)
     (tr_status d) (tr_situation_type d) (tr_total_income d)
     (tr_total_tax_due d) (tr_total_refund d) (tr_submission_deadline d)
     (tr_filed_date d) (tr_hmrc_reference d) (tr_notes d) (tr_price d)
     (tr_payment_status d) (tr_created_at d) (tr_updated_at d).

Section Creation.
(** PostgreSQL's reading of a [DATE] parameter: the date it stores, or
    the error it raises. *)
Variable date : string -> result string.

(** [INSERT INTO tax_returns (customer_id, tax_year, situation_type,
    submission_deadline, price) VALUES (...) RETURNING *]: the other
    columns take their defaults. The statement is refused for a
    deadline the [DATE] column cannot read, a tax year longer than
    [VARCHAR(10)], a situation longer than [VARCHAR(50)], a key already
    present, and a customer that is not stored. No constraint of the
    table mentions the pair of customer and tax year. *)
Definition create (e : Entropy) (db : Db)
           (customerId : option uuid) (taxYear : string)
           (situationType : option string) (submissionDeadline : option string)
  : result (Db * t) :=
  match stored_as date submissionDeadline with
  | Throw code => Throw code
  | Ok deadline =>
      let row :=
        mkTaxReturnRow (gen_id e) customerId None taxYear "pending" situationType
                       None None None deadline None None None
                       (Some "169.00") (Some "pending") (now e) (now e) in
      if (10 <? String.length taxYear)%nat then Throw "22001"
      else if match situationType with
              | Some s => (50 <? String.length s)%nat
              | None => false
              end then
        Throw "22001"
      else if existsb (fun r => String.eqb (tr_id r) (gen_id e)) (tax_returns db) then
        Throw "23505"
      else if match customerId with
              | Some c => negb (existsb (fun r => String.eqb (c_id r) c) (customers db))
              | None => false
              end then
        Throw "23503"
      else Ok (set_tax_returns db (tax_returns db ++ [row]), new row)
  end.
End Creation.

(** [SELECT * FROM tax_returns WHERE id = $1] *)
Definition findById (db : Db) (id : uuid) : option t :=
  match first_row (filter (fun r => String.eqb (tr_id r) id) (tax_returns db)) with
  | None => None
  | Some row => Some (new row)
  end.

(** The optional filters of a listing. A filter that is absent or the
    empty string is falsy and adds no predicate; [f_limit] is the number
    a non-empty [limit] stands for. *)
Record Filters : Type := mkFilters {
  f_status : option string;
  f_taxYear : option string;
  f_limit : option nat
}.

Definition given (o : option string) : option string :=
  match o with
  | Some s => if String.eqb s "" then None else Some s
  | None => None
  end.

Definition findByCustomerId (db : Db) (customerId : option uuid) (filters : Filters)
  : list t :=
  let by_customer := fun r => sql_eq (tr_customer_id r) customerId in
  let by_status := fun r =>
    match given (f_status filters) with
    | Some s => String.eqb (tr_status r) s
    | None => true
    end in
  let by_year := fun r =>
    match given (f_taxYear filters) with
    | Some y => String.eqb (tr_tax_year r) y
    | None => true
    end in
  let rows := order_by_created_desc
                (filter (fun r => by_customer r && by_status r && by_year r)
                        (tax_returns db)) in
  let rows := match f_limit filters with
              | Some n => firstn n rows
              | None => rows
              end in
  map new rows.

(** [UPDATE tax_returns SET accountant_id = $1, status = 'in_progress'
    WHERE id = $2 RETURNING *]; the [BEFORE UPDATE] trigger stamps
    [updated_at]; [accountant_id] references [accountants(id)]. *)
Definition assignAccountant (e : Entropy) (db : Db) (this : t) (accountantId : uuid)
  : result (Db * t) :=
  let hit := fun r => String.eqb (tr_id r) (id this) in
  let upd := fun r =>
    mkTaxReturnRow (tr_id r) (tr_customer_id r) (Some accountantId) (tr_tax_year r)
                   "in_progress" (tr_situation_type r) (tr_total_income r)
                   (tr_total_tax_due r) (tr_total_refund r)
                   (tr_submission_deadline r) (tr_filed_date r)
                   (tr_hmrc_reference r) (tr_notes r) (tr_price r)
                   (tr_payment_status r) (tr_created_at r) (now e) in
  match first_row (filter hit (tax_returns db)) with
  | None => Throw "TypeError: Cannot read properties of undefined"
  | Some r =>
      if negb (existsb (fun a => String.eqb (a_id a) accountantId) (accountants db))
      then Throw "23503"
      else Ok (set_tax_returns db (update_where hit upd (tax_returns db)),
               new (upd r))
  end.

Definition validStatuses : list string :=
  ["pending"; "in_progress"; "review"; "completed"; "filed"; "cancelled"].

(** [UPDATE tax_returns SET status = $1 WHERE id = $2 RETURNING *] *)
Definition updateStatus (e : Entropy) (db : Db) (this : t) (newStatus : string)
  : result (Db * t) :=
  if negb (includes validStatuses newStatus) then Throw "Invalid status"
  else
    let hit := fun r => String.eqb (tr_id r) (id this) in
    let upd := fun r =>
      mkTaxReturnRow (tr_id r) (tr_customer_id r) (tr_accountant_id r)
                     (tr_tax_year r) newStatus (tr_situation_type r)
                     (tr_total_income r) (tr_total_tax_due r) (tr_total_refund r)
                     (tr_submission_deadline r) (tr_filed_date r)
                     (tr_hmrc_reference r) (tr_notes r) (tr_price r)
                     (tr_payment_status r) (tr_created_at r) (now e) in
    match first_row (filter hit (tax_returns db)) with
    | None => Throw "TypeError: Cannot read properties of undefined"
    | Some r =>
        Ok (set_tax_returns db (update_where hit upd (tax_returns db)), new (upd r))
    end.

(** [toJSON()] *)
Definition toJSON (this : t) : value :=
  VObj [ ("id", VStr (id this));
         ("customerId", of_text (customerId this));
         ("accountantId", of_text (accountantId this));
         ("taxYear", VStr (taxYear this));
         ("status", VStr (status this));
         ("situationType", of_text (situationType this));
         ("totalIncome", of_text (totalIncome this));
         ("totalTaxDue", of_text (totalTaxDue this));
         ("totalRefund", of_text (totalRefund this));
         ("submissionDeadline", of_text (submissionDeadline this));
         ("filedDate", of_num (filedDate this));
         ("hmrcReference", of_text (hmrcReference this));
         ("notes", of_text (notes this));
         ("price", of_text (price this));
         ("paymentStatus", of_text (paymentStatus this));
         ("createdAt", VNum (createdAt this));
         ("updatedAt", VNum (updatedAt this)) ].

Definition columns (r : TaxReturnRow) : list (string * value) :=
  [ ("id", VStr (tr_id r));
    ("customer_id", of_text (tr_customer_id r));
    ("accountant_id", of_text (tr_accountant_id r));
    ("tax_year", VStr (tr_tax_year r));
    ("status", VStr (tr_status r));
    ("situation_type", of_text (tr_situation_type r));
    ("total_income", of_text (tr_total_income r));
    ("total_tax_due", of_text (tr_total_tax_due r));
    ("total_refund", of_text (tr_total_refund r));
    ("submission_deadline", of_text (tr_submission_deadline r));
    ("filed_date", of_num (tr_filed_date r));
    ("hmrc_reference", of_text (tr_hmrc_reference r));
    ("notes", of_text (tr_notes r));
    ("price", of_text (tr_price r));
    ("payment_status", of_text (tr_payment_status r));
    ("created_at", VNum (tr_created_at r));
    ("updated_at", VNum (tr_updated_at r)) ].

(** [CONCAT(first_name, ' ', last_name)] *)
Definition full_name (u : UserRow) : string :=
  u_first_name u ++ " " ++ u_last_name u.

(** [LEFT JOIN]: the matches, or one all-[NULL] row. *)
Definition left_join {A : Type} (matches : list A) : list (option A) :=
  match matches with
  | [] => [None]
  | _ => map Some matches
  end.

(** [getFullDetails()]: [tax_returns] joined to its customer and the
    customer's user, left-joined to the accountant and the accountant's
    user; first row or [null]. *)
Definition getFullDetails (db : Db) (this : t) : value :=
  let rows :=
    flat_map (fun tr =>
      flat_map (fun c =>
        flat_map (fun c_user =>
          flat_map (fun acc =>
            map (fun a_user =>
                   VObj (columns tr ++
                     [ ("customer_name", VStr (full_name c_user));
                       ("customer_email", VStr (u_email c_user));
                       ("customer_phone", of_text (u_phone c_user));
                       ("accountant_name",
                        VStr (match a_user with
                              | Some u => full_name u
                              | None => " "
                              end));
                       ("accountant_email",
                        match a_user with Some u => VStr (u_email u) | None => VNull end);
                       ("accountant_qualification",
                        match acc with
                        | Some a => of_text (a_qualification a)
                        | None => VNull
                        end);
                       ("accountant_experience",
                        match acc with
                        | Some a => of_num (a_experience_years a)
                        | None => VNull
                        end) ]))
                (left_join
                   (match acc with
                    | Some a => filter (fun u => sql_eq (a_user_id a) (Some (u_id u)))
                                       (users db)
                    | None => []
                    end)))
            (left_join (filter (fun a => sql_eq (tr_accountant_id tr) (Some (a_id a)))
                               (accountants db))))
          (filter (fun u => sql_eq (c_user_id c) (Some (u_id u))) (users db)))
        (filter (fun c => sql_eq (tr_customer_id tr) (Some (c_id c))) (customers db)))
      (filter (fun tr => String.eqb (tr_id tr) (id this)) (tax_returns db)) in
  match first_row rows with
  | Some row => row
  | None => VNull
  end.

Definition child_json (r : ChildRow) : value :=
  VObj (("id", VStr (ch_id r)) :: ("tax_return_id", of_text (ch_tax_return_id r))
        :: ch_columns r).

(** [getIncomeSources()]: [SELECT * FROM income_sources WHERE
    tax_return_id = $1 ORDER BY created_at ASC] *)
Definition getIncomeSources (db : Db) (this : t) : list value :=
  map child_json
      (order_by (fun a b => before_asc (column_time "created_at" (ch_columns a))
                                       (column_time "created_at" (ch_columns b)))
                (filter (fun r => col_eq (ch_tax_return_id r) (id this))
                        (income_sources db))).

(** [getExpenses()]: [SELECT * FROM expenses WHERE tax_return_id = $1
    ORDER BY expense_date DESC] *)
Definition getExpenses (db : Db) (this : t) : list value :=
  map child_json
      (order_by (fun a b => before_desc (column_time "expense_date" (ch_columns a))
                                        (column_time "expense_date" (ch_columns b)))
                (filter (fun r => col_eq (ch_tax_return_id r) (id this))
                        (expenses db))).

Definition document_columns (d : DocumentRow) : list (string * value) :=
  [ ("id", VStr (d_id d));
    ("tax_return_id", of_text (d_tax_return_id d));
    ("uploaded_by", of_text (d_uploaded_by d));
    ("document_type", VStr (d_document_type d));
    ("original_name", VStr (d_original_name d));
    ("file_path", VStr (d_file_path d));
    ("file_size", of_num (d_file_size d));
    ("mime_type", of_text (d_mime_type d));
    ("is_processed", VBool (d_is_processed d));
    ("created_at", VNum (d_created_at d)) ].

(** [getDocuments()]: documents joined to their uploader, [ORDER BY
    d.created_at DESC]. *)
Definition getDocuments (db : Db) (this : t) : list value :=
  flat_map (fun d =>
    map (fun u => VObj (document_columns d ++ [("uploaded_by_name", VStr (full_name u))]))
        (filter (fun u => sql_eq (d_uploaded_by d) (Some (u_id u))) (users db)))
    (order_by (fun a b => before_desc (Some (d_created_at a)) (Some (d_created_at b)))
              (filter (fun d => col_eq (d_tax_return_id d) (id this)) (documents db))).

(** [getMessages()]: messages joined to sender and recipient, [ORDER BY
    m.created_at ASC]. *)
Definition getMessages (db : Db) (this : t) : list value :=
  flat_map (fun m =>
    flat_map (fun sender =>
      map (fun recipient =>
             VObj (("id", VStr (m_id m))
                   :: ("tax_return_id", of_text (m_tax_return_id m))
                   :: ("sender_id", of_text (m_sender_id m))
                   :: ("recipient_id", of_text (m_recipient_id m))
                   :: m_columns m
                   ++ [ ("sender_name", VStr (full_name sender));
                        ("recipient_name", VStr (full_name recipient)) ]))
          (filter (fun u => sql_eq (m_recipient_id m) (Some (u_id u))) (users db)))
      (filter (fun u => sql_eq (m_sender_id m) (Some (u_id u))) (users db)))
    (order_by (fun a b => before_asc (column_time "created_at" (m_columns a))
                                     (column_time "created_at" (m_columns b)))
              (filter (fun m => col_eq (m_tax_return_id m) (id this)) (messages db))).

(** [delete()] *)
Definition delete (this : t) : M bool :=
  transaction
    (client_query (DeleteMessages (id this)) ;;
     client_query (DeleteDocuments (id this)) ;;
     client_query (DeleteExpenses (id this)) ;;
     client_query (DeleteIncomeSources (id this)) ;;
     client_query (DeletePayments (id this)) ;;
     client_query (DeleteTaxReturn (id this)) ;;
     ret true)%db.

(** [findByAccountantId(accountantId, filters)]: of the filters only
    [status] is read. *)
Definition findByAccountantId (db : Db) (accountantId : option uuid) (filters : Filters)
  : list t :=
  let by_accountant := fun r => sql_eq (tr_accountant_id r) accountantId in
  let by_status := fun r =>
    match given (f_status filters) with
    | Some s => String.eqb (tr_status r) s
    | None => true
    end in
  map new (order_by_created_desc
             (filter (fun r => by_accountant r && by_status r) (tax_returns db))).

(** [req.query] as the listing reads it: texts, and the numbers a
    non-empty [limit] and [offset] stand for. *)
Record Query : Type := mkQuery {
  q_status : option string;
  q_taxYear : option string;
  q_paymentStatus : option string;
  q_limit : option nat;
  q_offset : option nat
}.

Definition filters_of (q : Query) : Filters :=
  mkFilters (q_status q) (q_taxYear q) (q_limit q).

(** [getAll(filters)] *)
Definition getAll (db : Db) (q : Query) : list t :=
  let by_status := fun r =>
    match given (q_status q) with
    | Some s => String.eqb (tr_status r) s
    | None => true
    end in
  let by_year := fun r =>
    match given (q_taxYear q) with
    | Some y => String.eqb (tr_tax_year r) y
    | None => true
    end in
  let by_payment := fun r =>
    match given (q_paymentStatus q) with
    | Some p => sql_eq (tr_payment_status r) (Some p)
    | None => true
    end in
  let rows := order_by_created_desc
                (filter (fun r => by_status r && by_year r && by_payment r)
                        (tax_returns db)) in
  let rows := match q_offset q with
              | Some n => skipn n rows
              | None => rows
              end in
  let rows := match q_limit q with
              | Some n => firstn n rows
              | None => rows
              end in
  map new rows.

(** The [BEFORE UPDATE] trigger of [tax_returns]. *)
Definition stamp (e : Entropy) (r : TaxReturnRow) : TaxReturnRow :=
  mkTaxReturnRow (tr_id r) (tr_customer_id r) (tr_accountant_id r) (tr_tax_year r)
                 (tr_status r) (tr_situation_type r) (tr_total_income r)
                 (tr_total_tax_due r) (tr_total_refund r) (tr_submission_deadline r)
                 (tr_filed_date r) (tr_hmrc_reference r) (tr_notes r) (tr_price r)
                 (tr_payment_status r) (tr_created_at r) (now e).

(** [UPDATE tax_returns SET ... WHERE id = $n RETURNING *], then
    [new TaxReturn(result.rows[0])]. *)
Definition update_returning (e : Entropy) (db : Db) (this : t)
           (set : TaxReturnRow -> TaxReturnRow) : result (Db * t) :=
  let hit := fun r => String.eqb (tr_id r) (id this) in
  let upd := fun r => stamp e (set r) in
  match first_row (filter hit (tax_returns db)) with
  | None => Throw "TypeError: Cannot read properties of undefined"
  | Some r =>
      Ok (set_tax_returns db (update_where hit upd (tax_returns db)), new (upd r))
  end.

(** [updatePaymentStatus(paymentStatus)] *)
Definition updatePaymentStatus (e : Entropy) (db : Db) (this : t)
           (paymentStatus : string) : result (Db * t) :=
  if negb (includes ["pending"; "paid"; "refunded"; "failed"] paymentStatus) then
    Throw "Invalid payment status"
  else
    update_returning e db this
      (fun r =>
         mkTaxReturnRow (tr_id r) (tr_customer_id r) (tr_accountant_id r)
                        (tr_tax_year r) (tr_status r) (tr_situation_type r)
                        (tr_total_income r) (tr_total_tax_due r) (tr_total_refund r)
                        (tr_submission_deadline r) (tr_filed_date r)
                        (tr_hmrc_reference r) (tr_notes r) (tr_price r)
                        (Some paymentStatus) (tr_created_at r) (tr_updated_at r)).

Section Calculations.
(** What PostgreSQL stores for a decimal text bound to a DECIMAL(12,2)
    column, as the driver reads it back, or the SQLSTATE of its refusal. *)
Variable numeric : string -> result string.

Definition stored_decimal (v : option string) : result (option string) :=
  match v with
  | None => Ok None
  | Some s =>
      match numeric s with
      | Ok d => Ok (Some d)
      | Throw code => Throw code
      end
  end.

(** [updateCalculations({ totalIncome, totalTaxDue, totalRefund })]: a
    member that is missing is bound as [NULL]. *)
Definition updateCalculations (e : Entropy) (db : Db) (this : t)
           (totalIncome totalTaxDue totalRefund : option string) : result (Db * t) :=
  match stored_decimal totalIncome with
  | Throw code => Throw code
  | Ok income =>
  match stored_decimal totalTaxDue with
  | Throw code => Throw code
  | Ok due =>
  match stored_decimal totalRefund with
  | Throw code => Throw code
  | Ok refund =>
      update_returning e db this
        (fun r =>
           mkTaxReturnRow (tr_id r) (tr_customer_id r) (tr_accountant_id r)
                          (tr_tax_year r) (tr_status r) (tr_situation_type r)
                          income due refund
                          (tr_submission_deadline r) (tr_filed_date r)
                          (tr_hmrc_reference r) (tr_notes r) (tr_price r)
                          (tr_payment_status r) (tr_created_at r) (tr_updated_at r))
  end
  end
  end.
End Calculations.

(** [markAsFiled(hmrcReference)]: [SET status = 'filed', filed_date =
    CURRENT_TIMESTAMP, hmrc_reference = $1]; [hmrc_reference] is
    VARCHAR(100). *)
Definition markAsFiled (e : Entropy) (db : Db) (this : t) (hmrcReference : string)
  : result (Db * t) :=
  if (100 <? String.length hmrcReference)%nat then Throw "22001"
  else
    update_returning e db this
      (fun r =>
         mkTaxReturnRow (tr_id r) (tr_customer_id r) (tr_accountant_id r)
                        (tr_tax_year r) "filed" (tr_situation_type r)
                        (tr_total_income r) (tr_total_tax_due r) (tr_total_refund r)
                        (tr_submission_deadline r) (Some (now e))
                        (Some hmrcReference) (tr_notes r) (tr_price r)
                        (tr_payment_status r) (tr_created_at r) (tr_updated_at r)).

(** [addNotes(notes)] *)
Definition addNotes (e : Entropy) (db : Db) (this : t) (notes : option string)
  : result (Db * t) :=
  update_returning e db this
    (fun r =>
       mkTaxReturnRow (tr_id r) (tr_customer_id r) (tr_accountant_id r)
                      (tr_tax_year r) (tr_status r) (tr_situation_type r)
                      (tr_total_income r) (tr_total_tax_due r) (tr_total_refund r)
                      (tr_submission_deadline r) (tr_filed_date r)
                      (tr_hmrc_reference r) notes (tr_price r)
                      (tr_payment_status r) (tr_created_at r) (tr_updated_at r)).

End TaxReturn.

(* ================================================================== *)
(** ** [routes/taxReturns.js] (behind [authenticate]) *)
(* ================================================================== *)

(** [getCustomerIdFromUser]: [result.rows[0]?.id || null] *)
Definition getCustomerIdFromUser (db : Db) (userId : uuid) : value :=
  js_or (match first_row (filter (fun c => sql_eq (c_user_id c) (Some userId))
                                 (customers db)) with
         | Some c => VStr (c_id c)
         | None => VUndefined
         end) VNull.

(** [SELECT id FROM accountants WHERE user_id = $1], then [rows[0]?.id] *)
Definition accountantIdOfUser (db : Db) (userId : uuid) : value :=
  match first_row (filter (fun a => sql_eq (a_user_id a) (Some userId))
                          (accountants db)) with
  | Some a => VStr (a_id a)
  | None => VUndefined
  end.




(** [success: true, message, data] *)
Definition ok_json (code : nat) (message : string) (data : value) : Response :=
  mkResponse code
    (VObj [("success", VBool true); ("message", VStr message); ("data", data)]).





Section TaxReturnRoutes.
Variable isISO8601 : string -> bool.
Variable isUUID : string -> bool.
(** PostgreSQL's reading of a [DATE] parameter, and the text the driver
    sends for [new Date('2024-01-31')] (the local time of that
    instant). *)
Variable date : string -> result string.
Variable default_deadline : string.




(** The ownership checks of the [/:id] handlers: [true] when the
    handler answers 403. *)
Definition customer_denied (db : Db) (user : Principal) (taxReturn : TaxReturn.t) : bool :=
  negb (strict_eq (of_text (TaxReturn.customerId taxReturn))
                  (getCustomerIdFromUser db (p_id user))).

Definition accountant_denied (db : Db) (user : Principal) (taxReturn : TaxReturn.t) : bool :=
  negb (strict_eq (of_text (TaxReturn.accountantId taxReturn))
                  (accountantIdOfUser db (p_id user))).

(** [GET /api/tax-returns/:id] *)
Definition get_tax_return (db : Db) (user : Principal) (id : string) : Outcome :=
  match TaxReturn.findById db id with
  | None => Sent (fail 404 "Tax return not found")
  | Some taxReturn =>
      if (if String.eqb (p_role user) "customer" then customer_denied db user taxReturn
          else if String.eqb (p_role user) "accountant" then
                 accountant_denied db user taxReturn
          else false)
      then Sent (fail 403 "Access denied")
      else
        let fullDetails := TaxReturn.getFullDetails db taxReturn in
        let incomeSources := TaxReturn.getIncomeSources db taxReturn in
        let expenses := TaxReturn.getExpenses db taxReturn in
        let documents := TaxReturn.getDocuments db taxReturn in
        let messages := TaxReturn.getMessages db taxReturn in
        Sent (mkResponse 200
                (VObj [("success", VBool true);
                       ("data", VObj [("taxReturn", fullDetails);
                                      ("incomeSources", VArr incomeSources);
                                      ("expenses", VArr expenses);
                                      ("documents", VArr documents);
                                      ("messages", VArr messages)])]))
  end.

(** [PUT /api/tax-returns/:id/status] *)
Definition put_status (e : Entropy) (db : Db) (user : Principal) (id : string)
           (status : string) : Db * Outcome :=
  match authorize ["accountant"; "admin"] user with
  | Respond r => (db, Sent r)
  | Next _ =>
  match handleValidationErrors
          (check (includes ["pending"; "in_progress"; "review"; "completed";
                            "filed"; "cancelled"] status)
                 "status" "Invalid status") with
  | Respond r => (db, Sent r)
  | Next _ =>
      match TaxReturn.findById db id with
      | None => (db, Sent (fail 404 "Tax return not found"))
      | Some taxReturn =>
          if String.eqb (p_role user) "accountant"
             && accountant_denied db user taxReturn
          then (db, Sent (fail 403 "Access denied"))
          else
            match TaxReturn.updateStatus e db taxReturn status with
            | Throw m => (db, NextError m)
            | Ok (db', updatedTaxReturn) =>
                (db', Sent (ok_json 200 "Tax return status updated successfully"
                                    (TaxReturn.toJSON updatedTaxReturn)))
            end
      end
  end
  end.

(** [PUT /api/tax-returns/:id/assign] *)
Definition put_assign (e : Entropy) (db : Db) (user : Principal) (id : string)
           (accountantId : string) : Db * Outcome :=
  match authorize ["admin"] user with
  | Respond r => (db, Sent r)
  | Next _ =>
  match handleValidationErrors
          (check (isUUID accountantId) "accountantId" "Invalid accountant ID") with
  | Respond r => (db, Sent r)
  | Next _ =>
      match TaxReturn.findById db id with
      | None => (db, Sent (fail 404 "Tax return not found"))
      | Some taxReturn =>
          let accountantCheck :=
            filter (fun a => String.eqb (a_id a) accountantId && a_is_active a)
                   (accountants db) in
          if (length accountantCheck =? 0)%nat then
            (db, Sent (fail 400 "Invalid or inactive accountant"))
          else
            match TaxReturn.assignAccountant e db taxReturn accountantId with
            | Throw m => (db, NextError m)
            | Ok (db', updatedTaxReturn) =>
                (db', Sent (ok_json 200 "Accountant assigned successfully"
                                    (TaxReturn.toJSON updatedTaxReturn)))
            end
      end
  end
  end.

End TaxReturnRoutes.

(* ================================================================== *)
(** ** [routes/uploads.js] *)
(* ================================================================== *)

Definition slash : ascii := ascii_of_nat 47.
Definition dot : ascii := ascii_of_nat 46.
Definition comma : ascii := ascii_of_nat 44.

Fixpoint drop_while (p : ascii -> bool) (l : list ascii) : list ascii :=
  match l with
  | [] => []
  | c :: rest => if p c then drop_while p rest else l
  end.

Fixpoint take_while (p : ascii -> bool) (l : list ascii) : list ascii :=
  match l with
  | [] => []
  | c :: rest => if p c then c :: take_while p rest else []
  end.

(** Node's [path.extname] (POSIX): the last path component, trailing
    slashes aside, from its last dot on; empty when there is no dot, when
    the only dot leads the component, or when the component is [..]. *)
Definition extname (p : string) : string :=
  let rbase := take_while (fun x => negb (Ascii.eqb x slash))
                          (drop_while (fun x => Ascii.eqb x slash)
                                      (rev (list_ascii_of_string p))) in
  let rext := take_while (fun x => negb (Ascii.eqb x dot)) rbase in
  match drop_while (fun x => negb (Ascii.eqb x dot)) rbase with
  | [] => ""
  | _ :: before =>
      match before, rext with
      | [], _ => ""
      | [d], [] => if Ascii.eqb d dot then "" else "."
      | _, _ => string_of_list_ascii (dot :: rev rext)
      end
  end.

Definition lower_char (c : ascii) : ascii :=
  if is_upper c then ascii_of_nat (nat_of_ascii c + 32) else c.

(** [s.toLowerCase()] (ASCII letters) *)
Definition toLowerCase (s : string) : string :=
  string_of_list_ascii (map lower_char (list_ascii_of_string s)).

(** [s.split(',')] *)
Fixpoint split_commas (l : list ascii) (cur : list ascii) : list string :=
  match l with
  | [] => [string_of_list_ascii (rev cur)]
  | c :: rest =>
      if Ascii.eqb c comma then string_of_list_ascii (rev cur) :: split_commas rest []
      else split_commas rest (c :: cur)
  end.

Definition split (s : string) : list string := split_commas (list_ascii_of_string s) [].

(** [arr.join(', ')] *)
Fixpoint join (l : list string) : string :=
  match l with
  | [] => ""
  | [x] => x
  | x :: rest => x ++ ", " ++ join rest
  end.

(** One file part of the multipart body, with what the server draws for
    it: the random suffix of its stored name and the key of its
    [documents] row. *)
Record Part : Type := mkPart {
  fieldname : string;
  originalname : string;
  mimetype : string;
  size : Z;
  uniqueSuffix : string;
  row_id : uuid
}.

(** An element of [req.files]. *)
Record File : Type := mkFile {
  part : Part;
  filename : string;
  path : string
}.

(** The upload directory: the paths that exist. *)
Definition Disk := list string.

Definition unlink (p : string) (disk : Disk) : Disk :=
  filter (fun q => negb (String.eqb q p)) disk.

Definition write_file (p : string) (disk : Disk) : Disk :=
  if includes disk p then disk else (disk ++ [p])%list.

(** [fs.unlink(p)] as the handlers call it. The call is rejected on the
    paths [fails] names (a file the operating system does not let go
    of: EACCES, EBUSY, ...) and on a path that does not exist (ENOENT);
    the disk is then as it was. *)
Definition fs_unlink (fails : string -> bool) (p : string) (disk : Disk) : result Disk :=
  if fails p then Throw "EACCES"
  else if includes disk p then Ok (unlink p disk)
  else Throw "ENOENT".

(** [fs.unlink(p)] with its rejection swallowed: [.catch(() => {})], or
    a [catch] block that only logs. *)
Definition unlink_quietly (fails : string -> bool) (p : string) (disk : Disk) : Disk :=
  match fs_unlink fails p disk with
  | Ok disk' => disk'
  | Throw _ => disk
  end.

Inductive UploadError : Type :=
| MulterError (code : string)
| PlainError (message : string).

Section Uploads.
(** [process.env.ALLOWED_FILE_TYPES], [UPLOAD_PATH], [MAX_FILE_SIZE] *)
Variable ALLOWED_FILE_TYPES : option string.
Variable UPLOAD_PATH : string.
Variable MAX_FILE_SIZE : Z.
(** The paths on which [fs.unlink] fails while the request is handled. *)
Variable unlink_fails : string -> bool.

Definition allowedTypes : list string :=
  split (match TaxReturn.given ALLOWED_FILE_TYPES with
         | Some s => s
         | None => "pdf,jpg,jpeg,png,doc,docx,xls,xlsx"
         end).

Definition fileExtension (originalname : string) : string :=
  substring_from 1 (toLowerCase (extname originalname)).

(** [fileFilter]: [Ok true] accepts the file, [Throw] is [cb(new Error(..), false)]. *)
Definition fileFilter (file : Part) : result bool :=
  if includes allowedTypes (fileExtension (originalname file)) then Ok true
  else Throw ("File type ." ++ fileExtension (originalname file)
              ++ " is not allowed. Allowed types: " ++ join allowedTypes).

(** [storage.filename] and the path multer joins from it. *)
Definition stored (file : Part) : File :=
  let name := (fieldname file ++ "-" ++ uniqueSuffix file
               ++ extname (originalname file))%string in
  mkFile file name (UPLOAD_PATH ++ "/" ++ name).

(** multer, on an error: the files of this request that reached the
    disk are removed by multer itself (its own removal, modelled as
    documented), then the error is passed on. *)
Definition abort (err : UploadError) (uploaded : list File) (disk : Disk)
  : Disk * (list File + UploadError) :=
  (fold_right (fun f d => unlink (path f) d) disk uploaded, inr err).

(** [upload.array('documents', 5)] with [limits: { fileSize, files: 5 }]:
    the parts are taken in order; [uploaded] are the files already on
    disk (latest first). *)
Fixpoint receive (parts : list Part) (uploaded : list File) (disk : Disk)
  : Disk * (list File + UploadError) :=
  match parts with
  | [] => (disk, inl (rev uploaded))
  | file :: rest =>
      if (5 <=? length uploaded)%nat then
        abort (MulterError "LIMIT_FILE_COUNT") uploaded disk
      else if negb (String.eqb (fieldname file) "documents") then
        abort (MulterError "LIMIT_UNEXPECTED_FILE") uploaded disk
      else
        match fileFilter file with
        | Throw m => abort (PlainError m) uploaded disk
        | Ok false => receive rest uploaded disk
        | Ok true =>
            let f := stored file in
            let disk' := write_file (path f) disk in
            if (MAX_FILE_SIZE <? size file)%Z then
              abort (MulterError "LIMIT_FILE_SIZE") (f :: uploaded) disk'
            else receive rest (f :: uploaded) disk'
        end
  end.

(** The router's error middleware for multer. *)
Definition multer_error_handler (err : UploadError) : Outcome :=
  match err with
  | MulterError code =>
      if String.eqb code "LIMIT_FILE_SIZE" then
        Sent (fail 400 "File too large. Maximum size is 10MB.")
      else if String.eqb code "LIMIT_FILE_COUNT" then
        Sent (fail 400 "Too many files. Maximum is 5 files per upload.")
      else NextError code
  | PlainError m => NextError m
  end.

(** [for (const file of req.files) await fs.unlink(file.path).catch(() => {})] *)
Definition cleanup (files : list File) (disk : Disk) : Disk :=
  fold_left (fun d f => unlink_quietly unlink_fails (path f) d) files disk.

(** [INSERT INTO documents (...) VALUES (...) RETURNING *] *)
Definition insert_document (db : Db) (row : DocumentRow)
  : result (Db * DocumentRow) :=
  if existsb (fun d => String.eqb (d_id d) (d_id row)) (documents db) then Throw "23505"
  else if (255 <? String.length (d_original_name row))%nat
          || (500 <? String.length (d_file_path row))%nat
          || (50 <? String.length (d_document_type row))%nat then Throw "22001"
  else Ok (set_documents db (documents db ++ [row]), row).

(** The loop that saves the document records; a throw leaves the rows
    already inserted in place. *)
Fixpoint save_documents (e : Entropy) (db : Db) (user : Principal)
         (taxReturnId : string) (documentType : string)
         (files : list File) (uploadedDocuments : list value)
  : Db * result (list value) :=
  match files with
  | [] => (db, Ok uploadedDocuments)
  | file :: rest =>
      let row :=
        mkDocumentRow (row_id (part file)) (Some taxReturnId) (Some (p_id user))
                      documentType (originalname (part file)) (path file)
                      (Some (size (part file))) (Some (mimetype (part file)))
                      false (now e) in
      match insert_document db row with
      | Throw m => (db, Throw m)
      | Ok (db', r) =>
          save_documents e db' user taxReturnId documentType rest
                         (uploadedDocuments ++ [VObj (TaxReturn.document_columns r)])
      end
  end.

(** The handler of [POST /api/uploads/documents/:taxReturnId], with
    [req.files] as multer left them. *)
Definition upload_handler (e : Entropy) (db : Db) (disk : Disk) (user : Principal)
           (taxReturnId : string) (documentType : option string) (files : list File)
  : Db * Disk * Outcome :=
  match first_row (filter (fun r => String.eqb (tr_id r) taxReturnId) (tax_returns db)) with
  | None => (db, cleanup files disk, Sent (fail 404 "Tax return not found"))
  | Some taxReturn =>
      let hasAccess :=
        if String.eqb (p_role user) "admin" then true
        else if String.eqb (p_role user) "customer" then
          strict_eq (match first_row (filter (fun c => sql_eq (c_user_id c) (Some (p_id user)))
                                             (customers db)) with
                     | Some c => VStr (c_id c)
                     | None => VUndefined
                     end)
                    (of_text (tr_customer_id taxReturn))
        else if String.eqb (p_role user) "accountant" then
          strict_eq (accountantIdOfUser db (p_id user))
                    (of_text (tr_accountant_id taxReturn))
        else false in
      if negb hasAccess then
        (db, cleanup files disk, Sent (fail 403 "Access denied"))
      else if (length files =? 0)%nat then
        (db, disk, Sent (fail 400 "No files uploaded"))
      else
        let documentType := match TaxReturn.given documentType with
                            | Some t => t
                            | None => "other"
                            end in
        match save_documents e db user taxReturnId documentType files [] with
        | (db', Throw m) => (db', cleanup files disk, NextError m)
        | (db', Ok uploadedDocuments) =>
            (db', disk,
             Sent (ok_json 201
                     (NilEmpty.string_of_uint (Nat.to_uint (length uploadedDocuments))
                      ++ " document(s) uploaded successfully")
                     (VArr uploadedDocuments)))
        end
  end.

(** [POST /api/uploads/documents/:taxReturnId] behind [authenticate]:
    multer first, then the handler or the error middleware. *)
Definition post_documents (e : Entropy) (db : Db) (disk : Disk) (user : Principal)
           (taxReturnId : string) (documentType : option string) (parts : list Part)
  : Db * Disk * Outcome :=
  match receive parts [] disk with
  | (disk', inr err) => (db, disk', multer_error_handler err)
  | (disk', inl files) => upload_handler e db disk' user taxReturnId documentType files
  end.
End Uploads.

(* ================================================================== *)
(** ** [routes/auth.js]: sessions and passwords *)
(* ================================================================== *)

(** [res.json({ success: true, message })] *)
Definition success_message (message : string) : Response :=
  mkResponse 200 (VObj [("success", VBool true); ("message", VStr message)]).

(** [res.json({ success: true, data })] *)
Definition success_data (data : value) : Response :=
  mkResponse 200 (VObj [("success", VBool true); ("data", data)]).

Section AuthSessions.
Variable isEmail : string -> bool.
Variable normalizeEmail : string -> string.
Variable bcrypt_hash : string -> string -> string.
Variable bcrypt_compare : string -> string -> bool.
Variable encode : Jwt.Claims -> string -> string.
Variable hmac : string -> Jwt.Claims -> string.
Variable JWT_SECRET : string.
Variable JWT_EXPIRES_IN : Z.
Variable customer_cell : uuid -> string -> value.
Variable accountant_cell : uuid -> string -> value.

(** [POST /api/auth/login] *)
Definition login (e : Entropy) (db : Db) (raw_email password : string)
  : Db * Outcome :=
  match handleValidationErrors
          (check (isEmail raw_email) "email" "Please provide a valid email"
           ++ check (negb (String.eqb password "")) "password" "Password is required") with
  | Respond r => (db, Sent r)
  | Next _ =>
      let email := normalizeEmail raw_email in
      match User.findByEmail db email with
      | None => (db, Sent (fail 401 "Invalid email or password"))
      | Some user =>
          let isValidPassword := User.verifyPassword bcrypt_compare db user password in
          if negb isValidPassword then
            (db, Sent (fail 401 "Invalid email or password"))
          else
            let db' := User.updateLastLogin e db user in
            let token := generateToken encode hmac JWT_SECRET JWT_EXPIRES_IN e user in
            (db', Sent (ok_json 200 "Login successful"
                                (VObj [("user", User.toJSON user);
                                       ("token", VStr token)])))
      end
  end.

(** [POST /api/auth/verify-email] *)
Definition verify_email (e : Entropy) (db : Db) (token : string) : Db * Outcome :=
  match handleValidationErrors
          (check (negb (String.eqb token "")) "token"
                 "Verification token is required") with
  | Respond r => (db, Sent r)
  | Next _ =>
      match User.findByVerificationToken db token with
      | None => (db, Sent (fail 400 "Invalid or expired verification token"))
      | Some user =>
          match User.verifyEmail e db user with
          | Throw m => (db, NextError m)
          | Ok (db', _) => (db', Sent (success_message "Email verified successfully"))
          end
      end
  end.

(** [POST /api/auth/reset-password] *)
Definition reset_password (e : Entropy) (db : Db) (token password : string)
  : Db * Outcome :=
  match handleValidationErrors
          (check (negb (String.eqb token "")) "token" "Reset token is required"
           ++ check (8 <=? String.length password)%nat "password"
                    "Password must be at least 8 characters long"
           ++ check (password_pattern password) "password"
                    "Password must contain at least one uppercase letter, one lowercase letter, and one number")
  with
  | Respond r => (db, Sent r)
  | Next _ =>
      match User.findByResetToken e db token with
      | None => (db, Sent (fail 400 "Invalid or expired reset token"))
      | Some user =>
          match User.updatePassword bcrypt_hash e db user password with
          | Throw m => (db, NextError m)
          | Ok (db', _) => (db', Sent (success_message "Password reset successfully"))
          end
      end
  end.

(** [POST /api/auth/change-password] (behind [authenticate]) *)
Definition change_password (e : Entropy) (db : Db) (user : Principal)
           (currentPassword newPassword : string) : Db * Outcome :=
  match handleValidationErrors
          (check (negb (String.eqb currentPassword "")) "currentPassword"
                 "Current password is required"
           ++ check (8 <=? String.length newPassword)%nat "newPassword"
                    "New password must be at least 8 characters long"
           ++ check (password_pattern newPassword) "newPassword"
                    "New password must contain at least one uppercase letter, one lowercase letter, and one number")
  with
  | Respond r => (db, Sent r)
  | Next _ =>
      match User.findById db (p_id user) with
      | None => (db, Sent (fail 404 "User not found"))
      | Some u =>
          let isValidPassword :=
            User.verifyPassword bcrypt_compare db u currentPassword in
          if negb isValidPassword then
            (db, Sent (fail 400 "Current password is incorrect"))
          else
            match User.updatePassword bcrypt_hash e db u newPassword with
            | Throw m => (db, NextError m)
            | Ok (db', _) =>
                (db', Sent (success_message "Password changed successfully"))
            end
      end
  end.

(** [GET /api/auth/me] and [GET /api/users/profile] (behind
    [authenticate]) *)
Definition get_me (db : Db) (user : Principal) : Outcome :=
  match User.findById db (p_id user) with
  | None => Sent (fail 404 "User not found")
  | Some u =>
      let profile := User.getProfile customer_cell accountant_cell db u in
      Sent (success_data profile)
  end.

(** [POST /api/auth/refresh] (behind [authenticate]) *)
Definition refresh (e : Entropy) (db : Db) (user : Principal) : Outcome :=
  match User.findById db (p_id user) with
  | None => Sent (fail 404 "User not found")
  | Some u =>
      let token := generateToken encode hmac JWT_SECRET JWT_EXPIRES_IN e u in
      Sent (success_data (VObj [("token", VStr token)]))
  end.
End AuthSessions.

(* ================================================================== *)
(** ** [routes/users.js] (behind [authenticate]) *)
(* ================================================================== *)

(** [Math.ceil(a / b)] for [b > 0] *)
Definition ceil_div (a b : nat) : nat := (a + b - 1) / b.

Section UserRoutes.
Variable isMobilePhone_enGB : string -> bool.
Variable trim : string -> string.
Variable customer_cell : uuid -> string -> value.
Variable accountant_cell : uuid -> string -> value.
Variable epoch_text : timestamp -> string.

(** The validation chain of [PUT /api/users/profile]; a member that is
    missing is not checked. *)
Definition profile_errors (firstName lastName phone : option string) : list value :=
  match firstName with
  | None => []
  | Some s => check (let n := String.length (trim s) in (2 <=? n)%nat && (n <=? 50)%nat)
                    "firstName" "First name must be between 2 and 50 characters"
  end
  ++ match lastName with
     | None => []
     | Some s => check (let n := String.length (trim s) in (2 <=? n)%nat && (n <=? 50)%nat)
                       "lastName" "Last name must be between 2 and 50 characters"
     end
  ++ match phone with
     | None => []
     | Some ph => check (isMobilePhone_enGB ph) "phone"
                        "Please provide a valid UK phone number"
     end.

(** [updateData], with its [undefined] members removed. *)
Definition profile_update (firstName lastName phone : option string)
  : list (string * option string) :=
  match firstName with Some s => [("first_name", Some (trim s))] | None => [] end
  ++ match lastName with Some s => [("last_name", Some (trim s))] | None => [] end
  ++ match phone with Some ph => [("phone", Some ph)] | None => [] end.

(** [PUT /api/users/profile] *)
Definition put_profile (e : Entropy) (db : Db) (user : Principal)
           (firstName lastName phone : option string) : Db * Outcome :=
  match handleValidationErrors (profile_errors firstName lastName phone) with
  | Respond r => (db, Sent r)
  | Next _ =>
      match User.findById db (p_id user) with
      | None => (db, Sent (fail 404 "User not found"))
      | Some u =>
          let updateData := profile_update firstName lastName phone in
          match User.update e db u updateData with
          | Throw m => (db, NextError m)
          | Ok (db', updatedUser) =>
              let profile :=
                User.getProfile customer_cell accountant_cell db' updatedUser in
              (db', Sent (ok_json 200 "Profile updated successfully" profile))
          end
      end
  end.

(** [GET /api/users]: [page] and [limit] are the numbers the query
    texts stand for, when given. *)
Definition get_users (db : Db) (user : Principal) (role isVerified : option string)
           (page limit : option nat) : Outcome :=
  match authorize ["admin"] user with
  | Respond r => Sent r
  | Next _ =>
      let role := match role with Some r => r | None => "all" end in
      let isVerified := match isVerified with Some v => v | None => "all" end in
      let page := match page with Some p => p | None => 1 end in
      let limit := match limit with Some l => l | None => 20 end in
      let f_role := if String.eqb role "all" then None else Some role in
      let f_isVerified :=
        if String.eqb isVerified "all" then None
        else Some (String.eqb isVerified "true") in
      let filters :=
        User.mkFilters f_role f_isVerified (Some (Z.of_nat limit))
                       (Some ((Z.of_nat page - 1) * Z.of_nat limit)%Z) in
      match User.getAll db filters with
      | Throw m => NextError m
      | Ok users =>
          let countFilters := User.mkFilters f_role f_isVerified None None in
          match User.getAll db countFilters with
          | Throw m => NextError m
          | Ok allUsers =>
              let total := length allUsers in
              Sent (success_data
                      (VObj [("users", VArr (map User.toJSON users));
                             ("pagination",
                              VObj [("page", VNum (Z.of_nat page));
                                    ("limit", VNum (Z.of_nat limit));
                                    ("total", VNum (Z.of_nat total));
                                    ("pages",
                                     if (limit =? 0)%nat then VNull
                                     else VNum (Z.of_nat (ceil_div total limit)))])]))
          end
      end
  end.

(** [GET /api/users/:id] *)
Definition get_user (db : Db) (user : Principal) (id : string) : Outcome :=
  match authorize ["admin"] user with
  | Respond r => Sent r
  | Next _ =>
      match User.findById db id with
      | None => Sent (fail 404 "User not found")
      | Some u => Sent (success_data (User.getProfile customer_cell accountant_cell db u))
      end
  end.

(** [DELETE /api/users/:id] *)
Definition delete_user (e : Entropy) (db : Db) (user : Principal) (id : string)
  : Db * Outcome :=
  match authorize ["admin"] user with
  | Respond r => (db, Sent r)
  | Next _ =>
      match User.findById db id with
      | None => (db, Sent (fail 404 "User not found"))
      | Some u =>
          if String.eqb (User.id u) (p_id user) then
            (db, Sent (fail 400 "You cannot delete your own account"))
          else
            match User.delete epoch_text e db u with
            | Throw m => (db, NextError m)
            | Ok db' => (db', Sent (success_message "User deleted successfully"))
            end
      end
  end.
End UserRoutes.

(* ================================================================== *)
(** ** [routes/taxReturns.js]: listing, calculations, filing, income *)
(* ================================================================== *)

(** [GET /api/tax-returns] *)
Definition get_tax_returns (db : Db) (user : Principal) (query : TaxReturn.Query)
  : Outcome :=
  let listing := fun taxReturns =>
    Sent (success_data (VArr (map TaxReturn.toJSON taxReturns))) in
  if String.eqb (p_role user) "customer" then
    let customerId := getCustomerIdFromUser db (p_id user) in
    if negb (truthy customerId) then Sent (fail 400 "Customer profile not found")
    else listing (TaxReturn.findByCustomerId db (sql_param customerId)
                                             (TaxReturn.filters_of query))
  else if String.eqb (p_role user) "accountant" then
    let accountantId := accountantIdOfUser db (p_id user) in
    if negb (truthy accountantId) then Sent (fail 400 "Accountant profile not found")
    else listing (TaxReturn.findByAccountantId db (sql_param accountantId)
                                               (TaxReturn.filters_of query))
  else if String.eqb (p_role user) "admin" then
    listing (TaxReturn.getAll db query)
  else NextError "TypeError: Cannot read properties of undefined".

Section AccountantRoutes.
(** [isFloat({ min: 0 })] of express-validator, PostgreSQL's reading of
    a decimal and of a date, and the [trim] sanitizer. *)
Variable isFloat_min0 : string -> bool.
Variable numeric : string -> result string.
Variable date : string -> result string.
Variable trim : string -> string.

Definition calculation_errors (totalIncome totalTaxDue totalRefund : option string)
  : list value :=
  check (match totalIncome with Some s => isFloat_min0 s | None => false end)
        "totalIncome" "Total income must be a positive number"
  ++ match totalTaxDue with
     | None => []
     | Some s => check (isFloat_min0 s) "totalTaxDue"
                       "Total tax due must be a positive number"
     end
  ++ match totalRefund with
     | None => []
     | Some s => check (isFloat_min0 s) "totalRefund"
                       "Total refund must be a positive number"
     end.

(** [PUT /api/tax-returns/:id/calculations] *)
Definition put_calculations (e : Entropy) (db : Db) (user : Principal) (id : string)
           (totalIncome totalTaxDue totalRefund : option string) : Db * Outcome :=
  match authorize ["accountant"; "admin"] user with
  | Respond r => (db, Sent r)
  | Next _ =>
  match handleValidationErrors
          (calculation_errors totalIncome totalTaxDue totalRefund) with
  | Respond r => (db, Sent r)
  | Next _ =>
      match TaxReturn.findById db id with
      | None => (db, Sent (fail 404 "Tax return not found"))
      | Some taxReturn =>
          if String.eqb (p_role user) "accountant"
             && accountant_denied db user taxReturn
          then (db, Sent (fail 403 "Access denied"))
          else
            match TaxReturn.updateCalculations numeric e db taxReturn
                    totalIncome totalTaxDue totalRefund with
            | Throw m => (db, NextError m)
            | Ok (db', updatedTaxReturn) =>
                (db', Sent (ok_json 200 "Tax calculations updated successfully"
                                    (TaxReturn.toJSON updatedTaxReturn)))
            end
      end
  end
  end.

(** [POST /api/tax-returns/:id/file] *)
Definition post_file (e : Entropy) (db : Db) (user : Principal) (id : string)
           (hmrcReference : string) : Db * Outcome :=
  match authorize ["accountant"; "admin"] user with
  | Respond r => (db, Sent r)
  | Next _ =>
  match handleValidationErrors
          (check (negb (String.eqb hmrcReference "")) "hmrcReference"
                 "HMRC reference is required") with
  | Respond r => (db, Sent r)
  | Next _ =>
      match TaxReturn.findById db id with
      | None => (db, Sent (fail 404 "Tax return not found"))
      | Some taxReturn =>
          if String.eqb (p_role user) "accountant"
             && accountant_denied db user taxReturn
          then (db, Sent (fail 403 "Access denied"))
          else
            match TaxReturn.markAsFiled e db taxReturn hmrcReference with
            | Throw m => (db, NextError m)
            | Ok (db', updatedTaxReturn) =>
                (db', Sent (ok_json 200 "Tax return filed successfully"
                                    (TaxReturn.toJSON updatedTaxReturn)))
            end
      end
  end
  end.

Record IncomeBody : Type := mkIncomeBody {
  ib_sourceType : string;
  ib_grossIncome : option string;
  ib_taxDeducted : option string;
  ib_employerName : option string;
  ib_startDate : option string;
  ib_endDate : option string
}.

Definition income_errors (b : IncomeBody) : list value :=
  check (includes ["employment"; "self_employment"; "rental"; "dividends"; "interest";
                   "other"] (ib_sourceType b))
        "sourceType" "Invalid income source type"
  ++ check (match ib_grossIncome b with Some s => isFloat_min0 s | None => false end)
           "grossIncome" "Gross income must be a positive number"
  ++ match ib_taxDeducted b with
     | None => []
     | Some s => check (isFloat_min0 s) "taxDeducted"
                       "Tax deducted must be a positive number"
     end
  ++ match ib_employerName b with
     | None => []
     | Some s => check (String.length (trim s) <=? 255)%nat "employerName"
                       "Employer name too long"
     end.

(** [INSERT INTO income_sources (tax_return_id, source_type, gross_income,
    tax_deducted, employer_name, start_date, end_date) VALUES (...)
    RETURNING *]: [ni_contributions] and [created_at] take their
    defaults; a parameter that is [undefined] is bound as [NULL]. *)
Definition insert_income_source (e : Entropy) (db : Db) (id : string) (b : IncomeBody)
  : result (Db * ChildRow) :=
  match stored_as numeric (ib_grossIncome b) with
  | Throw code => Throw code
  | Ok gross =>
  match stored_as numeric (ib_taxDeducted b) with
  | Throw code => Throw code
  | Ok deducted =>
  match stored_as date (ib_startDate b) with
  | Throw code => Throw code
  | Ok startDate =>
  match stored_as date (ib_endDate b) with
  | Throw code => Throw code
  | Ok endDate =>
      let employerName := match ib_employerName b with
                          | Some s => Some (trim s)
                          | None => None
                          end in
      let row :=
        mkChildRow (gen_id e) (Some id)
                   [ ("source_type", VStr (ib_sourceType b));
                     ("employer_name", of_text employerName);
                     ("gross_income", of_text gross);
                     ("tax_deducted", of_text deducted);
                     ("ni_contributions", VStr "0.00");
                     ("start_date", of_text startDate);
                     ("end_date", of_text endDate);
                     ("created_at", VNum (now e)) ] in
      if existsb (fun r => String.eqb (ch_id r) (gen_id e)) (income_sources db) then
        Throw "23505"
      else if negb (existsb (fun r => String.eqb (tr_id r) id) (tax_returns db)) then
        Throw "23503"
      else
        match gross with
        | None => Throw "23502"
        | Some _ =>
            Ok (set_income_sources db (income_sources db ++ [row])%list, row)
        end
  end
  end
  end
  end.

(** [POST /api/tax-returns/:id/income] *)
Definition post_income (e : Entropy) (db : Db) (user : Principal) (id : string)
           (b : IncomeBody) : Db * Outcome :=
  match handleValidationErrors (income_errors b) with
  | Respond r => (db, Sent r)
  | Next _ =>
      match TaxReturn.findById db id with
      | None => (db, Sent (fail 404 "Tax return not found"))
      | Some taxReturn =>
          if (if String.eqb (p_role user) "customer" then
                customer_denied db user taxReturn
              else if String.eqb (p_role user) "accountant" then
                accountant_denied db user taxReturn
              else false)
          then (db, Sent (fail 403 "Access denied"))
          else
            match insert_income_source e db id b with
            | Throw m => (db, NextError m)
            | Ok (db', row) =>
                (db', Sent (ok_json 201 "Income source added successfully"
                                    (TaxReturn.child_json row)))
            end
      end
  end.
End AccountantRoutes.

(** The routes of the tax-return router, in the order they are
    registered, with the handler each one ends in. *)
Inductive Method : Type := GET | POST | PUT | DELETE.

Inductive Segment : Type :=
| Lit (s : string)
| Param (name : string).

Inductive Handler : Type :=
| CreateHandler
| ListHandler
| DetailsHandler
| StatusHandler
| AssignHandler
| CalculationsHandler
| FileHandler
| IncomeHandler
| StatsHandler
| DeleteHandler.

Definition tax_return_routes : list (Method * list Segment * Handler) :=
  [ (POST, [], CreateHandler);
    (GET, [], ListHandler);
    (GET, [Param "id"], DetailsHandler);
    (PUT, [Param "id"; Lit "status"], StatusHandler);
    (PUT, [Param "id"; Lit "assign"], AssignHandler);
    (PUT, [Param "id"; Lit "calculations"], CalculationsHandler);
    (POST, [Param "id"; Lit "file"], FileHandler);
    (POST, [Param "id"; Lit "income"], IncomeHandler);
    (GET, [Lit "stats"], StatsHandler);
    (DELETE, [Param "id"], DeleteHandler) ].

Definition method_eqb (a b : Method) : bool :=
  match a, b with
  | GET, GET | POST, POST | PUT, PUT | DELETE, DELETE => true
  | _, _ => false
  end.

(** Express's matching of a route path against the segments of the
    request path below the mount point: a literal matches its own text,
    whatever the case; a parameter matches any non-empty segment. *)
Fixpoint matches (pattern : list Segment) (segments : list string) : bool :=
  match pattern, segments with
  | [], [] => true
  | Lit s :: pattern', x :: segments' =>
      String.eqb (toLowerCase s) (toLowerCase x) && matches pattern' segments'
  | Param _ :: pattern', x :: segments' =>
      negb (String.eqb x "") && matches pattern' segments'
  | _, _ => false
  end.

(** The router runs the first route that matches; each route of this
    router answers or passes an error on, so no later route is tried. *)
Fixpoint dispatch (routes : list (Method * list Segment * Handler))
         (m : Method) (segments : list string) : option Handler :=
  match routes with
  | [] => None
  | (m', pattern, h) :: rest =>
      if method_eqb m m' && matches pattern segments then Some h
      else dispatch rest m segments
  end.

(* ================================================================== *)
(** ** [routes/uploads.js]: reading and deleting a document *)
(* ================================================================== *)

(** What [GET /documents/:id] ends with: a JSON answer, or the file at
    [file_path] sent with headers made from the row's [original_name] and
    [mime_type]. *)
Inductive Download : Type :=
| Answer (o : Outcome)
| SendFile (file_path original_name : string) (mime_type : option string).

(** [SELECT d.*, tr.customer_id, tr.accountant_id FROM documents d
    JOIN tax_returns tr ON d.tax_return_id = tr.id WHERE d.id = $1] *)
Definition document_with_return (db : Db) (id : string)
  : list (DocumentRow * TaxReturnRow) :=
  flat_map (fun d =>
              map (fun tr => (d, tr))
                  (filter (fun tr => col_eq (d_tax_return_id d) (tr_id tr))
                          (tax_returns db)))
           (filter (fun d => String.eqb (d_id d) id) (documents db)).

(** [customerCheck.rows[0]?.id] *)
Definition customerIdOfUser (db : Db) (userId : uuid) : value :=
  match first_row (filter (fun c => sql_eq (c_user_id c) (Some userId))
                          (customers db)) with
  | Some c => VStr (c_id c)
  | None => VUndefined
  end.

(** [GET /api/uploads/documents/:id] *)
Definition get_document (db : Db) (disk : Disk) (user : Principal) (id : string)
  : Download :=
  match first_row (document_with_return db id) with
  | None => Answer (Sent (fail 404 "Document not found"))
  | Some (document, tr) =>
      let hasAccess :=
        if String.eqb (p_role user) "admin" then true
        else if String.eqb (p_role user) "customer" then
          strict_eq (customerIdOfUser db (p_id user)) (of_text (tr_customer_id tr))
        else if String.eqb (p_role user) "accountant" then
          strict_eq (accountantIdOfUser db (p_id user)) (of_text (tr_accountant_id tr))
        else false in
      if negb hasAccess then Answer (Sent (fail 403 "Access denied"))
      else if negb (includes disk (d_file_path document)) then
        Answer (Sent (fail 404 "File not found on server"))
      else SendFile (d_file_path document) (d_original_name document)
                    (d_mime_type document)
  end.

(** [DELETE /api/uploads/documents/:id]: a failing [fs.unlink] is
    caught and logged, the file stays, and the row is deleted all the
    same. *)
Definition delete_document (unlink_fails : string -> bool) (db : Db) (disk : Disk)
           (user : Principal) (id : string) : Db * Disk * Outcome :=
  match first_row (document_with_return db id) with
  | None => (db, disk, Sent (fail 404 "Document not found"))
  | Some (document, tr) =>
      let hasAccess :=
        if String.eqb (p_role user) "admin"
           || strict_eq (of_text (d_uploaded_by document)) (VStr (p_id user))
        then true
        else if String.eqb (p_role user) "accountant" then
          strict_eq (accountantIdOfUser db (p_id user)) (of_text (tr_accountant_id tr))
        else false in
      if negb hasAccess then (db, disk, Sent (fail 403 "Access denied"))
      else
        let disk' := unlink_quietly unlink_fails (d_file_path document) disk in
        (set_documents db (filter (fun d => negb (String.eqb (d_id d) id)) (documents db)),
         disk',
         Sent (success_message "Document deleted successfully"))
  end.

(* ================================================================== *)
(** ** [server.js]: the static mount of the upload directory *)
(* ================================================================== *)

(** [app.use('/uploads', express.static('uploads'))], registered before
    the routers and behind no [authenticate]: a [GET /uploads/<name>],
    for a file name without path separator that does not start with a
    dot, is answered with the file [uploads/<name>] when there is one;
    the result is the file sent, or nothing when the request goes on to
    the routers. *)
Definition static_uploads (disk : Disk) (name : string) : option string :=
  let file := "uploads/" ++ name in
  if includes disk file then Some file else None.

(* ================================================================== *)
(** ** [routes/contact.js]: assigning an inquiry *)
(* ================================================================== *)

(** [contact_inquiries]: the key, the columns the assignment reads or
    writes, and the columns before them (the contact details, subject,
    message and type) and after them (the dates), each group kept as
    opaque JSON members. *)
Record InquiryRow : Type := mkInquiryRow {
  i_id : uuid;
  i_contact : list (string * value);
  i_status : option string;
  i_assigned_to : option uuid;
  i_dates : list (string * value)
}.

(** A row as [RETURNING *] gives it. *)
Definition inquiry_json (r : InquiryRow) : value :=
  VObj (("id", VStr (i_id r)) :: i_contact r
        ++ ("status", of_text (i_status r))
        :: ("assigned_to", of_text (i_assigned_to r)) :: i_dates r).

Section ContactRoutes.
Variable isUUID : string -> bool.

(** [PUT /api/contact/inquiries/:id/assign] (behind [authenticate]):
    [SET assigned_to = $1, status = CASE WHEN status = 'new' THEN
    'in_progress' ELSE status END]. *)
Definition put_inquiry_assign (db : Db) (inquiries : list InquiryRow)
           (user : Principal) (id assignedTo : string)
  : list InquiryRow * Outcome :=
  match authorize ["admin"] user with
  | Respond r => (inquiries, Sent r)
  | Next _ =>
  match handleValidationErrors
          (check (isUUID assignedTo) "assignedTo" "Invalid user ID") with
  | Respond r => (inquiries, Sent r)
  | Next _ =>
      let userCheck :=
        filter (fun u => String.eqb (u_id u) assignedTo && String.eqb (u_role u) "admin")
               (users db) in
      if (length userCheck =? 0)%nat then
        (inquiries, Sent (fail 400 "Invalid admin user ID"))
      else
        let hit := fun r => String.eqb (i_id r) id in
        let upd := fun r =>
          mkInquiryRow (i_id r) (i_contact r)
                       (match i_status r with
                        | Some s => if String.eqb s "new" then Some "in_progress"
                                    else Some s
                        | None => None
                        end)
                       (Some assignedTo) (i_dates r) in
        match first_row (filter hit inquiries) with
        | None => (inquiries, Sent (fail 404 "Contact inquiry not found"))
        | Some r =>
            (update_where hit upd inquiries,
             Sent (ok_json 200 "Inquiry assigned successfully" (inquiry_json (upd r))))
        end
  end
  end.
End ContactRoutes.

(* ================================================================== *)
(** * Properties *)
(* ================================================================== *)

(** ** Vocabulary of the statements *)

(** The credential columns of a [users] row replaced by other values. *)
Definition with_secrets (row : UserRow) (hash : string) (vtoken rtoken : option string)
           (rexpires : option timestamp) : UserRow :=
  mkUserRow (u_id row) (u_email row) hash (u_first_name row) (u_last_name row)
            (u_phone row) (u_role row) (u_is_verified row) vtoken rtoken rexpires
            (u_last_login row) (u_created_at row) (u_updated_at row).

(** [res.status] and the [message] / [error] members of a sent response. *)
Definition status_of (o : Outcome) : option nat :=
  match o with Sent r => Some (status r) | NextError _ => None end.

Definition message_of (o : Outcome) : value :=
  match o with Sent r => prop "message" (body r) | NextError _ => VUndefined end.

(** A row of [tax_returns] for customer [c] and tax year [y]. *)
Definition same_pair (c : uuid) (y : string) (r : TaxReturnRow) : bool :=
  sql_eq (tr_customer_id r) (Some c) && String.eqb (tr_tax_year r) y.

(** At most one tax return per (customer, tax year). *)
Definition at_most_one_per_year (db : Db) : Prop :=
  forall c y, length (filter (same_pair c y) (tax_returns db)) <= 1.


Section Serving.
Variable isISO8601 : string -> bool.
Variable isUUID : string -> bool.
Variable date : string -> result string.
Variable default_deadline : string.


End Serving.

(** Statements that read or write rows (not transaction control). *)
Definition is_data (st : Stmt) : bool :=
  match st with
  | BEGIN | COMMIT | ROLLBACK => false
  | _ => true
  end.

(** Statements sent one after the other, then [k]. *)
Definition sequence {A : Type} (sts : list Stmt) (k : M A) : M A :=
  fold_right (fun st rest => bindM (client_query st) (fun _ => rest)) k sts.

(** Their effect on a snapshot, stopping at the first error. *)
Definition run_all (sts : list Stmt) (w : Db) : result Db :=
  fold_left (fun r st => match r with Ok d => run st d | Throw e => Throw e end)
            sts (Ok w).

(** The statements of [TaxReturn.delete], in order. *)
Definition delete_statements (id : uuid) : list Stmt :=
  [DeleteMessages id; DeleteDocuments id; DeleteExpenses id;
   DeleteIncomeSources id; DeletePayments id; DeleteTaxReturn id].

(** A link on which no recorded round trip fails. *)
Definition calm (rounds : list Round) : Prop := forall r, In r rounds -> r = Answered.

(** The first [n] round trips are answered. *)
Definition answered_upto (n : nat) (rounds : list Round) : Prop :=
  forall i, i < n -> nth i rounds Answered = Answered.

(** The connection goes back to the pool with no transaction block left
    open on it. *)
Definition no_block (s : Session) : Prop := s = Idle \/ s = Closed.

(** The reading of the specification sentence on assignment: the
    accountant is set; a return in the default status (pending) moves to
    in_progress; a return in any other status keeps it. *)
Definition assign_respects_status (e : Entropy) (db : Db) (this : TaxReturn.t)
           (acc : uuid) : Prop :=
  forall db' tr',
    TaxReturn.assignAccountant e db this acc = Ok (db', tr') ->
    TaxReturn.accountantId tr' = Some acc
    /\ (TaxReturn.status this = "pending" -> TaxReturn.status tr' = "in_progress")
    /\ (TaxReturn.status this <> "pending" ->
        TaxReturn.status tr' = TaxReturn.status this).

(** ** A small store to run the handlers on *)

Definition sample_user (id email first role : string) : UserRow :=
  mkUserRow id email "$2a$12$hash" first "Example" None role true None None None None
            1700000000000 1700000000000.

Definition alice_row : UserRow := sample_user "u-alice" "alice@example.com" "Alice" "customer".
Definition bob_row : UserRow := sample_user "u-bob" "bob@example.com" "Bob" "customer".
Definition carol_row : UserRow := sample_user "u-carol" "carol@example.com" "Carol" "accountant".
Definition root_row : UserRow := sample_user "u-root" "root@example.com" "Root" "admin".

(** Alice's pending return for 2023-24, not yet assigned. *)
Definition return_1 : TaxReturnRow :=
  mkTaxReturnRow "tr-1" (Some "c-alice") None "2023-24" "pending" (Some "freelancer")
                 None None None (Some "2024-01-31") None None None (Some "169.00")
                 (Some "pending") 1700000000100 1700000000100.

(** Bob's return for 2023-24, filed by Carol. *)
Definition return_2 : TaxReturnRow :=
  mkTaxReturnRow "tr-2" (Some "c-bob") (Some "a-carol") "2023-24" "filed"
                 (Some "landlord") (Some "52000.00") (Some "8400.00") None
                 (Some "2024-01-31") (Some 1700000000900%Z) (Some "HMRC-77") None
                 (Some "169.00") (Some "paid") 1700000000200 1700000000900.

Definition sample_db : Db :=
  mkDb [alice_row; bob_row; carol_row; root_row]
       [mkCustomerRow "c-alice" (Some "u-alice"); mkCustomerRow "c-bob" (Some "u-bob")]
       [mkAccountantRow "a-carol" (Some "u-carol") (Some "ACCA") (Some 15%Z) true]
       [return_1; return_2]
       [mkChildRow "inc-1" (Some "tr-1") [("source_type", VStr "employment")];
        mkChildRow "inc-2" (Some "tr-2") [("source_type", VStr "rental")]]
       [mkChildRow "exp-1" (Some "tr-1") [("category", VStr "travel")]]
       [mkDocumentRow "doc-1" (Some "tr-1") (Some "u-alice") "p60" "p60.pdf"
                      "uploads/documents-1-1.pdf" (Some 1024%Z) (Some "application/pdf")
                      false 1700000000300]
       [mkMessageRow "msg-1" (Some "tr-1") (Some "u-alice") (Some "u-carol")
                     [("message", VStr "Hello")]]
       [mkChildRow "pay-1" (Some "tr-2") [("amount", VStr "169.00")]]
       [].

Definition principal_of (u : UserRow) : Principal :=
  mkPrincipal (u_id u) (u_email u) (u_role u) (u_first_name u) (u_last_name u).

Definition alice : Principal := principal_of alice_row.
Definition bob : Principal := principal_of bob_row.
Definition carol : Principal := principal_of carol_row.
Definition root : Principal := principal_of root_row.

(** A file system that lets go of every file, and one that does not
    let go of the file [held]. *)
Definition lets_go (p : string) : bool := false.
Definition holds (held p : string) : bool := String.eqb p held.

Definition sample_entropy : Entropy :=
  mkEntropy 1700000001000 "id-9" "id-10" "3f2b7c1e" "salt".

(** ** Vocabulary of the further statements *)

(** [users.id] is the primary key: no two rows share it. *)
Definition users_keyed (db : Db) : Prop := NoDup (map u_id (users db)).

(** The claims [generateToken] signs for a user at the time of [e]. *)
Definition claims_of (JWT_EXPIRES_IN : Z) (e : Entropy) (user : User.t) : Jwt.Claims :=
  Jwt.mkClaims (User.id user) (User.email user) (User.role user)
               (now e / 1000)%Z (now e / 1000 + JWT_EXPIRES_IN)%Z.

(** The [users] row a registration inserts. *)
Definition registered_row (normalizeEmail trim : string -> string)
           (bcrypt_hash : string -> string -> string)
           (e : Entropy) (b : RegisterBody) (role : string) : UserRow :=
  mkUserRow (gen_id e) (normalizeEmail (rb_email b))
            (bcrypt_hash (salt e) (rb_password b))
            (trim (rb_firstName b)) (trim (rb_lastName b)) (rb_phone b) role false
            (Some (uuidv4 e)) None None None (now e) (now e).

(** Two stores that differ at most in [users], [customers] and
    [accountants]. *)
Definition same_returns (db db' : Db) : Prop :=
  tax_returns db' = tax_returns db /\ income_sources db' = income_sources db
  /\ expenses db' = expenses db /\ documents db' = documents db
  /\ messages db' = messages db /\ payments db' = payments db
  /\ reviews db' = reviews db.

(** Two stores that differ at most in [users]. *)
Definition same_but_users (db db' : Db) : Prop :=
  customers db' = customers db /\ accountants db' = accountants db
  /\ same_returns db db'.

(** [role || 'customer'] of a registration. *)
Definition role_of (b : RegisterBody) : string :=
  match rb_role b with
  | Some r => if String.eqb r "" then "customer" else r
  | None => "customer"
  end.

(** The row [SELECT * FROM users WHERE email = $1] finds. *)
Definition found_by_email (db : Db) (email : string) (row : UserRow) : Prop :=
  first_row (filter (fun u => String.eqb (u_email u) email) (users db)) = Some row.

(** The columns of a [users] row that [User.update] must leave alone. *)
Definition same_account (u u' : UserRow) : Prop :=
  u_id u' = u_id u /\ u_email u' = u_email u
  /\ u_password_hash u' = u_password_hash u /\ u_role u' = u_role u
  /\ u_is_verified u' = u_is_verified u
  /\ u_verification_token u' = u_verification_token u
  /\ u_reset_password_token u' = u_reset_password_token u
  /\ u_reset_password_expires u' = u_reset_password_expires u
  /\ u_last_login u' = u_last_login u /\ u_created_at u' = u_created_at u.

(** What an update with [updateData] leaves in a column of a row: the
    value given under [key], or the value of before when the key is not
    given. *)
Definition written (key : string) (updateData : list (string * option string))
           (before after : option string) : Prop :=
  (forall v, In (key, v) updateData -> after = v)
  /\ ((forall v, ~ In (key, v) updateData) -> after = before).

(** A list in the order of an [ORDER BY]: no row sorts strictly before
    a row that precedes it. *)
Fixpoint in_order {A : Type} (before : A -> A -> bool) (l : list A) : Prop :=
  match l with
  | [] => True
  | a :: rest => (forall b, In b rest -> before b a = false) /\ in_order before rest
  end.

(** The timestamp or date a JSON row carries under key [k]. *)
Definition time_of (k : string) (v : value) : option Z :=
  match prop k v with VNum z => Some z | _ => None end.

Definition ascending_by (k : string) (rows : list value) : Prop :=
  in_order (fun a b => before_asc (time_of k a) (time_of k b)) rows.

Definition descending_by (k : string) (rows : list value) : Prop :=
  in_order (fun a b => before_desc (time_of k a) (time_of k b)) rows.

(** The customer of a return row and that customer's user, as the inner
    joins of [getFullDetails] pair them. *)
Definition owner_joined (db : Db) (row : TaxReturnRow) (c : CustomerRow) (u : UserRow)
  : Prop :=
  In c (customers db) /\ tr_customer_id row = Some (c_id c)
  /\ In u (users db) /\ c_user_id c = Some (u_id u).

(** The accountant of a return row as the left join pairs it: an
    accountant with the key the row names, or none when no accountant
    has it. *)
Definition accountant_joined (db : Db) (row : TaxReturnRow) (acc : option AccountantRow)
  : Prop :=
  match acc with
  | Some a => In a (accountants db) /\ tr_accountant_id row = Some (a_id a)
  | None => forall a, In a (accountants db) -> tr_accountant_id row <> Some (a_id a)
  end.

(** The user of the joined accountant, or none when there is no such
    user (or no accountant). *)
Definition accountant_user_joined (db : Db) (acc : option AccountantRow)
           (a_user : option UserRow) : Prop :=
  match a_user with
  | Some u => exists a, acc = Some a /\ In u (users db) /\ a_user_id a = Some (u_id u)
  | None => forall a u, acc = Some a -> In u (users db) -> a_user_id a <> Some (u_id u)
  end.

(** A list of times, newest first. *)
Fixpoint descending (l : list Z) : Prop :=
  match l with
  | [] => True
  | x :: rest => (forall y, In y rest -> (y <= x)%Z) /\ descending rest
  end.

(** The columns of a [tax_returns] row that say which return it is. *)
Definition same_return (r r' : TaxReturnRow) : Prop :=
  tr_id r' = tr_id r /\ tr_customer_id r' = tr_customer_id r
  /\ tr_tax_year r' = tr_tax_year r /\ tr_situation_type r' = tr_situation_type r
  /\ tr_submission_deadline r' = tr_submission_deadline r
  /\ tr_price r' = tr_price r /\ tr_created_at r' = tr_created_at r.

(** [db'] is [db] with the rows of [tax_returns] rewritten in place:
    every row is still the same return, rows with another key than [id]
    are untouched, and so is every other table. *)
Definition rewrites_return (id : uuid) (db db' : Db) : Prop :=
  users db' = users db /\ customers db' = customers db
  /\ accountants db' = accountants db /\ income_sources db' = income_sources db
  /\ expenses db' = expenses db /\ documents db' = documents db
  /\ messages db' = messages db /\ payments db' = payments db
  /\ reviews db' = reviews db
  /\ exists f,
       tax_returns db' = map f (tax_returns db)
       /\ (forall r, same_return r (f r))
       /\ (forall r, tr_id r <> id -> f r = r).

(** What [tax_returns] holds under key [id] in [db']: the first row with
    that key is the returned object [t'], and every row with that key
    satisfies [holds]. *)
Definition stored_return (id : uuid) (db' : Db) (t' : TaxReturn.t)
           (holds : TaxReturnRow -> Prop) : Prop :=
  TaxReturn.findById db' id = Some t'
  /\ forall r', In r' (tax_returns db') -> tr_id r' = id -> holds r'.

(** The items of a listing answer. *)
Definition listed (taxReturns : list TaxReturn.t) : Outcome :=
  Sent (success_data (VArr (map TaxReturn.toJSON taxReturns))).

(** Two stores that differ at most in [income_sources]. *)
Definition same_but_income (db db' : Db) : Prop :=
  users db' = users db /\ customers db' = customers db
  /\ accountants db' = accountants db /\ tax_returns db' = tax_returns db
  /\ expenses db' = expenses db /\ documents db' = documents db
  /\ messages db' = messages db /\ payments db' = payments db
  /\ reviews db' = reviews db.

(** The [documents] row the upload handler inserts for a stored file. *)
Definition document_row (e : Entropy) (user : Principal) (taxReturnId documentType : string)
           (file : File) : DocumentRow :=
  mkDocumentRow (row_id (part file)) (Some taxReturnId) (Some (p_id user))
                documentType (originalname (part file)) (path file)
                (Some (size (part file))) (Some (mimetype (part file)))
                false (now e).

(** Two stores that differ at most in [documents]. *)
Definition same_but_documents (db db' : Db) : Prop :=
  users db' = users db /\ customers db' = customers db
  /\ accountants db' = accountants db /\ tax_returns db' = tax_returns db
  /\ income_sources db' = income_sources db /\ expenses db' = expenses db
  /\ messages db' = messages db /\ payments db' = payments db
  /\ reviews db' = reviews db.

(** [req.body.documentType || 'other'] *)
Definition document_type_of (documentType : option string) : string :=
  match TaxReturn.given documentType with
  | Some t => t
  | None => "other"
  end.

(** The characters of a file name. *)
Definition chars (s : string) : list ascii := list_ascii_of_string s.

(** A name with no path separator in it, and one with no dot either. *)
Definition no_slash (s : string) : Prop := forall c, In c (chars s) -> c <> slash.
Definition no_dot (s : string) : Prop := forall c, In c (chars s) -> c <> dot.

(** The filters [GET /api/users] counts with: those of the query ([all]
    standing for no filter), without [limit] and [offset]. *)
Definition count_filters (role isVerified : option string) : User.Filters :=
  User.mkFilters
    (match role with
     | Some r => if String.eqb r "all" then None else Some r
     | None => None
     end)
    (match isVerified with
     | Some v => if String.eqb v "all" then None else Some (String.eqb v "true")
     | None => None
     end)
    None None.

(** ** Further sample values *)

(** Stand-ins for the third-party functions: a validator that accepts, a
    sanitizer that leaves its text alone, a hash that prepends the salt, a
    comparison that accepts one password, a reader of numbers and dates
    that stores the text as written, profile columns that are all NULL,
    and a token codec that carries the signature as the token and reads
    fixed claims out of every token. *)
Definition accepting (s : string) : bool := true.
Definition unchanged (s : string) : string := s.
Definition salted (salt password : string) : string := salt ++ password.
Definition knows (secret : string) (password hash : string) : bool :=
  String.eqb password secret.
Definition as_written (s : string) : result string := Ok s.


Definition no_cell (id : uuid) (column : string) : value := VNull.
Definition signature_only (c : Jwt.Claims) (sig : string) : string := sig.
Definition keyed (secret : string) (c : Jwt.Claims) : string := secret.
Definition reads_as (c : Jwt.Claims) (token : string) : option (Jwt.Claims * string) :=
  Some (c, token).

(** Dave registers as a customer. *)
Definition dave : RegisterBody :=
  mkRegisterBody "dave@example.com" "Passw0rd!" "Dave" "Example" None None.

Definition dave_row : UserRow :=
  registered_row unchanged unchanged salted sample_entropy dave "customer".

Definition registration : Db * Outcome :=
  register accepting unchanged accepting unchanged salted signature_only keyed
           "secret" 604800%Z sample_entropy sample_db dave.

Definition response_of (o : Outcome) : Response :=
  match o with Sent r => r | NextError m => fail 500 m end.

(** One hour and a second after [sample_entropy]. *)
Definition later : Entropy :=
  mkEntropy 1700003601000 "id-11" "id-12" "9a8b7c6d" "salt".

(** Two file parts: an ordinary one, and one whose name is longer than
    the 255 characters of [documents.original_name]. *)
Definition p45 : Part :=
  mkPart "documents" "p45.pdf" "application/pdf" 2048 "2-1" "doc-2".

Definition long_named : Part :=
  mkPart "documents" (string_of_list_ascii (repeat "a"%char 300) ++ ".pdf")
         "application/pdf" 2048 "2-2" "doc-3".

(** The sample store with a second document on Alice's return, uploaded
    by Carol. *)
Definition carol_upload : DocumentRow :=
  mkDocumentRow "doc-7" (Some "tr-1") (Some "u-carol") "other" "notes.pdf"
                "uploads/documents-7-7.pdf" (Some 512%Z) (Some "application/pdf")
                false 1700000000400.

Definition shared_db : Db :=
  set_documents sample_db (documents sample_db ++ [carol_upload])%list.

(** An inquiry that has been resolved and is assigned to nobody. *)
Definition inquiry_1 : InquiryRow :=
  mkInquiryRow "inq-1" [("name", VStr "Erin"); ("email", VStr "erin@example.com")]
               (Some "resolved") None [("created_at", VNum 1700000000500)].

(** ** Basic facts *)

Unset Implicit Arguments.

Lemma includes_In xs x : includes xs x = true <-> In x xs.
Proof.
  unfold includes. rewrite existsb_exists. split.
  - intros [y [Hy He]]. apply String.eqb_eq in He. now subst.
  - intros H. exists x. split; [assumption | apply String.eqb_refl].
Qed.

Lemma col_eq_true c x : col_eq c x = true <-> c = Some x.
Proof.
  destruct c as [y|]; simpl.
  - rewrite String.eqb_eq. split; [now intros -> | now intros [= ->]].
  - split; discriminate.
Qed.

Lemma sql_eq_true c x : sql_eq c (Some x) = true <-> c = Some x.
Proof.
  destruct c as [y|]; simpl.
  - rewrite String.eqb_eq. split; [now intros -> | now intros [= ->]].
  - split; discriminate.
Qed.

Lemma first_row_filter_none {A} (p : A -> bool) (l : list A) :
  first_row (filter p l) = None <-> (forall x, In x l -> p x = false).
Proof.
  unfold first_row. split.
  - intros H x Hx. destruct (p x) eqn:E; [|reflexivity].
    assert (Hin : In x (filter p l)) by (apply filter_In; auto).
    destruct (filter p l); [contradiction | discriminate].
  - intros H. destruct (filter p l) as [|y ys] eqn:E; [reflexivity|].
    assert (Hin : In y (filter p l)) by (rewrite E; now left).
    apply filter_In in Hin. destruct Hin as [Hy Hp].
    rewrite (H y Hy) in Hp. discriminate.
Qed.

Lemma first_row_filter_some {A} (p : A -> bool) (l : list A) x :
  first_row (filter p l) = Some x -> In x l /\ p x = true.
Proof.
  unfold first_row. intros H.
  destruct (filter p l) as [|y ys] eqn:E; [discriminate|].
  injection H as ->. apply filter_In. rewrite E. now left.
Qed.

Lemma first_row_filter_ex {A} (p : A -> bool) (l : list A) x :
  In x l -> p x = true -> exists y, first_row (filter p l) = Some y.
Proof.
  intros Hx Hp. destruct (first_row (filter p l)) as [y|] eqn:E.
  - now exists y.
  - rewrite first_row_filter_none in E. rewrite (E x Hx) in Hp. discriminate.
Qed.

(* ------------------------------------------------------------------ *)
(** ** [User.toJSON] *)
(* ------------------------------------------------------------------ *)

(** C10. For every user, [User.toJSON] returns an object with exactly the
    members id, email, firstName, lastName, phone, role, isVerified,
    lastLogin, createdAt, updatedAt, in that order; reading a password
    hash, verification token or reset token member from it gives
    [undefined]; and the object built from a [users] row does not depend
    on the row's password hash, verification token, reset-password token
    or reset expiry. *)
Theorem toJSON_public_fields_only :
  forall (this : User.t),
    keys (User.toJSON this) =
      ["id"; "email"; "firstName"; "lastName"; "phone"; "role"; "isVerified";
       "lastLogin"; "createdAt"; "updatedAt"]
    /\ (forall k,
          In k ["passwordHash"; "password_hash"; "verificationToken";
                "verification_token"; "resetPasswordToken"; "reset_password_token";
                "resetPasswordExpires"; "reset_password_expires"] ->
          prop k (User.toJSON this) = VUndefined)
    /\ (forall (row : UserRow) hash vtoken rtoken rexpires,
          User.toJSON (User.new (with_secrets row hash vtoken rtoken rexpires))
          = User.toJSON (User.new row)).
Proof.
  intros this. split; [reflexivity|]. split.
  - intros k Hk. simpl in Hk.
    repeat (destruct Hk as [<- | Hk]; [reflexivity|]). contradiction.
  - intros row hash vtoken rtoken rexpires. reflexivity.
Qed.

(* ------------------------------------------------------------------ *)
(** ** [authenticate] *)
(* ------------------------------------------------------------------ *)

Lemma substring_all (s : string) : String.substring 0 (String.length s) s = s.
Proof. induction s as [|c s IH]; simpl; [reflexivity | now rewrite IH]. Qed.

Lemma bearer_token (token : string) :
  startsWith ("Bearer " ++ token) "Bearer " = true
  /\ substring_from 7 ("Bearer " ++ token) = token.
Proof.
  split.
  - unfold startsWith. simpl. now destruct token.
  - unfold substring_from. simpl. rewrite Nat.sub_0_r. apply substring_all.
Qed.

Section AuthenticateFacts.
Variable decode : string -> option (Jwt.Claims * string).
Variable hmac : string -> Jwt.Claims -> string.
Variable JWT_SECRET : string.

Lemma authenticate_thrown t db token name :
  Jwt.verify decode hmac JWT_SECRET t token = Jwt.Thrown name ->
  authenticate decode hmac JWT_SECRET t db (Some ("Bearer " ++ token)) =
    if String.eqb name "TokenExpiredError" then
      Respond (fail 401 "Access denied. Token expired.")
    else if String.eqb name "JsonWebTokenError" then
      Respond (fail 401 "Access denied. Invalid token.")
    else Respond (fail 500 "Internal server error during authentication.").
Proof.
  intros Hv. unfold authenticate.
  destruct (bearer_token token) as [-> ->]. simpl negb. cbv iota.
  now rewrite Hv.
Qed.

(** C4. A bearer token that decodes, carries the signature the secret
    gives its claims and whose expiry is not after the current time is
    answered 401 with "Access denied. Token expired."; a bearer token
    whose signature is not the one the secret gives its claims (or that
    does not decode at all) is answered 401 with "Access denied. Invalid
    token."; the two answers differ. *)
Theorem authenticate_expired_vs_invalid :
  forall (t : Z) (db : Db) (token : string),
    (forall c sig,
        decode token = Some (c, sig) -> sig = hmac JWT_SECRET c -> (Jwt.exp c <= t)%Z ->
        authenticate decode hmac JWT_SECRET t db (Some ("Bearer " ++ token))
        = Respond (fail 401 "Access denied. Token expired."))
    /\ (forall c sig,
          decode token = Some (c, sig) -> sig <> hmac JWT_SECRET c ->
          authenticate decode hmac JWT_SECRET t db (Some ("Bearer " ++ token))
          = Respond (fail 401 "Access denied. Invalid token."))
    /\ (decode token = None ->
          authenticate decode hmac JWT_SECRET t db (Some ("Bearer " ++ token))
          = Respond (fail 401 "Access denied. Invalid token."))
    /\ fail 401 "Access denied. Token expired." <> fail 401 "Access denied. Invalid token.".
Proof.
  intros t db token. repeat split.
  - intros c sig Hd Hs He.
    rewrite (authenticate_thrown t db token "TokenExpiredError"); [reflexivity|].
    unfold Jwt.verify. rewrite Hd. subst sig. rewrite String.eqb_refl. simpl.
    apply Z.leb_le in He. now rewrite He.
  - intros c sig Hd Hs.
    rewrite (authenticate_thrown t db token "JsonWebTokenError"); [reflexivity|].
    unfold Jwt.verify. rewrite Hd.
    apply String.eqb_neq in Hs. now rewrite Hs.
  - intros Hd.
    rewrite (authenticate_thrown t db token "JsonWebTokenError"); [reflexivity|].
    unfold Jwt.verify. now rewrite Hd.
  - discriminate.
Qed.
End AuthenticateFacts.

(* ------------------------------------------------------------------ *)
(** ** [routes/auth.js] *)
(* ------------------------------------------------------------------ *)

Lemma findByEmail_some db email u :
  User.findByEmail db email = Some u ->
  exists row, In row (users db) /\ u_email row = email /\ u = User.new row.
Proof.
  unfold User.findByEmail. intros H.
  destruct (first_row (filter (fun u0 => String.eqb (u_email u0) email) (users db)))
    as [row|] eqn:E; [|discriminate].
  apply first_row_filter_some in E. destruct E as [Hin He].
  apply String.eqb_eq in He. injection H as <-. now exists row.
Qed.

Lemma findByEmail_present db email :
  In email (map u_email (users db)) -> exists u, User.findByEmail db email = Some u.
Proof.
  intros H. apply in_map_iff in H. destruct H as [row [He Hin]].
  unfold User.findByEmail.
  destruct (first_row_filter_ex (fun u0 => String.eqb (u_email u0) email) (users db) row Hin)
    as [y Hy].
  - rewrite He. apply String.eqb_refl.
  - rewrite Hy. eauto.
Qed.

Section AuthRoutesFacts.
Variable isEmail : string -> bool.
Variable normalizeEmail : string -> string.
Variable isMobilePhone_enGB : string -> bool.
Variable trim : string -> string.
Variable bcrypt_hash : string -> string -> string.
Variable encode : Jwt.Claims -> string -> string.
Variable hmac : string -> Jwt.Claims -> string.
Variable JWT_SECRET : string.
Variable JWT_EXPIRES_IN : Z.

Lemma register_taken e db b :
  register_errors isEmail isMobilePhone_enGB trim b = [] ->
  In (normalizeEmail (rb_email b)) (map u_email (users db)) ->
  register isEmail normalizeEmail isMobilePhone_enGB trim bcrypt_hash encode hmac
           JWT_SECRET JWT_EXPIRES_IN e db b
  = (db, Sent (fail 400 "User with this email already exists")).
Proof.
  intros Hv Hin. unfold register. rewrite Hv. simpl.
  destruct (findByEmail_present db _ Hin) as [u ->]. reflexivity.
Qed.

Lemma register_created_stores_email e db b db1 r :
  register isEmail normalizeEmail isMobilePhone_enGB trim bcrypt_hash encode hmac
           JWT_SECRET JWT_EXPIRES_IN e db b = (db1, Sent r) ->
  status r = 201 ->
  In (normalizeEmail (rb_email b)) (map u_email (users db1)).
Proof.
  unfold register.
  destruct (handleValidationErrors _) as [[]|r0] eqn:Hv.
  2:{ intros [= <- <-] Hs. unfold handleValidationErrors in Hv.
      destruct (register_errors _ _ _ b); [discriminate|].
      injection Hv as <-. discriminate. }
  simpl rb_email.
  destruct (User.findByEmail db (normalizeEmail (rb_email b))) eqn:Hf.
  { intros [= <- <-]. discriminate. }
  unfold User.create, User.insert_user.
  destruct (existsb _ (users db)); [simpl; discriminate|].
  cbv beta iota zeta. simpl User.role. simpl User.id.
  set (role := match rb_role _ with Some r0 => _ | None => _ end).
  set (row := mkUserRow _ _ _ _ _ _ _ _ _ _ _ _ _ _).
  assert (Hrow : In (normalizeEmail (rb_email b))
                    (map u_email (users db ++ [row]))).
  { rewrite map_app. apply in_or_app. right. now left. }
  destruct (String.eqb role "customer").
  - unfold insert_customer. destruct (existsb _ _); [discriminate|].
    intros [= <- <-] _. exact Hrow.
  - destruct (String.eqb role "accountant").
    + unfold insert_accountant. destruct (existsb _ _); [discriminate|].
      intros [= <- <-] _. exact Hrow.
    + intros [= <- <-] _. exact Hrow.
Qed.

(** C5. A valid [POST /api/auth/register] whose (normalised) email is
    already in the [users] table is answered 400 "User with this email
    already exists" and leaves the store as it was; in particular,
    after a registration that was answered 201, every further valid
    registration with the same email is answered 400 and changes
    nothing, so the table never holds a second row for it. *)
Theorem register_duplicate_email_rejected :
  forall (e : Entropy) (db : Db) (b : RegisterBody),
    register_errors isEmail isMobilePhone_enGB trim b = [] ->
    (In (normalizeEmail (rb_email b)) (map u_email (users db)) ->
     register isEmail normalizeEmail isMobilePhone_enGB trim bcrypt_hash encode hmac
              JWT_SECRET JWT_EXPIRES_IN e db b
     = (db, Sent (fail 400 "User with this email already exists")))
    /\ (forall db1 r e2 b2,
          register isEmail normalizeEmail isMobilePhone_enGB trim bcrypt_hash encode hmac
                   JWT_SECRET JWT_EXPIRES_IN e db b = (db1, Sent r) ->
          status r = 201 ->
          rb_email b2 = rb_email b ->
          register_errors isEmail isMobilePhone_enGB trim b2 = [] ->
          register isEmail normalizeEmail isMobilePhone_enGB trim bcrypt_hash encode hmac
                   JWT_SECRET JWT_EXPIRES_IN e2 db1 b2
          = (db1, Sent (fail 400 "User with this email already exists"))).
Proof.
  intros e db b Hv. split.
  - now apply register_taken.
  - intros db1 r e2 b2 H1 Hs He Hv2. apply register_taken; [assumption|].
    rewrite He. eapply register_created_stores_email; eassumption.
Qed.

Section ForgotPassword.
Variable NODE_ENV : option string.

Lemma forgot_password_unknown e db email :
  isEmail email = true ->
  ~ In (normalizeEmail email) (map u_email (users db)) ->
  forgot_password isEmail normalizeEmail NODE_ENV e db email
  = (db, Sent (mkResponse 200
         (VObj [("success", VBool true);
                ("message",
                 VStr "If an account with that email exists, we have sent a password reset link.")]))).
Proof.
  intros Hv Hout. unfold forgot_password. rewrite Hv. simpl.
  destruct (User.findByEmail db (normalizeEmail email)) as [u|] eqn:Hf; [|reflexivity].
  exfalso. apply Hout. apply findByEmail_some in Hf.
  destruct Hf as [row [Hr [He _]]]. rewrite <- He. now apply in_map.
Qed.

Lemma forgot_password_known e db email :
  development NODE_ENV = false ->
  isEmail email = true ->
  In (normalizeEmail email) (map u_email (users db)) ->
  exists db',
    forgot_password isEmail normalizeEmail NODE_ENV e db email
    = (db', Sent (mkResponse 200
          (VObj [("success", VBool true);
                 ("message", VStr "Password reset link sent to your email")]))).
Proof.
  intros Hdev Hv Hin. unfold forgot_password. rewrite Hv, Hdev. simpl.
  destruct (findByEmail_present db _ Hin) as [u Hf]. rewrite Hf.
  apply findByEmail_some in Hf. destruct Hf as [row [Hr [He ->]]].
  unfold User.setResetPasswordToken. simpl User.id.
  destruct (first_row_filter_ex (fun u0 => String.eqb (u_id u0) (u_id row))
                                (users db) row Hr (String.eqb_refl _)) as [y ->].
  eexists. reflexivity.
Qed.

(** C9 (what the code does). Outside development mode, a request for
    an email with an account and a request for an email without one are
    both answered 200, but with different messages: "Password reset link
    sent to your email" against "If an account with that email exists, we
    have sent a password reset link.". The message tells the caller
    whether the account exists. *)
Theorem forgot_password_message_differs :
  forall (e : Entropy) (db : Db) (known unknown : string),
    development NODE_ENV = false ->
    isEmail known = true -> isEmail unknown = true ->
    In (normalizeEmail known) (map u_email (users db)) ->
    ~ In (normalizeEmail unknown) (map u_email (users db)) ->
    status_of (snd (forgot_password isEmail normalizeEmail NODE_ENV e db known)) = Some 200
    /\ status_of (snd (forgot_password isEmail normalizeEmail NODE_ENV e db unknown))
       = Some 200
    /\ message_of (snd (forgot_password isEmail normalizeEmail NODE_ENV e db known))
       = VStr "Password reset link sent to your email"
    /\ message_of (snd (forgot_password isEmail normalizeEmail NODE_ENV e db unknown))
       = VStr "If an account with that email exists, we have sent a password reset link."
    /\ message_of (snd (forgot_password isEmail normalizeEmail NODE_ENV e db known))
       <> message_of (snd (forgot_password isEmail normalizeEmail NODE_ENV e db unknown)).
Proof.
  intros e db known unknown Hdev Hk Hu Hin Hout.
  rewrite (forgot_password_unknown e db unknown Hu Hout).
  destruct (forgot_password_known e db known Hdev Hk Hin) as [db' ->].
  simpl. repeat split; discriminate.
Qed.
End ForgotPassword.
End AuthRoutesFacts.

(* ------------------------------------------------------------------ *)
(** ** [routes/taxReturns.js]: reading one return *)
(* ------------------------------------------------------------------ *)

Lemma findById_some db id tr :
  TaxReturn.findById db id = Some tr ->
  exists row,
    first_row (filter (fun r => String.eqb (tr_id r) id) (tax_returns db)) = Some row
    /\ In row (tax_returns db) /\ tr_id row = id /\ tr = TaxReturn.new row.
Proof.
  unfold TaxReturn.findById. intros H.
  destruct (first_row (filter (fun r => String.eqb (tr_id r) id) (tax_returns db)))
    as [row|] eqn:E; [|discriminate].
  injection H as <-. exists row. split; [reflexivity|].
  apply first_row_filter_some in E. destruct E as [Hin He].
  apply String.eqb_eq in He. auto.
Qed.

(** The resolved customer id is [null] or a non-empty key of [customers]. *)
Lemma getCustomerIdFromUser_cases db userId :
  getCustomerIdFromUser db userId = VNull
  \/ exists c, In c (customers db) /\ c_user_id c = Some userId
               /\ c_id c <> "" /\ getCustomerIdFromUser db userId = VStr (c_id c).
Proof.
  unfold getCustomerIdFromUser.
  destruct (first_row (filter (fun c => sql_eq (c_user_id c) (Some userId)) (customers db)))
    as [c|] eqn:E; [|now left].
  apply first_row_filter_some in E. destruct E as [Hin He].
  apply sql_eq_true in He. unfold js_or. simpl.
  destruct (String.eqb (c_id c) "") eqn:Ec; simpl; [now left|].
  right. exists c. apply String.eqb_neq in Ec. auto.
Qed.

Lemma strict_eq_text o v :
  (v = VNull \/ exists s, v = VStr s) ->
  strict_eq (of_text o) v = true <-> of_text o = v.
Proof.
  intros [-> | [s ->]]; destruct o as [x|]; simpl; split; try congruence.
  - intros H. apply String.eqb_eq in H. now subst.
  - intros [= ->]. apply String.eqb_refl.
Qed.

(** *** [ORDER BY] *)

Lemma before_asc_asym a b : before_asc a b = true -> before_asc b a = false.
Proof.
  destruct a as [x|], b as [y|]; simpl; try congruence.
  intros H. apply Z.ltb_lt in H. apply Z.ltb_ge. lia.
Qed.

Lemma before_asc_trans a b c :
  before_asc b a = false -> before_asc c b = false -> before_asc c a = false.
Proof.
  destruct a as [x|], b as [y|], c as [z|]; simpl; try congruence.
  intros H1 H2. apply Z.ltb_ge in H1, H2. apply Z.ltb_ge. lia.
Qed.

Lemma insert_by_In {A} (before : A -> A -> bool) (r x : A) l :
  In x (insert_by before r l) <-> x = r \/ In x l.
Proof.
  induction l as [|y l IH]; simpl.
  - split; intros [H|H]; auto.
  - destruct (before r y); simpl; [|rewrite IH]; split; intros H;
      repeat (destruct H as [H|H]); auto.
Qed.

Lemma order_by_In {A} (before : A -> A -> bool) (x : A) l :
  In x (order_by before l) <-> In x l.
Proof.
  unfold order_by. induction l as [|y l IH]; simpl; [tauto|].
  rewrite insert_by_In, IH. split; intros [H|H]; auto.
Qed.

Lemma insert_by_in_order {A} (before : A -> A -> bool) (r : A) l :
  (forall a b, before a b = true -> before b a = false) ->
  (forall a b c, before b a = false -> before c b = false -> before c a = false) ->
  in_order before l -> in_order before (insert_by before r l).
Proof.
  intros Hasym Htrans. induction l as [|x l IH]; simpl.
  - intros _. split; [intros b []| exact I].
  - intros [Hx Hl]. destruct (before r x) eqn:E; simpl.
    + split; [|split; assumption].
      intros b [<- | Hb]; [now apply Hasym|].
      apply (Htrans r x b); [now apply Hasym | now apply Hx].
    + split; [|now apply IH].
      intros b Hb. apply insert_by_In in Hb. destruct Hb as [-> | Hb]; [exact E | now apply Hx].
Qed.

Lemma order_by_in_order {A} (before : A -> A -> bool) l :
  (forall a b, before a b = true -> before b a = false) ->
  (forall a b c, before b a = false -> before c b = false -> before c a = false) ->
  in_order before (order_by before l).
Proof.
  intros Hasym Htrans. unfold order_by. induction l as [|x l IH]; simpl; [exact I|].
  now apply insert_by_in_order.
Qed.

Lemma order_by_asc {A} (key : A -> option Z) l :
  in_order (fun a b => before_asc (key a) (key b))
           (order_by (fun a b => before_asc (key a) (key b)) l).
Proof.
  apply order_by_in_order.
  - intros a b. apply before_asc_asym.
  - intros a b c. apply before_asc_trans.
Qed.

Lemma order_by_desc {A} (key : A -> option Z) l :
  in_order (fun a b => before_desc (key a) (key b))
           (order_by (fun a b => before_desc (key a) (key b)) l).
Proof.
  apply order_by_in_order; unfold before_desc.
  - intros a b. apply before_asc_asym.
  - intros a b c H1 H2. exact (before_asc_trans _ _ _ H2 H1).
Qed.

Lemma in_order_pairs {A} (before : A -> A -> bool) l :
  (forall a b, In a l -> In b l -> before b a = false) -> in_order before l.
Proof.
  induction l as [|x l IH]; simpl; [intros _; exact I|].
  intros H. split.
  - intros b Hb. apply H; auto.
  - apply IH. intros a b Ha Hb. apply H; auto.
Qed.

Lemma in_order_app {A} (before : A -> A -> bool) l1 l2 :
  in_order before l1 -> in_order before l2 ->
  (forall a b, In a l1 -> In b l2 -> before b a = false) ->
  in_order before (l1 ++ l2)%list.
Proof.
  induction l1 as [|x l1 IH]; simpl; [intros _ H _; exact H|].
  intros [Hx H1] H2 H. split.
  - intros b Hb. apply in_app_or in Hb. destruct Hb as [Hb|Hb]; [now apply Hx|].
    apply H; auto.
  - apply IH; auto.
Qed.

(** A join keeps the order of the rows it starts from. *)
Lemma in_order_flat_map {A B} (bA : A -> A -> bool) (bB : B -> B -> bool)
      (f : A -> list B) l :
  (forall a, bA a a = false) ->
  (forall a b v w, In v (f a) -> In w (f b) -> bB v w = bA a b) ->
  in_order bA l -> in_order bB (flat_map f l).
Proof.
  intros Hirr Hkey. induction l as [|x l IH]; simpl; [intros _; exact I|].
  intros [Hx Hl]. apply in_order_app.
  - apply in_order_pairs. intros a b Ha Hb. rewrite (Hkey x x b a Hb Ha). apply Hirr.
  - now apply IH.
  - intros a b Ha Hb. apply in_flat_map in Hb. destruct Hb as [y [Hy Hb]].
    rewrite (Hkey y x b a Hb Ha). now apply Hx.
Qed.

Lemma in_order_map {A B} (bA : A -> A -> bool) (bB : B -> B -> bool) (f : A -> B) l :
  (forall a b, bB (f a) (f b) = bA a b) ->
  in_order bA l -> in_order bB (map f l).
Proof.
  intros Hkey. induction l as [|x l IH]; simpl; [intros _; exact I|].
  intros [Hx Hl]. split; [|now apply IH].
  intros b Hb. apply in_map_iff in Hb. destruct Hb as [y [<- Hy]].
  rewrite Hkey. now apply Hx.
Qed.

Lemma before_asc_irrefl a : before_asc a a = false.
Proof. destruct a as [x|]; simpl; [apply Z.ltb_irrefl | reflexivity]. Qed.

Lemma column_time_app k cols extra :
  get_field k extra = VUndefined ->
  column_time k (cols ++ extra) = column_time k cols.
Proof.
  intros He. unfold column_time. induction cols as [|[k' v] cols IH]; simpl.
  - now rewrite He.
  - destruct (String.eqb k k'); [reflexivity | exact IH].
Qed.

Lemma first_row_app {A} (l1 l2 : list A) x :
  In x l1 -> exists y, first_row (l1 ++ l2) = Some y /\ In y l1.
Proof.
  destruct l1 as [|a l1]; [contradiction|]. intros _. exists a. split; [reflexivity | now left].
Qed.

Lemma left_join_In {A} (matches : list A) (x : option A) :
  In x (TaxReturn.left_join matches) ->
  match x with Some a => In a matches | None => matches = [] end.
Proof.
  destruct matches as [|m l]; simpl.
  - intros [<- | []]. reflexivity.
  - intros [<- | H]; [now left|].
    apply in_map_iff in H. destruct H as [a [<- Ha]]. now right.
Qed.

Lemma left_join_inhabited {A} (l : list A) : exists x, In x (TaxReturn.left_join l).
Proof.
  destruct l as [|a l]; simpl.
  - exists None. now left.
  - exists (Some a). now left.
Qed.

Lemma first_row_in {A} (l : list A) x : In x l -> exists y, first_row l = Some y /\ In y l.
Proof. destruct l as [|a l]; [contradiction|]. intros _. exists a. split; [reflexivity | now left]. Qed.

Lemma first_row_In {A} (l : list A) x : first_row l = Some x -> In x l.
Proof. destruct l as [|a l]; [discriminate|]. intros [= <-]. now left. Qed.

Lemma first_row_flat_map_first {A B} (f : A -> list B) (l : list A) x v :
  first_row l = Some x -> In v (f x) ->
  exists y, first_row (flat_map f l) = Some y /\ In y (f x).
Proof.
  destruct l as [|a l]; [discriminate|]. intros [= ->] Hv. simpl flat_map.
  now apply first_row_app with (x := v).
Qed.

(** With the customer of the return and that customer's user in place,
    [getFullDetails] is the row of the return with the columns of the
    joins. *)
Lemma getFullDetails_joined db row :
  first_row (filter (fun r => String.eqb (tr_id r) (tr_id row)) (tax_returns db)) = Some row ->
  (exists c u, owner_joined db row c u) ->
  exists c u acc a_user,
    owner_joined db row c u /\ accountant_joined db row acc
    /\ accountant_user_joined db acc a_user
    /\ TaxReturn.getFullDetails db (TaxReturn.new row)
       = VObj (TaxReturn.columns row ++
               [ ("customer_name", VStr (TaxReturn.full_name u));
                 ("customer_email", VStr (u_email u));
                 ("customer_phone", of_text (u_phone u));
                 ("accountant_name",
                  VStr (match a_user with
                        | Some a => TaxReturn.full_name a
                        | None => " "
                        end));
                 ("accountant_email",
                  match a_user with Some a => VStr (u_email a) | None => VNull end);
                 ("accountant_qualification",
                  match acc with Some a => of_text (a_qualification a) | None => VNull end);
                 ("accountant_experience",
                  match acc with Some a => of_num (a_experience_years a) | None => VNull end) ]).
Proof.
  intros Hfirst [c [u [Hc [Hcid [Hu Huid]]]]].
  unfold TaxReturn.getFullDetails. simpl TaxReturn.id.
  match goal with |- context [first_row (flat_map ?F _)] => set (F0 := F) end.
  assert (Hex : exists v, In v (F0 row)).
  { destruct (left_join_inhabited
                (filter (fun a => sql_eq (tr_accountant_id row) (Some (a_id a)))
                        (accountants db))) as [acc Hacc].
    destruct (left_join_inhabited
                (match acc with
                 | Some a => filter (fun u0 => sql_eq (a_user_id a) (Some (u_id u0)))
                                    (users db)
                 | None => []
                 end)) as [au Hau].
    eexists. unfold F0.
    apply in_flat_map. exists c. split.
    { apply filter_In. split; [assumption | now apply sql_eq_true]. }
    apply in_flat_map. exists u. split.
    { apply filter_In. split; [assumption | now apply sql_eq_true]. }
    apply in_flat_map. exists acc. split; [exact Hacc|].
    apply in_map_iff. exists au. split; [reflexivity | exact Hau]. }
  destruct Hex as [v Hv].
  destruct (first_row_flat_map_first F0 _ row v Hfirst Hv) as [y [Hy Hin]].
  rewrite Hy. unfold F0 in Hin.
  apply in_flat_map in Hin. destruct Hin as [c' [Hc' Hin]].
  apply filter_In in Hc'. destruct Hc' as [Hc'in Hc'eq]. apply sql_eq_true in Hc'eq.
  apply in_flat_map in Hin. destruct Hin as [u' [Hu' Hin]].
  apply filter_In in Hu'. destruct Hu' as [Hu'in Hu'eq]. apply sql_eq_true in Hu'eq.
  apply in_flat_map in Hin. destruct Hin as [acc [Hacc Hin]].
  apply left_join_In in Hacc.
  apply in_map_iff in Hin. destruct Hin as [au [<- Hau]].
  apply left_join_In in Hau.
  exists c', u', acc, au. split; [repeat split; assumption|]. split; [|split].
  - destruct acc as [a|]; simpl.
    + apply filter_In in Hacc. destruct Hacc as [Ha He]. apply sql_eq_true in He. now split.
    + intros a Ha He.
      assert (Hx : In a (filter (fun a0 => sql_eq (tr_accountant_id row) (Some (a_id a0)))
                                (accountants db))).
      { apply filter_In. split; [assumption | now apply sql_eq_true]. }
      rewrite Hacc in Hx. contradiction.
  - destruct au as [u2|]; simpl.
    + destruct acc as [a|]; [|contradiction].
      apply filter_In in Hau. destruct Hau as [Hu2 He]. apply sql_eq_true in He.
      exists a. repeat split; assumption.
    + intros a u0 -> Hu0 He.
      assert (Hx : In u0 (filter (fun u1 => sql_eq (a_user_id a) (Some (u_id u1)))
                                 (users db))).
      { apply filter_In. split; [assumption | now apply sql_eq_true]. }
      rewrite Hau in Hx. contradiction.
  - reflexivity.
Qed.

(** With no customer and user to join to any row of that key,
    [getFullDetails] is [null]. *)
Lemma getFullDetails_null db (this : TaxReturn.t) :
  (forall r c u, In r (tax_returns db) -> tr_id r = TaxReturn.id this ->
                 ~ owner_joined db r c u) ->
  TaxReturn.getFullDetails db this = VNull.
Proof.
  intros Hnone. unfold TaxReturn.getFullDetails.
  match goal with |- match first_row ?rows with _ => _ end = _ =>
    destruct (first_row rows) as [v|] eqn:E end; [|reflexivity].
  exfalso. apply first_row_In in E.
  apply in_flat_map in E. destruct E as [r [Hr E]].
  apply filter_In in Hr. destruct Hr as [Hr Hid]. apply String.eqb_eq in Hid.
  apply in_flat_map in E. destruct E as [c [Hc E]].
  apply filter_In in Hc. destruct Hc as [Hc Hce]. apply sql_eq_true in Hce.
  apply in_flat_map in E. destruct E as [u [Hu _]].
  apply filter_In in Hu. destruct Hu as [Hu Hue]. apply sql_eq_true in Hue.
  apply (Hnone r c u Hr Hid). repeat split; assumption.
Qed.

Lemma getIncomeSources_In db (this : TaxReturn.t) v :
  In v (TaxReturn.getIncomeSources db this)
  <-> exists r, In r (income_sources db) /\ ch_tax_return_id r = Some (TaxReturn.id this)
                /\ v = TaxReturn.child_json r.
Proof.
  unfold TaxReturn.getIncomeSources. rewrite in_map_iff. split.
  - intros [r [<- Hr]]. apply order_by_In in Hr. apply filter_In in Hr.
    destruct Hr as [Hr He]. apply col_eq_true in He. eauto.
  - intros [r [Hr [He ->]]]. exists r. split; [reflexivity|].
    apply order_by_In. apply filter_In. split; [assumption | now apply col_eq_true].
Qed.

Lemma getIncomeSources_order db (this : TaxReturn.t) :
  ascending_by "created_at" (TaxReturn.getIncomeSources db this).
Proof.
  unfold ascending_by, TaxReturn.getIncomeSources.
  apply in_order_map
    with (bA := fun a b => before_asc (column_time "created_at" (ch_columns a))
                                      (column_time "created_at" (ch_columns b))).
  - intros a b. reflexivity.
  - apply (order_by_asc (fun r => column_time "created_at" (ch_columns r))).
Qed.

Lemma getExpenses_In db (this : TaxReturn.t) v :
  In v (TaxReturn.getExpenses db this)
  <-> exists r, In r (expenses db) /\ ch_tax_return_id r = Some (TaxReturn.id this)
                /\ v = TaxReturn.child_json r.
Proof.
  unfold TaxReturn.getExpenses. rewrite in_map_iff. split.
  - intros [r [<- Hr]]. apply order_by_In in Hr. apply filter_In in Hr.
    destruct Hr as [Hr He]. apply col_eq_true in He. eauto.
  - intros [r [Hr [He ->]]]. exists r. split; [reflexivity|].
    apply order_by_In. apply filter_In. split; [assumption | now apply col_eq_true].
Qed.

Lemma getExpenses_order db (this : TaxReturn.t) :
  descending_by "expense_date" (TaxReturn.getExpenses db this).
Proof.
  unfold descending_by, TaxReturn.getExpenses.
  apply in_order_map
    with (bA := fun a b => before_desc (column_time "expense_date" (ch_columns a))
                                       (column_time "expense_date" (ch_columns b))).
  - intros a b. reflexivity.
  - apply (order_by_desc (fun r => column_time "expense_date" (ch_columns r))).
Qed.

Lemma getDocuments_In db (this : TaxReturn.t) v :
  In v (TaxReturn.getDocuments db this)
  <-> exists d u, In d (documents db) /\ d_tax_return_id d = Some (TaxReturn.id this)
                  /\ In u (users db) /\ d_uploaded_by d = Some (u_id u)
                  /\ v = VObj (TaxReturn.document_columns d
                               ++ [("uploaded_by_name", VStr (TaxReturn.full_name u))]).
Proof.
  unfold TaxReturn.getDocuments. rewrite in_flat_map. split.
  - intros [d [Hd Hv]]. apply order_by_In in Hd. apply filter_In in Hd.
    destruct Hd as [Hd He]. apply col_eq_true in He.
    apply in_map_iff in Hv. destruct Hv as [u [<- Hu]].
    apply filter_In in Hu. destruct Hu as [Hu Hue]. apply sql_eq_true in Hue.
    exists d, u. repeat split; assumption.
  - intros [d [u [Hd [He [Hu [Hue ->]]]]]]. exists d. split.
    + apply order_by_In. apply filter_In. split; [assumption | now apply col_eq_true].
    + apply in_map_iff. exists u. split; [reflexivity|].
      apply filter_In. split; [assumption | now apply sql_eq_true].
Qed.

Lemma getDocuments_order db (this : TaxReturn.t) :
  descending_by "created_at" (TaxReturn.getDocuments db this).
Proof.
  unfold descending_by, TaxReturn.getDocuments.
  apply in_order_flat_map
    with (bA := fun a b => before_desc (Some (d_created_at a)) (Some (d_created_at b))).
  - intros a. apply before_asc_irrefl.
  - intros a b v w Hv Hw.
    apply in_map_iff in Hv. destruct Hv as [u [<- _]].
    apply in_map_iff in Hw. destruct Hw as [u' [<- _]]. reflexivity.
  - apply (order_by_desc (fun d => Some (d_created_at d))).
Qed.

Lemma getMessages_In db (this : TaxReturn.t) v :
  In v (TaxReturn.getMessages db this)
  <-> exists m sender recipient,
        In m (messages db) /\ m_tax_return_id m = Some (TaxReturn.id this)
        /\ In sender (users db) /\ m_sender_id m = Some (u_id sender)
        /\ In recipient (users db) /\ m_recipient_id m = Some (u_id recipient)
        /\ v = VObj (("id", VStr (m_id m))
                     :: ("tax_return_id", of_text (m_tax_return_id m))
                     :: ("sender_id", of_text (m_sender_id m))
                     :: ("recipient_id", of_text (m_recipient_id m))
                     :: m_columns m
                     ++ [ ("sender_name", VStr (TaxReturn.full_name sender));
                          ("recipient_name", VStr (TaxReturn.full_name recipient)) ]).
Proof.
  unfold TaxReturn.getMessages. rewrite in_flat_map. split.
  - intros [m [Hm Hv]]. apply order_by_In in Hm. apply filter_In in Hm.
    destruct Hm as [Hm He]. apply col_eq_true in He.
    apply in_flat_map in Hv. destruct Hv as [sd [Hs Hv]].
    apply filter_In in Hs. destruct Hs as [Hs Hse]. apply sql_eq_true in Hse.
    apply in_map_iff in Hv. destruct Hv as [rc [<- Hr]].
    apply filter_In in Hr. destruct Hr as [Hr Hre]. apply sql_eq_true in Hre.
    exists m, sd, rc. repeat split; assumption.
  - intros [m [sd [rc [Hm [He [Hs [Hse [Hr [Hre ->]]]]]]]]]. exists m. split.
    + apply order_by_In. apply filter_In. split; [assumption | now apply col_eq_true].
    + apply in_flat_map. exists sd. split.
      { apply filter_In. split; [assumption | now apply sql_eq_true]. }
      apply in_map_iff. exists rc. split; [reflexivity|].
      apply filter_In. split; [assumption | now apply sql_eq_true].
Qed.

Lemma getMessages_order db (this : TaxReturn.t) :
  ascending_by "created_at" (TaxReturn.getMessages db this).
Proof.
  unfold ascending_by, TaxReturn.getMessages.
  apply in_order_flat_map
    with (bA := fun a b => before_asc (column_time "created_at" (m_columns a))
                                      (column_time "created_at" (m_columns b))).
  - intros a. apply before_asc_irrefl.
  - intros a b v w Hv Hw.
    apply in_flat_map in Hv. destruct Hv as [s1 [_ Hv]].
    apply in_map_iff in Hv. destruct Hv as [r1 [<- _]].
    apply in_flat_map in Hw. destruct Hw as [s2 [_ Hw]].
    apply in_map_iff in Hw. destruct Hw as [r2 [<- _]].
    f_equal.
    + exact (column_time_app "created_at" (m_columns a)
               [ ("sender_name", VStr (TaxReturn.full_name s1));
                 ("recipient_name", VStr (TaxReturn.full_name r1)) ] eq_refl).
    + exact (column_time_app "created_at" (m_columns b)
               [ ("sender_name", VStr (TaxReturn.full_name s2));
                 ("recipient_name", VStr (TaxReturn.full_name r2)) ] eq_refl).
  - apply (order_by_asc (fun m => column_time "created_at" (m_columns m))).
Qed.

(** [checkOwnership]: an administrator passes whatever the owner is;
    anyone else is refused a resource whose owner id is not their user
    id. *)
Lemma checkOwnership_cases (owner : value) (user : Principal) :
  (p_role user = "admin" -> checkOwnership owner user = Next tt)
  /\ (p_role user <> "admin" -> truthy owner = true -> owner <> VStr (p_id user) ->
      checkOwnership owner user
      = Respond (fail 403 "Access denied. You can only access your own resources.")).
Proof.
  unfold checkOwnership. split.
  - intros ->. reflexivity.
  - intros Hr Ht Hne. apply String.eqb_neq in Hr. rewrite Hr, Ht. simpl.
    destruct owner; simpl; try reflexivity.
    destruct (String.eqb (p_id user) s) eqn:E; [|reflexivity].
    apply String.eqb_eq in E. subst s. now elim Hne.
Qed.

(** C1. For [GET /api/tax-returns/:id] on a tax return that exists: a
    requester whose role is customer and whose resolved customer
    profile id is not the return's customer id is answered 403 "Access
    denied", a body in which nothing of the store appears. A requester
    whose role is admin is answered 200, whoever owns the return, with
    the record of the stored row [row] of that key:
    - the [taxReturn] member carries every column of [row] as stored,
      then the name, email and phone of the user of the row's customer,
      then the name, email, qualification and experience of the row's
      accountant ([" "] and [null]s when none is joined); this when the
      row's customer and that customer's user are stored, as they are
      for every return the application creates; the member is [null]
      when no row of the key has a customer and user to join;
    - [incomeSources] holds exactly the income sources of the return,
      ordered by [created_at] ascending; [expenses] exactly its expenses,
      by [expense_date] descending; [documents] exactly its documents,
      each with the name of its uploader, by [created_at] descending;
      [messages] exactly its messages, each with the names of sender and
      recipient, by [created_at] ascending. *)
Theorem get_tax_return_ownership :
  forall (db : Db) (user : Principal) (id : string) (tr : TaxReturn.t),
    TaxReturn.findById db id = Some tr ->
    (p_role user = "customer" ->
     getCustomerIdFromUser db (p_id user) <> of_text (TaxReturn.customerId tr) ->
     get_tax_return db user id = Sent (fail 403 "Access denied"))
    /\ (p_role user = "admin" ->
        exists row taxReturn incomeSources expenseList documentList messageList,
          get_tax_return db user id
          = Sent (mkResponse 200
               (VObj [("success", VBool true);
                      ("data",
                       VObj [("taxReturn", taxReturn);
                             ("incomeSources", VArr incomeSources);
                             ("expenses", VArr expenseList);
                             ("documents", VArr documentList);
                             ("messages", VArr messageList)])]))
          /\ In row (tax_returns db) /\ tr_id row = id /\ tr = TaxReturn.new row
          /\ ((exists c u, owner_joined db row c u) ->
              exists c u acc a_user,
                owner_joined db row c u /\ accountant_joined db row acc
                /\ accountant_user_joined db acc a_user
                /\ taxReturn
                   = VObj [ ("id", VStr (tr_id row));
                            ("customer_id", of_text (tr_customer_id row));
                            ("accountant_id", of_text (tr_accountant_id row));
                            ("tax_year", VStr (tr_tax_year row));
                            ("status", VStr (tr_status row));
                            ("situation_type", of_text (tr_situation_type row));
                            ("total_income", of_text (tr_total_income row));
                            ("total_tax_due", of_text (tr_total_tax_due row));
                            ("total_refund", of_text (tr_total_refund row));
                            ("submission_deadline", of_text (tr_submission_deadline row));
                            ("filed_date", of_num (tr_filed_date row));
                            ("hmrc_reference", of_text (tr_hmrc_reference row));
                            ("notes", of_text (tr_notes row));
                            ("price", of_text (tr_price row));
                            ("payment_status", of_text (tr_payment_status row));
                            ("created_at", VNum (tr_created_at row));
                            ("updated_at", VNum (tr_updated_at row));
                            ("customer_name",
                             VStr (u_first_name u ++ " " ++ u_last_name u));
                            ("customer_email", VStr (u_email u));
                            ("customer_phone", of_text (u_phone u));
                            ("accountant_name",
                             VStr (match a_user with
                                   | Some a => u_first_name a ++ " " ++ u_last_name a
                                   | None => " "
                                   end));
                            ("accountant_email",
                             match a_user with
                             | Some a => VStr (u_email a)
                             | None => VNull
                             end);
                            ("accountant_qualification",
                             match acc with
                             | Some a => of_text (a_qualification a)
                             | None => VNull
                             end);
                            ("accountant_experience",
                             match acc with
                             | Some a => of_num (a_experience_years a)
                             | None => VNull
                             end) ])
          /\ ((forall r c u, In r (tax_returns db) -> tr_id r = id ->
                             ~ owner_joined db r c u) ->
              taxReturn = VNull)
          /\ (forall v,
                In v incomeSources
                <-> exists r, In r (income_sources db) /\ ch_tax_return_id r = Some id
                              /\ v = VObj (("id", VStr (ch_id r))
                                           :: ("tax_return_id", VStr id)
                                           :: ch_columns r))
          /\ ascending_by "created_at" incomeSources
          /\ (forall v,
                In v expenseList
                <-> exists r, In r (expenses db) /\ ch_tax_return_id r = Some id
                              /\ v = VObj (("id", VStr (ch_id r))
                                           :: ("tax_return_id", VStr id)
                                           :: ch_columns r))
          /\ descending_by "expense_date" expenseList
          /\ (forall v,
                In v documentList
                <-> exists d u,
                      In d (documents db) /\ d_tax_return_id d = Some id
                      /\ In u (users db) /\ d_uploaded_by d = Some (u_id u)
                      /\ v = VObj [ ("id", VStr (d_id d));
                                    ("tax_return_id", VStr id);
                                    ("uploaded_by", VStr (u_id u));
                                    ("document_type", VStr (d_document_type d));
                                    ("original_name", VStr (d_original_name d));
                                    ("file_path", VStr (d_file_path d));
                                    ("file_size", of_num (d_file_size d));
                                    ("mime_type", of_text (d_mime_type d));
                                    ("is_processed", VBool (d_is_processed d));
                                    ("created_at", VNum (d_created_at d));
                                    ("uploaded_by_name",
                                     VStr (u_first_name u ++ " " ++ u_last_name u)) ])
          /\ descending_by "created_at" documentList
          /\ (forall v,
                In v messageList
                <-> exists m sender recipient,
                      In m (messages db) /\ m_tax_return_id m = Some id
                      /\ In sender (users db) /\ m_sender_id m = Some (u_id sender)
                      /\ In recipient (users db)
                      /\ m_recipient_id m = Some (u_id recipient)
                      /\ v = VObj (("id", VStr (m_id m))
                                   :: ("tax_return_id", VStr id)
                                   :: ("sender_id", VStr (u_id sender))
                                   :: ("recipient_id", VStr (u_id recipient))
                                   :: m_columns m
                                   ++ [ ("sender_name",
                                         VStr (u_first_name sender ++ " "
                                               ++ u_last_name sender));
                                        ("recipient_name",
                                         VStr (u_first_name recipient ++ " "
                                               ++ u_last_name recipient)) ]))
          /\ ascending_by "created_at" messageList).
Proof.
  intros db user id tr Hf. split.
  - intros Hrole Hne. unfold get_tax_return. rewrite Hf, Hrole. simpl String.eqb.
    cbv iota. unfold customer_denied.
    destruct (strict_eq (of_text (TaxReturn.customerId tr))
                        (getCustomerIdFromUser db (p_id user))) eqn:E; [|reflexivity].
    exfalso. apply Hne. symmetry. apply strict_eq_text; [|exact E].
    destruct (getCustomerIdFromUser_cases db (p_id user)) as [H | [c [_ [_ [_ H]]]]];
      rewrite H; eauto.
  - intros Hrole.
    destruct (findById_some db id tr Hf) as [row [Hfirst [Hin [Hid Htr]]]].
    assert (Hthis : TaxReturn.id tr = id) by (rewrite Htr; exact Hid).
    exists row, (TaxReturn.getFullDetails db tr), (TaxReturn.getIncomeSources db tr),
           (TaxReturn.getExpenses db tr), (TaxReturn.getDocuments db tr),
           (TaxReturn.getMessages db tr).
    split; [unfold get_tax_return; rewrite Hf, Hrole; reflexivity|].
    split; [exact Hin|]. split; [exact Hid|]. split; [exact Htr|].
    split; [|split].
    { intros Hj. rewrite <- Hid in Hfirst. rewrite Htr.
      destruct (getFullDetails_joined db row Hfirst Hj)
        as [c [u [acc [au [H1 [H2 [H3 H4]]]]]]].
      exists c, u, acc, au. split; [exact H1|]. split; [exact H2|].
      split; [exact H3 | exact H4]. }
    { intros Hnone. apply getFullDetails_null. rewrite Hthis. exact Hnone. }
    split; [|split; [apply getIncomeSources_order|]].
    { intros v. rewrite getIncomeSources_In, Hthis. split.
      - intros [r [Hr [He ->]]]. exists r. split; [exact Hr|]. split; [exact He|].
        unfold TaxReturn.child_json. now rewrite He.
      - intros [r [Hr [He ->]]]. exists r. split; [exact Hr|]. split; [exact He|].
        unfold TaxReturn.child_json. now rewrite He. }
    split; [|split; [apply getExpenses_order|]].
    { intros v. rewrite getExpenses_In, Hthis. split.
      - intros [r [Hr [He ->]]]. exists r. split; [exact Hr|]. split; [exact He|].
        unfold TaxReturn.child_json. now rewrite He.
      - intros [r [Hr [He ->]]]. exists r. split; [exact Hr|]. split; [exact He|].
        unfold TaxReturn.child_json. now rewrite He. }
    split; [|split; [apply getDocuments_order|]].
    { intros v. rewrite getDocuments_In, Hthis. split.
      - intros [d [u [Hd [He [Hu [Hue ->]]]]]]. exists d, u. repeat split; try assumption.
        unfold TaxReturn.document_columns. now rewrite He, Hue.
      - intros [d [u [Hd [He [Hu [Hue ->]]]]]]. exists d, u. repeat split; try assumption.
        unfold TaxReturn.document_columns. now rewrite He, Hue. }
    split; [|apply getMessages_order].
    intros v. rewrite getMessages_In, Hthis. split.
    + intros [m [sd [rc [Hm [He [Hs [Hse [Hr [Hre ->]]]]]]]]]. exists m, sd, rc.
      repeat split; try assumption. now rewrite He, Hse, Hre.
    + intros [m [sd [rc [Hm [He [Hs [Hse [Hr [Hre ->]]]]]]]]]. exists m, sd, rc.
      repeat split; try assumption. now rewrite He, Hse, Hre.
Qed.

(* ------------------------------------------------------------------ *)
(** ** [routes/taxReturns.js]: status and assignment *)
(* ------------------------------------------------------------------ *)

Lemma filter_update_where {A} (hit : A -> bool) (upd : A -> A) (l : list A) :
  (forall x, hit (upd x) = hit x) ->
  filter hit (update_where hit upd l) = map upd (filter hit l).
Proof.
  intros Hh. unfold update_where. induction l as [|x l IH]; simpl; [reflexivity|].
  destruct (hit x) eqn:E.
  - rewrite Hh, E. simpl. now rewrite IH.
  - rewrite E. exact IH.
Qed.

Lemma first_row_map {A B} (f : A -> B) (l : list A) :
  first_row (map f l) = option_map f (first_row l).
Proof. now destruct l. Qed.

Lemma updateStatus_ok e db id tr s :
  TaxReturn.findById db id = Some tr ->
  In s TaxReturn.validStatuses ->
  exists db' tr',
    TaxReturn.updateStatus e db tr s = Ok (db', tr')
    /\ TaxReturn.status tr' = s
    /\ TaxReturn.id tr' = id
    /\ TaxReturn.findById db' id = Some tr'.
Proof.
  intros Hf Hs. destruct (findById_some db id tr Hf) as [row [Hfirst [Hin [Hid ->]]]].
  unfold TaxReturn.updateStatus.
  apply includes_In in Hs. rewrite Hs. simpl negb. cbv iota.
  simpl TaxReturn.id. rewrite Hid, Hfirst.
  eexists. eexists. split; [reflexivity|]. split; [reflexivity|].
  split; [exact Hid|].
  unfold TaxReturn.findById. simpl tax_returns.
  rewrite filter_update_where by reflexivity.
  rewrite first_row_map, Hfirst. reflexivity.
Qed.

Section StatusRoutes.
Variable isUUID : string -> bool.

(** C6. For a tax return that exists, whatever its current status, and a
    status [s] of the enumerated set, the status update of an
    authorized caller (an admin, or the accountant the return is
    assigned to) is answered 200 and the stored return then has status
    [s]; no ordering of statuses is checked. *)
Theorem put_status_any_transition :
  forall (e : Entropy) (db : Db) (user : Principal) (id s : string) (tr : TaxReturn.t),
    TaxReturn.findById db id = Some tr ->
    In s ["pending"; "in_progress"; "review"; "completed"; "filed"; "cancelled"] ->
    (p_role user = "admin"
     \/ (p_role user = "accountant"
         /\ exists a, accountantIdOfUser db (p_id user) = VStr a
                      /\ TaxReturn.accountantId tr = Some a)) ->
    exists db' tr',
      put_status e db user id s
      = (db', Sent (ok_json 200 "Tax return status updated successfully"
                            (TaxReturn.toJSON tr')))
      /\ TaxReturn.status tr' = s
      /\ TaxReturn.findById db' id = Some tr'.
Proof.
  intros e db user id s tr Hf Hs Hauth.
  destruct (updateStatus_ok e db id tr s Hf Hs) as [db' [tr' [Hu [Hst [_ Hf']]]]].
  exists db', tr'. split; [|split; assumption].
  unfold put_status, authorize.
  assert (Hv : includes ["pending"; "in_progress"; "review"; "completed"; "filed";
                         "cancelled"] s = true) by now apply includes_In.
  rewrite Hv. simpl check. simpl handleValidationErrors. cbv iota.
  rewrite Hf.
  destruct Hauth as [Hr | [Hr [a [Ha Hacc]]]]; rewrite Hr;
    simpl includes; cbv beta iota delta [negb].
  - change (String.eqb "admin" "accountant") with false.
    cbv beta iota delta [andb]. now rewrite Hu.
  - unfold accountant_denied. rewrite Ha, Hacc.
    change (of_text (Some a)) with (VStr a). unfold strict_eq.
    rewrite !String.eqb_refl.
    cbv beta iota delta [andb negb]. now rewrite Hu.
Qed.

Lemma assignAccountant_ok e db this acc db' tr' :
  TaxReturn.assignAccountant e db this acc = Ok (db', tr') ->
  TaxReturn.accountantId tr' = Some acc
  /\ TaxReturn.status tr' = "in_progress"
  /\ TaxReturn.id tr' = TaxReturn.id this
  /\ TaxReturn.findById db' (TaxReturn.id this) = Some tr'.
Proof.
  unfold TaxReturn.assignAccountant.
  destruct (first_row (filter (fun r => String.eqb (tr_id r) (TaxReturn.id this))
                              (tax_returns db))) as [r|] eqn:Hfirst; [|discriminate].
  destruct (existsb _ (accountants db)); simpl negb; cbv iota; [|discriminate].
  intros [= <- <-]. split; [reflexivity|]. split; [reflexivity|].
  apply first_row_filter_some in Hfirst as Hr. destruct Hr as [_ Hid].
  apply String.eqb_eq in Hid. split; [exact Hid|].
  unfold TaxReturn.findById. simpl tax_returns.
  rewrite filter_update_where by reflexivity.
  rewrite first_row_map, Hfirst. reflexivity.
Qed.

(** C7 (what the code does). Assigning an accountant sets
    [accountant_id] and sets the status to in_progress whatever the
    status was, not only when it is the default: when
    [assignAccountant] returns, the returned and the stored return carry
    the accountant and the status in_progress; through
    [PUT /api/tax-returns/:id/assign], an admin assigning an active
    accountant to an existing return is answered 200 with that
    return. A return that was filed is in progress again. *)
Theorem assignAccountant_forces_in_progress :
  forall (e : Entropy) (db : Db) (this : TaxReturn.t) (acc : uuid),
    TaxReturn.findById db (TaxReturn.id this) = Some this ->
    In acc (map a_id (filter a_is_active (accountants db))) ->
    exists db' tr',
      TaxReturn.assignAccountant e db this acc = Ok (db', tr')
      /\ TaxReturn.accountantId tr' = Some acc
      /\ TaxReturn.status tr' = "in_progress"
      /\ TaxReturn.findById db' (TaxReturn.id this) = Some tr'
      /\ (forall user, p_role user = "admin" -> isUUID acc = true ->
           put_assign isUUID e db user (TaxReturn.id this) acc
           = (db', Sent (ok_json 200 "Accountant assigned successfully"
                                 (TaxReturn.toJSON tr')))).
Proof.
  intros e db this acc Hf Hacc.
  apply in_map_iff in Hacc. destruct Hacc as [a [Ha Hin]].
  apply filter_In in Hin. destruct Hin as [Hin Hact].
  destruct (findById_some db _ _ Hf) as [row [Hfirst [Hrow [Hid Hnew]]]].
  assert (Hex : existsb (fun a0 => String.eqb (a_id a0) acc) (accountants db) = true).
  { apply existsb_exists. exists a. split; [assumption|].
    rewrite Ha. apply String.eqb_refl. }
  destruct (TaxReturn.assignAccountant e db this acc) as [[db' tr']|m] eqn:Hassign.
  2:{ unfold TaxReturn.assignAccountant in Hassign.
      rewrite Hfirst, Hex in Hassign. discriminate. }
  exists db', tr'.
  destruct (assignAccountant_ok _ _ _ _ _ _ Hassign) as [H1 [H2 [_ H4]]].
  repeat (split; [assumption || reflexivity|]).
  intros user Hr Hu. unfold put_assign, authorize. rewrite Hr, Hu.
  simpl includes. cbv beta iota delta [negb].
  simpl check. simpl handleValidationErrors. cbv iota. rewrite Hf.
  destruct (filter (fun a0 => String.eqb (a_id a0) acc && a_is_active a0) (accountants db))
    as [|x xs] eqn:Efil.
  - exfalso.
    assert (Hx : In a (filter (fun a0 => String.eqb (a_id a0) acc && a_is_active a0)
                              (accountants db))).
    { apply filter_In. split; [assumption|].
      rewrite Ha, String.eqb_refl, Hact. reflexivity. }
    rewrite Efil in Hx. contradiction.
  - simpl. now rewrite Hassign.
Qed.
End StatusRoutes.

(* ------------------------------------------------------------------ *)
(** ** [routes/taxReturns.js]: creation *)
(* ------------------------------------------------------------------ *)







Lemma check_nil ok field msg : check ok field msg = [] -> ok = true.
Proof. destruct ok; [reflexivity | discriminate]. Qed.



Section CreateRoute.
Variable isISO8601 : string -> bool.
Variable date : string -> result string.
Variable default_deadline : string.






End CreateRoute.

(* ------------------------------------------------------------------ *)
(** ** [transaction] and [TaxReturn.delete] *)
(* ------------------------------------------------------------------ *)

Lemma filter_idem {A} (p : A -> bool) (l : list A) : filter p (filter p l) = filter p l.
Proof.
  induction l as [|x l IH]; simpl; [reflexivity|].
  destruct (p x) eqn:E; simpl; [now rewrite E, IH | exact IH].
Qed.

Lemma keep_others_spec {A} (fk : A -> option uuid) id (l : list A) row :
  In row (keep_others fk id l) <-> In row l /\ fk row <> Some id.
Proof.
  unfold keep_others. rewrite filter_In. split; intros [H1 H2]; split; try assumption.
  - intros E. rewrite <- col_eq_true in E. now rewrite E in H2.
  - destruct (col_eq (fk row) id) eqn:E; [|reflexivity].
    apply col_eq_true in E. contradiction.
Qed.

Lemma nth_tl {A} i (l : list A) d : nth i (tl l) d = nth (S i) l d.
Proof. destruct l; [now destruct i | reflexivity]. Qed.

Lemma hd_skipn {A} k (l : list A) d : hd d (skipn k l) = nth k l d.
Proof.
  revert l. induction k as [|k IH]; intros [|x l]; simpl; try reflexivity. apply IH.
Qed.

Lemma skipn_tl {A} k (l : list A) : skipn (S k) l = skipn k (tl l).
Proof. destruct l; simpl; [now rewrite skipn_nil | reflexivity]. Qed.

Lemma answered_upto_S n fs :
  answered_upto (S n) fs <-> hd Answered fs = Answered /\ answered_upto n (tl fs).
Proof.
  unfold answered_upto. split.
  - intros H. split.
    + specialize (H 0 ltac:(lia)). now destruct fs.
    + intros i Hi. rewrite nth_tl. apply H. lia.
  - intros [H0 H] [|i] Hi.
    + now destruct fs.
    + rewrite <- nth_tl. apply H. lia.
Qed.

Lemma calm_answered fs n : calm fs -> answered_upto n fs.
Proof.
  intros Hc i _. destruct (nth_in_or_default i fs Answered) as [H | H];
    [now apply Hc | exact H].
Qed.

Lemma calm_nth fs n : calm fs -> nth n fs Answered = Answered.
Proof. intros Hc. exact (calm_answered fs (S n) Hc n (Nat.lt_succ_diag_r n)). Qed.

(** A data statement inside an open block touches the snapshot only;
    its refusal fails the block, a broken connection ends the session. *)
Lemma client_query_open st db0 w fs :
  is_data st = true ->
  client_query st (mkClient db0 (Open w) fs) =
    match hd Answered fs with
    | Answered =>
        match run st w with
        | Ok w' => (mkClient db0 (Open w') (tl fs), Ok tt)
        | Throw e => (mkClient db0 Failed (tl fs), Throw e)
        end
    | _ => (mkClient db0 Closed (tl fs), Throw "Connection terminated unexpectedly")
    end.
Proof.
  intros Hst. unfold client_query, next_round. cbn [session faults committed].
  destruct (hd Answered fs); destruct st; try discriminate; cbn;
    try reflexivity; destruct (pinned id w); reflexivity.
Qed.

Lemma run_all_throw sts e :
  fold_left (fun r st => match r with Ok d => run st d | Throw m => Throw m end)
            sts (Throw e) = Throw e.
Proof. induction sts as [|st sts IH]; simpl; [reflexivity | exact IH]. Qed.

Lemma run_all_cons st sts w :
  run_all (st :: sts) w =
    match run st w with Ok w1 => run_all sts w1 | Throw e => Throw e end.
Proof.
  unfold run_all. simpl. destruct (run st w); [reflexivity | apply run_all_throw].
Qed.

Lemma sequence_cons {A} (k : M A) st sts c :
  sequence (st :: sts) k c =
    match client_query st c with
    | (c', Ok _) => sequence sts k c'
    | (c', Throw e) => (c', Throw e)
    end.
Proof. reflexivity. Qed.

(** A sequence of data statements inside an open block. Either every
    round trip is answered, no statement is refused, and the
    continuation runs in the block with the snapshot [run_all] gives;
    or the sequence throws, the committed store untouched, the block
    failed or the session gone, because a round trip was not answered
    or a statement was refused. *)
Lemma sequence_open {A} (k : M A) sts :
  forallb is_data sts = true ->
  forall db0 w fs,
    (answered_upto (length sts) fs
     /\ exists w', run_all sts w = Ok w'
                   /\ sequence sts k (mkClient db0 (Open w) fs)
                      = k (mkClient db0 (Open w') (skipn (length sts) fs)))
    \/ (exists m c', sequence sts k (mkClient db0 (Open w) fs) = (c', Throw m)
                     /\ committed c' = db0
                     /\ (session c' = Failed \/ session c' = Closed)
                     /\ ((exists i, i < length sts /\ nth i fs Answered <> Answered)
                         \/ exists m', run_all sts w = Throw m')).
Proof.
  induction sts as [|st sts IH]; intros Hd db0 w fs.
  - left. split; [intros i Hi; simpl in Hi; lia|]. exists w. split; reflexivity.
  - simpl in Hd. apply andb_true_iff in Hd. destruct Hd as [Hst Hd].
    rewrite sequence_cons, (client_query_open st db0 w fs Hst), run_all_cons.
    destruct (hd Answered fs) eqn:Hhd.
    + destruct (run st w) as [w1|e].
      * destruct (IH Hd db0 w1 (tl fs)) as [[Hans [w' [Hrun Hseq]]] | [m [c' [Hseq [Hc [Hs Hwhy]]]]]].
        -- left. split; [apply answered_upto_S; auto|].
           exists w'. split; [exact Hrun|]. cbn [length]. rewrite skipn_tl. exact Hseq.
        -- right. exists m, c'. split; [exact Hseq|]. split; [exact Hc|].
           split; [exact Hs|].
           destruct Hwhy as [[i [Hi Hbad]] | Hthrow]; [left | now right].
           exists (S i). split; [simpl; lia|]. now rewrite <- nth_tl.
      * right. exists e. eexists. split; [reflexivity|]. split; [reflexivity|].
        split; [now left|]. right. now exists e.
    + right. eexists. eexists. split; [reflexivity|]. split; [reflexivity|].
      split; [now right|]. left. exists 0. split; [simpl; lia|].
      destruct fs; simpl in *; congruence.
    + right. eexists. eexists. split; [reflexivity|]. split; [reflexivity|].
      split; [now right|]. left. exists 0. split; [simpl; lia|].
      destruct fs; simpl in *; congruence.
Qed.

(** [ROLLBACK] in the [catch] block of [transaction], after the block
    has failed or the session has gone: the committed store is kept and
    no block is left open. *)
Lemma rollback_after_throw {A} (m : string) (c : Client) :
  session c = Failed \/ session c = Closed ->
  exists m' c',
    (client_query ROLLBACK ;; @throw A m)%db c = (c', Throw m')
    /\ committed c' = committed c /\ no_block (session c').
Proof.
  destruct c as [db s fs]. cbn [session committed]. intros [-> | ->].
  - unfold bindM, client_query, next_round, throw. cbn [session faults committed].
    destruct (hd Answered fs); cbn; eexists; eexists;
      (split; [reflexivity|]); (split; [reflexivity|]); unfold no_block; auto.
  - unfold bindM, client_query. cbn. eexists. eexists.
    split; [reflexivity|]. split; [reflexivity|]. unfold no_block; auto.
Qed.

(** [transaction] on a fresh connection, step by step. *)
Lemma transaction_eq {A} (callback : M A) db fs :
  transaction callback (mkClient db Idle fs) =
    match hd Answered fs with
    | Answered =>
        match hd Answered (tl fs) with
        | Answered =>
            match callback (mkClient db (Open db) (tl (tl fs))) with
            | (c1, Ok result) =>
                match client_query COMMIT c1 with
                | (c2, Ok _) => (c2, Ok result)
                | (c2, Throw e) => (client_query ROLLBACK ;; throw e)%db c2
                end
            | (c1, Throw e) => (client_query ROLLBACK ;; throw e)%db c1
            end
        | _ =>
            (client_query ROLLBACK ;; throw "Connection terminated unexpectedly")%db
              (mkClient db Closed (tl (tl fs)))
        end
    | _ => (mkClient db Idle (tl fs), Throw "timeout exceeded when trying to connect")
    end.
Proof.
  unfold transaction, release. unfold bindM at 1. unfold connect, next_round.
  cbn [faults committed session].
  destruct (hd Answered fs); try reflexivity.
  unfold try_catch. unfold bindM at 1.
  unfold client_query at 1, next_round. cbn [session faults committed process].
  destruct (hd Answered (tl fs)).
  - unfold bindM at 1.
    destruct (callback _) as [c1 [result|e]].
    + unfold bindM at 1. destruct (client_query COMMIT c1) as [c2 [[]|e]].
      * reflexivity.
      * cbn [fst]. now destruct ((client_query ROLLBACK ;; throw e)%db c2).
    + cbn [fst]. now destruct ((client_query ROLLBACK ;; throw e)%db c1).
  - cbn [fst]. now destruct ((client_query ROLLBACK ;; throw _)%db _).
  - cbn [fst]. now destruct ((client_query ROLLBACK ;; throw _)%db _).
Qed.

Lemma commit_open db w fs :
  client_query COMMIT (mkClient db (Open w) fs) =
    match hd Answered fs with
    | Answered => (mkClient w Idle (tl fs), Ok tt)
    | Lost => (mkClient db Closed (tl fs), Throw "Connection terminated unexpectedly")
    | Unanswered =>
        (mkClient w Closed (tl fs), Throw "Connection terminated unexpectedly")
    end.
Proof.
  unfold client_query, next_round. cbn. now destruct (hd Answered fs).
Qed.

(** The three ways [transaction] ends for a callback that sends data
    statements and returns [a]. With connect, [BEGIN] and every
    statement answered and none refused, what the round trip of
    [COMMIT] does decides: answered, the call returns [a] with the
    result of the statements committed; processed but unanswered, the
    call throws although that result is committed; in every other case
    the call throws and the committed store is the one of before. No
    block is left open in any case. *)
Lemma transaction_sequence {A} (a : A) sts db fs :
  forallb is_data sts = true ->
  let res := transaction (sequence sts (ret a)) (mkClient db Idle fs) in
  let n := length sts + 2 in
  no_block (session (fst res))
  /\ ((answered_upto n fs /\ nth n fs Answered = Answered
       /\ exists db', run_all sts db = Ok db' /\ snd res = Ok a
                      /\ committed (fst res) = db' /\ session (fst res) = Idle)
      \/ (answered_upto n fs /\ nth n fs Answered = Unanswered
          /\ exists db' m, run_all sts db = Ok db' /\ snd res = Throw m
                           /\ committed (fst res) = db')
      \/ ((exists m, snd res = Throw m) /\ committed (fst res) = db
          /\ ((exists i, i < n /\ nth i fs Answered <> Answered)
              \/ nth n fs Answered = Lost
              \/ exists m', run_all sts db = Throw m'))).
Proof.
  intros Hd. cbv zeta. rewrite transaction_eq.
  destruct (hd Answered fs) eqn:H0.
  2,3: (cbn [fst snd session committed]; split; [unfold no_block; auto|]; right; right;
        split; [eexists; reflexivity|]; split; [reflexivity|]; left; exists 0;
        split; [lia|]; destruct fs; simpl in *; congruence).
  destruct (hd Answered (tl fs)) eqn:H1.
  2,3: (destruct (@rollback_after_throw A "Connection terminated unexpectedly"
                    (mkClient db Closed (tl (tl fs))) (or_intror eq_refl))
          as [m' [c' [-> [Hc Hs]]]];
        cbn [fst snd]; split; [exact Hs|]; right; right;
        split; [eexists; reflexivity|]; split; [exact Hc|]; left; exists 1;
        split; [lia|]; rewrite <- nth_tl; destruct (tl fs); simpl in *; congruence).
  assert (Hans2 : forall k, answered_upto k (tl (tl fs)) -> answered_upto (k + 2) fs).
  { intros k Hk. replace (k + 2) with (S (S k)) by lia.
    apply answered_upto_S. split; [exact H0|].
    apply answered_upto_S. split; [exact H1 | exact Hk]. }
  assert (Hnth2 : forall i, nth i (tl (tl fs)) Answered = nth (i + 2) fs Answered).
  { intros i. rewrite !nth_tl. f_equal. lia. }
  destruct (sequence_open (ret a) sts Hd db db (tl (tl fs)))
    as [[Hans [w' [Hrun Hseq]]] | [m [c' [Hseq [Hc [Hs Hwhy]]]]]].
  - (* the callback returns *)
    rewrite Hseq. unfold ret. rewrite commit_open, hd_skipn, Hnth2.
    destruct (nth (length sts + 2) fs Answered) eqn:Hn.
    + cbn [fst snd session committed]. split; [unfold no_block; auto|]. left.
      split; [now apply Hans2|]. split; [reflexivity|].
      exists w'. auto.
    + match goal with
      | |- context [(client_query ROLLBACK ;; throw ?m)%db ?c] =>
          destruct (@rollback_after_throw A m c (or_intror eq_refl))
            as [m' [c'' [-> [Hc Hs]]]]
      end.
      cbn [fst snd]. split; [exact Hs|]. right. right.
      split; [eexists; reflexivity|]. split; [exact Hc|]. right. now left.
    + match goal with
      | |- context [(client_query ROLLBACK ;; throw ?m)%db ?c] =>
          destruct (@rollback_after_throw A m c (or_intror eq_refl))
            as [m' [c'' [-> [Hc Hs]]]]
      end.
      cbn [fst snd]. split; [exact Hs|]. right. left.
      split; [now apply Hans2|]. split; [reflexivity|].
      exists w', m'. split; [exact Hrun|]. split; [reflexivity | exact Hc].
  - (* the callback throws *)
    rewrite Hseq.
    destruct (@rollback_after_throw A m c' Hs) as [m' [c'' [-> [Hc' Hs']]]].
    cbn [fst snd]. split; [exact Hs'|]. right. right.
    split; [eexists; reflexivity|]. split; [now rewrite Hc'|].
    destruct Hwhy as [[i [Hi Hbad]] | Hthrow]; [left | right; now right].
    exists (i + 2). split; [lia|]. now rewrite <- Hnth2.
Qed.

Lemma run_all_delete id w :
  run_all (delete_statements id) w =
    if pinned id w then Throw "23503" else Ok (after_delete id w).
Proof.
  destruct w as [us cs acs trs incs exps docs msgs pays revs].
  unfold run_all, delete_statements. cbn.
  unfold pinned, after_delete, keep_others, set_payments, set_income_sources,
         set_expenses, set_documents, set_messages. cbn.
  rewrite !filter_idem. reflexivity.
Qed.

Lemma delete_is_sequence this :
  TaxReturn.delete this
  = transaction (sequence (delete_statements (TaxReturn.id this)) (ret true)).
Proof. reflexivity. Qed.


(** C2. [TaxReturn.delete] is one all-or-nothing transaction. For every
    tax return, store and behaviour of the link to the database (round
    trips 0 and 1 are the connect and [BEGIN], 2 to 7 the six [DELETE]
    statements, 8 the [COMMIT]): when a step up to the last [DELETE]
    fails, that is, one of those round trips is not answered or the
    deletion of the return is refused because a review pins it, [delete]
    throws and the committed store is exactly what it was; whenever
    [delete] throws, the committed store is what it was, except in one
    case, in which no deletion step has failed: the [COMMIT] was
    processed and its answer lost, and then the deletion is committed;
    if [delete] returns, it returns [true] and the committed store is
    the old one without the [tax_returns] row and without every row of
    [messages], [documents], [expenses], [income_sources] and
    [payments] that referenced it, all other rows kept, so no child row
    referencing the return remains; in every case the connection goes
    back with no transaction block open (rolled back by the [ROLLBACK]
    of the catch block, or discarded with the session when the
    connection broke); and [delete] does return whenever the link holds
    and no review pins the return. *)
Theorem delete_all_or_nothing :
  forall (this : TaxReturn.t) (db : Db) (fs : list Round),
    let res := TaxReturn.delete this (mkClient db Idle fs) in
    let db' := committed (fst res) in
    let id := TaxReturn.id this in
    (((exists i, i < 8 /\ nth i fs Answered <> Answered) \/ pinned id db = true) ->
     (exists m, snd res = Throw m) /\ db' = db)
    /\ (forall m, snd res = Throw m ->
          db' = db
          \/ (answered_upto 8 fs /\ nth 8 fs Answered = Unanswered
              /\ pinned id db = false /\ db' = after_delete id db))
    /\ (forall b, snd res = Ok b ->
         b = true
         /\ db' = after_delete id db
         /\ (forall r, In r (messages db') -> m_tax_return_id r <> Some id)
         /\ (forall r, In r (documents db') -> d_tax_return_id r <> Some id)
         /\ (forall r, In r (expenses db') -> ch_tax_return_id r <> Some id)
         /\ (forall r, In r (income_sources db') -> ch_tax_return_id r <> Some id)
         /\ (forall r, In r (payments db') -> ch_tax_return_id r <> Some id)
         /\ (forall r, In r (tax_returns db') -> tr_id r <> id))
    /\ no_block (session (fst res))
    /\ (calm fs -> pinned id db = false -> snd res = Ok true).
Proof.
  intros this db fs. cbv zeta. rewrite delete_is_sequence.
  destruct (transaction_sequence true (delete_statements (TaxReturn.id this)) db fs
              eq_refl) as [Hblock H].
  cbv zeta in H. rewrite run_all_delete in H.
  change (length (delete_statements (TaxReturn.id this)) + 2) with 8 in H.
  set (res := transaction (sequence (delete_statements (TaxReturn.id this)) (ret true))
                          (mkClient db Idle fs)) in *.
  split; [|split; [|split; [|split]]].
  - intros Hfail.
    destruct H as [[Hans [_ [db' [Hrun _]]]]
                  | [[Hans [_ [db' [m [Hrun _]]]]] | [Hm [Hc _]]]].
    + exfalso. destruct Hfail as [[i [Hi Hbad]] | Hp].
      * apply Hbad. now apply Hans.
      * rewrite Hp in Hrun. discriminate.
    + exfalso. destruct Hfail as [[i [Hi Hbad]] | Hp].
      * apply Hbad. now apply Hans.
      * rewrite Hp in Hrun. discriminate.
    + split; assumption.
  - intros m Hm.
    destruct H as [[_ [_ [db' [_ [Hok _]]]]]
                  | [[Hans [Hn [db' [m' [Hrun [_ Hc]]]]]] | [_ [Hc _]]]].
    + congruence.
    + right. destruct (pinned _ db); [discriminate|]. injection Hrun as <-. auto.
    + now left.
  - intros b Hb.
    destruct H as [[_ [_ [db' [Hrun [Hok [Hc _]]]]]]
                  | [[_ [_ [db' [m' [_ [Hm _]]]]]] | [[m' Hm] _]]]; try congruence.
    destruct (pinned _ db); [discriminate|]. injection Hrun as <-.
    split; [congruence|]. split; [exact Hc|]. rewrite Hc. simpl.
    repeat split; intros r Hr;
      try (apply keep_others_spec in Hr; exact (proj2 Hr)).
    apply filter_In in Hr. destruct Hr as [_ Hr].
    apply negb_true_iff in Hr. now apply String.eqb_neq in Hr.
  - exact Hblock.
  - intros Hcalm Hp.
    destruct H as [[_ [_ [db' [_ [Hok _]]]]]
                  | [[_ [Hn _]] | [_ [_ Hwhy]]]].
    + exact Hok.
    + rewrite (calm_nth fs 8 Hcalm) in Hn. discriminate.
    + exfalso. destruct Hwhy as [[i [Hi Hbad]] | [Hn | [m' Hrun]]].
      * apply Hbad. now apply (calm_answered fs 8 Hcalm).
      * rewrite (calm_nth fs 8 Hcalm) in Hn. discriminate.
      * rewrite Hp in Hrun. discriminate.
Qed.

(* ------------------------------------------------------------------ *)
(** ** [routes/uploads.js] *)
(* ------------------------------------------------------------------ *)

Lemma unlink_In p q (disk : Disk) : In q (unlink p disk) <-> In q disk /\ q <> p.
Proof.
  unfold unlink. rewrite filter_In. split; intros [H1 H2]; split; try assumption.
  - apply negb_true_iff in H2. now apply String.eqb_neq in H2.
  - apply negb_true_iff. now apply String.eqb_neq.
Qed.

Lemma write_file_In p q (disk : Disk) : In q (write_file p disk) -> In q disk \/ q = p.
Proof.
  unfold write_file. destruct (includes disk p); [now left|].
  intros H. apply in_app_or in H. destruct H as [H | [H | []]]; auto.
Qed.

Lemma unlink_all_In (files : list File) (disk : Disk) q :
  In q (fold_right (fun f d => unlink (path f) d) disk files)
  <-> In q disk /\ ~ In q (map path files).
Proof.
  induction files as [|f files IH]; simpl.
  - tauto.
  - rewrite unlink_In, IH. intuition congruence.
Qed.

Section UploadFacts.
Variable ALLOWED_FILE_TYPES : option string.
Variable UPLOAD_PATH : string.
Variable MAX_FILE_SIZE : Z.
Variable unlink_fails : string -> bool.

Lemma fileFilter_rejects file :
  includes (allowedTypes ALLOWED_FILE_TYPES) (fileExtension (originalname file)) = false ->
  exists m, fileFilter ALLOWED_FILE_TYPES file = Throw m.
Proof. intros H. unfold fileFilter. rewrite H. eauto. Qed.

(** When multer aborts, what is left on disk was there before the
    request, and none of the files it had stored is. *)
Lemma abort_cleans err (uploaded : list File) (disk disk0 : Disk) :
  (forall q, In q disk -> In q disk0 \/ In q (map path uploaded)) ->
  exists d, abort err uploaded disk = (d, inr err)
            /\ incl d disk0
            /\ (forall f, In f uploaded -> ~ In (path f) d).
Proof.
  intros Hinv. unfold abort. eexists. split; [reflexivity|]. split.
  - intros q Hq. apply unlink_all_In in Hq. destruct Hq as [Hq Hn].
    destruct (Hinv q Hq); [assumption | contradiction].
  - intros f Hf Hq. apply unlink_all_In in Hq. destruct Hq as [_ Hn].
    apply Hn. now apply in_map.
Qed.

Lemma receive_cons file rest uploaded disk :
  receive ALLOWED_FILE_TYPES UPLOAD_PATH MAX_FILE_SIZE (file :: rest) uploaded disk =
    if (5 <=? length uploaded)%nat then
      abort (MulterError "LIMIT_FILE_COUNT") uploaded disk
    else if negb (String.eqb (fieldname file) "documents") then
      abort (MulterError "LIMIT_UNEXPECTED_FILE") uploaded disk
    else
      match fileFilter ALLOWED_FILE_TYPES file with
      | Throw m => abort (PlainError m) uploaded disk
      | Ok false =>
          receive ALLOWED_FILE_TYPES UPLOAD_PATH MAX_FILE_SIZE rest uploaded disk
      | Ok true =>
          let f := stored UPLOAD_PATH file in
          let disk' := write_file (path f) disk in
          if (MAX_FILE_SIZE <? size file)%Z then
            abort (MulterError "LIMIT_FILE_SIZE") (f :: uploaded) disk'
          else receive ALLOWED_FILE_TYPES UPLOAD_PATH MAX_FILE_SIZE rest
                       (f :: uploaded) disk'
      end.
Proof. reflexivity. Qed.

Lemma receive_rejects parts :
  (exists file, In file parts
                /\ includes (allowedTypes ALLOWED_FILE_TYPES)
                            (fileExtension (originalname file)) = false) ->
  forall (uploaded : list File) (disk disk0 : Disk),
    (forall q, In q disk -> In q disk0 \/ In q (map path uploaded)) ->
    exists d err,
      receive ALLOWED_FILE_TYPES UPLOAD_PATH MAX_FILE_SIZE parts uploaded disk
      = (d, inr err)
      /\ incl d disk0
      /\ (forall f, In f uploaded -> ~ In (path f) d).
Proof.
  induction parts as [|file rest IH]; intros [bad [Hin Hbad]] uploaded disk disk0 Hinv.
  - contradiction.
  - rewrite receive_cons.
    destruct (5 <=? length uploaded)%nat.
    { destruct (@abort_cleans (MulterError "LIMIT_FILE_COUNT") uploaded disk disk0 Hinv)
        as [d H].
      eauto. }
    destruct (negb (String.eqb (fieldname file) "documents")).
    { destruct (@abort_cleans (MulterError "LIMIT_UNEXPECTED_FILE") uploaded disk disk0 Hinv)
        as [d H]. eauto. }
    destruct (fileFilter ALLOWED_FILE_TYPES file) as [[|]|m] eqn:Hf.
    + (* stored *)
      assert (Hrest : exists f, In f rest
                /\ includes (allowedTypes ALLOWED_FILE_TYPES)
                            (fileExtension (originalname f)) = false).
      { destruct Hin as [-> | Hin]; [|eauto].
        destruct (fileFilter_rejects bad Hbad) as [m Hm]. congruence. }
      cbv zeta. set (f := stored UPLOAD_PATH file).
      assert (Hinv' : forall q, In q (write_file (path f) disk) ->
                                In q disk0 \/ In q (map path (f :: uploaded))).
      { intros q Hq. apply write_file_In in Hq. destruct Hq as [Hq | ->].
        - destruct (Hinv q Hq); [now left | right; now right].
        - right. now left. }
      destruct (MAX_FILE_SIZE <? size file)%Z.
      * destruct (@abort_cleans (MulterError "LIMIT_FILE_SIZE") (f :: uploaded) _ disk0 Hinv')
          as [d [H1 [H2 H3]]].
        exists d. eexists. split; [exact H1|]. split; [exact H2|].
        intros g Hg. apply H3. now right.
      * destruct (IH Hrest (f :: uploaded) _ disk0 Hinv') as [d [err [H1 [H2 H3]]]].
        exists d, err. split; [exact H1|]. split; [exact H2|].
        intros g Hg. apply H3. now right.
    + (* skipped *)
      assert (Hrest : exists f, In f rest
                /\ includes (allowedTypes ALLOWED_FILE_TYPES)
                            (fileExtension (originalname f)) = false).
      { destruct Hin as [-> | Hin]; [|eauto].
        destruct (fileFilter_rejects bad Hbad) as [m Hm]. congruence. }
      apply (IH Hrest uploaded disk disk0 Hinv).
    + destruct (@abort_cleans (PlainError m) uploaded disk disk0 Hinv) as [d H]. eauto.
Qed.

(** C8. An upload request that contains a file whose extension is not
    in the configured allow-list is turned down by the upload
    middleware before the handler runs: the store is exactly what it
    was (no [documents] row is written), the request ends in an error
    (an error passed on, or a 400), and everything on disk afterwards
    was on disk before the request, so no file stored for this request
    remains. *)
Theorem disallowed_upload_leaves_nothing :
  forall (e : Entropy) (db : Db) (disk : Disk) (user : Principal)
         (taxReturnId : string) (documentType : option string) (parts : list Part)
         (file : Part),
    In file parts ->
    includes (allowedTypes ALLOWED_FILE_TYPES) (fileExtension (originalname file)) = false ->
    let '(db', disk', out) :=
      post_documents ALLOWED_FILE_TYPES UPLOAD_PATH MAX_FILE_SIZE unlink_fails e db disk user
                     taxReturnId documentType parts in
    db' = db
    /\ incl disk' disk
    /\ (forall f, In f parts ->
                  ~ In (path (stored UPLOAD_PATH f)) disk ->
                  ~ In (path (stored UPLOAD_PATH f)) disk')
    /\ match out with
       | NextError _ => True
       | Sent r => status r = 400
       end.
Proof.
  intros e db disk user taxReturnId documentType parts file Hin Hbad.
  unfold post_documents.
  assert (Hinv : forall q, In q disk -> In q disk \/ In q (map path (@nil File)))
    by (intros q Hq; now left).
  destruct (@receive_rejects parts (ex_intro _ file (conj Hin Hbad)) [] disk disk Hinv)
    as [d [err [-> [Hincl _]]]].
  split; [reflexivity|]. split; [exact Hincl|]. split.
  - intros f _ Hn Hq. apply Hn. now apply Hincl.
  - destruct err as [code|m]; simpl; [|exact I].
    destruct (String.eqb code "LIMIT_FILE_SIZE"); [reflexivity|].
    destruct (String.eqb code "LIMIT_FILE_COUNT"); [reflexivity | exact I].
Qed.
End UploadFacts.

(* ------------------------------------------------------------------ *)
(** ** One return per customer and tax year *)
(* ------------------------------------------------------------------ *)



Section OnePerYear.
Variable isISO8601 : string -> bool.
Variable isUUID : string -> bool.
Variable date : string -> result string.
Variable default_deadline : string.





End OnePerYear.

(* ------------------------------------------------------------------ *)
(** ** The handlers on the sample store *)
(* ------------------------------------------------------------------ *)

(** Bob, a customer, asks for Alice's return and is refused. Root, an
    administrator, reads it from the store with Carol's later upload:
    the two documents come newest first. *)
Lemma get_tax_return_ownership_witness :
  get_tax_return sample_db bob "tr-1" = Sent (fail 403 "Access denied")
  /\ match prop "documents"
                (prop "data" (body (response_of (get_tax_return shared_db root "tr-1")))) with
     | VArr items => map (prop "id") items
     | _ => []
     end = [VStr "doc-7"; VStr "doc-1"].
Proof.
  split.
  - apply (proj1 (@get_tax_return_ownership sample_db bob "tr-1"
                    (TaxReturn.new return_1) eq_refl)).
    + reflexivity.
    + vm_compute. discriminate.
  - reflexivity.
Defined.



(** A second registration with Alice's email. *)
Lemma register_duplicate_email_rejected_witness :
  register (fun _ => true) (fun s => s) (fun _ => true) (fun s => s)
           (fun salt pw => salt ++ pw) (fun _ sig => sig) (fun secret _ => secret)
           "secret" 604800%Z sample_entropy sample_db
           (mkRegisterBody "alice@example.com" "Passw0rd!" "Alice" "Again" None None)
  = (sample_db, Sent (fail 400 "User with this email already exists")).
Proof.
  refine (proj1 (@register_duplicate_email_rejected
                   (fun _ => true) (fun s => s) (fun _ => true) (fun s => s)
                   (fun salt pw => salt ++ pw) (fun _ sig => sig) (fun secret _ => secret)
                   "secret" 604800%Z sample_entropy sample_db
                   (mkRegisterBody "alice@example.com" "Passw0rd!" "Alice" "Again" None None)
                   _) _).
  - reflexivity.
  - simpl. now left.
Defined.

(** The administrator moves Alice's pending return straight to filed. *)
Lemma put_status_any_transition_witness :
  exists db' tr',
    put_status sample_entropy sample_db root "tr-1" "filed"
    = (db', Sent (ok_json 200 "Tax return status updated successfully"
                          (TaxReturn.toJSON tr')))
    /\ TaxReturn.status tr' = "filed"
    /\ TaxReturn.findById db' "tr-1" = Some tr'.
Proof.
  apply (@put_status_any_transition sample_entropy sample_db root "tr-1" "filed"
           (TaxReturn.new return_1)).
  - reflexivity.
  - simpl. tauto.
  - left. reflexivity.
Defined.

(** Bob's return is filed; assigning Carol to it again puts it back to
    in_progress, where the specification keeps a status that has
    advanced beyond the default. *)
Lemma assign_resets_filed_return :
  TaxReturn.status (TaxReturn.new return_2) = "filed"
  /\ (exists db' tr',
        TaxReturn.assignAccountant sample_entropy sample_db (TaxReturn.new return_2)
                                   "a-carol" = Ok (db', tr')
        /\ TaxReturn.status tr' = "in_progress")
  /\ ~ assign_respects_status sample_entropy sample_db (TaxReturn.new return_2) "a-carol".
Proof.
  split; [reflexivity|]. split.
  - eexists. eexists. split; [vm_compute; reflexivity | reflexivity].
  - intros H.
    destruct (H _ _ eq_refl) as [_ [_ Hkeep]].
    assert (Hne : TaxReturn.status (TaxReturn.new return_2) <> "pending") by discriminate.
    specialize (Hkeep Hne). discriminate Hkeep.
Qed.

Lemma assignAccountant_forces_in_progress_witness :
  exists db' tr',
    TaxReturn.assignAccountant sample_entropy sample_db (TaxReturn.new return_2) "a-carol"
    = Ok (db', tr')
    /\ TaxReturn.accountantId tr' = Some "a-carol"
    /\ TaxReturn.status tr' = "in_progress"
    /\ TaxReturn.findById db' "tr-2" = Some tr'
    /\ (forall user, p_role user = "admin" -> true = true ->
         put_assign (fun _ => true) sample_entropy sample_db user "tr-2" "a-carol"
         = (db', Sent (ok_json 200 "Accountant assigned successfully"
                               (TaxReturn.toJSON tr')))).
Proof.
  apply (@assignAccountant_forces_in_progress (fun _ => true) sample_entropy sample_db
           (TaxReturn.new return_2) "a-carol").
  - reflexivity.
  - simpl. now left.
Defined.

(** One good file and one executable: nothing is stored. *)
Lemma disallowed_upload_leaves_nothing_witness :
  let '(db', disk', out) :=
    post_documents None "uploads" 10485760%Z lets_go sample_entropy sample_db
                   ["uploads/documents-1-1.pdf"] alice "tr-1" None
                   [mkPart "documents" "p45.pdf" "application/pdf" 2048 "2-1" "doc-2";
                    mkPart "documents" "setup.exe" "application/octet-stream" 4096 "2-2"
                           "doc-3"] in
  db' = sample_db
  /\ incl disk' ["uploads/documents-1-1.pdf"]
  /\ (forall f,
        In f [mkPart "documents" "p45.pdf" "application/pdf" 2048 "2-1" "doc-2";
              mkPart "documents" "setup.exe" "application/octet-stream" 4096 "2-2" "doc-3"] ->
        ~ In (path (stored "uploads" f)) ["uploads/documents-1-1.pdf"] ->
        ~ In (path (stored "uploads" f)) disk')
  /\ match out with
     | NextError _ => True
     | Sent r => status r = 400
     end.
Proof.
  apply (@disallowed_upload_leaves_nothing None "uploads" 10485760%Z lets_go
           sample_entropy
           sample_db ["uploads/documents-1-1.pdf"] alice "tr-1" None
           [mkPart "documents" "p45.pdf" "application/pdf" 2048 "2-1" "doc-2";
            mkPart "documents" "setup.exe" "application/octet-stream" 4096 "2-2" "doc-3"]
           (mkPart "documents" "setup.exe" "application/octet-stream" 4096 "2-2" "doc-3")).
  - simpl. tauto.
  - reflexivity.
Defined.

(** In production, Alice's address and an unknown address get different
    messages. *)
Lemma forgot_password_message_differs_witness :
  message_of (snd (forgot_password (fun _ => true) (fun s => s) (Some "production")
                                   sample_entropy sample_db "alice@example.com"))
  <> message_of (snd (forgot_password (fun _ => true) (fun s => s) (Some "production")
                                      sample_entropy sample_db "nobody@example.com")).
Proof.
  apply (@forgot_password_message_differs (fun _ => true) (fun s => s)
           (Some "production") sample_entropy sample_db
           "alice@example.com" "nobody@example.com").
  - reflexivity.
  - reflexivity.
  - reflexivity.
  - simpl. now left.
  - simpl. intros [H | [H | [H | [H | []]]]]; discriminate H.
Defined.

(** A well-signed token that ran out at time 100, presented at time 200. *)
Lemma authenticate_expired_vs_invalid_witness :
  authenticate (fun s => Some (Jwt.mkClaims "u-alice" "alice@example.com" "customer" 0 100, s))
               (fun secret _ => secret) "secret" 200 sample_db (Some "Bearer secret")
  = Respond (fail 401 "Access denied. Token expired.")
  /\ authenticate (fun s => Some (Jwt.mkClaims "u-alice" "alice@example.com" "customer" 0 100, s))
                  (fun secret _ => secret) "secret" 200 sample_db (Some "Bearer forged")
     = Respond (fail 401 "Access denied. Invalid token.").
Proof.
  destruct (@authenticate_expired_vs_invalid
              (fun s => Some (Jwt.mkClaims "u-alice" "alice@example.com" "customer" 0 100, s))
              (fun secret _ => secret) "secret" 200%Z sample_db "secret") as [He _].
  destruct (@authenticate_expired_vs_invalid
              (fun s => Some (Jwt.mkClaims "u-alice" "alice@example.com" "customer" 0 100, s))
              (fun secret _ => secret) "secret" 200%Z sample_db "forged") as [_ [Hi _]].
  split.
  - apply (He _ _ eq_refl); [reflexivity | simpl; lia].
  - apply (Hi _ _ eq_refl). discriminate.
Defined.
(* ------------------------------------------------------------------ *)
(** ** [optionalAuth], tokens and ownership *)
(* ------------------------------------------------------------------ *)

Section SessionFacts.
Variable encode : Jwt.Claims -> string -> string.
Variable decode : string -> option (Jwt.Claims * string).
Variable hmac : string -> Jwt.Claims -> string.
Variable JWT_SECRET : string.
Variable JWT_EXPIRES_IN : Z.

(** X1. [optionalAuth] attaches a user to the request exactly when
    [authenticate] would let the request through, and then the same
    user; whenever [authenticate] would answer (no bearer token, bad
    signature, expired token, unknown or unverified user) the request
    goes on without a user. *)
Theorem optionalAuth_agrees_with_authenticate :
  forall (t : Z) (db : Db) (authorization : option string),
    optionalAuth decode hmac JWT_SECRET t db authorization
    = match authenticate decode hmac JWT_SECRET t db authorization with
      | Next user => Some user
      | Respond _ => None
      end.
Proof.
  intros t db [authHeader|]; [|reflexivity].
  unfold optionalAuth, authenticate.
  destruct (startsWith authHeader "Bearer "); [|reflexivity]. simpl negb. cbv iota.
  destruct (Jwt.verify decode hmac JWT_SECRET t (substring_from 7 authHeader))
    as [c | name].
  - destruct (User.findById db (Jwt.c_id c)) as [user|]; [|reflexivity].
    destruct (User.isVerified user); reflexivity.
  - destruct (String.eqb name "TokenExpiredError"); [reflexivity|].
    destruct (String.eqb name "JsonWebTokenError"); reflexivity.
Qed.

Lemma verify_issued e user t :
  decode (encode (claims_of JWT_EXPIRES_IN e user)
                 (hmac JWT_SECRET (claims_of JWT_EXPIRES_IN e user)))
  = Some (claims_of JWT_EXPIRES_IN e user,
          hmac JWT_SECRET (claims_of JWT_EXPIRES_IN e user)) ->
  Jwt.verify decode hmac JWT_SECRET t
             (generateToken encode hmac JWT_SECRET JWT_EXPIRES_IN e user)
  = if (now e / 1000 + JWT_EXPIRES_IN <=? t)%Z then Jwt.Thrown "TokenExpiredError"
    else Jwt.Decoded (claims_of JWT_EXPIRES_IN e user).
Proof.
  intros Hc. unfold Jwt.verify, generateToken, Jwt.sign.
  fold (claims_of JWT_EXPIRES_IN e user). rewrite Hc.
  rewrite String.eqb_refl. reflexivity.
Qed.

Lemma authenticate_issued e user t db :
  decode (encode (claims_of JWT_EXPIRES_IN e user)
                 (hmac JWT_SECRET (claims_of JWT_EXPIRES_IN e user)))
  = Some (claims_of JWT_EXPIRES_IN e user,
          hmac JWT_SECRET (claims_of JWT_EXPIRES_IN e user)) ->
  authenticate decode hmac JWT_SECRET t db
    (Some ("Bearer " ++ generateToken encode hmac JWT_SECRET JWT_EXPIRES_IN e user))
  = if (now e / 1000 + JWT_EXPIRES_IN <=? t)%Z then
      Respond (fail 401 "Access denied. Token expired.")
    else
      match first_row (filter (fun u => String.eqb (u_id u) (User.id user)) (users db)) with
      | None => Respond (fail 401 "Access denied. User not found.")
      | Some row =>
          if u_is_verified row then Next (principal_of row)
          else Respond (fail 401 "Access denied. Please verify your email address.")
      end.
Proof.
  intros Hc. unfold authenticate.
  destruct (bearer_token (generateToken encode hmac JWT_SECRET JWT_EXPIRES_IN e user))
    as [-> ->].
  simpl negb. cbv iota. rewrite (verify_issued e user t Hc).
  destruct (now e / 1000 + JWT_EXPIRES_IN <=? t)%Z; [reflexivity|].
  unfold User.findById. simpl Jwt.c_id.
  destruct (first_row _) as [row|]; [|reflexivity].
  simpl. destruct (u_is_verified row); reflexivity.
Qed.

(** X2. A token issued by [generateToken] for a user and presented as
    a bearer token is accepted until its lifetime is over, and what
    [authenticate] then attaches to the request is read from the [users]
    row with the token's user id as it is at that moment: email, role
    and names come from the store, not from the token; with the row gone
    the answer is 401 "User not found", with the row unverified 401
    "Please verify your email address", and from the expiry time on 401
    "Token expired". (The package's decoding is assumed to invert its
    encoding on the issued token.) *)
Theorem issued_token_authenticates :
  forall (e : Entropy) (user : User.t) (t : Z) (db : Db),
    decode (encode (claims_of JWT_EXPIRES_IN e user)
                   (hmac JWT_SECRET (claims_of JWT_EXPIRES_IN e user)))
    = Some (claims_of JWT_EXPIRES_IN e user,
            hmac JWT_SECRET (claims_of JWT_EXPIRES_IN e user)) ->
    authenticate decode hmac JWT_SECRET t db
      (Some ("Bearer " ++ generateToken encode hmac JWT_SECRET JWT_EXPIRES_IN e user))
    = if (now e / 1000 + JWT_EXPIRES_IN <=? t)%Z then
        Respond (fail 401 "Access denied. Token expired.")
      else
        match first_row (filter (fun u => String.eqb (u_id u) (User.id user))
                                (users db)) with
        | None => Respond (fail 401 "Access denied. User not found.")
        | Some row =>
            if u_is_verified row then Next (principal_of row)
            else Respond (fail 401 "Access denied. Please verify your email address.")
        end.
Proof. intros e user t db Hc. now apply authenticate_issued. Qed.
End SessionFacts.

(** X3. [checkOwnership] lets a request through exactly when the
    requester is an administrator, or the resolved owner id is the
    requester's own (non-empty) user id; for anyone else a missing owner
    is answered 404 and a different owner 403. *)
Theorem checkOwnership_decides :
  forall (owner : value) (user : Principal),
    (checkOwnership owner user = Next tt
     <-> p_role user = "admin" \/ (owner = VStr (p_id user) /\ p_id user <> ""))
    /\ (p_role user <> "admin" -> truthy owner = false ->
        checkOwnership owner user = Respond (fail 404 "Resource not found."))
    /\ (p_role user <> "admin" -> truthy owner = true -> owner <> VStr (p_id user) ->
        checkOwnership owner user
        = Respond (fail 403 "Access denied. You can only access your own resources.")).
Proof.
  intros owner user. unfold checkOwnership.
  destruct (String.eqb (p_role user) "admin") eqn:Ea.
  - apply String.eqb_eq in Ea.
    split; [split; [now left | reflexivity]|].
    split; intros Hne; contradiction.
  - apply String.eqb_neq in Ea.
    destruct (truthy owner) eqn:Et; cbn [negb].
    + destruct (strict_eq (VStr (p_id user)) owner) eqn:Es; cbn [negb].
      * assert (Ho : owner = VStr (p_id user)).
        { destruct owner; simpl in Es; try discriminate.
          apply String.eqb_eq in Es. now subst s. }
        split; [split|split].
        -- intros _. right. split; [exact Ho|].
           intros Hid. rewrite Ho in Et. simpl in Et. rewrite Hid in Et. discriminate.
        -- reflexivity.
        -- discriminate.
        -- intros _ _ Hne. now elim Hne.
      * split; [split|split].
        -- discriminate.
        -- intros [Hadm | [Hown _]]; [contradiction|]. subst owner. simpl in Es.
           rewrite String.eqb_refl in Es. discriminate.
        -- discriminate.
        -- reflexivity.
    + split; [split|split].
      * discriminate.
      * intros [Hadm | [Hown Hne]]; [contradiction|]. subst owner. simpl in Et.
        apply negb_false_iff in Et. apply String.eqb_eq in Et. contradiction.
      * reflexivity.
      * discriminate.
Qed.
(* ------------------------------------------------------------------ *)
(** ** Accounts: registration, verification, login, passwords *)
(* ------------------------------------------------------------------ *)

Lemma app_nil_both {A} (l1 l2 : list A) : (l1 ++ l2)%list = [] -> l1 = [] /\ l2 = [].
Proof. destruct l1; simpl; [auto | discriminate]. Qed.

Lemma handleValidationErrors_nil errors u :
  handleValidationErrors errors = Next u -> errors = [].
Proof. destruct errors; [reflexivity | discriminate]. Qed.

Lemma first_row_app_fresh {A} (p : A -> bool) (l : list A) (x : A) :
  (forall y, In y l -> p y = false) -> p x = true ->
  first_row (filter p (l ++ [x])) = Some x.
Proof.
  intros Hl Hx. rewrite filter_app. simpl. rewrite Hx.
  assert (Hn : filter p l = []).
  { apply (proj2 (first_row_filter_none p l)) in Hl. unfold first_row in Hl.
    destruct (filter p l); [reflexivity | discriminate]. }
  rewrite Hn. reflexivity.
Qed.

Lemma existsb_false_all {A} (p : A -> bool) (l : list A) :
  existsb p l = false -> forall y, In y l -> p y = false.
Proof.
  intros H y Hy. destruct (p y) eqn:E; [|reflexivity].
  assert (existsb p l = true) by (apply existsb_exists; eauto). congruence.
Qed.

Lemma same_but_users_set_users db us : same_but_users db (set_users db us).
Proof. unfold same_but_users, same_returns. simpl. repeat split. Qed.

Lemma update_rows_users e db this set :
  users (User.update_rows e db this set)
  = update_where (User.hit this) (fun u => User.stamp e (set u)) (users db).
Proof. reflexivity. Qed.

Lemma first_row_update_where {A} (hit : A -> bool) (upd : A -> A) (l : list A) :
  (forall x, hit (upd x) = hit x) ->
  first_row (filter hit (update_where hit upd l))
  = match first_row (filter hit l) with Some x => Some (upd x) | None => None end.
Proof.
  intros Hh. rewrite filter_update_where by exact Hh.
  unfold first_row. destruct (filter hit l); reflexivity.
Qed.

Section AccountFacts.
Variable isEmail : string -> bool.
Variable normalizeEmail : string -> string.
Variable isMobilePhone_enGB : string -> bool.
Variable trim : string -> string.
Variable bcrypt_hash : string -> string -> string.
Variable bcrypt_compare : string -> string -> bool.
Variable encode : Jwt.Claims -> string -> string.
Variable decode : string -> option (Jwt.Claims * string).
Variable hmac : string -> Jwt.Claims -> string.
Variable JWT_SECRET : string.
Variable JWT_EXPIRES_IN : Z.

Lemma register_role_valid b :
  register_errors isEmail isMobilePhone_enGB trim b = [] ->
  match rb_role b with
  | Some r => r = "customer" \/ r = "accountant"
  | None => True
  end.
Proof.
  unfold register_errors. intros H.
  repeat (apply app_nil_both in H; destruct H as [_ H]).
  destruct (rb_role b) as [r|]; [|exact I].
  apply check_nil in H. apply includes_In in H. simpl in H.
  destruct H as [H | [H | []]]; auto.
Qed.

(** What a registration answered 201 has done. *)
Lemma register_created e db b db1 r :
  register isEmail normalizeEmail isMobilePhone_enGB trim bcrypt_hash encode hmac
           JWT_SECRET JWT_EXPIRES_IN e db b = (db1, Sent r) ->
  status r = 201 ->
  (role_of b = "customer" \/ role_of b = "accountant")
  /\ (forall u, In u (users db) -> u_id u <> gen_id e)
  /\ users db1
     = (users db ++ [registered_row normalizeEmail trim bcrypt_hash e b (role_of b)])%list
  /\ customers db1
     = (if String.eqb (role_of b) "customer"
        then customers db ++ [mkCustomerRow (gen_id2 e) (Some (gen_id e))]
        else customers db)%list
  /\ accountants db1
     = (if String.eqb (role_of b) "customer" then accountants db
        else accountants db ++ [mkAccountantRow (gen_id2 e) (Some (gen_id e)) None None true])%list
  /\ same_returns db db1
  /\ r = mkResponse 201
           (VObj [("success", VBool true);
                  ("message", VStr "User registered successfully. Please check your email to verify your account.");
                  ("data",
                   VObj [("user",
                          User.toJSON
                            (User.new (registered_row normalizeEmail trim bcrypt_hash e b
                                                      (role_of b))));
                         ("token",
                          VStr (generateToken encode hmac JWT_SECRET JWT_EXPIRES_IN e
                                  (User.new (registered_row normalizeEmail trim bcrypt_hash
                                                            e b (role_of b)))))])]).
Proof.
  unfold register.
  destruct (handleValidationErrors _) as [[]|r0] eqn:Hv.
  2:{ intros [= <- <-] Hs. unfold handleValidationErrors in Hv.
      destruct (register_errors _ _ _ b); [discriminate|].
      injection Hv as <-. discriminate. }
  apply handleValidationErrors_nil in Hv. apply register_role_valid in Hv.
  simpl rb_email. simpl rb_role. simpl rb_password. simpl rb_firstName.
  simpl rb_lastName. simpl rb_phone.
  destruct (User.findByEmail db (normalizeEmail (rb_email b))) eqn:Hf.
  { intros [= <- <-]. discriminate. }
  fold (role_of b).
  assert (Hrole : role_of b = "customer" \/ role_of b = "accountant").
  { unfold role_of. destruct (rb_role b) as [r0|]; [|now left].
    destruct Hv as [-> | ->]; simpl; auto. }
  unfold User.create, User.insert_user.
  cbn [User.cd_role User.cd_email User.cd_password User.cd_firstName
       User.cd_lastName User.cd_phone u_id u_email].
  fold (registered_row normalizeEmail trim bcrypt_hash e b (role_of b)).
  destruct (existsb _ (users db)) eqn:Hex; [simpl; discriminate|].
  assert (Hfresh : forall u, In u (users db) -> u_id u <> gen_id e).
  { intros u Hu. pose proof (existsb_false_all _ _ Hex u Hu) as H.
    apply orb_false_iff in H. destruct H as [H _]. now apply String.eqb_neq in H. }
  cbv beta iota zeta. simpl User.role. simpl User.id.
  intros H Hs. split; [exact Hrole|]. split; [exact Hfresh|].
  destruct Hrole as [Hr | Hr]; rewrite Hr in H |- *; simpl String.eqb in H |- *;
    cbv iota in H |- *.
  - unfold insert_customer in H. destruct (existsb _ (customers _)); [discriminate|].
    injection H as <- <-. simpl. unfold same_returns. simpl. repeat split.
  - unfold insert_accountant in H. destruct (existsb _ (accountants _)); [discriminate|].
    injection H as <- <-. simpl. unfold same_returns. simpl. repeat split.
Qed.

(** X4. A registration that is answered 201 has appended exactly one
    row to [users]: under a key no row had, unverified, with a
    verification token, with the role customer or accountant (never
    admin), together with the one profile row of that role; every other
    table is as before, and the user object in the answer says
    [isVerified: false]. *)
Theorem register_creates_unverified_account :
  forall (e : Entropy) (db db1 : Db) (b : RegisterBody) (r : Response),
    register isEmail normalizeEmail isMobilePhone_enGB trim bcrypt_hash encode hmac
             JWT_SECRET JWT_EXPIRES_IN e db b = (db1, Sent r) ->
    status r = 201 ->
    exists row,
      users db1 = (users db ++ [row])%list
      /\ ~ In (u_id row) (map u_id (users db))
      /\ u_is_verified row = false
      /\ u_verification_token row = Some (uuidv4 e)
      /\ (u_role row = "customer" \/ u_role row = "accountant")
      /\ (u_role row = "customer" ->
          customers db1
          = (customers db ++ [mkCustomerRow (gen_id2 e) (Some (u_id row))])%list
          /\ accountants db1 = accountants db)
      /\ (u_role row = "accountant" ->
          accountants db1
          = (accountants db ++ [mkAccountantRow (gen_id2 e) (Some (u_id row)) None None true])%list
          /\ customers db1 = customers db)
      /\ same_returns db db1
      /\ prop "isVerified" (prop "user" (prop "data" (body r))) = VBool false.
Proof.
  intros e db db1 b r H Hs.
  destruct (register_created e db b db1 r H Hs)
    as [Hrole [Hfresh [Hu [Hc [Ha [Hsame ->]]]]]].
  exists (registered_row normalizeEmail trim bcrypt_hash e b (role_of b)).
  split; [exact Hu|]. split.
  { simpl. intros Hin. apply in_map_iff in Hin. destruct Hin as [u [Hid Hin]].
    exact (Hfresh u Hin Hid). }
  split; [reflexivity|]. split; [reflexivity|]. split; [exact Hrole|].
  simpl u_role. simpl u_id.
  split; [|split; [|split; [exact Hsame | reflexivity]]].
  - intros Hr. rewrite Hr in Hc, Ha. simpl in Hc, Ha. auto.
  - intros Hr. rewrite Hr in Hc, Ha. simpl in Hc, Ha. auto.
Qed.

Lemma verify_email_first e db token row :
  token <> "" ->
  first_row (filter (fun u => col_eq (u_verification_token u) token) (users db))
  = Some row ->
  verify_email e db token
  = (User.update_rows e db (User.new row)
       (fun u => mkUserRow (u_id u) (u_email u) (u_password_hash u) (u_first_name u)
                           (u_last_name u) (u_phone u) (u_role u) true None
                           (u_reset_password_token u) (u_reset_password_expires u)
                           (u_last_login u) (u_created_at u) (u_updated_at u)),
     Sent (success_message "Email verified successfully")).
Proof.
  intros Hne Hf. unfold verify_email.
  apply String.eqb_neq in Hne. rewrite Hne. simpl handleValidationErrors. cbv iota.
  unfold User.findByVerificationToken. rewrite Hf.
  unfold User.verifyEmail, User.update_returning.
  apply first_row_filter_some in Hf. destruct Hf as [Hin _].
  destruct (first_row_filter_ex (User.hit (User.new row)) (users db) row Hin) as [y ->].
  { unfold User.hit. simpl. apply String.eqb_refl. }
  reflexivity.
Qed.

(** X5. The token a registration returns is of no use until the
    address is verified: [authenticate] answers it 401 "Please verify
    your email address"; after [POST /verify-email] with the
    verification token of that registration (which no earlier user
    holds), the same bearer token is accepted, for the new user, with the
    role the registration stored. (The package's decoding is assumed to
    invert its encoding on the issued token.) *)
Theorem verify_email_unlocks_token :
  forall (e e2 : Entropy) (db db1 : Db) (b : RegisterBody) (r : Response) (t : Z),
    let user := User.new (registered_row normalizeEmail trim bcrypt_hash e b (role_of b)) in
    register isEmail normalizeEmail isMobilePhone_enGB trim bcrypt_hash encode hmac
             JWT_SECRET JWT_EXPIRES_IN e db b = (db1, Sent r) ->
    status r = 201 ->
    decode (encode (claims_of JWT_EXPIRES_IN e user)
                   (hmac JWT_SECRET (claims_of JWT_EXPIRES_IN e user)))
    = Some (claims_of JWT_EXPIRES_IN e user,
            hmac JWT_SECRET (claims_of JWT_EXPIRES_IN e user)) ->
    (forall u, In u (users db) -> u_verification_token u <> Some (uuidv4 e)) ->
    uuidv4 e <> "" ->
    (t < now e / 1000 + JWT_EXPIRES_IN)%Z ->
    exists token db2,
      prop "token" (prop "data" (body r)) = VStr token
      /\ authenticate decode hmac JWT_SECRET t db1 (Some ("Bearer " ++ token))
         = Respond (fail 401 "Access denied. Please verify your email address.")
      /\ verify_email e2 db1 (uuidv4 e)
         = (db2, Sent (success_message "Email verified successfully"))
      /\ authenticate decode hmac JWT_SECRET t db2 (Some ("Bearer " ++ token))
         = Next (mkPrincipal (gen_id e) (normalizeEmail (rb_email b)) (role_of b)
                             (trim (rb_firstName b)) (trim (rb_lastName b)))
      /\ (role_of b = "customer" \/ role_of b = "accountant").
Proof.
  intros e e2 db db1 b r t user H Hs Hcodec Hfree Hne Ht.
  destruct (register_created e db b db1 r H Hs)
    as [Hrole [Hfresh [Hu [Hc [Ha [Hsame ->]]]]]].
  subst user.
  set (row := registered_row normalizeEmail trim bcrypt_hash e b (role_of b)) in *.
  set (user := User.new row) in *.
  assert (Hlt : (now e / 1000 + JWT_EXPIRES_IN <=? t)%Z = false) by (apply Z.leb_gt; lia).
  assert (Hbyid : first_row (filter (fun u => String.eqb (u_id u) (gen_id e)) (users db1))
                  = Some row).
  { rewrite Hu. apply first_row_app_fresh.
    - intros y Hy. apply String.eqb_neq. now apply Hfresh.
    - apply String.eqb_refl. }
  assert (Hbytok : first_row (filter (fun u => col_eq (u_verification_token u) (uuidv4 e))
                                     (users db1)) = Some row).
  { rewrite Hu. apply first_row_app_fresh.
    - intros y Hy. destruct (col_eq (u_verification_token y) (uuidv4 e)) eqn:E;
        [|reflexivity].
      apply col_eq_true in E. now elim (Hfree y Hy).
    - simpl. apply String.eqb_refl. }
  eexists. eexists. split; [reflexivity|]. split.
  { rewrite (authenticate_issued encode decode hmac JWT_SECRET JWT_EXPIRES_IN e
               user t db1 Hcodec).
    rewrite Hlt. simpl User.id. rewrite Hbyid. reflexivity. }
  split.
  { exact (verify_email_first e2 db1 (uuidv4 e) row Hne Hbytok). }
  split; [|exact Hrole].
  rewrite (authenticate_issued encode decode hmac JWT_SECRET JWT_EXPIRES_IN e
             user t _ Hcodec).
  rewrite Hlt. rewrite update_rows_users.
  unfold user.
  change (fun u => String.eqb (u_id u) (User.id (User.new row)))
    with (User.hit (User.new row)).
  rewrite first_row_update_where by reflexivity.
  change (User.hit (User.new row)) with (fun u => String.eqb (u_id u) (gen_id e)).
  rewrite Hbyid. reflexivity.
Qed.
End AccountFacts.

Lemma update_rows_In e db this set u' :
  In u' (users (User.update_rows e db this set))
  <-> exists u, In u (users db)
                /\ u' = (if User.hit this u then User.stamp e (set u) else u).
Proof.
  unfold User.update_rows. simpl. rewrite in_map_iff. split.
  - intros [u [<- Hu]]. now exists u.
  - intros [u [Hu ->]]. now exists u.
Qed.

Lemma update_rows_same e db this set : same_but_users db (User.update_rows e db this set).
Proof. apply same_but_users_set_users. Qed.

Lemma update_returning_ok e db this set row :
  In row (users db) -> u_id row = User.id this ->
  exists t', User.update_returning e db this set
             = Ok (User.update_rows e db this set, t').
Proof.
  intros Hin Hid. unfold User.update_returning.
  destruct (first_row_filter_ex (User.hit this) (users db) row Hin) as [y ->].
  { unfold User.hit. rewrite Hid. apply String.eqb_refl. }
  eexists. reflexivity.
Qed.

Lemma first_row_none_nil {A} (l : list A) : first_row l = None -> l = [].
Proof. destruct l; [reflexivity | discriminate]. Qed.

(** X6. A verification token works once: after [POST /verify-email]
    was answered 200 for a token that one row held, no row holds the
    token any more, every row with the holder's key is verified, the
    other tables are untouched, and the same token is answered 400
    "Invalid or expired verification token" from then on. *)
Theorem verification_token_single_use :
  forall (e e2 : Entropy) (db db' : Db) (token : string) (r : Response),
    verify_email e db token = (db', Sent r) ->
    status r = 200 ->
    length (filter (fun u => col_eq (u_verification_token u) token) (users db)) = 1 ->
    (exists row,
        In row (users db) /\ u_verification_token row = Some token
        /\ (forall u', In u' (users db') -> u_id u' = u_id row ->
                       u_is_verified u' = true))
    /\ (forall u', In u' (users db') -> u_verification_token u' <> Some token)
    /\ same_but_users db db'
    /\ verify_email e2 db' token
       = (db', Sent (fail 400 "Invalid or expired verification token")).
Proof.
  intros e e2 db db' token r H Hs Hone.
  unfold verify_email in H.
  destruct (negb (String.eqb token "")) eqn:Hne; simpl in H.
  2:{ injection H as <- <-. discriminate. }
  unfold User.findByVerificationToken in H.
  destruct (filter (fun u => col_eq (u_verification_token u) token) (users db))
    as [|row [|row2 rest]] eqn:Hf; try discriminate.
  simpl in H.
  assert (Hrow : In row (filter (fun u => col_eq (u_verification_token u) token)
                               (users db))) by (rewrite Hf; now left).
  apply filter_In in Hrow. destruct Hrow as [Hin Htok]. apply col_eq_true in Htok.
  unfold User.verifyEmail in H.
  destruct (update_returning_ok e db (User.new row)
              (fun u => mkUserRow (u_id u) (u_email u) (u_password_hash u) (u_first_name u)
                                  (u_last_name u) (u_phone u) (u_role u) true None
                                  (u_reset_password_token u) (u_reset_password_expires u)
                                  (u_last_login u) (u_created_at u) (u_updated_at u))
              row Hin eq_refl) as [t' Hup].
  rewrite Hup in H. injection H as <- <-.
  assert (Hgone : forall u', In u' (users (User.update_rows e db (User.new row)
                     (fun u => mkUserRow (u_id u) (u_email u) (u_password_hash u)
                                 (u_first_name u) (u_last_name u) (u_phone u) (u_role u)
                                 true None (u_reset_password_token u)
                                 (u_reset_password_expires u) (u_last_login u)
                                 (u_created_at u) (u_updated_at u)))) ->
                             u_verification_token u' <> Some token).
  { intros u' Hu'. apply update_rows_In in Hu'. destruct Hu' as [u [Hu ->]].
    destruct (User.hit (User.new row) u) eqn:Eh; [simpl; discriminate|].
    intros Hheld.
    assert (Hin' : In u (filter (fun u => col_eq (u_verification_token u) token)
                                (users db))).
    { apply filter_In. split; [exact Hu | now apply col_eq_true]. }
    rewrite Hf in Hin'. destruct Hin' as [<- | []].
    unfold User.hit in Eh. simpl in Eh. rewrite String.eqb_refl in Eh. discriminate. }
  split; [|split; [exact Hgone | split; [apply update_rows_same|]]].
  - exists row. split; [exact Hin|]. split; [exact Htok|].
    intros u' Hu' Hid. apply update_rows_In in Hu'. destruct Hu' as [u [Hu ->]].
    destruct (User.hit (User.new row) u) eqn:Eh; [reflexivity|].
    unfold User.hit in Eh. simpl in Eh. rewrite Hid in Eh.
    rewrite String.eqb_refl in Eh. discriminate.
  - unfold verify_email. rewrite Hne. simpl handleValidationErrors. cbv iota.
    unfold User.findByVerificationToken.
    match goal with |- context [first_row ?l] => assert (Hnil : first_row l = None) end.
    { apply first_row_filter_none. intros x Hx.
      destruct (col_eq (u_verification_token x) token) eqn:E; [|reflexivity].
      apply col_eq_true in E. now elim (Hgone x Hx). }
    rewrite Hnil. reflexivity.
Qed.

Section PasswordFacts.
Variable isEmail : string -> bool.
Variable normalizeEmail : string -> string.
Variable bcrypt_compare : string -> string -> bool.
Variable encode : Jwt.Claims -> string -> string.
Variable decode : string -> option (Jwt.Claims * string).
Variable hmac : string -> Jwt.Claims -> string.
Variable JWT_SECRET : string.
Variable JWT_EXPIRES_IN : Z.

(** X7. [POST /login] does not tell an unknown address from a wrong
    password: both requests get the same answer, 401 "Invalid email or
    password", and neither changes the store. *)
Theorem login_failures_indistinguishable :
  forall (e e' : Entropy) (db : Db) (unknown known pw pw' : string) (user : User.t),
    isEmail unknown = true -> isEmail known = true -> pw <> "" -> pw' <> "" ->
    User.findByEmail db (normalizeEmail unknown) = None ->
    User.findByEmail db (normalizeEmail known) = Some user ->
    User.verifyPassword bcrypt_compare db user pw' = false ->
    login isEmail normalizeEmail bcrypt_compare encode hmac JWT_SECRET JWT_EXPIRES_IN
          e db unknown pw
    = (db, Sent (fail 401 "Invalid email or password"))
    /\ login isEmail normalizeEmail bcrypt_compare encode hmac JWT_SECRET JWT_EXPIRES_IN
             e' db known pw'
       = login isEmail normalizeEmail bcrypt_compare encode hmac JWT_SECRET JWT_EXPIRES_IN
               e db unknown pw.
Proof.
  intros e e' db unknown known pw pw' user Hu Hk Hp Hp' Hnone Hsome Hbad.
  apply String.eqb_neq in Hp, Hp'.
  unfold login. rewrite Hu, Hk, Hp, Hp'. simpl handleValidationErrors. cbv iota.
  rewrite Hnone, Hsome, Hbad. split; reflexivity.
Qed.

Lemma first_row_by_key db row :
  users_keyed db -> In row (users db) ->
  first_row (filter (fun u => String.eqb (u_id u) (u_id row)) (users db)) = Some row.
Proof.
  unfold users_keyed. intros Hk Hin.
  induction (users db) as [|x l IH]; [contradiction|].
  simpl in Hk. inversion Hk as [|? ? Hnot Hk']; subst.
  simpl. destruct Hin as [-> | Hin].
  - rewrite String.eqb_refl. reflexivity.
  - destruct (String.eqb (u_id x) (u_id row)) eqn:E.
    + apply String.eqb_eq in E. exfalso. apply Hnot. rewrite E. now apply in_map.
    + now apply IH.
Qed.

(** X8. A login with the right password is answered 200 with a token
    for the user, whether or not the address was ever verified; it
    stamps [last_login] (and [updated_at]) on the user's row and touches
    nothing else; the user object it returns still shows the previous
    [lastLogin], because it was read before the stamp. For an unverified
    account the token it returns is refused by [authenticate]. *)
Theorem login_stamps_last_login :
  forall (e : Entropy) (db : Db) (email pw : string) (row : UserRow) (t : Z),
    let user := User.new row in
    let token := generateToken encode hmac JWT_SECRET JWT_EXPIRES_IN e user in
    isEmail email = true -> pw <> "" ->
    users_keyed db ->
    found_by_email db (normalizeEmail email) row ->
    bcrypt_compare pw (u_password_hash row) = true ->
    exists db',
      login isEmail normalizeEmail bcrypt_compare encode hmac JWT_SECRET JWT_EXPIRES_IN
            e db email pw
      = (db', Sent (ok_json 200 "Login successful"
                            (VObj [("user", User.toJSON user); ("token", VStr token)])))
      /\ prop "lastLogin" (User.toJSON user) = of_num (u_last_login row)
      /\ users db'
         = map (fun u => if String.eqb (u_id u) (u_id row) then
                           mkUserRow (u_id u) (u_email u) (u_password_hash u)
                                     (u_first_name u) (u_last_name u) (u_phone u)
                                     (u_role u) (u_is_verified u)
                                     (u_verification_token u) (u_reset_password_token u)
                                     (u_reset_password_expires u) (Some (now e))
                                     (u_created_at u) (now e)
                         else u) (users db)
      /\ same_but_users db db'
      /\ (u_is_verified row = false ->
          decode (encode (claims_of JWT_EXPIRES_IN e user)
                         (hmac JWT_SECRET (claims_of JWT_EXPIRES_IN e user)))
          = Some (claims_of JWT_EXPIRES_IN e user,
                  hmac JWT_SECRET (claims_of JWT_EXPIRES_IN e user)) ->
          (t < now e / 1000 + JWT_EXPIRES_IN)%Z ->
          authenticate decode hmac JWT_SECRET t db' (Some ("Bearer " ++ token))
          = Respond (fail 401 "Access denied. Please verify your email address.")).
Proof.
  intros e db email pw row t user token He Hp Hk Hf Hpw.
  pose proof (first_row_filter_some _ _ _ Hf) as [Hin _].
  pose proof (first_row_by_key db row Hk Hin) as Hid.
  apply String.eqb_neq in Hp.
  exists (User.updateLastLogin e db user).
  split.
  { unfold login. rewrite He, Hp. simpl handleValidationErrors. cbv iota.
    unfold User.findByEmail. unfold found_by_email in Hf. rewrite Hf.
    unfold User.verifyPassword.
    change (User.hit (User.new row)) with (fun u => String.eqb (u_id u) (u_id row)).
    rewrite Hid, Hpw. reflexivity. }
  split; [reflexivity|]. split; [reflexivity|].
  split; [apply update_rows_same|].
  intros Hunv Hcodec Ht.
  unfold token.
  rewrite (authenticate_issued encode decode hmac JWT_SECRET JWT_EXPIRES_IN e
             user t _ Hcodec).
  assert (Hlt : (now e / 1000 + JWT_EXPIRES_IN <=? t)%Z = false) by (apply Z.leb_gt; lia).
  rewrite Hlt. unfold User.updateLastLogin. rewrite update_rows_users.
  change (fun u => String.eqb (u_id u) (User.id user)) with (User.hit user).
  rewrite first_row_update_where by reflexivity.
  change (User.hit user) with (fun u => String.eqb (u_id u) (u_id row)).
  rewrite Hid. simpl. rewrite Hunv. reflexivity.
Qed.

End PasswordFacts.

Section Reset.
Variable isEmail : string -> bool.
Variable normalizeEmail : string -> string.
Variable bcrypt_hash : string -> string -> string.
Variable NODE_ENV : option string.

Lemma setResetPasswordToken_users e db this :
  forall db1 tok, User.setResetPasswordToken e db this = Ok (db1, tok) ->
  tok = uuidv4 e
  /\ same_but_users db db1
  /\ users db1
     = update_where (User.hit this)
         (fun u => mkUserRow (u_id u) (u_email u) (u_password_hash u) (u_first_name u)
                             (u_last_name u) (u_phone u) (u_role u) (u_is_verified u)
                             (u_verification_token u) (Some (uuidv4 e))
                             (Some (now e + 3600000)%Z)
                             (u_last_login u) (u_created_at u) (now e))
         (users db).
Proof.
  intros db1 tok. unfold User.setResetPasswordToken.
  destruct (first_row _); [|discriminate].
  intros [= <- <-]. split; [reflexivity|]. split; [apply same_but_users_set_users|].
  reflexivity.
Qed.

Lemma reset_password_lookup e db token pw :
  token <> "" -> 8 <= String.length pw -> password_pattern pw = true ->
  reset_password bcrypt_hash e db token pw
  = match User.findByResetToken e db token with
    | None => (db, Sent (fail 400 "Invalid or expired reset token"))
    | Some user =>
        match User.updatePassword bcrypt_hash e db user pw with
        | Throw m => (db, NextError m)
        | Ok (db', _) => (db', Sent (success_message "Password reset successfully"))
        end
    end.
Proof.
  intros Hne Hlen Hpat. apply String.eqb_neq in Hne. apply Nat.leb_le in Hlen.
  unfold reset_password. rewrite Hne, Hlen, Hpat. reflexivity.
Qed.

Lemma findByResetToken_none e db token :
  (forall u, In u (users db) ->
             u_reset_password_token u = Some token ->
             match u_reset_password_expires u with
             | Some expires => (expires <= now e)%Z
             | None => True
             end) ->
  User.findByResetToken e db token = None.
Proof.
  intros H. unfold User.findByResetToken.
  match goal with |- context [first_row ?l] => assert (Hnil : first_row l = None) end.
  { apply first_row_filter_none. intros x Hx.
    destruct (col_eq (u_reset_password_token x) token) eqn:E; [|reflexivity].
    apply col_eq_true in E. specialize (H x Hx E). simpl.
    destruct (u_reset_password_expires x); [|reflexivity].
    apply Z.ltb_ge. exact H. }
  now rewrite Hnil.
Qed.

(** X9. A reset token is good for one hour and for one use. After
    [POST /forgot-password] for a known address, [POST /reset-password]
    with the issued token (which no row held before) and an acceptable
    password is answered 400 "Invalid or expired reset token" from the
    moment the hour is over, leaving the store as it is; strictly before,
    it is answered 200, every row with the user's key then carries the
    hash of the new password and no reset token, the rows of other users
    are those of before, and the same token is answered 400 on every
    later use. *)
Theorem reset_token_one_hour_one_use :
  forall (e e2 e3 : Entropy) (db : Db) (email pw pw3 : string) (row : UserRow),
    isEmail email = true ->
    found_by_email db (normalizeEmail email) row ->
    (forall u, In u (users db) -> u_reset_password_token u <> Some (uuidv4 e)) ->
    uuidv4 e <> "" ->
    8 <= String.length pw -> password_pattern pw = true ->
    8 <= String.length pw3 -> password_pattern pw3 = true ->
    exists db1 r1,
      forgot_password isEmail normalizeEmail NODE_ENV e db email = (db1, Sent r1)
      /\ status r1 = 200
      /\ ((now e + 3600000 <= now e2)%Z ->
          reset_password bcrypt_hash e2 db1 (uuidv4 e) pw
          = (db1, Sent (fail 400 "Invalid or expired reset token")))
      /\ ((now e2 < now e + 3600000)%Z ->
          exists db2,
            reset_password bcrypt_hash e2 db1 (uuidv4 e) pw
            = (db2, Sent (success_message "Password reset successfully"))
            /\ (forall u', In u' (users db2) -> u_id u' = u_id row ->
                  u_password_hash u' = bcrypt_hash (salt e2) pw
                  /\ u_reset_password_token u' = None
                  /\ u_reset_password_expires u' = None)
            /\ (forall u', In u' (users db2) -> u_id u' <> u_id row -> In u' (users db))
            /\ same_but_users db db2
            /\ reset_password bcrypt_hash e3 db2 (uuidv4 e) pw3
               = (db2, Sent (fail 400 "Invalid or expired reset token"))).
Proof.
  intros e e2 e3 db email pw pw3 row He Hf Hfree Hne Hlen Hpat Hlen3 Hpat3.
  pose proof (first_row_filter_some _ _ _ Hf) as [Hin _].
  destruct (User.setResetPasswordToken e db (User.new row)) as [[db1 tok]|m] eqn:Hset.
  2:{ exfalso. unfold User.setResetPasswordToken in Hset. simpl User.id in Hset.
      destruct (first_row_filter_ex (fun u => String.eqb (u_id u) (u_id row))
                  (users db) row Hin (String.eqb_refl _)) as [y Hy].
      rewrite Hy in Hset. discriminate. }
  destruct (setResetPasswordToken_users e db (User.new row) db1 tok Hset)
    as [-> [Hsame1 Hu1]].
  set (upd := fun u : UserRow =>
                mkUserRow (u_id u) (u_email u) (u_password_hash u) (u_first_name u)
                          (u_last_name u) (u_phone u) (u_role u) (u_is_verified u)
                          (u_verification_token u) (Some (uuidv4 e))
                          (Some (now e + 3600000)%Z)
                          (u_last_login u) (u_created_at u) (now e)) in *.
  (* the rows of [db1] *)
  assert (Hrows1 : forall u', In u' (users db1) ->
            exists u, In u (users db)
                      /\ u' = (if User.hit (User.new row) u then upd u else u)).
  { intros u' Hu'. rewrite Hu1 in Hu'. unfold update_where in Hu'.
    apply in_map_iff in Hu'. destruct Hu' as [u [<- Hu]]. now exists u. }
  exists db1. eexists. split.
  { unfold forgot_password. rewrite He. simpl handleValidationErrors. cbv iota.
    unfold User.findByEmail. unfold found_by_email in Hf. rewrite Hf, Hset.
    reflexivity. }
  split; [reflexivity|]. split.
  - (* expired *)
    intros Hexp. rewrite reset_password_lookup by assumption.
    rewrite findByResetToken_none; [reflexivity|].
    intros x Hx Htok. destruct (Hrows1 x Hx) as [u [Hu ->]].
    destruct (User.hit (User.new row) u); [exact Hexp|].
    now elim (Hfree u Hu).
  - (* in time *)
    intros Hin_time. rewrite reset_password_lookup by assumption.
    unfold User.findByResetToken.
    match goal with |- context [first_row (filter ?p ?l)] =>
      destruct (first_row (filter p l)) as [held|] eqn:Hheld end.
    2:{ exfalso. rewrite first_row_filter_none in Hheld.
        assert (Hin1 : In (upd row) (users db1)).
        { rewrite Hu1. unfold update_where. apply in_map_iff. exists row.
          split; [|exact Hin]. unfold User.hit. simpl. now rewrite String.eqb_refl. }
        specialize (Hheld _ Hin1). simpl in Hheld. rewrite String.eqb_refl in Hheld.
        simpl in Hheld. apply Z.ltb_ge in Hheld. lia. }
    apply first_row_filter_some in Hheld. destruct Hheld as [Hheld_in Hheld_p].
    assert (Hheld_id : u_id held = u_id row).
    { destruct (Hrows1 held Hheld_in) as [u [Hu ->]].
      destruct (User.hit (User.new row) u) eqn:Eh.
      - unfold User.hit in Eh. simpl in Eh. apply String.eqb_eq in Eh. exact Eh.
      - apply andb_true_iff in Hheld_p. destruct Hheld_p as [Hp _].
        apply col_eq_true in Hp. now elim (Hfree u Hu). }
    unfold User.updatePassword.
    set (setpw := fun u : UserRow =>
                    mkUserRow (u_id u) (u_email u) (bcrypt_hash (salt e2) pw)
                              (u_first_name u) (u_last_name u) (u_phone u) (u_role u)
                              (u_is_verified u) (u_verification_token u) None None
                              (u_last_login u) (u_created_at u) (u_updated_at u)).
    destruct (update_returning_ok e2 db1 (User.new held) setpw held Hheld_in eq_refl)
      as [t' Hup].
    rewrite Hup.
    exists (User.update_rows e2 db1 (User.new held) setpw).
    split; [reflexivity|].
    assert (Hrows2 : forall u', In u' (users (User.update_rows e2 db1 (User.new held) setpw)) ->
              (u_id u' = u_id row /\ u_password_hash u' = bcrypt_hash (salt e2) pw
               /\ u_reset_password_token u' = None /\ u_reset_password_expires u' = None)
              \/ (u_id u' <> u_id row /\ In u' (users db))).
    { intros u' Hu'. apply update_rows_In in Hu'. destruct Hu' as [u1 [Hu1' ->]].
      assert (Hh : User.hit (User.new held) u1 = String.eqb (u_id u1) (u_id row)).
      { unfold User.hit. simpl. now rewrite Hheld_id. }
      rewrite Hh.
      destruct (String.eqb (u_id u1) (u_id row)) eqn:E1.
      - left. apply String.eqb_eq in E1. unfold setpw. simpl. auto.
      - right. apply String.eqb_neq in E1. split; [exact E1|].
        destruct (Hrows1 u1 Hu1') as [u [Hu ->]].
        unfold User.hit in *. simpl User.id in *.
        destruct (String.eqb (u_id u) (u_id row)) eqn:E.
        + simpl in E1. apply String.eqb_eq in E. contradiction.
        + exact Hu. }
    split.
    { intros u' Hu' Hid. destruct (Hrows2 u' Hu') as [[_ H] | [H _]];
        [exact H | contradiction]. }
    split.
    { intros u' Hu' Hid. destruct (Hrows2 u' Hu') as [[H _] | [_ H]];
        [contradiction | exact H]. }
    split.
    { pose proof (update_rows_same e2 db1 (User.new held) setpw) as Hs2.
      unfold same_but_users, same_returns in *. intuition congruence. }
    rewrite reset_password_lookup by assumption.
    rewrite findByResetToken_none; [reflexivity|].
    intros x Hx Htok.
    destruct (Hrows2 x Hx) as [[_ [_ [Hnone _]]] | [_ Hold]].
    + rewrite Hnone in Htok. discriminate.
    + now elim (Hfree x Hold).
Qed.
End Reset.

Section ChangePassword.
Variable bcrypt_hash : string -> string -> string.
Variable bcrypt_compare : string -> string -> bool.

(** X10. [POST /change-password] needs the current password: when
    [bcrypt.compare] refuses it, the answer is 400 "Current password is
    incorrect" and nothing is written; when it accepts it, the answer is
    200, every row with the user's key carries the hash of the new
    password and no reset token (a pending reset link dies with the old
    password), and no other row or table changes. *)
Theorem change_password_needs_current :
  forall (e : Entropy) (db : Db) (user : Principal) (current newpw : string)
         (row : UserRow),
    current <> "" -> 8 <= String.length newpw -> password_pattern newpw = true ->
    first_row (filter (fun u => String.eqb (u_id u) (p_id user)) (users db)) = Some row ->
    (bcrypt_compare current (u_password_hash row) = false ->
     change_password bcrypt_hash bcrypt_compare e db user current newpw
     = (db, Sent (fail 400 "Current password is incorrect")))
    /\ (bcrypt_compare current (u_password_hash row) = true ->
        exists db',
          change_password bcrypt_hash bcrypt_compare e db user current newpw
          = (db', Sent (success_message "Password changed successfully"))
          /\ (forall u', In u' (users db') -> u_id u' = p_id user ->
                u_password_hash u' = bcrypt_hash (salt e) newpw
                /\ u_reset_password_token u' = None
                /\ u_reset_password_expires u' = None)
          /\ (forall u', In u' (users db') -> u_id u' <> p_id user -> In u' (users db))
          /\ same_but_users db db').
Proof.
  intros e db user current newpw row Hc Hlen Hpat Hf.
  apply String.eqb_neq in Hc. apply Nat.leb_le in Hlen.
  pose proof (first_row_filter_some _ _ _ Hf) as [Hin Hid]. apply String.eqb_eq in Hid.
  assert (Hhit : User.hit (User.new row) = fun u => String.eqb (u_id u) (p_id user)).
  { unfold User.hit. simpl. now rewrite Hid. }
  split.
  - intros Hbad. unfold change_password.
    rewrite Hc, Hlen, Hpat. simpl handleValidationErrors. cbv iota.
    unfold User.findById. rewrite Hf. unfold User.verifyPassword.
    rewrite Hhit, Hf, Hbad. reflexivity.
  - intros Hgood.
    set (setpw := fun u : UserRow =>
                    mkUserRow (u_id u) (u_email u) (bcrypt_hash (salt e) newpw)
                              (u_first_name u) (u_last_name u) (u_phone u) (u_role u)
                              (u_is_verified u) (u_verification_token u) None None
                              (u_last_login u) (u_created_at u) (u_updated_at u)).
    destruct (update_returning_ok e db (User.new row) setpw row Hin eq_refl) as [t' Hup].
    exists (User.update_rows e db (User.new row) setpw). split.
    { unfold change_password.
      rewrite Hc, Hlen, Hpat. simpl handleValidationErrors. cbv iota.
      unfold User.findById. rewrite Hf. unfold User.verifyPassword.
      rewrite Hhit, Hf, Hgood. simpl negb. cbv iota.
      unfold User.updatePassword. fold setpw. rewrite Hup. reflexivity. }
    split; [|split; [|apply update_rows_same]].
    + intros u' Hu' Hid'. apply update_rows_In in Hu'. destruct Hu' as [u [Hu ->]].
      rewrite Hhit in *.
      destruct (String.eqb (u_id u) (p_id user)) eqn:E; [unfold setpw; simpl; auto|].
      apply String.eqb_neq in E. contradiction.
    + intros u' Hu' Hid'. apply update_rows_In in Hu'. destruct Hu' as [u [Hu ->]].
      rewrite Hhit in *.
      destruct (String.eqb (u_id u) (p_id user)) eqn:E; [|exact Hu].
      apply String.eqb_eq in E. simpl in Hid'. contradiction.
Qed.
End ChangePassword.

(* ------------------------------------------------------------------ *)
(** ** [User.update], [User.delete], [User.getProfile] *)
(* ------------------------------------------------------------------ *)

Lemma assign_same_account entry u : same_account u (User.assign entry u).
Proof.
  destruct entry as [key v]. unfold User.assign, same_account.
  destruct (String.eqb key "first_name"); [simpl; repeat split|].
  destruct (String.eqb key "last_name"); [simpl; repeat split|].
  destruct (String.eqb key "phone"); simpl; repeat split.
Qed.

Lemma same_account_trans u v w : same_account u v -> same_account v w -> same_account u w.
Proof. unfold same_account. intuition congruence. Qed.

Lemma same_account_refl u : same_account u u.
Proof. unfold same_account. repeat split. Qed.

Lemma assign_all_same_account sets u : same_account u (fold_right User.assign u sets).
Proof.
  induction sets as [|entry sets IH]; simpl; [apply same_account_refl|].
  eapply same_account_trans; [exact IH | apply assign_same_account].
Qed.

Lemma stamp_same_account e u : same_account u (User.stamp e u).
Proof. unfold same_account. simpl. repeat split. Qed.

Lemma assign_first_name k v x :
  Some (u_first_name (User.assign (k, v) x))
  = if String.eqb k "first_name"
    then Some (match v with Some t => t | None => "" end)
    else Some (u_first_name x).
Proof.
  unfold User.assign. destruct (String.eqb k "first_name"); [reflexivity|].
  destruct (String.eqb k "last_name"); [reflexivity|].
  destruct (String.eqb k "phone"); reflexivity.
Qed.

Lemma assign_last_name k v x :
  Some (u_last_name (User.assign (k, v) x))
  = if String.eqb k "last_name"
    then Some (match v with Some t => t | None => "" end)
    else Some (u_last_name x).
Proof.
  unfold User.assign. destruct (String.eqb k "first_name") eqn:E1.
  - apply String.eqb_eq in E1. subst k. reflexivity.
  - destruct (String.eqb k "last_name"); [reflexivity|].
    destruct (String.eqb k "phone"); reflexivity.
Qed.

Lemma assign_phone k v x :
  u_phone (User.assign (k, v) x) = if String.eqb k "phone" then v else u_phone x.
Proof.
  unfold User.assign. destruct (String.eqb k "first_name") eqn:E1.
  - apply String.eqb_eq in E1. subst k. reflexivity.
  - destruct (String.eqb k "last_name") eqn:E2.
    + apply String.eqb_eq in E2. subst k. reflexivity.
    + destruct (String.eqb k "phone"); reflexivity.
Qed.

(** A [SET] list without a repeated column and without a refused [NULL]
    leaves in each column what it gives for it. *)
Lemma assign_all_written key (g : UserRow -> option string)
      (stored : option string -> option string) :
  (forall k v x,
      g (User.assign (k, v) x) = if String.eqb k key then stored v else g x) ->
  (forall v, User.null_refused (key, v) = false -> stored v = v) ->
  forall sets u,
    User.repeated (map fst sets) = false ->
    existsb User.null_refused sets = false ->
    written key sets (g u) (g (fold_right User.assign u sets)).
Proof.
  intros Hg Hstored sets u. induction sets as [|[k v0] rest IH]; intros Hrep Hnull.
  - split; [intros v []| reflexivity].
  - cbn [map fst User.repeated] in Hrep. apply orb_false_iff in Hrep.
    destruct Hrep as [Hfresh Hrep].
    cbn [existsb] in Hnull. apply orb_false_iff in Hnull. destruct Hnull as [Hn0 Hnull].
    destruct (IH Hrep Hnull) as [IHa IHb].
    cbn [fold_right]. rewrite Hg. split.
    + intros v [Heq | Hin].
      * injection Heq as -> ->. rewrite String.eqb_refl. now apply Hstored.
      * destruct (String.eqb k key) eqn:E; [|now apply IHa].
        exfalso. apply String.eqb_eq in E. subst k.
        assert (Hin' : In key (map fst rest)) by (apply in_map_iff; now exists (key, v)).
        apply includes_In in Hin'. rewrite Hin' in Hfresh. discriminate.
    + intros Hnot. destruct (String.eqb k key) eqn:E.
      * exfalso. apply String.eqb_eq in E. subst k. apply (Hnot v0). now left.
      * apply IHb. intros v Hin. apply (Hnot v). now right.
Qed.

Lemma written_updates key updateData before after :
  includes User.allowedFields key = true ->
  written key (User.updates updateData) before after ->
  written key updateData before after.
Proof.
  intros Hk [Ha Hb]. unfold User.updates in *. split.
  - intros v Hin. apply Ha. apply filter_In. split; [exact Hin | exact Hk].
  - intros Hnot. apply Hb. intros v Hin. apply filter_In in Hin. now apply (Hnot v).
Qed.

(** X11. [User.update] writes first name, last name and phone as given
    and nothing else. Whatever keys and values [updateData] carries, a
    successful update rewrites the rows of [users] in place; in every
    row with the user's key each of the three columns holds the value
    [updateData] gives for it, or the value of before when it gives
    none, and (when an allowed key is present) [updated_at] is the time
    of the update and the returned user is the one [findById] then reads
    from the store; every row keeps its key, email, password hash, role,
    verification state, tokens, last login and creation time; the rows
    of other users and all other tables are as they were; a key outside
    the allowed three (say [role]) is ignored, with or without other
    keys; and when no allowed key is present nothing is written at
    all. *)
Theorem update_changes_only_names_and_phone :
  forall (e : Entropy) (db : Db) (this : User.t)
         (updateData : list (string * option string)),
    (forall db' user',
        User.update e db this updateData = Ok (db', user') ->
        (exists f,
            users db' = map f (users db)
            /\ (forall u, same_account u (f u))
            /\ (forall u, u_id u <> User.id this -> f u = u)
            /\ (forall u, u_id u = User.id this ->
                  written "first_name" updateData
                          (Some (u_first_name u)) (Some (u_first_name (f u)))
                  /\ written "last_name" updateData
                             (Some (u_last_name u)) (Some (u_last_name (f u)))
                  /\ written "phone" updateData (u_phone u) (u_phone (f u))
                  /\ (User.updates updateData <> [] -> u_updated_at (f u) = now e)))
        /\ same_but_users db db'
        /\ (User.updates updateData <> [] ->
            User.findById db' (User.id this) = Some user'))
    /\ (forall key v,
          includes User.allowedFields key = false ->
          User.update e db this ((key, v) :: updateData)
          = User.update e db this updateData)
    /\ ((forall entry, In entry updateData ->
                       includes User.allowedFields (fst entry) = false) ->
        User.update e db this updateData = Ok (db, this)).
Proof.
  intros e db this updateData. split; [|split].
  - intros db' user'. unfold User.update.
    destruct (User.updates updateData) as [|s0 sets0] eqn:Hs.
    + intros [= <- <-]. split; [|split].
      * exists (fun u => u). split; [now rewrite map_id|].
        split; [intros u; apply same_account_refl|]. split; [reflexivity|].
        intros u _.
        assert (Hw : forall key before,
                   includes User.allowedFields key = true ->
                   written key updateData before before).
        { intros key before Hk. apply written_updates; [exact Hk|]. rewrite Hs.
          split; [intros v []| reflexivity]. }
        split; [now apply Hw|]. split; [now apply Hw|]. split; [now apply Hw|].
        intros H. now elim H.
      * unfold same_but_users, same_returns. repeat split.
      * intros H. now elim H.
    + destruct (User.repeated _) eqn:Hrep; [discriminate|].
      destruct (existsb User.too_long _); [discriminate|].
      destruct (first_row (filter (User.hit this) (users db))) as [found|] eqn:Hf;
        [|discriminate].
      destruct (existsb User.null_refused _) eqn:Hnull; [discriminate|].
      unfold User.update_returning. rewrite Hf. intros [= <- <-]. split; [|split].
      * exists (fun u => if User.hit this u
                         then User.stamp e (fold_right User.assign u (s0 :: sets0))
                         else u).
        split; [reflexivity|]. split.
        { intros u. destruct (User.hit this u); [|apply same_account_refl].
          eapply same_account_trans; [apply assign_all_same_account|].
          apply stamp_same_account. }
        split.
        { intros u Hne. unfold User.hit. apply String.eqb_neq in Hne.
          now rewrite Hne. }
        intros u Hid. unfold User.hit. rewrite Hid, String.eqb_refl.
        cbn [User.stamp u_first_name u_last_name u_phone u_updated_at].
        rewrite <- Hs in *.
        split; [|split; [|split; [|reflexivity]]].
        -- apply written_updates; [reflexivity|].
           apply (assign_all_written "first_name" (fun x => Some (u_first_name x))
                    (fun v => Some (match v with Some t => t | None => "" end)));
             [apply assign_first_name | | exact Hrep | exact Hnull].
           intros [t|]; [reflexivity | discriminate].
        -- apply written_updates; [reflexivity|].
           apply (assign_all_written "last_name" (fun x => Some (u_last_name x))
                    (fun v => Some (match v with Some t => t | None => "" end)));
             [apply assign_last_name | | exact Hrep | exact Hnull].
           intros [t|]; [reflexivity | discriminate].
        -- apply written_updates; [reflexivity|].
           apply (assign_all_written "phone" u_phone (fun v => v));
             [apply assign_phone | reflexivity | exact Hrep | exact Hnull].
      * apply update_rows_same.
      * intros _. unfold User.findById, User.update_rows.
        set (upd := fun u => User.stamp e (fold_right User.assign u (s0 :: sets0))).
        match goal with |- context [users (set_users db ?X)] =>
          change (users (set_users db X))
            with (update_where (User.hit this) upd (users db)) end.
        change (fun u : UserRow => String.eqb (u_id u) (User.id this))
          with (User.hit this).
        rewrite filter_update_where.
        -- rewrite first_row_map, Hf. reflexivity.
        -- intros x. unfold User.hit, upd.
           destruct (stamp_same_account e (fold_right User.assign x (s0 :: sets0)))
             as [H1 _].
           destruct (assign_all_same_account (s0 :: sets0) x) as [H2 _].
           now rewrite H1, H2.
  - intros key v Hk. unfold User.update, User.updates. cbn [filter fst].
    rewrite Hk. reflexivity.
  - intros Hall. unfold User.update, User.updates.
    assert (Hnil : filter (fun entry => includes User.allowedFields (fst entry)) updateData
                   = []).
    { induction updateData as [|x l IH]; [reflexivity|]. cbn [filter].
      rewrite (Hall x (or_introl eq_refl)). apply IH.
      intros entry Hin. apply Hall. now right. }
    rewrite Hnil. reflexivity.
Qed.

Section DeleteFacts.
Variable encode : Jwt.Claims -> string -> string.
Variable decode : string -> option (Jwt.Claims * string).
Variable hmac : string -> Jwt.Claims -> string.
Variable JWT_SECRET : string.
Variable JWT_EXPIRES_IN : Z.
Variable epoch_text : timestamp -> string.

(** A request that [authenticate] lets through acts for a verified row
    of [users]. *)
Lemma authenticate_next t db authorization p :
  authenticate decode hmac JWT_SECRET t db authorization = Next p ->
  exists row, In row (users db) /\ u_is_verified row = true /\ p = principal_of row.
Proof.
  unfold authenticate. destruct authorization as [h|]; [|discriminate].
  destruct (negb (startsWith h "Bearer ")); [discriminate|].
  destruct (Jwt.verify decode hmac JWT_SECRET t (substring_from 7 h)) as [c|name].
  - unfold User.findById.
    destruct (first_row _) as [row|] eqn:Hf; [|discriminate].
    apply first_row_filter_some in Hf. destruct Hf as [Hin _].
    simpl. destruct (u_is_verified row) eqn:Hv; simpl; [|discriminate].
    intros [= <-]. exists row. auto.
  - destruct (String.eqb name "TokenExpiredError"); [discriminate|].
    destruct (String.eqb name "JsonWebTokenError"); discriminate.
Qed.

(** X12. [DELETE /api/users/:id] is a soft delete, and the lock it puts
    on the account is not final. An administrator cannot delete their
    own account (400, nothing written). For another user, an answer 200
    means: no row of [users] was removed, the rows with that key had
    their email renamed with the suffix [_deleted_<epoch>] and
    [is_verified] set to false, the password hash and the tokens kept,
    every other row and table left as it was; on the store as the
    delete leaves it no bearer token at all authenticates as that user.
    But the verification token is kept: when the deleted row still
    holds one (an account deleted before it was verified),
    [POST /verify-email] with that token is answered 200, and from then
    on an unexpired token issued to that user authenticates again.
    (The package's decoding is assumed to invert its encoding on the
    issued token.) *)
Theorem deleted_user_is_locked_out :
  forall (e : Entropy) (db : Db) (admin : Principal) (row : UserRow),
    p_role admin = "admin" ->
    first_row (filter (fun u => String.eqb (u_id u) (u_id row)) (users db)) = Some row ->
    (u_id row = p_id admin ->
     delete_user epoch_text e db admin (u_id row)
     = (db, Sent (fail 400 "You cannot delete your own account")))
    /\ (u_id row <> p_id admin ->
        forall db' r,
          delete_user epoch_text e db admin (u_id row) = (db', Sent r) ->
          status r = 200 ->
          users db'
          = map (fun u =>
                   if String.eqb (u_id u) (u_id row) then
                     mkUserRow (u_id u)
                               (u_email u ++ "_deleted_" ++ epoch_text (now e))
                               (u_password_hash u) (u_first_name u) (u_last_name u)
                               (u_phone u) (u_role u) false (u_verification_token u)
                               (u_reset_password_token u) (u_reset_password_expires u)
                               (u_last_login u) (u_created_at u) (now e)
                   else u) (users db)
          /\ same_but_users db db'
          /\ (forall t authorization p,
                authenticate decode hmac JWT_SECRET t db' authorization = Next p ->
                p_id p <> u_id row)
          /\ (forall token e2,
                u_verification_token row = Some token ->
                token <> "" ->
                (forall u, In u (users db) -> u_verification_token u = Some token ->
                           u_id u = u_id row) ->
                exists db2,
                  verify_email e2 db' token
                  = (db2, Sent (success_message "Email verified successfully"))
                  /\ forall e0 t,
                       decode (encode (claims_of JWT_EXPIRES_IN e0 (User.new row))
                                 (hmac JWT_SECRET
                                       (claims_of JWT_EXPIRES_IN e0 (User.new row))))
                       = Some (claims_of JWT_EXPIRES_IN e0 (User.new row),
                               hmac JWT_SECRET
                                    (claims_of JWT_EXPIRES_IN e0 (User.new row))) ->
                       (t < now e0 / 1000 + JWT_EXPIRES_IN)%Z ->
                       exists p,
                         authenticate decode hmac JWT_SECRET t db2
                           (Some ("Bearer "
                                  ++ generateToken encode hmac JWT_SECRET
                                       JWT_EXPIRES_IN e0 (User.new row)))
                         = Next p
                         /\ p_id p = u_id row)).
Proof.
  intros e db admin row Hadm Hf.
  assert (Hfind : User.findById db (u_id row) = Some (User.new row)).
  { unfold User.findById. now rewrite Hf. }
  split.
  - intros Hself. unfold delete_user, authorize. rewrite Hadm. simpl negb. cbv iota.
    rewrite Hfind. simpl User.id. rewrite Hself, String.eqb_refl. reflexivity.
  - intros Hother db' r. unfold delete_user, authorize. rewrite Hadm.
    simpl negb. cbv iota. rewrite Hfind. simpl User.id.
    apply String.eqb_neq in Hother. rewrite Hother.
    unfold User.delete.
    destruct (existsb _ (filter (User.hit (User.new row)) (users db))); [discriminate|].
    destruct (existsb _ (filter (User.hit (User.new row)) (users db))); [discriminate|].
    intros [= <- <-] _.
    split; [reflexivity|]. split; [apply update_rows_same|]. split.
    { intros t authorization p Hnext Hid.
      apply authenticate_next in Hnext. destruct Hnext as [u' [Hin' [Hver ->]]].
      apply update_rows_In in Hin'. destruct Hin' as [u [Hu ->]].
      unfold principal_of in Hid. simpl p_id in Hid.
      destruct (User.hit (User.new row) u) eqn:Eh.
      + simpl in Hver. discriminate.
      + unfold User.hit in Eh. simpl in Eh, Hid. rewrite Hid in Eh.
        rewrite String.eqb_refl in Eh. discriminate. }
    intros token e2 Htok Hne Honly.
    match goal with
    | |- context [verify_email e2 (User.update_rows e db (User.new row) ?d)] =>
        set (del := d)
    end.
    set (db' := User.update_rows e db (User.new row) del).
    pose proof (first_row_filter_some _ _ _ Hf) as [Hrow _].
    (* the rows of [db'] keep key and token *)
    assert (Hkeep : forall h, In h (users db') ->
              exists u, In u (users db) /\ u_id h = u_id u
                        /\ u_verification_token h = u_verification_token u).
    { intros h Hh. apply update_rows_In in Hh. destruct Hh as [u [Hu ->]].
      exists u. split; [exact Hu|]. destruct (User.hit (User.new row) u); auto. }
    (* some row of [db'] holds the token, and every such row has the key *)
    assert (Hheld : exists h,
               first_row (filter (fun u => col_eq (u_verification_token u) token)
                                 (users db')) = Some h).
    { apply (first_row_filter_ex _ _ (User.stamp e (del row))).
      - apply update_rows_In. exists row. split; [exact Hrow|].
        unfold User.hit. simpl. now rewrite String.eqb_refl.
      - simpl. now apply col_eq_true. }
    destruct Hheld as [h Hh].
    pose proof (first_row_filter_some _ _ _ Hh) as [Hhin Hhtok].
    apply col_eq_true in Hhtok.
    assert (Hhid : u_id h = u_id row).
    { destruct (Hkeep h Hhin) as [u [Hu [-> Ht]]]. apply Honly; [exact Hu|].
      now rewrite <- Ht. }
    rewrite (verify_email_first e2 db' token h Hne Hh).
    eexists. split; [reflexivity|].
    intros e0 t Hcodec Ht.
    rewrite (authenticate_issued encode decode hmac JWT_SECRET JWT_EXPIRES_IN
               e0 (User.new row) t _ Hcodec).
    assert (Hle : (now e0 / 1000 + JWT_EXPIRES_IN <=? t)%Z = false)
      by (apply Z.leb_gt; exact Ht).
    rewrite Hle. simpl User.id.
    set (ver := fun u : UserRow =>
                  mkUserRow (u_id u) (u_email u) (u_password_hash u) (u_first_name u)
                            (u_last_name u) (u_phone u) (u_role u) true None
                            (u_reset_password_token u) (u_reset_password_expires u)
                            (u_last_login u) (u_created_at u) (u_updated_at u)).
    unfold User.update_rows at 1. cbn [users set_users].
    assert (Hhit : User.hit (User.new h) = fun u => String.eqb (u_id u) (u_id row)).
    { unfold User.hit. simpl. now rewrite Hhid. }
    rewrite Hhit.
    change (map (fun u => if String.eqb (u_id u) (u_id row)
                          then User.stamp e2 (ver u) else u) (users db'))
      with (update_where (fun u => String.eqb (u_id u) (u_id row))
                         (fun u => User.stamp e2 (ver u)) (users db')).
    rewrite first_row_update_where by reflexivity.
    destruct (first_row_filter_ex (fun u => String.eqb (u_id u) (u_id row))
                (users db') h Hhin) as [x Hx].
    { rewrite Hhid. apply String.eqb_refl. }
    rewrite Hx. simpl u_is_verified. cbv iota.
    eexists. split; [reflexivity|].
    apply first_row_filter_some in Hx. destruct Hx as [_ Hx].
    apply String.eqb_eq in Hx. exact Hx.
Qed.
End DeleteFacts.

Lemma get_field_app_first k v fs gs :
  get_field k fs = v -> v <> VUndefined -> get_field k (fs ++ gs) = v.
Proof.
  induction fs as [|[k' v'] fs IH]; simpl.
  - intros <- H. now elim H.
  - destruct (String.eqb k k'); [auto | exact IH].
Qed.

Section ProfileFacts.
Variable customer_cell : uuid -> string -> value.
Variable accountant_cell : uuid -> string -> value.

Lemma getProfile_columns db this u :
  first_row (filter (User.hit this) (users db)) = Some u ->
  exists rest,
    User.getProfile customer_cell accountant_cell db this
    = VObj (User.columns u ++ rest).
Proof.
  intros Hf. unfold User.getProfile. rewrite Hf.
  destruct (String.eqb (User.role this) "customer"); [eexists; reflexivity|].
  destruct (String.eqb (User.role this) "accountant"); [eexists; reflexivity|].
  exists []. now rewrite app_nil_r.
Qed.

(** X13. [GET /api/auth/me] answers with the raw [users] row of the
    requester, joined to the profile of their role: unlike
    [User.toJSON], the data carries the stored [password_hash], and the
    verification and reset tokens as they stand in the row. *)
Theorem profile_discloses_credentials :
  forall (db : Db) (user : Principal) (row : UserRow),
    first_row (filter (fun u => String.eqb (u_id u) (p_id user)) (users db)) = Some row ->
    exists profile,
      get_me customer_cell accountant_cell db user = Sent (success_data profile)
      /\ prop "id" profile = VStr (p_id user)
      /\ prop "password_hash" profile = VStr (u_password_hash row)
      /\ prop "verification_token" profile = of_text (u_verification_token row)
      /\ prop "reset_password_token" profile = of_text (u_reset_password_token row)
      /\ prop "password_hash" (User.toJSON (User.new row)) = VUndefined.
Proof.
  intros db user row Hf.
  pose proof (first_row_filter_some _ _ _ Hf) as [Hin Hid]. apply String.eqb_eq in Hid.
  unfold get_me, User.findById. rewrite Hf.
  destruct (getProfile_columns db (User.new row) row) as [rest Hp].
  { unfold User.hit. simpl. rewrite Hid. exact Hf. }
  rewrite Hp. eexists. split; [reflexivity|].
  unfold prop.
  split; [apply get_field_app_first; [simpl; now rewrite Hid | discriminate]|].
  split; [apply get_field_app_first; [reflexivity | discriminate]|].
  split.
  { destruct (u_verification_token row) eqn:E.
    - apply get_field_app_first; [simpl; now rewrite E | discriminate].
    - apply get_field_app_first; [simpl; now rewrite E | discriminate]. }
  split; [|reflexivity].
  destruct (u_reset_password_token row) eqn:E.
  - apply get_field_app_first; [simpl; now rewrite E | discriminate].
  - apply get_field_app_first; [simpl; now rewrite E | discriminate].
Qed.
End ProfileFacts.

(* ------------------------------------------------------------------ *)
(** ** [models/TaxReturn.js]: listings and updates *)
(* ------------------------------------------------------------------ *)

Lemma insert_desc_In r x l : In x (insert_desc r l) <-> x = r \/ In x l.
Proof.
  induction l as [|y l IH]; simpl.
  - split; [intros [<- | []]; auto | intros [-> | []]; auto].
  - destruct (tr_created_at y <? tr_created_at r)%Z; simpl.
    + split; [intros [<- | H]; auto | intros [-> | H]; auto].
    + rewrite IH. split.
      * intros [<- | [-> | H]]; auto.
      * intros [-> | [<- | H]]; auto.
Qed.

Lemma order_by_created_desc_In x l : In x (order_by_created_desc l) <-> In x l.
Proof.
  unfold order_by_created_desc. induction l as [|y l IH]; simpl; [tauto|].
  rewrite insert_desc_In, IH. split; intros [H | H]; auto.
Qed.

Lemma insert_desc_descending r l :
  descending (map tr_created_at l) ->
  descending (map tr_created_at (insert_desc r l)).
Proof.
  induction l as [|y l IH]; simpl.
  - intros _. split; [intros z []| exact I].
  - intros [Hy Hl]. destruct (tr_created_at y <? tr_created_at r)%Z eqn:E; simpl.
    + apply Z.ltb_lt in E. split; [|split; assumption].
      intros z [<- | Hz]; [lia|]. specialize (Hy z Hz). lia.
    + apply Z.ltb_ge in E. split; [|now apply IH].
      intros z Hz. apply in_map_iff in Hz. destruct Hz as [x [<- Hx]].
      apply insert_desc_In in Hx. destruct Hx as [-> | Hx]; [exact E|].
      apply Hy. now apply in_map.
Qed.

Lemma order_by_created_desc_descending l :
  descending (map tr_created_at (order_by_created_desc l)).
Proof.
  unfold order_by_created_desc. induction l as [|y l IH]; simpl; [exact I|].
  now apply insert_desc_descending.
Qed.

Lemma In_firstn {A} n (l : list A) x : In x (firstn n l) -> In x l.
Proof.
  revert l. induction n as [|n IH]; intros [|y l]; simpl; try tauto.
  intros [H | H]; auto.
Qed.

Lemma descending_firstn n l : descending l -> descending (firstn n l).
Proof.
  revert l. induction n as [|n IH]; intros [|x l]; simpl; auto.
  intros [Hx Hl]. split; [|now apply IH].
  intros y Hy. apply Hx. now apply In_firstn in Hy.
Qed.

Lemma descending_skipn n l : descending l -> descending (skipn n l).
Proof.
  revert l. induction n as [|n IH]; intros [|x l]; simpl; auto.
  intros [_ Hl]. now apply IH.
Qed.

Lemma map_new_createdAt l :
  map TaxReturn.createdAt (map TaxReturn.new l) = map tr_created_at l.
Proof. rewrite map_map. reflexivity. Qed.

Lemma filter_all_false {A} (p : A -> bool) (l : list A) :
  (forall x, p x = false) -> filter p l = [].
Proof.
  intros H. induction l as [|x l IH]; [reflexivity|]. simpl. now rewrite H.
Qed.

Lemma findByCustomerId_In db c filters x :
  In x (TaxReturn.findByCustomerId db (Some c) filters) ->
  TaxReturn.customerId x = Some c.
Proof.
  unfold TaxReturn.findByCustomerId. intros Hx.
  apply in_map_iff in Hx. destruct Hx as [r [<- Hr]].
  assert (Hin : In r (order_by_created_desc
                        (filter (fun r0 : TaxReturnRow =>
                           sql_eq (tr_customer_id r0) (Some c)
                           && match TaxReturn.given (TaxReturn.f_status filters) with
                              | Some s => String.eqb (tr_status r0) s
                              | None => true
                              end
                           && match TaxReturn.given (TaxReturn.f_taxYear filters) with
                              | Some y => String.eqb (tr_tax_year r0) y
                              | None => true
                              end) (tax_returns db)))).
  { destruct (TaxReturn.f_limit filters); [now apply In_firstn in Hr | exact Hr]. }
  apply (proj1 (order_by_created_desc_In _ _)) in Hin.
  apply filter_In in Hin. destruct Hin as [_ Hp].
  apply andb_true_iff in Hp. destruct Hp as [Hp _].
  apply andb_true_iff in Hp. destruct Hp as [Hp _]. apply sql_eq_true in Hp. exact Hp.
Qed.

(** X14. [TaxReturn.findByCustomerId] lists a customer's returns and
    nothing else: every item is a row of [tax_returns] of that
    customer that passes the status and tax-year filters; the items come
    newest first; a limit bounds their number; without a limit every
    matching row is listed; and a [null] customer id matches no row at
    all, whatever the table holds. *)
Theorem findByCustomerId_lists_own_returns :
  forall (db : Db) (c : uuid) (filters : TaxReturn.Filters),
    (forall x,
        In x (TaxReturn.findByCustomerId db (Some c) filters) ->
        TaxReturn.customerId x = Some c
        /\ (forall s, TaxReturn.given (TaxReturn.f_status filters) = Some s ->
                      TaxReturn.status x = s)
        /\ (forall y, TaxReturn.given (TaxReturn.f_taxYear filters) = Some y ->
                      TaxReturn.taxYear x = y)
        /\ exists r, In r (tax_returns db) /\ x = TaxReturn.new r)
    /\ descending (map TaxReturn.createdAt (TaxReturn.findByCustomerId db (Some c) filters))
    /\ (forall n, TaxReturn.f_limit filters = Some n ->
                  length (TaxReturn.findByCustomerId db (Some c) filters) <= n)
    /\ (TaxReturn.f_limit filters = None ->
        forall r, In r (tax_returns db) ->
                  tr_customer_id r = Some c ->
                  (forall s, TaxReturn.given (TaxReturn.f_status filters) = Some s ->
                             tr_status r = s) ->
                  (forall y, TaxReturn.given (TaxReturn.f_taxYear filters) = Some y ->
                             tr_tax_year r = y) ->
                  In (TaxReturn.new r) (TaxReturn.findByCustomerId db (Some c) filters))
    /\ TaxReturn.findByCustomerId db None filters = [].
Proof.
  intros db c filters. unfold TaxReturn.findByCustomerId.
  set (p := fun r : TaxReturnRow =>
              sql_eq (tr_customer_id r) (Some c)
              && match TaxReturn.given (TaxReturn.f_status filters) with
                 | Some s => String.eqb (tr_status r) s
                 | None => true
                 end
              && match TaxReturn.given (TaxReturn.f_taxYear filters) with
                 | Some y => String.eqb (tr_tax_year r) y
                 | None => true
                 end).
  set (sorted := order_by_created_desc (filter p (tax_returns db))).
  assert (Hsub : forall r, In r (match TaxReturn.f_limit filters with
                                 | Some n => firstn n sorted
                                 | None => sorted
                                 end) -> In r (tax_returns db) /\ p r = true).
  { intros r Hr. apply filter_In. apply (proj1 (order_by_created_desc_In _ _)).
    fold sorted.
    destruct (TaxReturn.f_limit filters); [now apply In_firstn in Hr | exact Hr]. }
  split; [|split; [|split; [|split]]].
  - intros x Hx. apply in_map_iff in Hx. destruct Hx as [r [<- Hr]].
    apply Hsub in Hr. destruct Hr as [Hin Hp]. unfold p in Hp.
    apply andb_true_iff in Hp. destruct Hp as [Hp Hy].
    apply andb_true_iff in Hp. destruct Hp as [Hc Hs].
    apply sql_eq_true in Hc. simpl.
    split; [exact Hc|]. split; [|split; [|now exists r]].
    + intros s Hg. rewrite Hg in Hs. now apply String.eqb_eq in Hs.
    + intros y Hg. rewrite Hg in Hy. now apply String.eqb_eq in Hy.
  - rewrite map_new_createdAt.
    pose proof (order_by_created_desc_descending (filter p (tax_returns db))) as Hd.
    fold sorted in Hd.
    destruct (TaxReturn.f_limit filters);
      [rewrite <- firstn_map; now apply descending_firstn | exact Hd].
  - intros n ->. rewrite length_map. apply firstn_le_length.
  - intros -> r Hin Hc Hs Hy. apply in_map. unfold sorted.
    apply (proj2 (order_by_created_desc_In _ _)). apply filter_In. split; [exact Hin|].
    unfold p. cbv beta.
    assert (Hq : sql_eq (tr_customer_id r) (Some c) = true) by now apply sql_eq_true.
    rewrite Hq. cbn [andb].
    destruct (TaxReturn.given (TaxReturn.f_status filters)) as [s|].
    + rewrite (Hs s eq_refl), String.eqb_refl. cbn [andb].
      destruct (TaxReturn.given (TaxReturn.f_taxYear filters)) as [y|]; [|reflexivity].
      rewrite (Hy y eq_refl). apply String.eqb_refl.
    + cbn [andb].
      destruct (TaxReturn.given (TaxReturn.f_taxYear filters)) as [y|]; [|reflexivity].
      rewrite (Hy y eq_refl). apply String.eqb_refl.
  - rewrite filter_all_false; [|intros r; now destruct (tr_customer_id r)].
    simpl. destruct (TaxReturn.f_limit filters) as [n|]; [|reflexivity].
    destruct n; reflexivity.
Qed.

Lemma findByAccountantId_In db a filters x :
  In x (TaxReturn.findByAccountantId db (Some a) filters) ->
  TaxReturn.accountantId x = Some a.
Proof.
  unfold TaxReturn.findByAccountantId. intros Hx.
  apply in_map_iff in Hx. destruct Hx as [r [<- Hr]].
  apply (proj1 (order_by_created_desc_In _ _)) in Hr.
  apply filter_In in Hr. destruct Hr as [_ Hp].
  apply andb_true_iff in Hp. destruct Hp as [Hp _]. apply sql_eq_true in Hp. exact Hp.
Qed.

(** X15. [GET /api/tax-returns] shows each role its own returns: a
    customer gets only returns whose customer id is the id of their
    profile (400 "Customer profile not found" without one), an
    accountant only returns assigned to their profile (400 "Accountant
    profile not found" without one), and for an accountant the
    [taxYear], [paymentStatus], [limit] and [offset] parameters of the
    query are ignored; an administrator gets [TaxReturn.getAll]. *)
Theorem get_tax_returns_lists_only_own :
  forall (db : Db) (user : Principal) (query : TaxReturn.Query),
    (p_role user = "customer" ->
     (getCustomerIdFromUser db (p_id user) = VNull ->
      get_tax_returns db user query = Sent (fail 400 "Customer profile not found"))
     /\ (forall c,
           getCustomerIdFromUser db (p_id user) = VStr c ->
           exists items,
             get_tax_returns db user query = listed items
             /\ forall x, In x items -> TaxReturn.customerId x = Some c))
    /\ (p_role user = "accountant" ->
        (truthy (accountantIdOfUser db (p_id user)) = false ->
         get_tax_returns db user query = Sent (fail 400 "Accountant profile not found"))
        /\ (forall a,
              accountantIdOfUser db (p_id user) = VStr a -> a <> "" ->
              exists items,
                get_tax_returns db user query = listed items
                /\ forall x, In x items -> TaxReturn.accountantId x = Some a)
        /\ get_tax_returns db user query
           = get_tax_returns db user
               (TaxReturn.mkQuery (TaxReturn.q_status query) None None None None))
    /\ (p_role user = "admin" ->
        get_tax_returns db user query = listed (TaxReturn.getAll db query)).
Proof.
  intros db user query. unfold get_tax_returns, listed. split; [|split].
  - intros ->. simpl String.eqb. cbv iota. split.
    + intros ->. reflexivity.
    + intros c Hc. rewrite Hc.
      destruct (getCustomerIdFromUser_cases db (p_id user)) as [H | [c0 [_ [_ [Hne H]]]]];
        [congruence|].
      rewrite Hc in H. injection H as ->.
      apply String.eqb_neq in Hne. simpl truthy. rewrite Hne. simpl negb. cbv iota.
      eexists. split; [reflexivity|]. intros x Hx.
      now apply findByCustomerId_In in Hx.
  - intros ->. simpl String.eqb. cbv iota. split; [|split].
    + intros ->. reflexivity.
    + intros a Ha Hne. rewrite Ha. apply String.eqb_neq in Hne. simpl truthy.
      rewrite Hne. simpl negb. cbv iota.
      eexists. split; [reflexivity|]. intros x Hx.
      now apply findByAccountantId_In in Hx.
    + reflexivity.
  - intros ->. reflexivity.
Qed.

Lemma same_return_refl r : same_return r r.
Proof. unfold same_return. repeat split. Qed.

Lemma stamp_same_return e r : same_return r (TaxReturn.stamp e r).
Proof. unfold same_return. simpl. repeat split. Qed.

Lemma same_return_trans a b c : same_return a b -> same_return b c -> same_return a c.
Proof. unfold same_return. intuition congruence. Qed.

Lemma update_returning_rewrites e db this set db' t' :
  (forall r, same_return r (set r)) ->
  TaxReturn.update_returning e db this set = Ok (db', t') ->
  rewrites_return (TaxReturn.id this) db db'
  /\ exists r, In r (tax_returns db) /\ tr_id r = TaxReturn.id this
               /\ t' = TaxReturn.new (TaxReturn.stamp e (set r)).
Proof.
  intros Hset. unfold TaxReturn.update_returning.
  destruct (first_row _) as [r|] eqn:Hf; [|discriminate].
  intros [= <- <-].
  apply first_row_filter_some in Hf. destruct Hf as [Hin Hid]. apply String.eqb_eq in Hid.
  split.
  - unfold rewrites_return. simpl. repeat (split; [reflexivity|]).
    exists (fun x => if String.eqb (tr_id x) (TaxReturn.id this)
                     then TaxReturn.stamp e (set x) else x).
    split; [reflexivity|]. split.
    + intros x. destruct (String.eqb (tr_id x) (TaxReturn.id this));
        [|apply same_return_refl].
      eapply same_return_trans; [apply Hset | apply stamp_same_return].
    + intros x Hne. apply String.eqb_neq in Hne. now rewrite Hne.
  - exists r. auto.
Qed.

Lemma update_returning_stored e db this set db' t' (holds : TaxReturnRow -> Prop) :
  (forall r, tr_id (set r) = tr_id r) ->
  (forall r, holds (TaxReturn.stamp e (set r))) ->
  TaxReturn.update_returning e db this set = Ok (db', t') ->
  stored_return (TaxReturn.id this) db' t' holds.
Proof.
  intros Hid Hholds. unfold TaxReturn.update_returning.
  destruct (first_row _) as [r|] eqn:Hf; [|discriminate].
  intros [= <- <-]. split.
  - unfold TaxReturn.findById. simpl tax_returns.
    rewrite filter_update_where by (intros x; simpl; now rewrite Hid).
    rewrite first_row_map, Hf. reflexivity.
  - simpl tax_returns. intros r' Hin Hkey. unfold update_where in Hin.
    apply in_map_iff in Hin. destruct Hin as [x [<- _]].
    destruct (String.eqb (tr_id x) (TaxReturn.id this)) eqn:E; [apply Hholds|].
    apply String.eqb_neq in E. contradiction.
Qed.

Lemma updateStatus_as_update e db this s :
  TaxReturn.updateStatus e db this s
  = if negb (includes TaxReturn.validStatuses s) then Throw "Invalid status"
    else TaxReturn.update_returning e db this
           (fun r =>
              mkTaxReturnRow (tr_id r) (tr_customer_id r) (tr_accountant_id r)
                             (tr_tax_year r) s (tr_situation_type r)
                             (tr_total_income r) (tr_total_tax_due r) (tr_total_refund r)
                             (tr_submission_deadline r) (tr_filed_date r)
                             (tr_hmrc_reference r) (tr_notes r) (tr_price r)
                             (tr_payment_status r) (tr_created_at r) (tr_updated_at r)).
Proof. reflexivity. Qed.

Lemma assignAccountant_as_update e db this a :
  TaxReturn.assignAccountant e db this a
  = match TaxReturn.update_returning e db this
            (fun r =>
               mkTaxReturnRow (tr_id r) (tr_customer_id r) (Some a) (tr_tax_year r)
                              "in_progress" (tr_situation_type r) (tr_total_income r)
                              (tr_total_tax_due r) (tr_total_refund r)
                              (tr_submission_deadline r) (tr_filed_date r)
                              (tr_hmrc_reference r) (tr_notes r) (tr_price r)
                              (tr_payment_status r) (tr_created_at r) (tr_updated_at r)) with
    | Throw m => Throw m
    | Ok res =>
        if negb (existsb (fun acc => String.eqb (a_id acc) a) (accountants db))
        then Throw "23503" else Ok res
    end.
Proof.
  unfold TaxReturn.assignAccountant, TaxReturn.update_returning.
  destruct (first_row _); [|reflexivity].
  destruct (negb _); reflexivity.
Qed.

Lemma rewrites_return_invariant id db db' :
  rewrites_return id db db' -> at_most_one_per_year db -> at_most_one_per_year db'.
Proof.
  unfold rewrites_return, at_most_one_per_year.
  intros [_ [_ [_ [_ [_ [_ [_ [_ [_ [f [Hf [Hsame _]]]]]]]]]]]] Hinv c y.
  rewrite Hf. specialize (Hinv c y).
  assert (Hlen : forall l, length (filter (same_pair c y) (map f l))
                           = length (filter (same_pair c y) l)).
  { induction l as [|r l IH]; [reflexivity|]. simpl.
    assert (Hp : same_pair c y (f r) = same_pair c y r).
    { unfold same_pair. destruct (Hsame r) as [_ [-> [-> _]]]. reflexivity. }
    rewrite Hp. destruct (same_pair c y r); simpl; now rewrite IH. }
  now rewrite Hlen.
Qed.

Ltac same_return_set := intros ?r; unfold same_return; simpl; repeat split.

Ltac stored_by H :=
  refine (update_returning_stored _ _ _ _ _ _ _ _ _ H); intros ?r; simpl; repeat split.

Section UpdateFacts.
Variable numeric : string -> result string.

(** X16. Every update method of [TaxReturn] rewrites one return in
    place and stores what it returns. When [updateStatus],
    [assignAccountant], [updatePaymentStatus], [updateCalculations],
    [markAsFiled] or [addNotes] returns, the rows of [tax_returns] are
    those of before, each still the same return (key, customer, tax
    year, situation, deadline, price, creation time), the rows with
    another key are untouched and no other table has changed; the
    returned object is what [findById] then reads from the store, and
    every stored row with the key carries what the method set: the
    status, the accountant and status in_progress, the payment status,
    the three totals as the database reads them, the status filed with
    the filing time and the reference (whatever the status was), or the
    notes. Any such rewrite keeps "at most one return per customer and
    tax year". *)
Theorem tax_return_updates_rewrite_one_row :
  forall (e : Entropy) (db db' : Db) (this t' : TaxReturn.t),
    (forall s,
        TaxReturn.updateStatus e db this s = Ok (db', t') ->
        rewrites_return (TaxReturn.id this) db db'
        /\ stored_return (TaxReturn.id this) db' t' (fun r' => tr_status r' = s)
        /\ TaxReturn.status t' = s)
    /\ (forall a,
          TaxReturn.assignAccountant e db this a = Ok (db', t') ->
          rewrites_return (TaxReturn.id this) db db'
          /\ stored_return (TaxReturn.id this) db' t'
               (fun r' => tr_accountant_id r' = Some a /\ tr_status r' = "in_progress")
          /\ TaxReturn.accountantId t' = Some a /\ TaxReturn.status t' = "in_progress")
    /\ (forall s,
          TaxReturn.updatePaymentStatus e db this s = Ok (db', t') ->
          rewrites_return (TaxReturn.id this) db db'
          /\ stored_return (TaxReturn.id this) db' t'
               (fun r' => tr_payment_status r' = Some s)
          /\ TaxReturn.paymentStatus t' = Some s
          /\ In s ["pending"; "paid"; "refunded"; "failed"])
    /\ (forall income due refund,
          TaxReturn.updateCalculations numeric e db this income due refund
          = Ok (db', t') ->
          rewrites_return (TaxReturn.id this) db db'
          /\ stored_return (TaxReturn.id this) db' t'
               (fun r' =>
                  TaxReturn.stored_decimal numeric income = Ok (tr_total_income r')
                  /\ TaxReturn.stored_decimal numeric due = Ok (tr_total_tax_due r')
                  /\ TaxReturn.stored_decimal numeric refund = Ok (tr_total_refund r'))
          /\ TaxReturn.stored_decimal numeric income = Ok (TaxReturn.totalIncome t')
          /\ TaxReturn.stored_decimal numeric due = Ok (TaxReturn.totalTaxDue t')
          /\ TaxReturn.stored_decimal numeric refund = Ok (TaxReturn.totalRefund t'))
    /\ (forall reference,
          TaxReturn.markAsFiled e db this reference = Ok (db', t') ->
          rewrites_return (TaxReturn.id this) db db'
          /\ stored_return (TaxReturn.id this) db' t'
               (fun r' => tr_status r' = "filed" /\ tr_filed_date r' = Some (now e)
                          /\ tr_hmrc_reference r' = Some reference)
          /\ TaxReturn.status t' = "filed"
          /\ TaxReturn.filedDate t' = Some (now e)
          /\ TaxReturn.hmrcReference t' = Some reference)
    /\ (forall notes,
          TaxReturn.addNotes e db this notes = Ok (db', t') ->
          rewrites_return (TaxReturn.id this) db db'
          /\ stored_return (TaxReturn.id this) db' t' (fun r' => tr_notes r' = notes)
          /\ TaxReturn.notes t' = notes)
    /\ (rewrites_return (TaxReturn.id this) db db' ->
        at_most_one_per_year db -> at_most_one_per_year db').
Proof.
  intros e db db' this t'.
  split; [|split; [|split; [|split; [|split; [|split]]]]].
  - intros s H. rewrite updateStatus_as_update in H.
    destruct (negb _); [discriminate|]. pose proof H as H0.
    apply update_returning_rewrites in H; [|same_return_set].
    destruct H as [Hr [r [_ [_ ->]]]].
    split; [exact Hr | split; [stored_by H0 | reflexivity]].
  - intros a H. rewrite assignAccountant_as_update in H.
    destruct (TaxReturn.update_returning _ _ _ _) as [[d u]|] eqn:Hu; [|discriminate].
    destruct (negb _); [discriminate|]. injection H as <- <-. pose proof Hu as H0.
    apply update_returning_rewrites in Hu; [|same_return_set].
    destruct Hu as [Hr [r [_ [_ ->]]]].
    split; [exact Hr | split; [stored_by H0 | split; reflexivity]].
  - intros s H. unfold TaxReturn.updatePaymentStatus in H.
    destruct (includes _ s) eqn:Hi; [|discriminate]. simpl negb in H. cbv iota in H.
    pose proof H as H0.
    apply update_returning_rewrites in H; [|same_return_set].
    destruct H as [Hr [r [_ [_ ->]]]].
    split; [exact Hr
           | split; [stored_by H0 | split; [reflexivity | now apply includes_In in Hi]]].
  - intros income due refund H. unfold TaxReturn.updateCalculations in H.
    destruct (TaxReturn.stored_decimal numeric income) as [i|]; [|discriminate].
    destruct (TaxReturn.stored_decimal numeric due) as [d|]; [|discriminate].
    destruct (TaxReturn.stored_decimal numeric refund) as [f|]; [|discriminate].
    pose proof H as H0.
    apply update_returning_rewrites in H; [|same_return_set].
    destruct H as [Hr [r [_ [_ ->]]]].
    split; [exact Hr | split; [stored_by H0 | repeat split]].
  - intros reference H. unfold TaxReturn.markAsFiled in H.
    destruct (_ <? _)%nat; [discriminate|]. pose proof H as H0.
    apply update_returning_rewrites in H; [|same_return_set].
    destruct H as [Hr [r [_ [_ ->]]]].
    split; [exact Hr | split; [stored_by H0 | repeat split]].
  - intros notes H. unfold TaxReturn.addNotes in H. pose proof H as H0.
    apply update_returning_rewrites in H; [|same_return_set].
    destruct H as [Hr [r [_ [_ ->]]]].
    split; [exact Hr | split; [stored_by H0 | reflexivity]].
  - apply rewrites_return_invariant.
Qed.
End UpdateFacts.

(* ------------------------------------------------------------------ *)
(** ** [routes/taxReturns.js]: calculations, filing, income *)
(* ------------------------------------------------------------------ *)

(** An accountant the handlers do not refuse is the one assigned. *)
Lemma accountant_allowed db user tr :
  accountant_denied db user tr = false ->
  exists a, TaxReturn.accountantId tr = Some a
            /\ accountantIdOfUser db (p_id user) = VStr a.
Proof.
  unfold accountant_denied, accountantIdOfUser. intros H. apply negb_false_iff in H.
  destruct (first_row (filter _ (accountants db))) as [acc|];
    destruct (TaxReturn.accountantId tr) as [a|]; simpl in H; try discriminate.
  apply String.eqb_eq in H. exists a. split; [reflexivity | now rewrite H].
Qed.

Lemma authorize_cases roles user :
  (includes roles (p_role user) = true /\ authorize roles user = Next tt)
  \/ (includes roles (p_role user) = false
      /\ authorize roles user
         = Respond (fail 403 "Access denied. Insufficient permissions.")).
Proof.
  unfold authorize. destruct (includes roles (p_role user)); simpl; auto.
Qed.

Section AccountantRouteFacts.
Variable isFloat_min0 : string -> bool.
Variable numeric : string -> result string.
Variable date : string -> result string.
Variable trim : string -> string.

Lemma updateCalculations_stored e db tr income due refund d u :
  TaxReturn.updateCalculations numeric e db tr income due refund = Ok (d, u) ->
  rewrites_return (TaxReturn.id tr) db d
  /\ stored_return (TaxReturn.id tr) d u
       (fun r' =>
          TaxReturn.stored_decimal numeric income = Ok (tr_total_income r')
          /\ TaxReturn.stored_decimal numeric due = Ok (tr_total_tax_due r')
          /\ TaxReturn.stored_decimal numeric refund = Ok (tr_total_refund r')).
Proof.
  intros Hu. unfold TaxReturn.updateCalculations in Hu.
  destruct (TaxReturn.stored_decimal numeric income); [|discriminate].
  destruct (TaxReturn.stored_decimal numeric due); [|discriminate].
  destruct (TaxReturn.stored_decimal numeric refund); [|discriminate].
  split; [|stored_by Hu].
  apply update_returning_rewrites in Hu; [|same_return_set]. apply Hu.
Qed.

Lemma markAsFiled_stored e db tr reference d u :
  TaxReturn.markAsFiled e db tr reference = Ok (d, u) ->
  rewrites_return (TaxReturn.id tr) db d
  /\ stored_return (TaxReturn.id tr) d u
       (fun r' => tr_status r' = "filed" /\ tr_filed_date r' = Some (now e)
                  /\ tr_hmrc_reference r' = Some reference).
Proof.
  intros Hu. unfold TaxReturn.markAsFiled in Hu.
  destruct (_ <? _)%nat; [discriminate|].
  split; [|stored_by Hu].
  apply update_returning_rewrites in Hu; [|same_return_set]. apply Hu.
Qed.

(** X17. [PUT /:id/calculations] and [POST /:id/file] are for the
    assigned accountant and for administrators. Any other role is
    answered 403 "Insufficient permissions"; an answer other than 200
    leaves the store exactly as it was; an answer 200 has rewritten the
    one return in place, its data is the object [findById] then reads
    from the store, and when it was given to an accountant, that
    accountant's profile is the one assigned to the return. After
    calculations answered 200 every stored row with the key carries the
    three totals as the database reads them; after a filing answered
    200 every stored row with the key has the status filed, the filing
    time and the given reference, whatever its status was before. *)
Theorem calculations_and_filing_are_gated :
  forall (e : Entropy) (db : Db) (user : Principal) (id reference : string)
         (income due refund : option string),
    (includes ["accountant"; "admin"] (p_role user) = false ->
     put_calculations isFloat_min0 numeric e db user id income due refund
     = (db, Sent (fail 403 "Access denied. Insufficient permissions."))
     /\ post_file e db user id reference
        = (db, Sent (fail 403 "Access denied. Insufficient permissions.")))
    /\ (forall db' o,
          put_calculations isFloat_min0 numeric e db user id income due refund = (db', o) ->
          (status_of o <> Some 200 -> db' = db)
          /\ (status_of o = Some 200 ->
              rewrites_return id db db'
              /\ (exists updated,
                     o = Sent (ok_json 200 "Tax calculations updated successfully"
                                       (TaxReturn.toJSON updated))
                     /\ stored_return id db' updated
                          (fun r' =>
                             TaxReturn.stored_decimal numeric income
                             = Ok (tr_total_income r')
                             /\ TaxReturn.stored_decimal numeric due
                                = Ok (tr_total_tax_due r')
                             /\ TaxReturn.stored_decimal numeric refund
                                = Ok (tr_total_refund r')))
              /\ (p_role user = "accountant" ->
                  exists tr a, TaxReturn.findById db id = Some tr
                               /\ TaxReturn.accountantId tr = Some a
                               /\ accountantIdOfUser db (p_id user) = VStr a)))
    /\ (forall db' o,
          post_file e db user id reference = (db', o) ->
          (status_of o <> Some 200 -> db' = db)
          /\ (status_of o = Some 200 ->
              rewrites_return id db db'
              /\ (exists filed,
                     o = Sent (ok_json 200 "Tax return filed successfully"
                                       (TaxReturn.toJSON filed))
                     /\ stored_return id db' filed
                          (fun r' => tr_status r' = "filed"
                                     /\ tr_filed_date r' = Some (now e)
                                     /\ tr_hmrc_reference r' = Some reference))
              /\ (p_role user = "accountant" ->
                  exists tr a, TaxReturn.findById db id = Some tr
                               /\ TaxReturn.accountantId tr = Some a
                               /\ accountantIdOfUser db (p_id user) = VStr a))).
Proof.
  intros e db user id reference income due refund. split; [|split].
  - intros Hr. unfold put_calculations, post_file, authorize. rewrite Hr.
    split; reflexivity.
  - intros db' o. unfold put_calculations.
    destruct (authorize_cases ["accountant"; "admin"] user) as [[_ ->] | [_ ->]].
    2:{ intros [= <- <-]. split; [reflexivity | discriminate]. }
    destruct (handleValidationErrors _) as [[]|r0] eqn:Hv.
    2:{ intros [= <- <-]. split; [reflexivity|]. intros Hs. exfalso.
        unfold handleValidationErrors in Hv.
        destruct (calculation_errors _ _ _ _); [discriminate|].
        injection Hv as <-. discriminate. }
    destruct (TaxReturn.findById db id) as [tr|] eqn:Hf.
    2:{ intros [= <- <-]. split; [reflexivity | discriminate]. }
    assert (Hid : TaxReturn.id tr = id).
    { apply findById_some in Hf. destruct Hf as [row [_ [_ [Hid ->]]]]. exact Hid. }
    destruct (String.eqb (p_role user) "accountant") eqn:Hacc; simpl andb.
    + destruct (accountant_denied db user tr) eqn:Hd.
      { intros [= <- <-]. split; [reflexivity | discriminate]. }
      destruct (TaxReturn.updateCalculations _ _ _ _ _ _ _) as [[d u]|m] eqn:Hu.
      2:{ intros [= <- <-]. split; [reflexivity | discriminate]. }
      intros [= <- <-]. split; [intros H; now elim H|]. intros _.
      apply updateCalculations_stored in Hu. rewrite Hid in Hu. destruct Hu as [Hr Hst].
      split; [exact Hr|]. split; [exists u; split; [reflexivity | exact Hst]|].
      intros _. destruct (accountant_allowed db user tr Hd) as [a [H1 H2]].
      exists tr, a. auto.
    + destruct (TaxReturn.updateCalculations _ _ _ _ _ _ _) as [[d u]|m] eqn:Hu.
      2:{ intros [= <- <-]. split; [reflexivity | discriminate]. }
      intros [= <- <-]. split; [intros H; now elim H|]. intros _.
      apply updateCalculations_stored in Hu. rewrite Hid in Hu. destruct Hu as [Hr Hst].
      split; [exact Hr|]. split; [exists u; split; [reflexivity | exact Hst]|].
      intros Hrole. rewrite Hrole in Hacc. discriminate.
  - intros db' o. unfold post_file.
    destruct (authorize_cases ["accountant"; "admin"] user) as [[_ ->] | [_ ->]].
    2:{ intros [= <- <-]. split; [reflexivity | discriminate]. }
    destruct (handleValidationErrors _) as [[]|r0] eqn:Hv.
    2:{ intros [= <- <-]. split; [reflexivity|]. intros Hs. exfalso.
        unfold handleValidationErrors in Hv.
        destruct (check _ _ _); [discriminate|].
        injection Hv as <-. discriminate. }
    destruct (TaxReturn.findById db id) as [tr|] eqn:Hf.
    2:{ intros [= <- <-]. split; [reflexivity | discriminate]. }
    assert (Hid : TaxReturn.id tr = id).
    { apply findById_some in Hf. destruct Hf as [row [_ [_ [Hid ->]]]]. exact Hid. }
    destruct (String.eqb (p_role user) "accountant") eqn:Hacc; simpl andb.
    + destruct (accountant_denied db user tr) eqn:Hd.
      { intros [= <- <-]. split; [reflexivity | discriminate]. }
      destruct (TaxReturn.markAsFiled e db tr reference) as [[d u]|m] eqn:Hu.
      2:{ intros [= <- <-]. split; [reflexivity | discriminate]. }
      intros [= <- <-]. split; [intros H; now elim H|]. intros _.
      apply markAsFiled_stored in Hu. rewrite Hid in Hu. destruct Hu as [Hr Hst].
      split; [exact Hr|]. split; [exists u; split; [reflexivity | exact Hst]|].
      intros _. destruct (accountant_allowed db user tr Hd) as [a [H1 H2]].
      exists tr, a. auto.
    + destruct (TaxReturn.markAsFiled e db tr reference) as [[d u]|m] eqn:Hu.
      2:{ intros [= <- <-]. split; [reflexivity | discriminate]. }
      intros [= <- <-]. split; [intros H; now elim H|]. intros _.
      apply markAsFiled_stored in Hu. rewrite Hid in Hu. destruct Hu as [Hr Hst].
      split; [exact Hr|]. split; [exists u; split; [reflexivity | exact Hst]|].
      intros Hrole. rewrite Hrole in Hacc. discriminate.
Qed.

(** X18. [POST /:id/income] adds exactly one income source, to the
    return of the path. Whenever it is answered 201, one row has been
    appended to [income_sources], under the generated key, referencing
    that return, and returned as the data of the answer; no other table
    has changed; a customer it was given to owns the return and an
    accountant is the one assigned to it; and the row is among the
    income sources [GET /:id] then reads for the return. Any other
    answer leaves the store as it was. *)
Theorem post_income_adds_one_row :
  forall (e : Entropy) (db db' : Db) (user : Principal) (id : string) (b : IncomeBody)
         (o : Outcome),
    post_income isFloat_min0 numeric date trim e db user id b = (db', o) ->
    (status_of o <> Some 201 -> db' = db)
    /\ (status_of o = Some 201 ->
        exists row tr,
          income_sources db' = (income_sources db ++ [row])%list
          /\ same_but_income db db'
          /\ ch_id row = gen_id e /\ ch_tax_return_id row = Some id
          /\ prop "source_type" (TaxReturn.child_json row) = VStr (ib_sourceType b)
          /\ o = Sent (ok_json 201 "Income source added successfully"
                               (TaxReturn.child_json row))
          /\ TaxReturn.findById db id = Some tr
          /\ (p_role user = "customer" -> customer_denied db user tr = false)
          /\ (p_role user = "accountant" -> accountant_denied db user tr = false)
          /\ In (TaxReturn.child_json row) (TaxReturn.getIncomeSources db' tr)).
Proof.
  intros e db db' user id b o. unfold post_income.
  destruct (handleValidationErrors _) as [[]|r0] eqn:Hv.
  2:{ intros [= <- <-]. split; [reflexivity|]. intros Hs. exfalso.
      unfold handleValidationErrors in Hv.
      destruct (income_errors _ _ _); [discriminate|].
      injection Hv as <-. discriminate. }
  destruct (TaxReturn.findById db id) as [tr|] eqn:Hf.
  2:{ intros [= <- <-]. split; [reflexivity | discriminate]. }
  assert (Hid : TaxReturn.id tr = id).
  { apply findById_some in Hf. destruct Hf as [row [_ [_ [Hid ->]]]]. exact Hid. }
  match goal with |- context [if ?c then (db, Sent (fail 403 _)) else _] =>
    destruct c eqn:Hden end.
  { intros [= <- <-]. split; [reflexivity | discriminate]. }
  destruct (insert_income_source numeric date trim e db id b) as [[d row]|m] eqn:Hi.
  2:{ intros [= <- <-]. split; [reflexivity | discriminate]. }
  intros [= <- <-]. split; [intros H; now elim H|]. intros _.
  unfold insert_income_source in Hi.
  destruct (stored_as numeric (ib_grossIncome b)) as [gross|]; [|discriminate].
  destruct (stored_as numeric (ib_taxDeducted b)) as [ded|]; [|discriminate].
  destruct (stored_as date (ib_startDate b)) as [sd|]; [|discriminate].
  destruct (stored_as date (ib_endDate b)) as [ed|]; [|discriminate].
  destruct (existsb _ (income_sources db)); [discriminate|].
  destruct (negb _); [discriminate|].
  destruct gross as [g|]; [|discriminate].
  injection Hi as <- <-.
  eexists. exists tr. split; [reflexivity|].
  split; [unfold same_but_income; simpl; repeat split|].
  split; [reflexivity|]. split; [reflexivity|]. split; [reflexivity|].
  split; [reflexivity|]. split; [reflexivity|].
  split.
  { intros Hr. rewrite Hr in Hden. simpl in Hden. exact Hden. }
  split.
  { intros Hr. rewrite Hr in Hden. simpl in Hden. exact Hden. }
  unfold TaxReturn.getIncomeSources. simpl income_sources.
  apply in_map. apply order_by_In. apply filter_In. split.
  - apply in_or_app. right. now left.
  - simpl. rewrite Hid. apply String.eqb_refl.
Qed.
End AccountantRouteFacts.

(* ------------------------------------------------------------------ *)
(** ** [routes/uploads.js]: what an upload leaves behind *)
(* ------------------------------------------------------------------ *)

(** A swallowed [fs.unlink] takes the file away unless the call fails. *)
Lemma unlink_quietly_In fails p q (disk : Disk) :
  In q (unlink_quietly fails p disk) <-> In q disk /\ (q = p -> fails q = true).
Proof.
  unfold unlink_quietly, fs_unlink. destruct (fails p) eqn:Hf.
  - split; [intros H; split; [exact H | now intros ->] | tauto].
  - destruct (includes disk p) eqn:Hi.
    + rewrite unlink_In. split.
      * intros [H Hne]. split; [exact H | intros Heq; contradiction].
      * intros [H Himp]. split; [exact H|]. intros ->. specialize (Himp eq_refl).
        congruence.
    + split; [|tauto]. intros H. split; [exact H|]. intros ->.
      apply includes_In in H. congruence.
Qed.

Lemma cleanup_In fails (files : list File) (disk : Disk) q :
  In q (cleanup fails files disk)
  <-> In q disk /\ (In q (map path files) -> fails q = true).
Proof.
  unfold cleanup. revert disk. induction files as [|f files IH]; intros disk; simpl.
  - tauto.
  - rewrite IH, unlink_quietly_In. split.
    + intros [[H1 H2] H3]. split; [exact H1|]. intros [Heq | Hin]; auto.
    + intros [H1 H2]. split; [split; [exact H1|] |]; auto.
Qed.

Lemma same_but_documents_refl db : same_but_documents db db.
Proof. unfold same_but_documents. repeat split. Qed.

Lemma same_but_documents_trans a b c :
  same_but_documents a b -> same_but_documents b c -> same_but_documents a c.
Proof. unfold same_but_documents. intuition congruence. Qed.

(** The loop of the handler: the rows of a prefix of the files are
    appended, all of them when it does not throw. *)
Lemma save_documents_rows e user taxReturnId documentType files :
  forall db uploadedDocuments db' res,
    save_documents e db user taxReturnId documentType files uploadedDocuments = (db', res) ->
    same_but_documents db db'
    /\ exists k,
         k <= length files
         /\ documents db'
            = (documents db
               ++ map (document_row e user taxReturnId documentType) (firstn k files))%list
         /\ match res with
            | Ok docs =>
                k = length files
                /\ docs = (uploadedDocuments
                           ++ map (fun f => VObj (TaxReturn.document_columns
                                                    (document_row e user taxReturnId
                                                                  documentType f)))
                                  files)%list
            | Throw m => k < length files
            end.
Proof.
  induction files as [|file rest IH]; intros db acc db' res; simpl.
  - intros [= <- <-]. split; [apply same_but_documents_refl|].
    exists 0. split; [lia|]. split; [now rewrite app_nil_r|].
    split; [reflexivity | now rewrite app_nil_r].
  - fold (document_row e user taxReturnId documentType file).
    unfold insert_document.
    destruct (existsb _ (documents db)).
    { intros [= <- <-]. split; [apply same_but_documents_refl|].
      exists 0. split; [lia|]. split; [simpl; now rewrite app_nil_r | simpl; lia]. }
    destruct (_ || _).
    { intros [= <- <-]. split; [apply same_but_documents_refl|].
      exists 0. split; [lia|]. split; [simpl; now rewrite app_nil_r | simpl; lia]. }
    intros H. apply IH in H. destruct H as [Hsame [k [Hk [Hdocs Hres]]]].
    split.
    { eapply same_but_documents_trans; [|exact Hsame].
      unfold same_but_documents. simpl. repeat split. }
    exists (S k). split; [simpl in *; lia|]. split.
    + rewrite Hdocs. simpl. now rewrite <- app_assoc.
    + destruct res as [docs|m].
      * destruct Hres as [-> ->]. split; [reflexivity|].
        simpl. now rewrite <- app_assoc.
      * simpl. lia.
Qed.

Section UploadOutcomes.
Variable ALLOWED_FILE_TYPES : option string.
Variable UPLOAD_PATH : string.
Variable MAX_FILE_SIZE : Z.
Variable unlink_fails : string -> bool.

(** What multer hands to the handler: at most five stored files, each
    the stored form of an accepted part of the request that is within
    the size limit, all of them on disk; and what is on disk was there
    before or is one of them. When it aborts instead, what is on disk
    was there before. *)
Lemma receive_outcome parts :
  forall (uploaded : list File) (disk disk0 : Disk),
    (forall q, In q disk -> In q disk0 \/ In q (map path uploaded)) ->
    (forall f, In f uploaded -> In (path f) disk) ->
    length uploaded <= 5 ->
    match receive ALLOWED_FILE_TYPES UPLOAD_PATH MAX_FILE_SIZE parts uploaded disk with
    | (d, inr err) => incl d disk0
    | (d, inl files) =>
        (forall q, In q d -> In q disk0 \/ In q (map path files))
        /\ (forall f, In f files -> In (path f) d)
        /\ length files <= 5
        /\ (forall f, In f files ->
              In f uploaded
              \/ exists p, In p parts /\ f = stored UPLOAD_PATH p
                           /\ fieldname p = "documents"
                           /\ fileFilter ALLOWED_FILE_TYPES p = Ok true
                           /\ (size p <= MAX_FILE_SIZE)%Z)
    end.
Proof.
  induction parts as [|file rest IH]; intros uploaded disk disk0 Hinv Hon Hlen.
  - simpl. split; [|split; [|split]].
    + intros q Hq. destruct (Hinv q Hq) as [H | H]; [now left|].
      right. rewrite map_rev. now apply in_rev in H.
    + intros f Hf. apply Hon. now apply in_rev.
    + now rewrite length_rev.
    + intros f Hf. left. now apply in_rev.
  - rewrite receive_cons.
    destruct (5 <=? length uploaded)%nat eqn:Hfive.
    { destruct (@abort_cleans (MulterError "LIMIT_FILE_COUNT") uploaded disk disk0 Hinv)
        as [d [-> [H _]]]. exact H. }
    apply Nat.leb_gt in Hfive.
    destruct (String.eqb (fieldname file) "documents") eqn:Hfield; simpl negb; cbv iota.
    2:{ destruct (@abort_cleans (MulterError "LIMIT_UNEXPECTED_FILE") uploaded disk disk0
                                Hinv) as [d [-> [H _]]]. exact H. }
    apply String.eqb_eq in Hfield.
    destruct (fileFilter ALLOWED_FILE_TYPES file) as [[|]|m] eqn:Hf.
    + cbv zeta. set (f := stored UPLOAD_PATH file).
      assert (Hinv' : forall q, In q (write_file (path f) disk) ->
                                In q disk0 \/ In q (map path (f :: uploaded))).
      { intros q Hq. apply write_file_In in Hq. destruct Hq as [Hq | ->].
        - destruct (Hinv q Hq); [now left | right; now right].
        - right. now left. }
      destruct (MAX_FILE_SIZE <? size file)%Z eqn:Hsz.
      * destruct (@abort_cleans (MulterError "LIMIT_FILE_SIZE") (f :: uploaded) _ disk0 Hinv')
          as [d [-> [H _]]]. exact H.
      * apply Z.ltb_ge in Hsz.
        assert (Hon' : forall g, In g (f :: uploaded) -> In (path g) (write_file (path f) disk)).
        { intros g [<- | Hg].
          - unfold write_file. destruct (includes disk (path f)) eqn:Hi.
            + now apply includes_In in Hi.
            + apply in_or_app. right. now left.
          - unfold write_file. destruct (includes disk (path f)); [now apply Hon|].
            apply in_or_app. left. now apply Hon. }
        specialize (IH (f :: uploaded) _ disk0 Hinv' Hon').
        simpl length in IH. specialize (IH ltac:(lia)).
        destruct (receive _ _ _ rest (f :: uploaded) _) as [d [files|err]]; [|exact IH].
        destruct IH as [H1 [H2 [H3 H4]]]. split; [exact H1|]. split; [exact H2|].
        split; [exact H3|].
        intros g Hg. destruct (H4 g Hg) as [[<- | Hu] | [p [Hp Hrest]]].
        -- right. exists file. split; [now left|]. auto.
        -- now left.
        -- right. exists p. split; [now right | exact Hrest].
    + specialize (IH uploaded disk disk0 Hinv Hon Hlen).
      destruct (receive _ _ _ rest uploaded disk) as [d [files|err]]; [|exact IH].
      destruct IH as [H1 [H2 [H3 H4]]]. split; [exact H1|]. split; [exact H2|].
      split; [exact H3|].
      intros g Hg. destruct (H4 g Hg) as [Hu | [p [Hp Hrest]]]; [now left|].
      right. exists p. split; [now right | exact Hrest].
    + destruct (@abort_cleans (PlainError m) uploaded disk disk0 Hinv) as [d [-> [H _]]].
      exact H.
Qed.

Lemma receive_from_empty parts disk :
  match receive ALLOWED_FILE_TYPES UPLOAD_PATH MAX_FILE_SIZE parts [] disk with
  | (d, inr err) => incl d disk
  | (d, inl files) =>
      (forall q, In q d -> In q disk \/ In q (map path files))
      /\ (forall f, In f files -> In (path f) d)
      /\ length files <= 5
      /\ (forall f, In f files ->
            exists p, In p parts /\ f = stored UPLOAD_PATH p
                      /\ fieldname p = "documents"
                      /\ fileFilter ALLOWED_FILE_TYPES p = Ok true
                      /\ (size p <= MAX_FILE_SIZE)%Z)
  end.
Proof.
  pose proof (receive_outcome parts [] disk disk) as H.
  specialize (H ltac:(intros q Hq; now left) ltac:(intros f []) ltac:(simpl; lia)).
  destruct (receive _ _ _ parts [] disk) as [d [files|err]]; [|exact H].
  destruct H as [H1 [H2 [H3 H4]]]. repeat split; try assumption.
  intros f Hf. destruct (H4 f Hf) as [[] | H]. exact H.
Qed.

(** The handler after multer: every answer but 201 runs the cleanup on
    the files of the request; only 201 and a database error may have
    written rows. *)
Lemma upload_handler_outcome e db disk1 user taxReturnId documentType files :
  forall db' disk' out,
    upload_handler unlink_fails e db disk1 user taxReturnId documentType files
    = (db', disk', out) ->
    same_but_documents db db'
    /\ exists k,
         k <= length files
         /\ documents db'
            = (documents db
               ++ map (document_row e user taxReturnId (document_type_of documentType))
                      (firstn k files))%list
         /\ match out with
            | Sent r =>
                if (status r =? 201)%nat then
                  k = length files /\ 0 < k /\ disk' = disk1
                  /\ exists tr, first_row (filter (fun x => String.eqb (tr_id x) taxReturnId)
                                                  (tax_returns db)) = Some tr
                else
                  k = 0
                  /\ (files = [] /\ disk' = disk1
                      \/ disk' = cleanup unlink_fails files disk1)
            | NextError m => k < length files /\ disk' = cleanup unlink_fails files disk1
            end.
Proof.
  intros db' disk' out. unfold upload_handler.
  destruct (first_row _) as [tr|] eqn:Hf.
  2:{ intros [= <- <- <-]. split; [apply same_but_documents_refl|].
      exists 0. split; [lia|]. split; [simpl; now rewrite app_nil_r|].
      simpl. auto. }
  destruct (negb _).
  { intros [= <- <- <-]. split; [apply same_but_documents_refl|].
    exists 0. split; [lia|]. split; [simpl; now rewrite app_nil_r|].
    simpl. auto. }
  destruct (length files =? 0)%nat eqn:Hz.
  { intros [= <- <- <-]. split; [apply same_but_documents_refl|].
    exists 0. split; [lia|]. split; [simpl; now rewrite app_nil_r|].
    simpl. split; [reflexivity|]. left. split; [|reflexivity].
    apply Nat.eqb_eq in Hz. now destruct files. }
  apply Nat.eqb_neq in Hz.
  fold (document_type_of documentType).
  destruct (save_documents e db user taxReturnId (document_type_of documentType) files [])
    as [d res] eqn:Hs.
  apply save_documents_rows in Hs. destruct Hs as [Hsame [k [Hk [Hdocs Hres]]]].
  destruct res as [docs|m]; intros [= <- <- <-].
  - split; [exact Hsame|]. exists k. split; [exact Hk|]. split; [exact Hdocs|].
    simpl. destruct Hres as [-> _]. split; [reflexivity|]. split; [lia|].
    split; [reflexivity|]. now exists tr.
  - split; [exact Hsame|]. exists k. split; [exact Hk|]. split; [exact Hdocs|].
    simpl. auto.
Qed.

(** X19. [POST /documents/:taxReturnId] cleans up after itself as far
    as the file system lets it. For every request, unless the answer is
    201, whatever is on disk afterwards was on disk before the request
    or is a file stored for a part of this request whose [fs.unlink]
    failed (the handler swallows that error and goes on); so when no
    removal fails nothing of the request is left, whether multer refused
    the request (type, size, count, field name), the return was missing
    (404), access was denied (403), no file came (400) or the database
    refused a row. And a row of [documents] can only have been written
    when the answer is 201 or an error passed on; every other table is
    untouched in all cases. *)
Theorem upload_leaves_no_orphan_file :
  forall (e : Entropy) (db : Db) (disk : Disk) (user : Principal)
         (taxReturnId : string) (documentType : option string) (parts : list Part),
    let '(db', disk', out) :=
      post_documents ALLOWED_FILE_TYPES UPLOAD_PATH MAX_FILE_SIZE unlink_fails e db disk user
                     taxReturnId documentType parts in
    (status_of out <> Some 201 ->
     forall q, In q disk' ->
       In q disk
       \/ (unlink_fails q = true
           /\ exists p, In p parts /\ q = path (stored UPLOAD_PATH p)))
    /\ (status_of out <> Some 201 ->
        (forall p, In p parts -> unlink_fails (path (stored UPLOAD_PATH p)) = false) ->
        incl disk' disk)
    /\ (forall r, out = Sent r -> status r <> 201 -> db' = db)
    /\ same_but_documents db db'.
Proof.
  intros e db disk user taxReturnId documentType parts. unfold post_documents.
  pose proof (receive_from_empty parts disk) as Hrec.
  destruct (receive _ _ _ parts [] disk) as [disk1 [files|err]].
  2:{ split; [intros _ q Hq; left; now apply Hrec|].
      split; [intros _ _; exact Hrec|].
      split; [reflexivity | apply same_but_documents_refl]. }
  destruct Hrec as [Hsub [Hon [Hlen Hfrom]]].
  destruct (upload_handler unlink_fails e db disk1 user taxReturnId documentType files)
    as [[db' disk'] out] eqn:Hh.
  apply upload_handler_outcome in Hh. destruct Hh as [Hsame [k [Hk [Hdocs Hout]]]].
  assert (Hclean : forall q, In q (cleanup unlink_fails files disk1) ->
            In q disk
            \/ (unlink_fails q = true
                /\ exists p, In p parts /\ q = path (stored UPLOAD_PATH p))).
  { intros q Hq. apply cleanup_In in Hq. destruct Hq as [Hq Hfails].
    destruct (Hsub q Hq) as [H | H]; [now left|]. right. split; [now apply Hfails|].
    apply in_map_iff in H. destruct H as [f [<- Hf]].
    destruct (Hfrom f Hf) as [p [Hp [-> _]]]. now exists p. }
  assert (Hleft : status_of out <> Some 201 ->
            forall q, In q disk' ->
              In q disk
              \/ (unlink_fails q = true
                  /\ exists p, In p parts /\ q = path (stored UPLOAD_PATH p))).
  { intros Hne. destruct out as [r|m].
    - simpl in Hne. destruct (status r =? 201)%nat eqn:E.
      + apply Nat.eqb_eq in E. rewrite E in Hne. now elim Hne.
      + destruct Hout as [_ [[-> ->] | ->]]; [|exact Hclean].
        intros q Hq. destruct (Hsub q Hq) as [H | []]. now left.
    - destruct Hout as [_ ->]. exact Hclean. }
  split; [exact Hleft|]. split; [|split; [|exact Hsame]].
  - intros Hne Hfree q Hq. destruct (Hleft Hne q Hq) as [H | [Hf [p [Hp ->]]]];
      [exact H|].
    rewrite (Hfree p Hp) in Hf. discriminate.
  - intros r -> Hne. apply Nat.eqb_neq in Hne. rewrite Hne in Hout.
    destruct Hout as [-> _]. simpl in Hdocs. rewrite app_nil_r in Hdocs.
    destruct db, db'. unfold same_but_documents in Hsame. simpl in *.
    destruct Hsame as [-> [-> [-> [-> [-> [-> [-> [-> ->]]]]]]]]. now rewrite Hdocs.
Qed.

(** What an upload answered 201 has done. *)
Lemma upload_created e db db' disk disk' user taxReturnId documentType parts r :
  post_documents ALLOWED_FILE_TYPES UPLOAD_PATH MAX_FILE_SIZE unlink_fails e db disk user
                 taxReturnId documentType parts = (db', disk', Sent r) ->
  status r = 201 ->
  exists files,
    1 <= length files <= 5
    /\ documents db'
       = (documents db
          ++ map (document_row e user taxReturnId (document_type_of documentType))
                 files)%list
    /\ same_but_documents db db'
    /\ (forall f, In f files ->
          In (path f) disk'
          /\ exists p, In p parts /\ f = stored UPLOAD_PATH p
                       /\ fieldname p = "documents"
                       /\ fileFilter ALLOWED_FILE_TYPES p = Ok true
                       /\ (size p <= MAX_FILE_SIZE)%Z)
    /\ (exists tr, In tr (tax_returns db) /\ tr_id tr = taxReturnId).
Proof.
  unfold post_documents.
  pose proof (receive_from_empty parts disk) as Hrec.
  destruct (receive _ _ _ parts [] disk) as [disk1 [files|err]].
  2:{ intros [= <- <- Hm] Hs. exfalso. unfold multer_error_handler in Hm.
      destruct err as [code|m]; [|discriminate].
      destruct (String.eqb code "LIMIT_FILE_SIZE"); [injection Hm as <-; discriminate|].
      destruct (String.eqb code "LIMIT_FILE_COUNT"); [injection Hm as <-; discriminate|].
      discriminate. }
  destruct Hrec as [Hsub [Hon [Hlen Hfrom]]].
  intros Hh Hs. apply upload_handler_outcome in Hh.
  destruct Hh as [Hsame [k [Hk [Hdocs Hout]]]].
  rewrite Hs in Hout. simpl in Hout. destruct Hout as [-> [Hpos [-> [tr Htr]]]].
  rewrite firstn_all in Hdocs.
  exists files. split; [lia|]. split; [exact Hdocs|]. split; [exact Hsame|]. split.
  - intros f Hf. split; [now apply Hon | now apply Hfrom].
  - exists tr. apply first_row_filter_some in Htr. destruct Htr as [Hin Hid].
    apply String.eqb_eq in Hid. auto.
Qed.

(** X20. An upload answered 201 has stored what it says: between one
    and five files, each the stored form of a part of the request that
    came in the field [documents] and passed the type filter and the
    size limit, each on disk under its path, and for each, in order, one
    row appended to [documents] that references the return of the path,
    the requester as uploader and that path; the return exists and
    nothing else was written. *)
Theorem upload_created_stores_rows_and_files :
  forall (e : Entropy) (db db' : Db) (disk disk' : Disk) (user : Principal)
         (taxReturnId : string) (documentType : option string) (parts : list Part)
         (r : Response),
    post_documents ALLOWED_FILE_TYPES UPLOAD_PATH MAX_FILE_SIZE unlink_fails e db disk user
                   taxReturnId documentType parts = (db', disk', Sent r) ->
    status r = 201 ->
    exists files,
      1 <= length files <= 5
      /\ documents db'
         = (documents db
            ++ map (document_row e user taxReturnId (document_type_of documentType))
                   files)%list
      /\ same_but_documents db db'
      /\ (forall f, In f files ->
            In (path f) disk'
            /\ exists p, In p parts /\ f = stored UPLOAD_PATH p
                         /\ fieldname p = "documents"
                         /\ fileFilter ALLOWED_FILE_TYPES p = Ok true
                         /\ (size p <= MAX_FILE_SIZE)%Z)
      /\ (exists tr, In tr (tax_returns db) /\ tr_id tr = taxReturnId).
Proof. intros. eapply upload_created; eassumption. Qed.

(** X21. The upload is not atomic. When the database refuses the row
    of one of the files (a name longer than the column, say), the error
    is passed on and the handler unlinks every file of the request,
    swallowing failures: a file whose [fs.unlink] does not fail is gone
    from the disk, one whose [fs.unlink] fails stays where it was. The
    rows inserted for the files before the refused one stay in
    [documents] all the same: each of them names a path at which no
    file is left, unless its removal failed. *)
Theorem failed_upload_keeps_earlier_rows :
  forall (e : Entropy) (db db' : Db) (disk1 disk' : Disk) (user : Principal)
         (taxReturnId : string) (documentType : option string) (files : list File)
         (m : string),
    upload_handler unlink_fails e db disk1 user taxReturnId documentType files
    = (db', disk', NextError m) ->
    exists k,
      k < length files
      /\ documents db'
         = (documents db
            ++ map (document_row e user taxReturnId (document_type_of documentType))
                   (firstn k files))%list
      /\ (forall f, In f files -> unlink_fails (path f) = false -> ~ In (path f) disk')
      /\ (forall f, In f files -> unlink_fails (path f) = true ->
                    In (path f) disk1 -> In (path f) disk')
      /\ (forall row,
            In row (map (document_row e user taxReturnId (document_type_of documentType))
                        (firstn k files)) ->
            In row (documents db')
            /\ (unlink_fails (d_file_path row) = false -> ~ In (d_file_path row) disk')).
Proof.
  intros e db db' disk1 disk' user taxReturnId documentType files m Hh.
  apply upload_handler_outcome in Hh. destruct Hh as [_ [k [_ [Hdocs [Hk ->]]]]].
  exists k. split; [exact Hk|]. split; [exact Hdocs|].
  assert (Hgone : forall f, In f files -> unlink_fails (path f) = false ->
                            ~ In (path f) (cleanup unlink_fails files disk1)).
  { intros f Hf Hfree Hq. apply cleanup_In in Hq. destruct Hq as [_ Hn].
    rewrite Hn in Hfree; [discriminate | now apply in_map]. }
  split; [exact Hgone|]. split.
  { intros f Hf Hfails Hon. apply cleanup_In. split; [exact Hon | now intros _]. }
  intros row Hrow. split.
  - rewrite Hdocs. apply in_or_app. now right.
  - apply in_map_iff in Hrow. destruct Hrow as [f [<- Hf]].
    simpl. apply Hgone. now apply In_firstn in Hf.
Qed.
End UploadOutcomes.

(* ------------------------------------------------------------------ *)
(** ** [routes/uploads.js]: reading and deleting a document *)
(* ------------------------------------------------------------------ *)

Lemma document_with_return_some db id document tr :
  first_row (document_with_return db id) = Some (document, tr) ->
  In document (documents db) /\ d_id document = id
  /\ In tr (tax_returns db) /\ d_tax_return_id document = Some (tr_id tr).
Proof.
  unfold document_with_return. intros H.
  assert (Hin : In (document, tr)
                   (flat_map (fun d => map (fun tr0 => (d, tr0))
                                           (filter (fun tr0 => col_eq (d_tax_return_id d)
                                                                      (tr_id tr0))
                                                   (tax_returns db)))
                             (filter (fun d => String.eqb (d_id d) id) (documents db)))).
  { unfold first_row in H. destruct (flat_map _ _); [discriminate|].
    injection H as ->. now left. }
  apply in_flat_map in Hin. destruct Hin as [d [Hd Hp]].
  apply filter_In in Hd. destruct Hd as [Hd Hid]. apply String.eqb_eq in Hid.
  apply in_map_iff in Hp. destruct Hp as [t0 [[= -> ->] Ht]].
  apply filter_In in Ht. destruct Ht as [Ht Hc]. apply col_eq_true in Hc. auto.
Qed.

(** X22. [DELETE /documents/:id] removes the row, and the file when
    the file system lets it, for those who may. An answer 200 means
    that no row of [documents] has that key any more, the rows with
    other keys are all still there, every other table is untouched, and
    the requester is an administrator, the uploader of the document, or
    the accountant assigned to its return; the file of the row found is
    not on disk if its [fs.unlink] did not fail, and if it failed the
    disk is exactly as it was (the error is caught and logged, and the
    row is deleted all the same, so the file stays without a row);
    nothing else on disk is touched either way. Any other answer leaves
    store and disk as they were. *)
Theorem delete_document_removes_row_and_file :
  forall (unlink_fails : string -> bool) (db db' : Db) (disk disk' : Disk)
         (user : Principal) (id : string) (o : Outcome),
    delete_document unlink_fails db disk user id = (db', disk', o) ->
    (status_of o <> Some 200 -> db' = db /\ disk' = disk)
    /\ (status_of o = Some 200 ->
        exists document tr,
          first_row (document_with_return db id) = Some (document, tr)
          /\ (forall d, In d (documents db') <-> In d (documents db) /\ d_id d <> id)
          /\ (unlink_fails (d_file_path document) = false ->
              ~ In (d_file_path document) disk')
          /\ (unlink_fails (d_file_path document) = true -> disk' = disk)
          /\ (forall q, q <> d_file_path document -> (In q disk' <-> In q disk))
          /\ incl disk' disk
          /\ same_but_documents db db'
          /\ (p_role user = "admin"
              \/ d_uploaded_by document = Some (p_id user)
              \/ (p_role user = "accountant"
                  /\ exists a, tr_accountant_id tr = Some a
                               /\ accountantIdOfUser db (p_id user) = VStr a))).
Proof.
  intros unlink_fails db db' disk disk' user id o. unfold delete_document.
  destruct (first_row (document_with_return db id)) as [[document tr]|] eqn:Hf.
  2:{ intros [= <- <- <-]. split; [auto | discriminate]. }
  match goal with |- context [if negb ?c then _ else _] => destruct c eqn:Hacc end;
    simpl negb; cbv iota.
  2:{ intros [= <- <- <-]. split; [auto | discriminate]. }
  cbv zeta. intros [= <- <- <-]. split; [intros H; now elim H|]. intros _.
  exists document, tr. split; [reflexivity|]. split.
  { intros d. simpl. rewrite filter_In. split; intros [H1 H2]; split; try assumption.
    - apply negb_true_iff in H2. now apply String.eqb_neq in H2.
    - apply negb_true_iff. now apply String.eqb_neq. }
  split.
  { intros Hfree Hq. apply unlink_quietly_In in Hq. destruct Hq as [_ Hq].
    rewrite (Hq eq_refl) in Hfree. discriminate. }
  split.
  { intros Hfails. unfold unlink_quietly, fs_unlink. now rewrite Hfails. }
  split.
  { intros q Hne. rewrite unlink_quietly_In. split; [tauto|].
    intros H. split; [exact H | intros Heq; contradiction]. }
  split.
  { intros q Hq. apply unlink_quietly_In in Hq. tauto. }
  split; [unfold same_but_documents; simpl; repeat split|].
  destruct (String.eqb (p_role user) "admin") eqn:Ea.
  { left. now apply String.eqb_eq in Ea. }
  simpl orb in Hacc.
  destruct (strict_eq (of_text (d_uploaded_by document)) (VStr (p_id user))) eqn:Eu.
  { right. left. destruct (d_uploaded_by document) as [u|]; simpl in Eu; [|discriminate].
    apply String.eqb_eq in Eu. now subst. }
  right. right.
  destruct (String.eqb (p_role user) "accountant") eqn:Ec; [|discriminate].
  split; [now apply String.eqb_eq in Ec|].
  unfold accountantIdOfUser in *.
  destruct (first_row (filter _ (accountants db))) as [acc|];
    destruct (tr_accountant_id tr) as [a|]; simpl in Hacc; try discriminate.
  apply String.eqb_eq in Hacc. exists a. split; [reflexivity | now rewrite Hacc].
Qed.

(** X23. Reading and deleting a document have different rules. The
    customer who owns the return can download every document of it: the
    file at the row's path is sent, as long as it is on disk (404 "File
    not found on server" when it is not). The same customer cannot
    delete a document of that return that somebody else uploaded: 403,
    with the row and the file left in place. *)
Theorem owner_can_read_but_not_delete_others_upload :
  forall (unlink_fails : string -> bool) (db : Db) (disk : Disk) (user : Principal)
         (id : string) (document : DocumentRow) (tr : TaxReturnRow) (c : uuid),
    first_row (document_with_return db id) = Some (document, tr) ->
    p_role user = "customer" ->
    customerIdOfUser db (p_id user) = VStr c ->
    tr_customer_id tr = Some c ->
    d_uploaded_by document <> Some (p_id user) ->
    get_document db disk user id
    = (if includes disk (d_file_path document)
       then SendFile (d_file_path document) (d_original_name document)
                     (d_mime_type document)
       else Answer (Sent (fail 404 "File not found on server")))
    /\ delete_document unlink_fails db disk user id
       = (db, disk, Sent (fail 403 "Access denied")).
Proof.
  intros unlink_fails db disk user id document tr c Hf Hrole Hc Htr Hup. split.
  - unfold get_document. rewrite Hf, Hrole, Hc, Htr. simpl. rewrite String.eqb_refl.
    simpl. destruct (includes disk (d_file_path document)); reflexivity.
  - unfold delete_document. rewrite Hf, Hrole. simpl String.eqb. simpl orb.
    destruct (strict_eq (of_text (d_uploaded_by document)) (VStr (p_id user))) eqn:Eu.
    { exfalso. apply Hup. destruct (d_uploaded_by document) as [u|]; simpl in Eu;
        [|discriminate].
      apply String.eqb_eq in Eu. now subst. }
    reflexivity.
Qed.

(* ------------------------------------------------------------------ *)
(** ** The tax-return router *)
(* ------------------------------------------------------------------ *)

(** X24. [GET /api/tax-returns/stats] never reaches the statistics
    handler. The route [/stats] is registered after [/:id], which matches
    the same path with [id = "stats"]; so for every method and path the
    router picks a handler other than the statistics one, and a request
    for [/stats] (in any letter case) is handled as a request for the
    return with key "stats". *)
Theorem stats_route_is_shadowed :
  forall (m : Method) (segments : list string),
    (dispatch tax_return_routes m segments = Some StatsHandler -> False)
    /\ (forall s, toLowerCase s = "stats" ->
                  dispatch tax_return_routes GET [s] = Some DetailsHandler)
    /\ dispatch tax_return_routes GET ["stats"] = Some DetailsHandler.
Proof.
  intros m segments. split; [|split].
  - unfold tax_return_routes. cbn [dispatch].
    destruct (method_eqb m POST && matches [] segments); [discriminate|].
    destruct (method_eqb m GET && matches [] segments); [discriminate|].
    destruct (method_eqb m GET && matches [Param "id"] segments) eqn:Hid; [discriminate|].
    destruct (method_eqb m PUT && matches [Param "id"; Lit "status"] segments);
      [discriminate|].
    destruct (method_eqb m PUT && matches [Param "id"; Lit "assign"] segments);
      [discriminate|].
    destruct (method_eqb m PUT && matches [Param "id"; Lit "calculations"] segments);
      [discriminate|].
    destruct (method_eqb m POST && matches [Param "id"; Lit "file"] segments);
      [discriminate|].
    destruct (method_eqb m POST && matches [Param "id"; Lit "income"] segments);
      [discriminate|].
    destruct (method_eqb m GET && matches [Lit "stats"] segments) eqn:Hstats.
    + intros _. apply andb_true_iff in Hstats. destruct Hstats as [Hm Hs].
      rewrite Hm in Hid. simpl andb in Hid.
      destruct segments as [|x [|y rest]]; cbn [matches] in Hs, Hid.
      * discriminate Hs.
      * rewrite andb_true_r in Hs, Hid. apply negb_false_iff in Hid.
        apply String.eqb_eq in Hid. subst x. vm_compute in Hs. discriminate Hs.
      * rewrite andb_false_r in Hs. discriminate Hs.
    + destruct (method_eqb m DELETE && matches [Param "id"] segments); discriminate.
  - intros s Hs. unfold tax_return_routes. simpl.
    assert (Hne : String.eqb s "" = false).
    { destruct s; [discriminate Hs | reflexivity]. }
    rewrite Hne. reflexivity.
  - reflexivity.
Qed.

(* ------------------------------------------------------------------ *)
(** ** [routes/contact.js]: assigning an inquiry *)
(* ------------------------------------------------------------------ *)

Section ContactFacts.
Variable isUUID : string -> bool.

(** X25. Assigning a contact inquiry keeps its progress. An answer 200
    from [PUT /inquiries/:id/assign] means: the assignee is a user with
    the role admin; every inquiry with that key now has the assignee and
    its status is in_progress if it was new and otherwise exactly what it
    was (resolved stays resolved, closed stays closed); every other
    inquiry is untouched. Any other answer (as for an assignee that is
    not an administrator) leaves the inquiries as they were. *)
Theorem inquiry_assignment_keeps_progress :
  forall (db : Db) (inquiries inquiries' : list InquiryRow) (user : Principal)
         (id assignedTo : string) (o : Outcome),
    put_inquiry_assign isUUID db inquiries user id assignedTo = (inquiries', o) ->
    (status_of o <> Some 200 -> inquiries' = inquiries)
    /\ (status_of o = Some 200 ->
        (exists u, In u (users db) /\ u_id u = assignedTo /\ u_role u = "admin")
        /\ p_role user = "admin"
        /\ inquiries'
           = map (fun r =>
                    if String.eqb (i_id r) id then
                      mkInquiryRow (i_id r) (i_contact r)
                                   (match i_status r with
                                    | Some s => if String.eqb s "new" then Some "in_progress"
                                                else Some s
                                    | None => None
                                    end)
                                   (Some assignedTo) (i_dates r)
                    else r) inquiries
        /\ (forall r', In r' inquiries' -> i_id r' = id ->
                       i_assigned_to r' = Some assignedTo /\ i_status r' <> Some "new")
        /\ (forall r s, In r inquiries -> i_id r = id -> i_status r = Some s ->
                        s <> "new" ->
                        exists r', In r' inquiries' /\ i_id r' = id /\ i_status r' = Some s)).
Proof.
  intros db inquiries inquiries' user id assignedTo o. unfold put_inquiry_assign.
  destruct (authorize_cases ["admin"] user) as [[Hadm ->] | [_ ->]].
  2:{ intros [= <- <-]. split; [reflexivity | discriminate]. }
  destruct (handleValidationErrors _) as [[]|r0] eqn:Hv.
  2:{ intros [= <- <-]. split; [reflexivity|]. intros Hs. exfalso.
      unfold handleValidationErrors in Hv.
      destruct (check _ _ _); [discriminate|]. injection Hv as <-. discriminate. }
  destruct (length _ =? 0)%nat eqn:Hlen.
  { intros [= <- <-]. split; [reflexivity | discriminate]. }
  destruct (first_row _) as [r|] eqn:Hf.
  2:{ intros [= <- <-]. split; [reflexivity | discriminate]. }
  intros [= <- <-]. split; [intros H; now elim H|]. intros _.
  split.
  { apply Nat.eqb_neq in Hlen.
    destruct (filter _ (users db)) as [|u us] eqn:Hu; [now elim Hlen|].
    assert (Hin : In u (filter (fun u0 => String.eqb (u_id u0) assignedTo
                                          && String.eqb (u_role u0) "admin") (users db)))
      by (rewrite Hu; now left).
    apply filter_In in Hin. destruct Hin as [Hin Hp].
    apply andb_true_iff in Hp. destruct Hp as [H1 H2].
    apply String.eqb_eq in H1, H2. now exists u. }
  split.
  { apply includes_In in Hadm. simpl in Hadm. destruct Hadm as [H | []]. now symmetry. }
  split; [reflexivity|]. split.
  - intros r' Hr' Hid. unfold update_where in Hr'. apply in_map_iff in Hr'.
    destruct Hr' as [x [<- Hx]].
    destruct (String.eqb (i_id x) id) eqn:E.
    + simpl. split; [reflexivity|].
      destruct (i_status x) as [s|]; [|discriminate].
      destruct (String.eqb s "new") eqn:Es; [discriminate|].
      apply String.eqb_neq in Es. congruence.
    + apply String.eqb_neq in E. contradiction.
  - intros x s Hx Hid Hs Hne.
    exists (mkInquiryRow (i_id x) (i_contact x) (Some s) (Some assignedTo) (i_dates x)).
    split; [|split; [exact Hid | reflexivity]].
    unfold update_where. apply in_map_iff. exists x. split; [|exact Hx].
    rewrite Hid, String.eqb_refl, Hs. apply String.eqb_neq in Hne. now rewrite Hne.
Qed.
End ContactFacts.

(* ------------------------------------------------------------------ *)
(** ** [fileFilter] and [path.extname] *)
(* ------------------------------------------------------------------ *)

Lemma chars_app a b : chars (a ++ b) = (chars a ++ chars b)%list.
Proof. unfold chars. induction a as [|c a IH]; simpl; [reflexivity | now rewrite IH]. Qed.

Lemma take_while_all p l : (forall c, In c l -> p c = true) -> take_while p l = l.
Proof.
  induction l as [|c l IH]; simpl; [reflexivity|]. intros H.
  rewrite (H c (or_introl eq_refl)). f_equal. apply IH. intros x Hx. apply H. now right.
Qed.

Lemma drop_while_all p l : (forall c, In c l -> p c = true) -> drop_while p l = [].
Proof.
  induction l as [|c l IH]; simpl; [reflexivity|]. intros H.
  rewrite (H c (or_introl eq_refl)). apply IH. intros x Hx. apply H. now right.
Qed.

Lemma take_while_stop p l c rest :
  (forall x, In x l -> p x = true) -> p c = false ->
  take_while p (l ++ c :: rest) = l.
Proof.
  induction l as [|y l IH]; simpl; intros H Hc.
  - now rewrite Hc.
  - rewrite (H y (or_introl eq_refl)). f_equal. apply IH; [|exact Hc].
    intros x Hx. apply H. now right.
Qed.

Lemma drop_while_stop p l c rest :
  (forall x, In x l -> p x = true) -> p c = false ->
  drop_while p (l ++ c :: rest) = c :: rest.
Proof.
  induction l as [|y l IH]; simpl; intros H Hc.
  - now rewrite Hc.
  - rewrite (H y (or_introl eq_refl)). apply IH; [|exact Hc].
    intros x Hx. apply H. now right.
Qed.

Lemma drop_while_head p c l : p c = false -> drop_while p (c :: l) = c :: l.
Proof. intros H. simpl. now rewrite H. Qed.

Lemma neq_eqb_false (a b : ascii) : a <> b -> negb (Ascii.eqb a b) = true.
Proof. intros H. apply negb_true_iff. now apply Ascii.eqb_neq. Qed.

(** [path.extname] of [base.ext]. *)
Lemma extname_last_extension base ext :
  base <> "" -> ext <> "" -> no_slash base -> no_slash ext -> no_dot ext ->
  extname (base ++ "." ++ ext) = "." ++ ext.
Proof.
  intros Hb He Hsb Hse Hde. unfold extname.
  change (list_ascii_of_string (base ++ "." ++ ext)) with (chars (base ++ "." ++ ext)).
  rewrite chars_app. change (chars ("." ++ ext)) with (dot :: chars ext).
  rewrite rev_app_distr. simpl rev. rewrite <- app_assoc. simpl app.
  set (X := rev (chars ext)). set (B := rev (chars base)).
  assert (HX : forall c, In c X -> c <> slash /\ c <> dot).
  { intros c Hc. apply in_rev in Hc. split; [now apply Hse | now apply Hde]. }
  assert (HB : forall c, In c B -> c <> slash).
  { intros c Hc. apply in_rev in Hc. now apply Hsb. }
  assert (HXne : X <> []).
  { unfold X. intros H. apply (f_equal (@rev ascii)) in H. rewrite rev_involutive in H.
    simpl in H. apply He. unfold chars in H.
    rewrite <- (string_of_list_ascii_of_string ext), H. reflexivity. }
  assert (HBne : B <> []).
  { unfold B. intros H. apply (f_equal (@rev ascii)) in H. rewrite rev_involutive in H.
    simpl in H. apply Hb. unfold chars in H.
    rewrite <- (string_of_list_ascii_of_string base), H. reflexivity. }
  destruct X as [|x0 X'] eqn:EX; [now elim HXne|].
  assert (Hx0 : x0 <> slash) by (apply HX; now left).
  simpl app.
  rewrite drop_while_head by (now apply Ascii.eqb_neq).
  rewrite take_while_all.
  2:{ intros c [<- | Hc]; [now apply neq_eqb_false|].
      apply in_app_or in Hc. destruct Hc as [Hc | [<- | Hc]].
      - apply neq_eqb_false. apply HX. now right.
      - reflexivity.
      - apply neq_eqb_false. now apply HB. }
  change (x0 :: X' ++ dot :: B)%list with ((x0 :: X') ++ dot :: B)%list.
  rewrite take_while_stop, drop_while_stop.
  2,4: intros c Hc; apply neq_eqb_false; now apply HX.
  2,3: unfold dot; now rewrite Ascii.eqb_refl.
  destruct B as [|b0 B'] eqn:EB; [now elim HBne|].
  assert (Hrev : rev (x0 :: X') = chars ext).
  { rewrite <- EX. unfold X. apply rev_involutive. }
  rewrite Hrev. unfold chars.
  destruct B'; simpl; now rewrite string_of_list_ascii_of_string.
Qed.

Lemma extname_without_dot name :
  no_slash name -> no_dot name -> extname name = "".
Proof.
  intros Hs Hd. unfold extname.
  change (list_ascii_of_string name) with (chars name).
  set (N := rev (chars name)).
  assert (HN : forall c, In c N -> c <> slash /\ c <> dot).
  { intros c Hc. apply in_rev in Hc. split; [now apply Hs | now apply Hd]. }
  assert (Hdrop : drop_while (fun x => Ascii.eqb x slash) N = N).
  { destruct N as [|c N']; [reflexivity|]. apply drop_while_head.
    apply Ascii.eqb_neq. apply HN. now left. }
  rewrite Hdrop. rewrite take_while_all.
  2:{ intros c Hc. apply neq_eqb_false. now apply HN. }
  rewrite drop_while_all; [reflexivity|].
  intros c Hc. apply neq_eqb_false. now apply HN.
Qed.

Lemma toLowerCase_dot ext : toLowerCase ("." ++ ext) = "." ++ toLowerCase ext.
Proof. reflexivity. Qed.

Lemma substring_from_1 c s : substring_from 1 (String c s) = s.
Proof.
  unfold substring_from. simpl. rewrite Nat.sub_0_r. apply substring_all.
Qed.

Section FilterFacts.
Variable ALLOWED_FILE_TYPES : option string.
Variable UPLOAD_PATH : string.

(** X26. The upload filter goes by the last extension of the client's
    file name, whatever its case. For a name [base.ext] (no path
    separator, [base] not empty, [ext] without a dot and not empty), the
    file is accepted exactly when the lower-cased [ext] is in the
    configured list, so [a.PDF] passes where [pdf] is allowed and
    [a.pdf.exe] is judged as [exe]; the name it is stored under ends in
    [.ext] as the client spelled it. A name without any dot or path
    separator has the empty extension, and is refused under the default
    list. *)
Theorem fileFilter_goes_by_last_extension :
  forall (file : Part) (base ext : string),
    originalname file = base ++ "." ++ ext ->
    base <> "" -> ext <> "" -> no_slash base -> no_slash ext -> no_dot ext ->
    fileExtension (originalname file) = toLowerCase ext
    /\ (fileFilter ALLOWED_FILE_TYPES file = Ok true
        <-> In (toLowerCase ext) (allowedTypes ALLOWED_FILE_TYPES))
    /\ filename (stored UPLOAD_PATH file)
       = fieldname file ++ "-" ++ uniqueSuffix file ++ "." ++ ext
    /\ (forall other : Part,
          no_slash (originalname other) -> no_dot (originalname other) ->
          fileExtension (originalname other) = ""
          /\ (ALLOWED_FILE_TYPES = None ->
              exists m, fileFilter ALLOWED_FILE_TYPES other = Throw m)).
Proof.
  intros file base ext Hname Hb He Hsb Hse Hde.
  assert (Hext : extname (originalname file) = "." ++ ext).
  { rewrite Hname. now apply extname_last_extension. }
  assert (Hfe : fileExtension (originalname file) = toLowerCase ext).
  { unfold fileExtension. rewrite Hext, toLowerCase_dot. apply substring_from_1. }
  split; [exact Hfe|]. split; [|split].
  - unfold fileFilter. rewrite Hfe.
    destruct (includes (allowedTypes ALLOWED_FILE_TYPES) (toLowerCase ext)) eqn:Hi.
    + apply includes_In in Hi. tauto.
    + split; [discriminate|]. intros Hin. apply includes_In in Hin. congruence.
  - unfold stored. simpl filename. now rewrite Hext.
  - intros other Hs Hd.
    assert (Hoe : fileExtension (originalname other) = "").
    { unfold fileExtension. now rewrite extname_without_dot. }
    split; [exact Hoe|]. intros ->. unfold fileFilter. rewrite Hoe.
    eexists. reflexivity.
Qed.
End FilterFacts.

(* ------------------------------------------------------------------ *)
(** ** [server.js]: the static mount *)
(* ------------------------------------------------------------------ *)

Section StaticFacts.
Variable ALLOWED_FILE_TYPES : option string.
Variable MAX_FILE_SIZE : Z.
Variable unlink_fails : string -> bool.

(** X27. Uploaded documents can be read without logging in. With the
    upload directory at [uploads], every file of an upload answered 201
    is served by the static mount [/uploads] under its stored name
    ([documents-<suffix><extension>]) to any request, with no token
    asked for, while [GET /documents/:id] for the row of that very file
    refuses (403) a customer who does not own the return. *)
Theorem uploads_are_served_without_authentication :
  forall (e : Entropy) (db db' : Db) (disk disk' : Disk) (user : Principal)
         (taxReturnId : string) (documentType : option string) (parts : list Part)
         (r : Response),
    post_documents ALLOWED_FILE_TYPES "uploads" MAX_FILE_SIZE unlink_fails e db disk user
                   taxReturnId documentType parts = (db', disk', Sent r) ->
    status r = 201 ->
    exists files,
      files <> []
      /\ forall f, In f files ->
           In (document_row e user taxReturnId (document_type_of documentType) f)
              (documents db')
           /\ String.prefix "documents-" (filename f) = true
           /\ static_uploads disk' (filename f) = Some (path f)
           /\ (forall (other : Principal) (id : string) (document : DocumentRow)
                      (tr : TaxReturnRow),
                 first_row (document_with_return db' id) = Some (document, tr) ->
                 d_file_path document = path f ->
                 p_role other = "customer" ->
                 customerIdOfUser db' (p_id other) <> of_text (tr_customer_id tr) ->
                 get_document db' disk' other id = Answer (Sent (fail 403 "Access denied"))).
Proof.
  intros e db db' disk disk' user taxReturnId documentType parts r H Hs.
  destruct (upload_created ALLOWED_FILE_TYPES "uploads" MAX_FILE_SIZE unlink_fails
              e db db' disk disk'
              user taxReturnId documentType parts r H Hs)
    as [files [Hlen [Hdocs [_ [Hfiles _]]]]].
  exists files. split; [destruct files; [simpl in Hlen; lia | discriminate]|].
  intros f Hf. destruct (Hfiles f Hf) as [Hon [p [_ [-> [Hfield _]]]]].
  split; [rewrite Hdocs; apply in_or_app; right; now apply in_map|].
  split.
  { unfold stored. simpl filename. rewrite Hfield. simpl.
    now destruct (uniqueSuffix p ++ extname (originalname p))%string. }
  split.
  - assert (Heq : "uploads/" ++ filename (stored "uploads" p) = path (stored "uploads" p))
      by reflexivity.
    unfold static_uploads. cbv zeta. rewrite Heq.
    apply (proj2 (includes_In _ _)) in Hon. now rewrite Hon.
  - intros other id document tr Hrow _ Hrole Hne.
    unfold get_document. rewrite Hrow, Hrole. simpl String.eqb. cbv iota.
    destruct (strict_eq (customerIdOfUser db' (p_id other)) (of_text (tr_customer_id tr)))
      eqn:E; [|reflexivity].
    exfalso. apply Hne. unfold customerIdOfUser in *.
    destruct (first_row (filter _ (customers db'))) as [c|];
      destruct (tr_customer_id tr) as [x|]; simpl in E; try discriminate.
    apply String.eqb_eq in E. simpl. now rewrite E.
Qed.
End StaticFacts.

(* ------------------------------------------------------------------ *)
(** ** [transaction], for any list of statements *)
(* ------------------------------------------------------------------ *)

(** X28. How [transaction] ends, whatever data statements the callback
    sends. Round trip 0 is the connect, 1 the [BEGIN], then one per
    statement, and round trip [n] (the number of statements plus 2) the
    [COMMIT]. If [transaction] returns, it returns the callback's value,
    the committed store is the result of all the statements, in order,
    on the store it started from, and the session is idle. If it
    throws, the committed store is exactly the one it started from,
    with one exception: every round trip before the [COMMIT] was
    answered, no statement was refused, and the [COMMIT] was processed
    but its answer lost; then the call throws although the result of
    the statements is committed. That exception does occur under those
    conditions; when an earlier round trip is not answered, the [COMMIT]
    does not reach the server, or a statement is refused, the call
    throws with the store as before. In every case the connection goes
    back to the pool with no transaction block open: [release] itself
    sends nothing, the block is ended by the [COMMIT], by the
    [ROLLBACK] of the catch block, or with the session when the
    connection broke. With the link up and no statement refused the
    call returns. *)
Theorem transaction_commits_all_or_nothing :
  forall (A : Type) (a : A) (sts : list Stmt) (db : Db) (fs : list Round),
    forallb is_data sts = true ->
    let res := transaction (sequence sts (ret a)) (mkClient db Idle fs) in
    let n := length sts + 2 in
    no_block (session (fst res))
    /\ (forall x,
          snd res = Ok x ->
          x = a /\ run_all sts db = Ok (committed (fst res))
          /\ session (fst res) = Idle)
    /\ (forall m,
          snd res = Throw m ->
          committed (fst res) = db
          \/ (answered_upto n fs /\ nth n fs Answered = Unanswered
              /\ run_all sts db = Ok (committed (fst res))))
    /\ (forall db',
          run_all sts db = Ok db' ->
          answered_upto n fs -> nth n fs Answered = Unanswered ->
          (exists m, snd res = Throw m) /\ committed (fst res) = db')
    /\ (((exists i, i < n /\ nth i fs Answered <> Answered)
         \/ nth n fs Answered = Lost
         \/ (exists m', run_all sts db = Throw m')) ->
        (exists m, snd res = Throw m) /\ committed (fst res) = db)
    /\ (calm fs -> forall db',
          run_all sts db = Ok db' ->
          snd res = Ok a /\ committed (fst res) = db').
Proof.
  intros A a sts db fs Hd. cbv zeta.
  destruct (transaction_sequence a sts db fs Hd) as [Hblock H]. cbv zeta in H.
  set (res := transaction (sequence sts (ret a)) (mkClient db Idle fs)) in *.
  set (n := length sts + 2) in *.
  split; [exact Hblock|]. split; [|split; [|split; [|split]]].
  - intros x Hx.
    destruct H as [[_ [_ [db' [Hrun [Hok [Hc Hs]]]]]]
                  | [[_ [_ [db' [m [_ [Hm _]]]]]] | [[m Hm] _]]]; try congruence.
    split; [congruence|]. split; [congruence | exact Hs].
  - intros m Hm.
    destruct H as [[_ [_ [db' [_ [Hok _]]]]]
                  | [[Hans [Hn [db' [m' [Hrun [_ Hc]]]]]] | [_ [Hc _]]]].
    + congruence.
    + right. split; [exact Hans|]. split; [exact Hn | congruence].
    + now left.
  - intros db' Hrun Hans Hn.
    destruct H as [[_ [Hn' _]]
                  | [[_ [_ [db2 [m [Hrun2 [Hm Hc]]]]]] | [_ [_ Hwhy]]]].
    + congruence.
    + split; [eauto | congruence].
    + exfalso. destruct Hwhy as [[i [Hi Hbad]] | [Hl | [m' Hthrow]]].
      * apply Hbad. now apply Hans.
      * congruence.
      * congruence.
  - intros Hfail.
    destruct H as [[Hans [Hn [db' [Hrun _]]]]
                  | [[Hans [Hn [db' [m [Hrun _]]]]] | [Hm [Hc _]]]].
    + exfalso. destruct Hfail as [[i [Hi Hbad]] | [Hl | [m' Hthrow]]].
      * apply Hbad. now apply Hans.
      * congruence.
      * congruence.
    + exfalso. destruct Hfail as [[i [Hi Hbad]] | [Hl | [m' Hthrow]]].
      * apply Hbad. now apply Hans.
      * congruence.
      * congruence.
    + split; assumption.
  - intros Hcalm db' Hrun.
    destruct H as [[_ [_ [db2 [Hrun2 [Hok [Hc _]]]]]]
                  | [[_ [Hn _]] | [_ [_ Hwhy]]]].
    + split; [exact Hok | congruence].
    + rewrite (calm_nth fs n Hcalm) in Hn. discriminate.
    + exfalso. destruct Hwhy as [[i [Hi Hbad]] | [Hn | [m' Hthrow]]].
      * apply Hbad. now apply (calm_answered fs n Hcalm).
      * rewrite (calm_nth fs n Hcalm) in Hn. discriminate.
      * congruence.
Qed.

(* ------------------------------------------------------------------ *)
(** ** [GET /api/users]: pages *)
(* ------------------------------------------------------------------ *)

Lemma skipn_skipn {A} (a b : nat) (l : list A) : skipn a (skipn b l) = skipn (b + a) l.
Proof.
  revert l. induction b as [|b IH]; intros l; simpl; [reflexivity|].
  destruct l as [|x l]; [now destruct a | apply IH].
Qed.

Lemma flat_map_same {A B} (f g : A -> list B) (l : list A) :
  (forall x, In x l -> f x = g x) -> flat_map f l = flat_map g l.
Proof.
  induction l as [|x l IH]; intros H; simpl; [reflexivity|].
  rewrite (H x (or_introl eq_refl)). f_equal. apply IH. intros y Hy. apply H. now right.
Qed.

(** Cutting a list into pages of [n] items and gluing the pages back
    gives the list. *)
Lemma pages_cover {A} (n : nat) (l : list A) :
  0 < n ->
  forall m s, length l <= m * n ->
  flat_map (fun p => firstn n (skipn ((p - s) * n) l)) (seq s m) = l.
Proof.
  intros Hn m. revert l. induction m as [|m IH]; intros l s Hlen.
  - simpl in *. destruct l; [reflexivity | simpl in Hlen; lia].
  - simpl seq. simpl flat_map. rewrite Nat.sub_diag. simpl skipn.
    transitivity (firstn n l ++ skipn n l)%list; [|apply firstn_skipn].
    f_equal.
    transitivity (flat_map (fun p => firstn n (skipn ((p - S s) * n) (skipn n l)))
                           (seq (S s) m)).
    + apply flat_map_same. intros p Hp. apply in_seq in Hp.
      rewrite skipn_skipn. f_equal. f_equal.
      replace (p - s) with (S (p - S s)) by lia. simpl. lia.
    + apply IH. rewrite length_skipn. simpl in Hlen. lia.
Qed.

Lemma ceil_div_covers a b : 0 < b -> a <= ceil_div a b * b.
Proof.
  intros Hb. unfold ceil_div.
  pose proof (Nat.div_mod_eq (a + b - 1) b) as H.
  pose proof (Nat.mod_upper_bound (a + b - 1) b ltac:(lia)) as Hm.
  nia.
Qed.


Lemma getAll_unpaged db role ver :
  exists rows,
    User.getAll db (User.mkFilters role ver None None) = Ok (map User.new rows)
    /\ forall limit offset,
         0 < limit ->
         User.getAll db (User.mkFilters role ver (Some (Z.of_nat limit))
                                        (Some (Z.of_nat offset)))
         = Ok (map User.new (firstn limit (skipn offset rows))).
Proof.
  unfold User.getAll. simpl User.f_limit. simpl User.f_offset.
  simpl User.f_role. simpl User.f_isVerified.
  eexists. split; [reflexivity|]. intros limit offset Hl.
  assert (Hl0 : (Z.of_nat limit =? 0)%Z = false) by (apply Z.eqb_neq; lia).
  rewrite Hl0.
  assert (Hlneg : (Z.of_nat limit <? 0)%Z = false) by (apply Z.ltb_ge; lia).
  rewrite Hlneg. rewrite Nat2Z.id.
  destruct (Z.of_nat offset =? 0)%Z eqn:Ho.
  - apply Z.eqb_eq in Ho. assert (offset = 0) by lia. subst offset. reflexivity.
  - assert (Honeg : (Z.of_nat offset <? 0)%Z = false) by (apply Z.ltb_ge; lia).
    rewrite Honeg, Nat2Z.id. reflexivity.
Qed.
Lemma getAll_negative_offset db role ver limit offset :
  0 < limit -> (offset < 0)%Z ->
  User.getAll db (User.mkFilters role ver (Some (Z.of_nat limit)) (Some offset))
  = Throw "2201X".
Proof.
  intros Hl Ho. unfold User.getAll.
  cbn [User.f_limit User.f_offset User.f_role User.f_isVerified].
  assert (Hl0 : (Z.of_nat limit =? 0)%Z = false) by (apply Z.eqb_neq; lia).
  rewrite Hl0.
  assert (Hlneg : (Z.of_nat limit <? 0)%Z = false) by (apply Z.ltb_ge; lia).
  rewrite Hlneg.
  assert (Ho0 : (offset =? 0)%Z = false) by (apply Z.eqb_neq; lia).
  rewrite Ho0.
  assert (Hon : (offset <? 0)%Z = true) by (apply Z.ltb_lt; lia).
  now rewrite Hon.
Qed.

(** X29. The pages of [GET /api/users] cut the listing without loss.
    For an administrator, a limit of at least one and a page of at least
    one, the answer carries the users number [(page-1)*limit] up to
    [page*limit] of the listing [User.getAll] gives for the filters of
    the query without paging, the length of that listing as total, and
    the number of pages [ceil(total/limit)]; the pages 1 to that number,
    put one after the other, are the whole listing. Page 0 makes the database refuse the
    query (a negative OFFSET), and the error is passed on. Anyone but an
    administrator is answered 403. *)
Theorem user_pages_cover_the_listing :
  forall (db : Db) (user : Principal) (role isVerified : option string) (limit : nat),
    0 < limit ->
    (p_role user <> "admin" ->
     forall page,
       get_users db user role isVerified page (Some limit)
       = Sent (fail 403 "Access denied. Insufficient permissions."))
    /\ (p_role user = "admin" ->
        exists listing,
          User.getAll db (count_filters role isVerified) = Ok listing
          /\ (forall page,
              0 < page ->
              get_users db user role isVerified (Some page) (Some limit)
              = Sent (success_data
                  (VObj [("users",
                          VArr (map User.toJSON
                                    (firstn limit (skipn ((page - 1) * limit) listing))));
                         ("pagination",
                          VObj [("page", VNum (Z.of_nat page));
                                ("limit", VNum (Z.of_nat limit));
                                ("total", VNum (Z.of_nat (length listing)));
                                ("pages",
                                 VNum (Z.of_nat (ceil_div (length listing) limit)))])])))
          /\ flat_map (fun page => firstn limit (skipn ((page - 1) * limit) listing))
                      (seq 1 (ceil_div (length listing) limit))
             = listing
          /\ get_users db user role isVerified (Some 0) (Some limit) = NextError "2201X").
Proof.
  intros db user role isVerified limit Hl. split.
  - intros Hne page. unfold get_users, authorize.
    assert (Hi : includes ["admin"] (p_role user) = false).
    { simpl. apply String.eqb_neq in Hne. now rewrite Hne. }
    now rewrite Hi.
  - intros Hadm.
    set (f_role := if String.eqb (match role with Some r => r | None => "all" end) "all"
                   then None
                   else Some (match role with Some r => r | None => "all" end)).
    set (f_ver := if String.eqb (match isVerified with Some v => v | None => "all" end) "all"
                  then None
                  else Some (String.eqb (match isVerified with Some v => v | None => "all" end)
                                        "true")).
    destruct (getAll_unpaged db f_role f_ver) as [rows [Hall Hpage]].
    exists (map User.new rows). split; [|split; [|split]].
    + rewrite <- Hall. f_equal. unfold count_filters, f_role, f_ver.
      destruct role, isVerified; reflexivity.
    + intros page Hp. unfold get_users, authorize. rewrite Hadm.
      simpl includes. simpl negb. cbv iota. fold f_role. fold f_ver.
      replace ((Z.of_nat page - 1) * Z.of_nat limit)%Z
        with (Z.of_nat ((page - 1) * limit))
        by (rewrite Nat2Z.inj_mul, Nat2Z.inj_sub by lia; reflexivity).
      rewrite (Hpage limit ((page - 1) * limit) Hl), Hall.
      assert (Hl0 : (limit =? 0)%nat = false) by (apply Nat.eqb_neq; lia).
      rewrite Hl0. rewrite !length_map.
      rewrite <- firstn_map, <- skipn_map. reflexivity.
    + rewrite (pages_cover limit (map User.new rows) Hl _ 1).
      * reflexivity.
      * apply ceil_div_covers. exact Hl.
    + unfold get_users, authorize. rewrite Hadm.
      simpl includes. simpl negb. cbv iota. fold f_role. fold f_ver.
      rewrite getAll_negative_offset; [reflexivity | exact Hl | lia].
Qed.
(** ** The further statements on the sample store *)

(** Alice's token, issued at [sample_entropy], a minute and a half later. *)
Lemma issued_token_authenticates_witness :
  authenticate (reads_as (claims_of 604800 sample_entropy (User.new alice_row)))
               keyed "secret" 1700000100%Z sample_db
               (Some ("Bearer " ++ generateToken signature_only keyed "secret" 604800%Z
                                                 sample_entropy (User.new alice_row)))
  = Next alice.
Proof.
  rewrite (@issued_token_authenticates signature_only
             (reads_as (claims_of 604800 sample_entropy (User.new alice_row)))
             keyed "secret" 604800%Z sample_entropy (User.new alice_row)
             1700000100%Z sample_db eq_refl).
  reflexivity.
Defined.

(** Dave's registration. *)
Lemma register_creates_unverified_account_witness :
  exists row,
    users (fst registration) = (users sample_db ++ [row])%list
    /\ u_is_verified row = false
    /\ u_verification_token row = Some "3f2b7c1e".
Proof.
  destruct (@register_creates_unverified_account
              accepting unchanged accepting unchanged salted signature_only keyed
              "secret" 604800%Z sample_entropy sample_db (fst registration) dave
              (response_of (snd registration)) eq_refl eq_refl)
    as [row [H1 [_ [H2 [H3 _]]]]].
  exists row. split; [exact H1 | split; [exact H2 | exact H3]].
Defined.

(** Dave's token before and after he verifies his address. *)
Lemma verify_email_unlocks_token_witness :
  exists token db2,
    authenticate (reads_as (claims_of 604800 sample_entropy (User.new dave_row)))
                 keyed "secret" 1700000100%Z (fst registration)
                 (Some ("Bearer " ++ token))
    = Respond (fail 401 "Access denied. Please verify your email address.")
    /\ verify_email later (fst registration) "3f2b7c1e"
       = (db2, Sent (success_message "Email verified successfully"))
    /\ authenticate (reads_as (claims_of 604800 sample_entropy (User.new dave_row)))
                    keyed "secret" 1700000100%Z db2 (Some ("Bearer " ++ token))
       = Next (mkPrincipal "id-9" "dave@example.com" "customer" "Dave" "Example").
Proof.
  destruct (@verify_email_unlocks_token
              accepting unchanged accepting unchanged salted signature_only
              (reads_as (claims_of 604800 sample_entropy (User.new dave_row)))
              keyed "secret" 604800%Z sample_entropy later sample_db (fst registration)
              dave (response_of (snd registration)) 1700000100%Z)
    as [token [db2 [_ [H1 [H2 [H3 _]]]]]].
  - reflexivity.
  - reflexivity.
  - reflexivity.
  - intros u Hu. simpl in Hu.
    destruct Hu as [<-|[<-|[<-|[<-|[]]]]]; discriminate.
  - discriminate.
  - reflexivity.
  - exists token, db2. split; [exact H1 | split; [exact H2 | exact H3]].
Defined.

(** Dave's verification token, used a second time. *)
Lemma verification_token_single_use_witness :
  verify_email later (fst (verify_email sample_entropy (fst registration) "3f2b7c1e"))
               "3f2b7c1e"
  = (fst (verify_email sample_entropy (fst registration) "3f2b7c1e"),
     Sent (fail 400 "Invalid or expired verification token")).
Proof.
  apply (@verification_token_single_use sample_entropy later (fst registration)
           (fst (verify_email sample_entropy (fst registration) "3f2b7c1e"))
           "3f2b7c1e"
           (response_of (snd (verify_email sample_entropy (fst registration) "3f2b7c1e")))
           eq_refl eq_refl eq_refl).
Defined.

(** An address nobody registered, and Alice's with a wrong password. *)
Lemma login_failures_indistinguishable_witness :
  login accepting unchanged (knows "Passw0rd!") signature_only keyed "secret" 604800%Z
        later sample_db "alice@example.com" "guess"
  = login accepting unchanged (knows "Passw0rd!") signature_only keyed "secret" 604800%Z
          sample_entropy sample_db "nobody@example.com" "Passw0rd!".
Proof.
  apply (@login_failures_indistinguishable
           accepting unchanged (knows "Passw0rd!") signature_only keyed "secret"
           604800%Z sample_entropy later sample_db "nobody@example.com"
           "alice@example.com" "Passw0rd!" "guess" (User.new alice_row)).
  - reflexivity.
  - reflexivity.
  - discriminate.
  - discriminate.
  - reflexivity.
  - reflexivity.
  - reflexivity.
Defined.

(** Alice logs in. *)
Lemma login_stamps_last_login_witness :
  exists db',
    fst (login accepting unchanged (knows "Passw0rd!") signature_only keyed "secret"
               604800%Z sample_entropy sample_db "alice@example.com" "Passw0rd!") = db'
    /\ prop "lastLogin" (User.toJSON (User.new alice_row)) = VNull
    /\ same_but_users sample_db db'.
Proof.
  destruct (@login_stamps_last_login
              accepting unchanged (knows "Passw0rd!") signature_only
              (reads_as (claims_of 604800 sample_entropy (User.new alice_row)))
              keyed "secret" 604800%Z sample_entropy sample_db "alice@example.com"
              "Passw0rd!" alice_row 1700000100%Z)
    as [db' [H1 [H2 [_ [H3 _]]]]].
  - reflexivity.
  - discriminate.
  - unfold users_keyed. simpl.
    repeat (constructor; [simpl; intuition discriminate|]). constructor.
  - reflexivity.
  - reflexivity.
  - exists db'. split; [now rewrite H1 | split; [exact H2 | exact H3]].
Defined.

(** Alice asks for a reset and uses the token an hour and a second
    later. *)
Lemma reset_token_one_hour_one_use_witness :
  exists db1,
    fst (forgot_password accepting unchanged (Some "production") sample_entropy
                         sample_db "alice@example.com") = db1
    /\ reset_password salted later db1 "3f2b7c1e" "NewPassw0rd"
       = (db1, Sent (fail 400 "Invalid or expired reset token")).
Proof.
  destruct (@reset_token_one_hour_one_use
              accepting unchanged salted (Some "production") sample_entropy later later
              sample_db "alice@example.com" "NewPassw0rd" "NewPassw0rd" alice_row)
    as [db1 [r1 [H1 [_ [H2 _]]]]].
  - reflexivity.
  - reflexivity.
  - intros u Hu. simpl in Hu.
    destruct Hu as [<-|[<-|[<-|[<-|[]]]]]; discriminate.
  - discriminate.
  - simpl. lia.
  - reflexivity.
  - simpl. lia.
  - reflexivity.
  - exists db1. split; [now rewrite H1 | apply H2; simpl; lia].
Defined.

(** Alice changes her password but mistypes the current one. *)
Lemma change_password_needs_current_witness :
  change_password salted (knows "Passw0rd!") sample_entropy sample_db alice
                  "guess" "NewPassw0rd"
  = (sample_db, Sent (fail 400 "Current password is incorrect")).
Proof.
  apply (@change_password_needs_current salted (knows "Passw0rd!") sample_entropy
           sample_db alice "guess" "NewPassw0rd" alice_row).
  - discriminate.
  - simpl. lia.
  - reflexivity.
  - reflexivity.
  - reflexivity.
Defined.

(** The administrator deletes Dave's account before Dave has verified
    his address; Dave then verifies it. *)
Lemma deleted_user_is_locked_out_witness :
  (forall t authorization p,
      authenticate (reads_as (claims_of 604800 sample_entropy (User.new dave_row)))
                   keyed "secret" t
                   (fst (delete_user (fun _ => "1700003601") later (fst registration)
                                     root "id-9"))
                   authorization
      = Next p ->
      p_id p <> "id-9")
  /\ exists db2 p,
       verify_email later
                    (fst (delete_user (fun _ => "1700003601") later (fst registration)
                                      root "id-9"))
                    "3f2b7c1e"
       = (db2, Sent (success_message "Email verified successfully"))
       /\ authenticate (reads_as (claims_of 604800 sample_entropy (User.new dave_row)))
                       keyed "secret" 1700000100%Z db2
                       (Some ("Bearer "
                              ++ generateToken signature_only keyed "secret" 604800%Z
                                               sample_entropy (User.new dave_row)))
          = Next p
       /\ p_id p = "id-9".
Proof.
  destruct (@deleted_user_is_locked_out
              signature_only
              (reads_as (claims_of 604800 sample_entropy (User.new dave_row)))
              keyed "secret" 604800%Z (fun _ => "1700003601") later (fst registration)
              root dave_row eq_refl eq_refl) as [_ H].
  destruct (H ltac:(discriminate)
              (fst (delete_user (fun _ => "1700003601") later (fst registration)
                                root "id-9"))
              (response_of
                 (snd (delete_user (fun _ => "1700003601") later (fst registration)
                                   root "id-9")))
              eq_refl eq_refl) as [_ [_ [H3 H4]]].
  split; [exact H3|].
  destruct (H4 "3f2b7c1e" later eq_refl ltac:(discriminate)) as [db2 [Hv Ha]].
  { intros u Hu Ht. simpl in Hu.
    destruct Hu as [<-|[<-|[<-|[<-|[<-|[]]]]]]; try discriminate. reflexivity. }
  destruct (Ha sample_entropy 1700000100%Z eq_refl eq_refl) as [p [Hp Hid]].
  exists db2, p. split; [exact Hv | split; [exact Hp | exact Hid]].
Defined.

(** Alice reads her own account. *)
Lemma profile_discloses_credentials_witness :
  exists profile,
    get_me no_cell no_cell sample_db alice = Sent (success_data profile)
    /\ prop "password_hash" profile = VStr "$2a$12$hash".
Proof.
  destruct (@profile_discloses_credentials no_cell no_cell sample_db alice alice_row
              eq_refl) as [profile [H1 [_ [H2 _]]]].
  exists profile. split; [exact H1 | exact H2].
Defined.

(** Alice adds an employment to her return. *)
Lemma post_income_adds_one_row_witness :
  exists row,
    income_sources
      (fst (post_income accepting as_written as_written unchanged sample_entropy
                        sample_db alice "tr-1"
                        (mkIncomeBody "employment" (Some "1000.00") None (Some "ACME")
                                      None None)))
    = (income_sources sample_db ++ [row])%list
    /\ ch_id row = "id-9"
    /\ ch_tax_return_id row = Some "tr-1".
Proof.
  destruct (@post_income_adds_one_row accepting as_written as_written unchanged
              sample_entropy sample_db
              (fst (post_income accepting as_written as_written unchanged
                                sample_entropy sample_db alice "tr-1"
                                (mkIncomeBody "employment" (Some "1000.00") None
                                              (Some "ACME") None None)))
              alice "tr-1"
              (mkIncomeBody "employment" (Some "1000.00") None (Some "ACME") None None)
              (snd (post_income accepting as_written as_written unchanged
                                sample_entropy sample_db alice "tr-1"
                                (mkIncomeBody "employment" (Some "1000.00") None
                                              (Some "ACME") None None)))
              eq_refl) as [_ H].
  destruct (H eq_refl) as [row [tr [H1 [_ [H2 [H3 _]]]]]].
  exists row. split; [exact H1 | split; [exact H2 | exact H3]].
Defined.

(** Alice uploads one file to her return. *)
Lemma upload_created_stores_rows_and_files_witness :
  exists files,
    1 <= length files <= 5
    /\ documents (fst (fst (post_documents None "uploads" 10485760%Z lets_go sample_entropy
                                           sample_db ["uploads/documents-1-1.pdf"]
                                           alice "tr-1" (Some "p45") [p45])))
       = (documents sample_db
          ++ map (document_row sample_entropy alice "tr-1" "p45") files)%list.
Proof.
  destruct (@upload_created_stores_rows_and_files
              None "uploads" 10485760%Z lets_go sample_entropy sample_db
              (fst (fst (post_documents None "uploads" 10485760%Z lets_go sample_entropy
                                        sample_db ["uploads/documents-1-1.pdf"]
                                        alice "tr-1" (Some "p45") [p45])))
              ["uploads/documents-1-1.pdf"]
              (snd (fst (post_documents None "uploads" 10485760%Z lets_go sample_entropy
                                        sample_db ["uploads/documents-1-1.pdf"]
                                        alice "tr-1" (Some "p45") [p45])))
              alice "tr-1" (Some "p45") [p45]
              (response_of
                 (snd (post_documents None "uploads" 10485760%Z lets_go sample_entropy
                                      sample_db ["uploads/documents-1-1.pdf"]
                                      alice "tr-1" (Some "p45") [p45])))
              eq_refl eq_refl) as [files [H1 [H2 _]]].
  exists files. split; [exact H1 | exact H2].
Defined.

(** The second of two files has a name the column cannot hold, and the
    file system does not let go of the first. *)
Lemma failed_upload_keeps_earlier_rows_witness :
  exists k,
    k < 2
    /\ documents (fst (fst (upload_handler (holds "uploads/documents-2-1.pdf")
                              sample_entropy sample_db
                              ["uploads/documents-1-1.pdf";
                               path (stored "uploads" p45);
                               path (stored "uploads" long_named)]
                              alice "tr-1" None
                              [stored "uploads" p45; stored "uploads" long_named])))
       = (documents sample_db
          ++ map (document_row sample_entropy alice "tr-1" "other")
                 (firstn k [stored "uploads" p45; stored "uploads" long_named]))%list
    /\ In "uploads/documents-2-1.pdf"
          (snd (fst (upload_handler (holds "uploads/documents-2-1.pdf")
                       sample_entropy sample_db
                       ["uploads/documents-1-1.pdf";
                        path (stored "uploads" p45);
                        path (stored "uploads" long_named)]
                       alice "tr-1" None
                       [stored "uploads" p45; stored "uploads" long_named]))).
Proof.
  destruct (@failed_upload_keeps_earlier_rows
              (holds "uploads/documents-2-1.pdf")
              sample_entropy sample_db
              (fst (fst (upload_handler (holds "uploads/documents-2-1.pdf")
                           sample_entropy sample_db
                           ["uploads/documents-1-1.pdf";
                            path (stored "uploads" p45);
                            path (stored "uploads" long_named)]
                           alice "tr-1" None
                           [stored "uploads" p45; stored "uploads" long_named])))
              ["uploads/documents-1-1.pdf";
               path (stored "uploads" p45);
               path (stored "uploads" long_named)]
              (snd (fst (upload_handler (holds "uploads/documents-2-1.pdf")
                           sample_entropy sample_db
                           ["uploads/documents-1-1.pdf";
                            path (stored "uploads" p45);
                            path (stored "uploads" long_named)]
                           alice "tr-1" None
                           [stored "uploads" p45; stored "uploads" long_named])))
              alice "tr-1" None
              [stored "uploads" p45; stored "uploads" long_named]
              "22001" eq_refl) as [k [H1 [H2 [_ [H3 _]]]]].
  exists k. split; [exact H1 | split; [exact H2|]].
  apply (H3 (stored "uploads" p45)).
  - simpl. now left.
  - reflexivity.
  - simpl. right. now left.
Defined.

(** Alice deletes the document she uploaded while the file system does
    not let go of its file: the row goes, the file stays. *)
Lemma delete_document_removes_row_and_file_witness :
  exists document tr,
    first_row (document_with_return sample_db "doc-1") = Some (document, tr)
    /\ (forall d,
          In d (documents
                  (fst (fst (delete_document (holds "uploads/documents-1-1.pdf")
                                             sample_db ["uploads/documents-1-1.pdf"]
                                             alice "doc-1"))))
          <-> In d (documents sample_db) /\ d_id d <> "doc-1")
    /\ snd (fst (delete_document (holds "uploads/documents-1-1.pdf") sample_db
                                 ["uploads/documents-1-1.pdf"] alice "doc-1"))
       = ["uploads/documents-1-1.pdf"].
Proof.
  destruct (@delete_document_removes_row_and_file
              (holds "uploads/documents-1-1.pdf") sample_db
              (fst (fst (delete_document (holds "uploads/documents-1-1.pdf") sample_db
                                         ["uploads/documents-1-1.pdf"] alice "doc-1")))
              ["uploads/documents-1-1.pdf"]
              (snd (fst (delete_document (holds "uploads/documents-1-1.pdf") sample_db
                                         ["uploads/documents-1-1.pdf"] alice "doc-1")))
              alice "doc-1"
              (snd (delete_document (holds "uploads/documents-1-1.pdf") sample_db
                                    ["uploads/documents-1-1.pdf"] alice "doc-1"))
              eq_refl) as [_ H].
  destruct (H eq_refl) as [document [tr [H1 [H2 [_ [H3 _]]]]]].
  exists document, tr. split; [exact H1 | split; [exact H2|]].
  apply H3. injection H1 as <- _. reflexivity.
Defined.

(** Alice and the document Carol uploaded to Alice's return. *)
Lemma owner_can_read_but_not_delete_others_upload_witness :
  get_document shared_db ["uploads/documents-7-7.pdf"] alice "doc-7"
  = SendFile "uploads/documents-7-7.pdf" "notes.pdf" (Some "application/pdf")
  /\ delete_document lets_go shared_db ["uploads/documents-7-7.pdf"] alice "doc-7"
     = (shared_db, ["uploads/documents-7-7.pdf"], Sent (fail 403 "Access denied")).
Proof.
  apply (@owner_can_read_but_not_delete_others_upload
           lets_go shared_db ["uploads/documents-7-7.pdf"] alice "doc-7" carol_upload return_1
           "c-alice").
  - reflexivity.
  - reflexivity.
  - reflexivity.
  - reflexivity.
  - discriminate.
Defined.

(** The administrator takes a resolved inquiry. *)
Lemma inquiry_assignment_keeps_progress_witness :
  exists r',
    In r' (fst (put_inquiry_assign accepting sample_db [inquiry_1] root "inq-1" "u-root"))
    /\ i_id r' = "inq-1"
    /\ i_status r' = Some "resolved".
Proof.
  destruct (@inquiry_assignment_keeps_progress
              accepting sample_db [inquiry_1]
              (fst (put_inquiry_assign accepting sample_db [inquiry_1] root "inq-1"
                                       "u-root"))
              root "inq-1" "u-root"
              (snd (put_inquiry_assign accepting sample_db [inquiry_1] root "inq-1"
                                       "u-root"))
              eq_refl) as [_ H].
  destruct (H eq_refl) as [_ [_ [_ [_ H5]]]].
  apply (H5 inquiry_1 "resolved").
  - simpl. now left.
  - reflexivity.
  - reflexivity.
  - discriminate.
Defined.

(** A report with two dots in its name and an upper-case extension. *)
Lemma fileFilter_goes_by_last_extension_witness :
  fileExtension "report.final.PDF" = "pdf"
  /\ filename (stored "uploads"
                      (mkPart "documents" "report.final.PDF" "application/pdf" 2048
                              "2-1" "doc-2"))
     = "documents-2-1.PDF".
Proof.
  destruct (@fileFilter_goes_by_last_extension
              None "uploads"
              (mkPart "documents" "report.final.PDF" "application/pdf" 2048 "2-1" "doc-2")
              "report.final" "PDF") as [H1 [_ [H2 _]]].
  - reflexivity.
  - discriminate.
  - discriminate.
  - intros c Hc. simpl in Hc.
    repeat (destruct Hc as [<-|Hc]; [discriminate|]). contradiction.
  - intros c Hc. simpl in Hc.
    repeat (destruct Hc as [<-|Hc]; [discriminate|]). contradiction.
  - intros c Hc. simpl in Hc.
    repeat (destruct Hc as [<-|Hc]; [discriminate|]). contradiction.
  - split; [exact H1 | exact H2].
Defined.

(** The file Alice uploaded, asked for without a token. *)
Lemma uploads_are_served_without_authentication_witness :
  exists files,
    files <> []
    /\ forall f, In f files ->
         static_uploads
           (snd (fst (post_documents None "uploads" 10485760%Z lets_go sample_entropy
                                     sample_db ["uploads/documents-1-1.pdf"]
                                     alice "tr-1" (Some "p45") [p45])))
           (filename f)
         = Some (path f).
Proof.
  destruct (@uploads_are_served_without_authentication
              None 10485760%Z lets_go sample_entropy sample_db
              (fst (fst (post_documents None "uploads" 10485760%Z lets_go sample_entropy
                                        sample_db ["uploads/documents-1-1.pdf"]
                                        alice "tr-1" (Some "p45") [p45])))
              ["uploads/documents-1-1.pdf"]
              (snd (fst (post_documents None "uploads" 10485760%Z lets_go sample_entropy
                                        sample_db ["uploads/documents-1-1.pdf"]
                                        alice "tr-1" (Some "p45") [p45])))
              alice "tr-1" (Some "p45") [p45]
              (response_of
                 (snd (post_documents None "uploads" 10485760%Z lets_go sample_entropy
                                      sample_db ["uploads/documents-1-1.pdf"]
                                      alice "tr-1" (Some "p45") [p45])))
              eq_refl eq_refl) as [files [H1 H2]].
  exists files. split; [exact H1|].
  intros f Hf. destruct (H2 f Hf) as [_ [_ [H3 _]]]. exact H3.
Defined.

(** Two deletes in a transaction: the connection breaks during the
    second; and every round trip is answered but the one of the
    [COMMIT], which is processed. *)
Lemma transaction_commits_all_or_nothing_witness :
  committed (fst (transaction (sequence [DeleteMessages "tr-1"; DeleteDocuments "tr-1"]
                                        (ret tt))
                              (mkClient sample_db Idle
                                        [Answered; Answered; Answered; Unanswered])))
  = sample_db
  /\ committed (fst (transaction (sequence [DeleteMessages "tr-1";
                                            DeleteDocuments "tr-1"] (ret tt))
                                 (mkClient sample_db Idle
                                           [Answered; Answered; Answered; Answered;
                                            Unanswered])))
     = set_documents (set_messages sample_db []) [].
Proof.
  split.
  - destruct (@transaction_commits_all_or_nothing
                unit tt [DeleteMessages "tr-1"; DeleteDocuments "tr-1"] sample_db
                [Answered; Answered; Answered; Unanswered] eq_refl)
      as [_ [_ [_ [_ [H _]]]]].
    apply H. left. exists 3. split; [simpl; lia | discriminate].
  - destruct (@transaction_commits_all_or_nothing
                unit tt [DeleteMessages "tr-1"; DeleteDocuments "tr-1"] sample_db
                [Answered; Answered; Answered; Answered; Unanswered] eq_refl)
      as [_ [_ [_ [H _]]]].
    apply (H (set_documents (set_messages sample_db []) [])).
    + reflexivity.
    + intros i Hi. simpl in Hi.
      do 4 (destruct i as [|i]; [reflexivity|]). lia.
    + reflexivity.
Defined.

(** The sample users, two to a page. *)
Lemma user_pages_cover_the_listing_witness :
  exists listing : list User.t,
    flat_map (fun page => firstn 2 (skipn ((page - 1) * 2) listing))
             (seq 1 (ceil_div (length listing) 2))
    = listing
    /\ get_users sample_db root None None (Some 0) (Some 2) = NextError "2201X".
Proof.
  destruct (@user_pages_cover_the_listing sample_db root None None 2) as [_ H].
  - lia.
  - destruct (H eq_refl) as [listing [_ [_ [H2 H3]]]].
    exists listing. split; [exact H2 | exact H3].
Defined.
